(** * CRAS client runtime and server device list: a shallow embedding

    The development follows two translation units of the audio server:

    - [cras/src/libcras/cras_client.c]: the per-stream audio task
      ([read_with_wake_fd], [handle_capture_data_ready],
      [handle_playback_request], [audio_thread]), the transition of the
      control task into the connected state ([connect_transition_action],
      [reregister_notifications]) and the allocation of stream ids
      ([client_thread_add_stream]);
    - [cras/src/server/cras_iodev_list.c]: the noise-cancellation blocking
      state, the enabled-device list, the routing hook [stream_added_cb],
      the flexible loopback request and the input gain conversion.

    C integers are modelled in [Z]; where a C conversion wraps, the wrap is
    written out.  System calls, user callbacks and functions of other
    translation units are interfaces (type classes); everything they do
    that is visible to the code is recorded in an event trace. *)

From Stdlib Require Import ZArith List Bool Lia.
From stdpp Require Import base decidable option list gmap.
Import ListNotations.
Local Open Scope Z_scope.

(** ** Error numbers of <errno.h> (Linux) *)

Definition EIO : Z := 5.
Definition EAGAIN : Z := 11.
Definition ENOMEM : Z := 12.
Definition EEXIST : Z := 17.
Definition EINVAL : Z := 22.
Definition EPIPE : Z := 32.

(** [MIN] of cras_util.h. *)
Definition MIN (a b : Z) : Z := if a <? b then a else b.

(** Conversion of a C [int] to [unsigned int] (32 bits). *)
Definition to_uint32 (x : Z) : Z := x mod 2 ^ 32.

(** ** Stream directions

    Modelled from the spec: the enumeration CRAS_STREAM_DIRECTION of
    cras_types.h, which is not among the sources.  The spec lists OUTPUT,
    INPUT and the three loopback taps. *)
Inductive CRAS_STREAM_DIRECTION : Type :=
| CRAS_STREAM_OUTPUT
| CRAS_STREAM_INPUT
| CRAS_STREAM_POST_MIX_PRE_DSP
| CRAS_STREAM_POST_DSP
| CRAS_STREAM_POST_DSP_DELAYED.

#[global] Instance CRAS_STREAM_DIRECTION_eq_dec : EqDecision CRAS_STREAM_DIRECTION.
Proof. solve_decision. Defined.

(** Modelled from the spec: the direction predicates of cras_types.h.  A
    direction is input-like if it reads from the world (INPUT and all
    loopback taps) and output-like if it writes to the world (OUTPUT);
    only INPUT and OUTPUT talk to hardware through the audio socket. *)
Definition cras_stream_uses_output_hw (dir : CRAS_STREAM_DIRECTION) : bool :=
  bool_decide (dir = CRAS_STREAM_OUTPUT).

Definition cras_stream_uses_input_hw (dir : CRAS_STREAM_DIRECTION) : bool :=
  bool_decide (dir = CRAS_STREAM_INPUT).

Definition cras_stream_has_input (dir : CRAS_STREAM_DIRECTION) : bool :=
  negb (bool_decide (dir = CRAS_STREAM_OUTPUT)).

(** * Part I.  The per-stream audio task (cras_client.c) *)

(** ** Audio messages

    The ids the audio task dispatches on, those it sends, and any other
    value that may arrive in the [id] field. *)
Inductive CRAS_AUDIO_MESSAGE_ID : Type :=
| AUDIO_MESSAGE_REQUEST_DATA
| AUDIO_MESSAGE_DATA_READY
| AUDIO_MESSAGE_DATA_CAPTURED
| AUDIO_MESSAGE_UNKNOWN (raw : Z).

(** [struct audio_message].  [am_frames] is the [uint32_t frames] field;
    [am_error] holds the [int] the code assigns to the [error] field. *)
Record audio_message : Type := {
  am_id : CRAS_AUDIO_MESSAGE_ID;
  am_error : Z;
  am_frames : Z
}.

(** Modelled from the spec: [sizeof(struct audio_message)]; the record is
    declared in cras_messages.h, which is not among the sources.  The spec
    gives the audio message as the 6-byte record (id, error, frames). *)
Definition sizeof_audio_message : Z := 6.

(** [struct stream_msg] is two 32-bit words. *)
Definition sizeof_stream_msg : Z := 8.

(** Commands sent from a running stream to the control task. *)
Inductive stream_msg_id : Type := CLIENT_STREAM_EOF.

Inductive CRAS_THREAD_STATE : Type :=
| CRAS_THREAD_STOP
| CRAS_THREAD_WARMUP
| CRAS_THREAD_RUNNING.

(** ** Shared-memory helpers

    cras_shm.h is not among the sources: the three helpers the audio task
    calls are an interface.  [cras_shm_get_curr_read_frames] gives the
    frames readable in the current read buffer,
    [cras_shm_buffer_read_current] moves the read pointer and
    [cras_shm_buffer_written_start] records the frames written to the
    current write buffer. *)
Class ShmOps (cras_audio_shm : Type) : Type := {
  cras_shm_get_curr_read_frames : cras_audio_shm -> Z;
  cras_shm_buffer_read_current : cras_audio_shm -> Z -> cras_audio_shm;
  cras_shm_buffer_written_start : cras_audio_shm -> Z -> cras_audio_shm
}.

(** ** Streams of the client *)

(** [struct cras_stream_params]: the fields the audio task reads.  A user
    callback is a function from the number of frames it is offered to the
    [int] it returns; [None] is a NULL pointer.  [sp_aud_cb] is called
    without a test when the other two are NULL. *)
Record cras_stream_params : Type := {
  sp_buffer_frames : Z;
  sp_cb_threshold : Z;
  sp_stream_cb : option (Z -> Z);
  sp_unified_cb : option (Z -> Z);
  sp_aud_cb : Z -> Z
}.

(** [struct client_stream]: the fields the audio task reads or writes. *)
Record client_stream (cras_audio_shm : Type) : Type := {
  cs_id : Z;
  cs_aud_fd : Z;
  cs_direction : CRAS_STREAM_DIRECTION;
  cs_flags : Z;
  cs_config : cras_stream_params;
  cs_shm : cras_audio_shm
}.
Arguments cs_id {_} _.
Arguments cs_aud_fd {_} _.
Arguments cs_direction {_} _.
Arguments cs_flags {_} _.
Arguments cs_config {_} _.
Arguments cs_shm {_} _.

Definition set_cs_shm {shm : Type} (s : client_stream shm) (m : shm) : client_stream shm :=
  {| cs_id := cs_id s; cs_aud_fd := cs_aud_fd s; cs_direction := cs_direction s; cs_flags := cs_flags s;
     cs_config := cs_config s; cs_shm := m |}.

(** What the audio task does that others can observe. *)
Inductive audio_event : Type :=
| EvUserCallback (frames : Z)                   (* a user callback is invoked *)
| EvAudWrite (msg : audio_message)              (* write(stream->aud_fd, ...) *)
| EvStreamPipeWrite (stream_id : Z) (msg : stream_msg_id)
                                                (* write(client->stream_fds[1], ...) *)
| EvSyslogWarning.

(** Answers of the operating system during one handler call: whether
    [libcras_stream_cb_data_create] can allocate, the [errno] it leaves
    otherwise, and the values the two [write] calls return. *)
Record audio_sys : Type := {
  sys_cb_data_alloc : bool;
  sys_errno : Z;
  sys_aud_write : Z;
  sys_stream_pipe_write : Z
}.

(** Modelled from the spec: BULK_AUDIO_OK of cras_types.h (not among the
    sources) is a single flag bit of the stream flags; bit 0 is taken. *)
Definition BULK_AUDIO_OK : Z := 1.

Section AudioTask.
Context {cras_audio_shm : Type} `{!ShmOps cras_audio_shm}.

Local Abbreviation stream := (client_stream cras_audio_shm).

(** [send_stream_message]: one write on the stream pipe of the client. *)
Definition send_stream_message (s : stream) (msg_id : stream_msg_id) (sys : audio_sys)
  : Z * list audio_event :=
  let res := sys_stream_pipe_write sys in
  (if res =? sizeof_stream_msg then 0 else - EPIPE,
   [EvStreamPipeWrite (cs_id s) msg_id]).

(** [config_capture_buf]: the number of frames offered to the client, 0
    when the shared memory holds fewer frames than that. *)
Definition config_capture_buf (s : stream) (num_frames : Z) : Z :=
  let num_frames :=
    if Z.land (cs_flags s) BULK_AUDIO_OK =? 0
    then MIN num_frames (sp_cb_threshold (cs_config s))
    else MIN num_frames (sp_buffer_frames (cs_config s)) in
  if cras_shm_get_curr_read_frames (cs_shm s) <? num_frames then 0 else num_frames.

Definition complete_capture_read_current (s : stream) (num_frames : Z) : stream :=
  set_cs_shm s (cras_shm_buffer_read_current (cs_shm s) num_frames).

(** [send_capture_reply]. *)
Definition send_capture_reply (s : stream) (frames err : Z) (sys : audio_sys)
  : Z * list audio_event :=
  if negb (cras_stream_uses_input_hw (cs_direction s)) then (0, [])
  else
    let aud_msg := {| am_id := AUDIO_MESSAGE_DATA_CAPTURED;
                      am_frames := to_uint32 frames; am_error := err |} in
    let rc := sys_aud_write sys in
    (if rc =? sizeof_audio_message then 0 else - EPIPE, [EvAudWrite aud_msg]).

(** The selection of the user callback, the same in both handlers:
    [stream_cb] behind an allocation of its argument record that can fail
    ([inl] carries the value the handler returns then), else [unified_cb],
    else [aud_cb]. *)
Definition call_user_callback (config : cras_stream_params) (num_frames : Z)
    (sys : audio_sys) : Z + Z * list audio_event :=
  match sp_stream_cb config with
  | Some stream_cb =>
      if sys_cb_data_alloc sys
      then inr (stream_cb num_frames, [EvUserCallback num_frames])
      else inl (- sys_errno sys)
  | None =>
      match sp_unified_cb config with
      | Some unified_cb => inr (unified_cb num_frames, [EvUserCallback num_frames])
      | None => inr (sp_aud_cb config num_frames, [EvUserCallback num_frames])
      end
  end.

(** The callback [call_user_callback] selects. *)
Definition selected_callback (config : cras_stream_params) : Z -> Z :=
  match sp_stream_cb config with
  | Some f => f
  | None => match sp_unified_cb config with Some f => f | None => sp_aud_cb config end
  end.

(** For a stream that uses the [stream_cb] kind of callback, the argument
    record of the callback can be allocated. *)
Definition cb_data_available (config : cras_stream_params) (sys : audio_sys) : Prop :=
  sp_stream_cb config <> None -> sys_cb_data_alloc sys = true.

(** What the two reply functions return for the value [write] gave. *)
Definition reply_rc (sys : audio_sys) : Z :=
  if sys_aud_write sys =? sizeof_audio_message then 0 else - EPIPE.

(** [handle_capture_data_ready]: return code, stream afterwards, events. *)
Definition handle_capture_data_ready (s : stream) (num_frames : Z) (sys : audio_sys)
  : Z * stream * list audio_event :=
  if negb (cras_stream_has_input (cs_direction s)) then (0, s, [EvSyslogWarning])
  else
    let num_frames := config_capture_buf s num_frames in
    if num_frames =? 0 then (0, s, [])
    else
      match call_user_callback (cs_config s) num_frames sys with
      | inl rc => (rc, s, [])
      | inr (frames, ev_cb) =>
          if frames <? 0 then
            let '(_, ev_eof) := send_stream_message s CLIENT_STREAM_EOF sys in
            let '(rc, ev_reply) := send_capture_reply s frames frames sys in
            (rc, s, ev_cb ++ ev_eof ++ ev_reply)
          else if frames =? 0 then (0, s, ev_cb)
          else
            let s' := complete_capture_read_current s frames in
            let '(rc, ev_reply) := send_capture_reply s' frames 0 sys in
            (rc, s', ev_cb ++ ev_reply)
      end.

(** [send_playback_reply]. *)
Definition send_playback_reply (s : stream) (frames error : Z) (sys : audio_sys)
  : Z * list audio_event :=
  if negb (cras_stream_uses_output_hw (cs_direction s)) then (0, [])
  else
    let aud_msg := {| am_id := AUDIO_MESSAGE_DATA_READY;
                      am_frames := to_uint32 frames; am_error := error |} in
    let rc := sys_aud_write sys in
    (if rc =? sizeof_audio_message then 0 else - EPIPE, [EvAudWrite aud_msg]).

(** [handle_playback_request]. *)
Definition handle_playback_request (s : stream) (num_frames : Z) (sys : audio_sys)
  : Z * stream * list audio_event :=
  if negb (bool_decide (cs_direction s = CRAS_STREAM_OUTPUT))
  then (0, s, [EvSyslogWarning])
  else
    let num_frames := MIN num_frames (sp_cb_threshold (cs_config s)) in
    match call_user_callback (cs_config s) num_frames sys with
    | inl rc => (rc, s, [])
    | inr (frames, ev_cb) =>
        if frames <? 0 then
          let '(_, ev_eof) := send_stream_message s CLIENT_STREAM_EOF sys in
          let '(rc, ev_reply) := send_playback_reply s frames frames sys in
          (rc, s, ev_cb ++ ev_eof ++ ev_reply)
        else
          let s' := set_cs_shm s (cras_shm_buffer_written_start (cs_shm s) frames) in
          let '(rc, ev_reply) := send_playback_reply s' frames 0 sys in
          (rc, s', ev_cb ++ ev_reply)
    end.

(** What [poll] and the two [read] calls of one [read_with_wake_fd] give,
    with the thread state the loop head sees and the answers of the system
    during the handler that follows. *)
Record poll_input : Type := {
  pi_thread_state : CRAS_THREAD_STATE;
  pi_poll_rc : Z;
  pi_aud_pollin : bool;
  pi_aud_nread : Z;
  pi_aud_msg : audio_message;
  pi_wake_pollin : bool;
  pi_wake_read : Z;
  pi_sys : audio_sys
}.

(** [read_with_wake_fd]: the number of bytes read from [read_fd], 0 when
    only the wake pipe fired, negative on error. *)
Definition read_with_wake_fd (read_fd : Z) (len : Z) (p : poll_input) : Z :=
  let rc := pi_poll_rc p in
  if rc <? 0 then rc
  else
    let after_read :=
      if (0 <=? read_fd) && pi_aud_pollin p then
        if pi_aud_nread p =? len then inr (pi_aud_nread p) else inl (- EIO)
      else inr 0 in
    match after_read with
    | inl e => e
    | inr nread =>
        if pi_wake_pollin p then
          if pi_wake_read p <? 0 then pi_wake_read p else nread
        else nread
    end.

Definition thread_is_running (st : CRAS_THREAD_STATE) : bool :=
  match st with CRAS_THREAD_STOP => false | _ => true end.

(** How a run of the audio task over a finite list of poll results ends:
    the thread function returned, or it is back in [poll] with nothing
    more to read. *)
Inductive thread_outcome : Type :=
| ThreadReturned (value : Z)
| ThreadInPoll.

(** [audio_thread]: the loop, one element of [inputs] per iteration. *)
Fixpoint audio_thread_loop (inputs : list poll_input) (s : stream)
    (thread_terminated : Z) : thread_outcome * stream * list audio_event :=
  if negb (thread_terminated =? 0) then (ThreadReturned 0, s, [])
  else
    match inputs with
    | [] => (ThreadInPoll, s, [])
    | p :: rest =>
        if negb (thread_is_running (pi_thread_state p)) then (ThreadReturned 0, s, [])
        else
          let aud_fd :=
            match pi_thread_state p with
            | CRAS_THREAD_WARMUP => -1
            | _ => cs_aud_fd s
            end in
          let num_read := read_with_wake_fd aud_fd sizeof_audio_message p in
          if num_read <? 0 then (ThreadReturned (- EIO), s, [])
          else if num_read =? 0 then audio_thread_loop rest s thread_terminated
          else
            let '(terminated, s', ev) :=
              match am_id (pi_aud_msg p) with
              | AUDIO_MESSAGE_DATA_READY =>
                  handle_capture_data_ready s (am_frames (pi_aud_msg p)) (pi_sys p)
              | AUDIO_MESSAGE_REQUEST_DATA =>
                  handle_playback_request s (am_frames (pi_aud_msg p)) (pi_sys p)
              | _ => (thread_terminated, s, [])
              end in
            let '(out, s'', ev') := audio_thread_loop rest s' terminated in
            (out, s'', ev ++ ev')
    end.

Definition audio_thread (inputs : list poll_input) (s : stream)
  : thread_outcome * stream * list audio_event :=
  audio_thread_loop inputs s 0.

End AudioTask.

(** * Part II.  The control task of the client (cras_client.c) *)

Inductive cras_socket_state_t : Type :=
| CRAS_SOCKET_STATE_DISCONNECTED
| CRAS_SOCKET_STATE_WAIT_FOR_SOCKET
| CRAS_SOCKET_STATE_WAIT_FOR_WRITABLE
| CRAS_SOCKET_STATE_FIRST_MESSAGE
| CRAS_SOCKET_STATE_CONNECTED
| CRAS_SOCKET_STATE_ERROR_DELAY.

#[global] Instance cras_socket_state_t_eq_dec : EqDecision cras_socket_state_t.
Proof. solve_decision. Defined.

(** The state-change notifications a client can register for, in the
    order [reregister_notifications] goes through them. *)
Inductive CRAS_CLIENT_MESSAGE_ID : Type :=
| CRAS_CLIENT_OUTPUT_VOLUME_CHANGED
| CRAS_CLIENT_OUTPUT_MUTE_CHANGED
| CRAS_CLIENT_CAPTURE_GAIN_CHANGED
| CRAS_CLIENT_CAPTURE_MUTE_CHANGED
| CRAS_CLIENT_NODES_CHANGED
| CRAS_CLIENT_ACTIVE_NODE_CHANGED
| CRAS_CLIENT_OUTPUT_NODE_VOLUME_CHANGED
| CRAS_CLIENT_NODE_LEFT_RIGHT_SWAPPED_CHANGED
| CRAS_CLIENT_INPUT_NODE_GAIN_CHANGED
| CRAS_CLIENT_NUM_ACTIVE_STREAMS_CHANGED.

#[global] Instance CRAS_CLIENT_MESSAGE_ID_eq_dec : EqDecision CRAS_CLIENT_MESSAGE_ID.
Proof. solve_decision. Defined.

(** A callback of the application: the address of a function, [None]
    for NULL. *)
Definition callback_ptr : Type := option nat.

(** [struct cras_observer_ops]: the callbacks of the application. *)
Record cras_observer_ops : Type := {
  output_volume_changed : callback_ptr;
  output_mute_changed : callback_ptr;
  capture_gain_changed : callback_ptr;
  capture_mute_changed : callback_ptr;
  nodes_changed : callback_ptr;
  active_node_changed : callback_ptr;
  output_node_volume_changed : callback_ptr;
  node_left_right_swapped_changed : callback_ptr;
  input_node_gain_changed : callback_ptr;
  num_active_streams_changed : callback_ptr
}.

(** The field of [observer_ops] a notification belongs to. *)
Definition observer_op (ops : cras_observer_ops) (n : CRAS_CLIENT_MESSAGE_ID) : callback_ptr :=
  match n with
  | CRAS_CLIENT_OUTPUT_VOLUME_CHANGED => output_volume_changed ops
  | CRAS_CLIENT_OUTPUT_MUTE_CHANGED => output_mute_changed ops
  | CRAS_CLIENT_CAPTURE_GAIN_CHANGED => capture_gain_changed ops
  | CRAS_CLIENT_CAPTURE_MUTE_CHANGED => capture_mute_changed ops
  | CRAS_CLIENT_NODES_CHANGED => nodes_changed ops
  | CRAS_CLIENT_ACTIVE_NODE_CHANGED => active_node_changed ops
  | CRAS_CLIENT_OUTPUT_NODE_VOLUME_CHANGED => output_node_volume_changed ops
  | CRAS_CLIENT_NODE_LEFT_RIGHT_SWAPPED_CHANGED => node_left_right_swapped_changed ops
  | CRAS_CLIENT_INPUT_NODE_GAIN_CHANGED => input_node_gain_changed ops
  | CRAS_CLIENT_NUM_ACTIVE_STREAMS_CHANGED => num_active_streams_changed ops
  end.

Definition set_observer_op (ops : cras_observer_ops) (n : CRAS_CLIENT_MESSAGE_ID)
    (cb : callback_ptr) : cras_observer_ops :=
  let pick m old := if bool_decide (m = n) then cb else old in
  {| output_volume_changed :=
       pick CRAS_CLIENT_OUTPUT_VOLUME_CHANGED (output_volume_changed ops);
     output_mute_changed :=
       pick CRAS_CLIENT_OUTPUT_MUTE_CHANGED (output_mute_changed ops);
     capture_gain_changed :=
       pick CRAS_CLIENT_CAPTURE_GAIN_CHANGED (capture_gain_changed ops);
     capture_mute_changed :=
       pick CRAS_CLIENT_CAPTURE_MUTE_CHANGED (capture_mute_changed ops);
     nodes_changed := pick CRAS_CLIENT_NODES_CHANGED (nodes_changed ops);
     active_node_changed :=
       pick CRAS_CLIENT_ACTIVE_NODE_CHANGED (active_node_changed ops);
     output_node_volume_changed :=
       pick CRAS_CLIENT_OUTPUT_NODE_VOLUME_CHANGED (output_node_volume_changed ops);
     node_left_right_swapped_changed :=
       pick CRAS_CLIENT_NODE_LEFT_RIGHT_SWAPPED_CHANGED
            (node_left_right_swapped_changed ops);
     input_node_gain_changed :=
       pick CRAS_CLIENT_INPUT_NODE_GAIN_CHANGED (input_node_gain_changed ops);
     num_active_streams_changed :=
       pick CRAS_CLIENT_NUM_ACTIVE_STREAMS_CHANGED (num_active_streams_changed ops) |}.

(** [struct cras_register_notification], as
    [cras_fill_register_notification_message] fills it. *)
Record cras_register_notification : Type := {
  rn_msg_id : CRAS_CLIENT_MESSAGE_ID;
  rn_do_register : bool
}.

Inductive cras_connection_status_t : Type :=
| CRAS_CONN_STATUS_FAILED
| CRAS_CONN_STATUS_DISCONNECTED
| CRAS_CONN_STATUS_CONNECTED.

(** What the control task does that others can observe.  A write on the
    server socket is recorded with the value [write] returned. *)
Inductive client_event : Type :=
| EvServerWrite (msg : cras_register_notification) (write_rc : Z)
| EvEventfdRead
| EvEventfdWrite (value : Z)
| EvConnectionCb (status : cras_connection_status_t).

(** The server socket as the control task sees it: the value [write]
    returns for a message and the [errno] it leaves when that is negative;
    [sizeof_register_notification] is the [length] field of the message
    (cras_messages.h is not among the sources). *)
Class ServerSocket : Type := {
  sizeof_register_notification : Z;
  server_write : cras_register_notification -> Z;
  server_write_errno : cras_register_notification -> Z
}.

(** A stream in the list of the control task. *)
Record ctl_stream : Type := {
  st_id : Z;
  st_flags : Z
}.

(** [struct cras_client]: the fields the modelled functions use.
    [server_event_value] is the counter of [server_event_fd]. *)
Record cras_client : Type := {
  id : Z;
  server_fd_state : cras_socket_state_t;
  next_stream_id : Z;
  streams : list ctl_stream;
  observer_ops : cras_observer_ops;
  server_connection_cb : callback_ptr;
  server_event_value : Z;
  client_trace : list client_event
}.

Definition set_server_fd_state (c : cras_client) (s : cras_socket_state_t) : cras_client :=
  {| id := id c; server_fd_state := s; next_stream_id := next_stream_id c;
     streams := streams c; observer_ops := observer_ops c;
     server_connection_cb := server_connection_cb c;
     server_event_value := server_event_value c; client_trace := client_trace c |}.

Definition set_observer_ops (c : cras_client) (ops : cras_observer_ops) : cras_client :=
  {| id := id c; server_fd_state := server_fd_state c;
     next_stream_id := next_stream_id c; streams := streams c; observer_ops := ops;
     server_connection_cb := server_connection_cb c;
     server_event_value := server_event_value c; client_trace := client_trace c |}.

Definition set_server_event_value (c : cras_client) (v : Z) : cras_client :=
  {| id := id c; server_fd_state := server_fd_state c;
     next_stream_id := next_stream_id c; streams := streams c;
     observer_ops := observer_ops c; server_connection_cb := server_connection_cb c;
     server_event_value := v; client_trace := client_trace c |}.

Definition client_emit (c : cras_client) (e : client_event) : cras_client :=
  {| id := id c; server_fd_state := server_fd_state c;
     next_stream_id := next_stream_id c; streams := streams c;
     observer_ops := observer_ops c; server_connection_cb := server_connection_cb c;
     server_event_value := server_event_value c;
     client_trace := client_trace c ++ [e] |}.

Definition client_emits (c : cras_client) (l : list client_event) : cras_client :=
  {| id := id c; server_fd_state := server_fd_state c;
     next_stream_id := next_stream_id c; streams := streams c;
     observer_ops := observer_ops c; server_connection_cb := server_connection_cb c;
     server_event_value := server_event_value c;
     client_trace := client_trace c ++ l |}.

Definition set_streams (c : cras_client) (next : Z) (l : list ctl_stream) : cras_client :=
  {| id := id c; server_fd_state := server_fd_state c; next_stream_id := next;
     streams := l; observer_ops := observer_ops c;
     server_connection_cb := server_connection_cb c;
     server_event_value := server_event_value c; client_trace := client_trace c |}.

Section ControlTask.
Context `{!ServerSocket}.

(** [server_fd_move_to_state]. *)
Definition server_fd_move_to_state (c : cras_client) (state : cras_socket_state_t)
  : cras_client :=
  if bool_decide (state = server_fd_state c) then c else set_server_fd_state c state.

(** [write_message_to_server], for a register-notification message. *)
Definition write_message_to_server (c : cras_client) (msg : cras_register_notification)
  : Z * cras_client :=
  let length := sizeof_register_notification in
  let can_write :=
    bool_decide (server_fd_state c = CRAS_SOCKET_STATE_CONNECTED)
    || bool_decide (server_fd_state c = CRAS_SOCKET_STATE_FIRST_MESSAGE) in
  let '(write_rc, c') :=
    if can_write then
      let r := server_write msg in
      (if r <? 0 then - server_write_errno msg else r, client_emit c (EvServerWrite msg r))
    else (- EPIPE, c) in
  if negb (write_rc =? length)
     && negb (bool_decide (server_fd_state c = CRAS_SOCKET_STATE_FIRST_MESSAGE))
  then (- EPIPE, c')
  else if write_rc <? 0 then (write_rc, c')
  else if negb (write_rc =? length) then (- EIO, c')
  else (0, c').

(** [cras_send_register_notification]: a send that fails with -EPIPE
    counts as done. *)
Definition cras_send_register_notification (c : cras_client)
    (msg_id : CRAS_CLIENT_MESSAGE_ID) (do_register : bool) : Z * cras_client :=
  let msg := {| rn_msg_id := msg_id; rn_do_register := do_register |} in
  let '(rc, c') := write_message_to_server c msg in
  (if rc =? - EPIPE then 0 else rc, c').

(** The ten setters [cras_client_set_output_volume_changed_callback], ...,
    [cras_client_set_num_active_streams_changed_callback]: they differ in
    the field they store [cb] in and in the message id they send. *)
Definition cras_client_set_changed_callback (n : CRAS_CLIENT_MESSAGE_ID)
    (c : cras_client) (cb : callback_ptr) : Z * cras_client :=
  let c' := set_observer_ops c (set_observer_op (observer_ops c) n cb) in
  cras_send_register_notification c' n (bool_decide (cb <> None)).

(** The notifications in the order of the ten blocks of
    [reregister_notifications]. *)
Definition observer_notifications : list CRAS_CLIENT_MESSAGE_ID :=
  [ CRAS_CLIENT_OUTPUT_VOLUME_CHANGED; CRAS_CLIENT_OUTPUT_MUTE_CHANGED;
    CRAS_CLIENT_CAPTURE_GAIN_CHANGED; CRAS_CLIENT_CAPTURE_MUTE_CHANGED;
    CRAS_CLIENT_NODES_CHANGED; CRAS_CLIENT_ACTIVE_NODE_CHANGED;
    CRAS_CLIENT_OUTPUT_NODE_VOLUME_CHANGED;
    CRAS_CLIENT_NODE_LEFT_RIGHT_SWAPPED_CHANGED;
    CRAS_CLIENT_INPUT_NODE_GAIN_CHANGED; CRAS_CLIENT_NUM_ACTIVE_STREAMS_CHANGED ].

(** The blocks of [reregister_notifications] for the notifications [ns]:
    each registered callback is set again; the first setter that returns
    non-zero ends the function with that value. *)
Fixpoint reregister_from (ns : list CRAS_CLIENT_MESSAGE_ID) (c : cras_client)
  : Z * cras_client :=
  match ns with
  | [] => (0, c)
  | n :: rest =>
      match observer_op (observer_ops c) n with
      | Some f =>
          let '(rc, c') := cras_client_set_changed_callback n c (Some f) in
          if negb (rc =? 0) then (rc, c') else reregister_from rest c'
      | None => reregister_from rest c
      end
  end.

Definition reregister_notifications (c : cras_client) : Z * cras_client :=
  reregister_from observer_notifications c.

(** The register request for a notification, whether its write on the
    server socket is complete, whether it fails with EPIPE, and the return
    code of [write_message_to_server] when it is neither. *)
Definition register_message (n : CRAS_CLIENT_MESSAGE_ID) : cras_register_notification :=
  {| rn_msg_id := n; rn_do_register := true |}.

Definition register_delivered (n : CRAS_CLIENT_MESSAGE_ID) : bool :=
  server_write (register_message n) =? sizeof_register_notification.

Definition register_broken_pipe (n : CRAS_CLIENT_MESSAGE_ID) : bool :=
  (server_write (register_message n) <? 0)
  && (server_write_errno (register_message n) =? EPIPE).

Definition register_error (n : CRAS_CLIENT_MESSAGE_ID) : Z :=
  if server_write (register_message n) <? 0
  then - server_write_errno (register_message n)
  else - EIO.

Definition register_write (n : CRAS_CLIENT_MESSAGE_ID) : client_event :=
  EvServerWrite (register_message n) (server_write (register_message n)).

(** The notifications the application has a callback for, in the order
    of [reregister_notifications]. *)
Definition registered_notifications (c : cras_client) : list CRAS_CLIENT_MESSAGE_ID :=
  List.filter (fun n => bool_decide (observer_op (observer_ops c) n <> None))
              observer_notifications.

(** What the blocks of [reregister_notifications] come to for the
    registered notifications [regs] while the socket is in the
    FIRST_MESSAGE state: the return code and the writes on the socket. *)
Fixpoint register_all (regs : list CRAS_CLIENT_MESSAGE_ID) : Z * list client_event :=
  match regs with
  | [] => (0, [])
  | n :: rest =>
      if register_delivered n || register_broken_pipe n
      then (fst (register_all rest), register_write n :: snd (register_all rest))
      else (register_error n, [register_write n])
  end.

(** [connect_transition_action]. *)
Definition connect_transition_action (c : cras_client) : Z * cras_client :=
  let '(rc, c1) := reregister_notifications c in
  if rc <? 0 then (rc, c1)
  else
    let c2 := server_fd_move_to_state c1 CRAS_SOCKET_STATE_CONNECTED in
    let c3 := set_server_event_value (client_emit c2 EvEventfdRead) 0 in
    let c4 := set_server_event_value (client_emit c3 (EvEventfdWrite 1))
                                     (server_event_value c3 + 1) in
    let c5 :=
      match server_connection_cb c4 with
      | Some _ => client_emit c4 (EvConnectionCb CRAS_CONN_STATUS_CONNECTED)
      | None => c4
      end in
    (0, c5).

End ControlTask.

(** ** Stream ids *)

(** Modelled from the spec: [cras_get_stream_id] of cras_types.h, which is
    not among the sources.  The stream identifier is the 32-bit value
    (client_id << 16) | stream_index: the client id in the upper 16 bits
    and the stream index in the lower 16. *)
Definition cras_get_stream_id (client_id stream_index : Z) : Z :=
  Z.lor (Z.shiftl (client_id mod 2 ^ 16) 16) (stream_index mod 2 ^ 16).

(** [DL_SEARCH_SCALAR(client->streams, out, id, new_id)]: is there a
    stream with this id. *)
Definition stream_id_in_use (l : list ctl_stream) (new_id : Z) : bool :=
  existsb (fun s => st_id s =? new_id) l.

(** The do-while loop of [client_thread_add_stream] that looks for an
    available stream id: the id found and the value left in
    [next_stream_id] (a [uint32_t], it wraps).  [fuel] bounds the number of
    iterations; [None] says the loop was still running after [fuel] of
    them. *)
Fixpoint find_available_stream_id (fuel : nat) (client_id next : Z)
    (l : list ctl_stream) : option (Z * Z) :=
  match fuel with
  | O => None
  | S fuel' =>
      let new_id := cras_get_stream_id client_id next in
      let next' := (next + 1) mod 2 ^ 32 in
      if stream_id_in_use l new_id
      then find_available_stream_id fuel' client_id next' l
      else Some (new_id, next')
  end.

(** Modelled from the spec: HOTWORD_STREAM and NO_DEVICE of cras_types.h
    (not among the sources).  A hotword stream carries both input flag
    bits; device index 0 is reserved for "no device". *)
Definition HOTWORD_STREAM : Z := 3.
Definition NO_DEVICE : Z := 0.

(** Answers of the rest of the system during [client_thread_add_stream]:
    the index of the first hotword device, and the return values of
    [start_aud_thread] and [send_connect_message]. *)
Record add_stream_sys : Type := {
  ass_hotword_idx : Z;
  ass_start_aud_thread : Z;
  ass_send_connect_message : Z
}.

(** [client_thread_add_stream]: the return value, the client afterwards
    and the id written to [stream_id_out] (when the function got that
    far); [None] when the id loop did not end within [fuel] iterations. *)
Definition client_thread_add_stream (fuel : nat) (c : cras_client) (s : ctl_stream)
    (dev_idx : Z) (sys : add_stream_sys) : option (Z * cras_client * option Z) :=
  let is_hotword := Z.land (st_flags s) HOTWORD_STREAM =? HOTWORD_STREAM in
  if is_hotword && (dev_idx =? NO_DEVICE) && (ass_hotword_idx sys <? 0)
  then Some (ass_hotword_idx sys, c, None)
  else
    let flags :=
      if is_hotword && negb (dev_idx =? NO_DEVICE)
         && negb (dev_idx =? to_uint32 (ass_hotword_idx sys))
      then Z.land (st_flags s) (Z.lnot HOTWORD_STREAM mod 2 ^ 32)
      else st_flags s in
    match find_available_stream_id fuel (id c) (next_stream_id c) (streams c) with
    | None => None
    | Some (new_id, next') =>
        let s' := {| st_id := new_id; st_flags := flags |} in
        let c1 := set_streams c next' (streams c) in
        if negb (ass_start_aud_thread sys =? 0)
        then Some (ass_start_aud_thread sys, c1, Some new_id)
        else if negb (ass_send_connect_message sys =? 0)
        then Some (ass_send_connect_message sys, c1, Some new_id)
        else Some (0, set_streams c1 next' (streams c ++ [s']), Some new_id)
    end.

(** [client_thread_rm_stream]: the first stream with this id leaves the
    list. *)
Fixpoint remove_stream (l : list ctl_stream) (stream_id : Z) : list ctl_stream :=
  match l with
  | [] => []
  | s :: rest => if st_id s =? stream_id then rest else s :: remove_stream rest stream_id
  end.

Definition client_thread_rm_stream (c : cras_client) (stream_id : Z) : Z * cras_client :=
  (0, set_streams c (next_stream_id c) (remove_stream (streams c) stream_id)).

(** Additions and removals of streams, in any order. *)
Inductive client_op : Type :=
| OpAddStream (s : ctl_stream) (dev_idx : Z) (sys : add_stream_sys)
| OpRmStream (stream_id : Z).

Fixpoint run_client_ops (fuel : nat) (ops : list client_op) (c : cras_client)
  : option cras_client :=
  match ops with
  | [] => Some c
  | OpAddStream s dev_idx sys :: rest =>
      match client_thread_add_stream fuel c s dev_idx sys with
      | Some (_, c', _) => run_client_ops fuel rest c'
      | None => None
      end
  | OpRmStream stream_id :: rest =>
      run_client_ops fuel rest (snd (client_thread_rm_stream c stream_id))
  end.

(** The ids of the streams in the list of a client. *)
Definition stream_ids (c : cras_client) : list Z := st_id <$> streams c.

(** The [j]-th id the loop of [client_thread_add_stream] tries. *)
Definition candidate_id (c : cras_client) (j : nat) : Z :=
  cras_get_stream_id (id c) ((next_stream_id c + Z.of_nat j) mod 2 ^ 32).

(** * Part III.  The device list of the server (cras_iodev_list.c) *)

Definition NUM_OPEN_DEVS_MAX : Z := 10.

(** ** Input gain *)

(** Modelled from the spec: DEFAULT_MAX_INPUT_NODE_GAIN of cras_types.h
    (not among the sources), the maximum gain of a node that is not an
    internal mic, 2000 in units of 0.01 dBFS. *)
Definition DEFAULT_MAX_INPUT_NODE_GAIN : Z := 2000.

(** [convert_dBFS_from_input_node_gain].  [max_internal_mic_gain] is what
    [cras_system_get_max_internal_mic_gain()] returns; [/] on [long] is
    [Z.quot]. *)
Definition convert_dBFS_from_input_node_gain (max_internal_mic_gain : Z)
    (gain : Z) (is_internal_mic : bool) : Z :=
  let max_gain :=
    if is_internal_mic then max_internal_mic_gain else DEFAULT_MAX_INPUT_NODE_GAIN in
  let gain := if gain <? 0 then 0 else gain in
  let gain := if 100 <? gain then 100 else gain in
  let db_scale := if 50 <? gain then Z.quot max_gain 50 else 40 in
  (gain - 50) * db_scale.

(** ** Devices, nodes, streams *)

(** The node types [node_type_to_str] names. *)
Inductive CRAS_NODE_TYPE : Type :=
| CRAS_NODE_TYPE_INTERNAL_SPEAKER
| CRAS_NODE_TYPE_HEADPHONE
| CRAS_NODE_TYPE_HDMI
| CRAS_NODE_TYPE_HAPTIC
| CRAS_NODE_TYPE_MIC
| CRAS_NODE_TYPE_HOTWORD
| CRAS_NODE_TYPE_LINEOUT
| CRAS_NODE_TYPE_POST_MIX_PRE_DSP
| CRAS_NODE_TYPE_POST_DSP
| CRAS_NODE_TYPE_POST_DSP_DELAYED
| CRAS_NODE_TYPE_USB
| CRAS_NODE_TYPE_BLUETOOTH
| CRAS_NODE_TYPE_BLUETOOTH_NB_MIC
| CRAS_NODE_TYPE_FALLBACK_NORMAL
| CRAS_NODE_TYPE_FALLBACK_ABNORMAL
| CRAS_NODE_TYPE_ECHO_REFERENCE
| CRAS_NODE_TYPE_ALSA_LOOPBACK
| CRAS_NODE_TYPE_FLOOP
| CRAS_NODE_TYPE_FLOOP_INTERNAL
| CRAS_NODE_TYPE_UNKNOWN.

#[global] Instance CRAS_NODE_TYPE_eq_dec : EqDecision CRAS_NODE_TYPE.
Proof. solve_decision. Defined.

(** [enum CRAS_IODEV_STATE] (cras_iodev.h). *)
Inductive CRAS_IODEV_STATE : Type :=
| CRAS_IODEV_STATE_CLOSE
| CRAS_IODEV_STATE_OPEN
| CRAS_IODEV_STATE_NORMAL_RUN
| CRAS_IODEV_STATE_NO_STREAM_RUN.

#[global] Instance CRAS_IODEV_STATE_eq_dec : EqDecision CRAS_IODEV_STATE.
Proof. solve_decision. Defined.

(** [struct cras_audio_format]: sample format, rate and channel count. *)
Record cras_audio_format : Type := {
  fmt_format : Z;
  frame_rate : Z;
  num_channels : Z
}.

(** [struct cras_ionode]: the fields the device list reads or writes. *)
Record cras_ionode : Type := {
  node_idx : Z;
  node_type : CRAS_NODE_TYPE
}.

(** The address of a [struct cras_iodev]. *)
Definition dev_ptr : Type := nat.

Inductive open_result : Type := SUCCESS | FAILURE.

(** [struct cras_iodev]: the fields the device list reads or writes
    ([dev_idx], [max_supported_channels] and [last_open_result] are fields
    of [info]; [None] is a NULL pointer). *)
Record cras_iodev : Type := {
  dev_idx : Z;
  max_supported_channels : Z;
  last_open_result : open_result;
  dev_direction : CRAS_STREAM_DIRECTION;
  dev_state : CRAS_IODEV_STATE;
  dev_format : option cras_audio_format;
  active_node : option cras_ionode;
  is_enabled : bool;
  idle_timeout_sec : Z;
  echo_reference_dev : option dev_ptr
}.

Definition set_dev_open_state (d : cras_iodev) (s : CRAS_IODEV_STATE)
    (f : option cras_audio_format) : cras_iodev :=
  {| dev_idx := dev_idx d; max_supported_channels := max_supported_channels d;
     last_open_result := last_open_result d; dev_direction := dev_direction d;
     dev_state := s; dev_format := f; active_node := active_node d;
     is_enabled := is_enabled d; idle_timeout_sec := idle_timeout_sec d;
     echo_reference_dev := echo_reference_dev d |}.

Definition set_last_open_result (r : open_result) (d : cras_iodev) : cras_iodev :=
  {| dev_idx := dev_idx d; max_supported_channels := max_supported_channels d;
     last_open_result := r; dev_direction := dev_direction d;
     dev_state := dev_state d; dev_format := dev_format d;
     active_node := active_node d; is_enabled := is_enabled d;
     idle_timeout_sec := idle_timeout_sec d;
     echo_reference_dev := echo_reference_dev d |}.

Definition set_is_enabled (b : bool) (d : cras_iodev) : cras_iodev :=
  {| dev_idx := dev_idx d; max_supported_channels := max_supported_channels d;
     last_open_result := last_open_result d; dev_direction := dev_direction d;
     dev_state := dev_state d; dev_format := dev_format d;
     active_node := active_node d; is_enabled := b;
     idle_timeout_sec := idle_timeout_sec d;
     echo_reference_dev := echo_reference_dev d |}.

Definition set_idle_timeout_sec (t : Z) (d : cras_iodev) : cras_iodev :=
  {| dev_idx := dev_idx d; max_supported_channels := max_supported_channels d;
     last_open_result := last_open_result d; dev_direction := dev_direction d;
     dev_state := dev_state d; dev_format := dev_format d;
     active_node := active_node d; is_enabled := is_enabled d;
     idle_timeout_sec := t; echo_reference_dev := echo_reference_dev d |}.

Definition set_active_node_type (t : CRAS_NODE_TYPE) (d : cras_iodev) : cras_iodev :=
  {| dev_idx := dev_idx d; max_supported_channels := max_supported_channels d;
     last_open_result := last_open_result d; dev_direction := dev_direction d;
     dev_state := dev_state d; dev_format := dev_format d;
     active_node :=
       match active_node d with
       | Some n => Some {| node_idx := node_idx n; node_type := t |}
       | None => None
       end;
     is_enabled := is_enabled d; idle_timeout_sec := idle_timeout_sec d;
     echo_reference_dev := echo_reference_dev d |}.

(** A zeroed device record: what the model reads through an address that
    holds no device (the C program has no defined behaviour there). *)
Definition null_iodev : cras_iodev :=
  {| dev_idx := 0; max_supported_channels := 0; last_open_result := SUCCESS;
     dev_direction := CRAS_STREAM_OUTPUT; dev_state := CRAS_IODEV_STATE_CLOSE;
     dev_format := None; active_node := None; is_enabled := false;
     idle_timeout_sec := 0; echo_reference_dev := None |}.

(** [cras_iodev_is_open] (cras_iodev.h). *)
Definition cras_iodev_is_open (d : cras_iodev) : bool :=
  negb (bool_decide (dev_state d = CRAS_IODEV_STATE_CLOSE)).

(** [struct cras_rstream]: the fields the device list reads;
    [stream_apm] says whether the pointer of that name is non-NULL. *)
Record cras_rstream : Type := {
  stream_id : Z;
  direction : CRAS_STREAM_DIRECTION;
  is_pinned : bool;
  pinned_dev_idx : Z;
  flags : Z;
  format : cras_audio_format;
  cb_threshold : Z;
  buffer_frames : Z;
  stream_apm : bool
}.

(** [struct cras_floop_params] and [struct cras_floop_pair]: the request
    of a client, and a pair with the index of its input device and the
    address of its output device. *)
Record cras_floop_params : Type := { client_types_mask : Z }.

Record cras_floop_pair : Type := {
  fp_params : cras_floop_params;
  fp_input_idx : Z;
  fp_output : dev_ptr
}.

(** Entries of the main thread event log (MAINLOG). *)
Inductive main_log_entry : Type :=
| MAIN_THREAD_DEV_CLOSE (idx : Z)
| MAIN_THREAD_DEV_DISABLE (idx : Z) (force : bool)
| MAIN_THREAD_DEV_INIT (idx channels rate : Z)
| MAIN_THREAD_DEV_REOPEN (stream_channels dev_channels dev_rate : Z)
| MAIN_THREAD_STREAM_ADDED (stream_id : Z) (dir : CRAS_STREAM_DIRECTION) (buffer_frames : Z)
| MAIN_THREAD_NC_BLOCK_STATE (edge_type : Z) (non_dsp_aec_alive aec_disallowed : bool).

Inductive stream_add_failure : Type :=
| CRAS_STREAM_ADD_IO_ERROR
| CRAS_STREAM_ADD_INVALID_ARG
| CRAS_STREAM_ADD_OTHER_ERR.

(** Calls that leave the device list: the log, the device backends, the
    audio thread, the observers, timers and metrics. *)
Inductive server_event : Type :=
| EvMainLog (e : main_log_entry)
| EvIodevOpen (dev : dev_ptr) (cb_level : Z) (fmt : cras_audio_format) (rc : Z)
| EvIodevClose (dev : dev_ptr)
| EvUpdateActiveNode (dev : dev_ptr) (node : Z) (dev_enabled : Z)
| EvAudioThreadAddOpenDev (dev : dev_ptr) (rc : Z)
| EvAudioThreadRmOpenDev (dir : CRAS_STREAM_DIRECTION) (idx : Z)
| EvAudioThreadAddStream (stream_id : Z) (devs : list dev_ptr) (rc : Z)
| EvAudioThreadDisconnectStream (stream_id : Z) (dev : option dev_ptr)
| EvStreamApmAdd (stream_id : Z) (dev : dev_ptr)
| EvStreamApmRemove (stream_id : Z) (dev : dev_ptr)
| EvServerStreamCreate (dev_idx : Z)
| EvServerStreamDestroy (dev_idx : Z)
| EvDeviceEnabledCbs (dev : dev_ptr)
| EvDeviceDisabledCbs (dev : dev_ptr)
| EvTimerCreate (ms : Z) (dev_idx : Z)
| EvTimerCancel (dev_idx : Z)
| EvUpdateDeviceList
| EvNotifyNodesChanged
| EvMetricsStreamAddFailure (kind : stream_add_failure).

(** Settings of the system state the device list reads through
    [cras_system_get_...]. *)
Record system_settings : Type := {
  noise_cancellation_standalone_mode : bool;
  dsp_noise_cancellation_supported : bool;
  bypass_block_noise_cancellation : bool
}.

(** The file-scope variables of cras_iodev_list.c, the device records
    they point to ([iodevs], by address), the stream list and the trace of
    outside calls.  Arrays indexed by direction are functions. *)
Record iodev_list : Type := {
  iodevs : gmap dev_ptr cras_iodev;
  devs : CRAS_STREAM_DIRECTION -> list dev_ptr;
  enabled_devs : CRAS_STREAM_DIRECTION -> list dev_ptr;
  fallback_devs : CRAS_STREAM_DIRECTION -> option dev_ptr;
  empty_hotword_dev : option dev_ptr;
  init_retries : list Z;
  floop_pair_list : list cras_floop_pair;
  stream_list : list cras_rstream;
  stream_list_suspended : bool;
  hotword_suspended : bool;
  non_dsp_aec_echo_ref_dev_alive : bool;
  aec_on_dsp_is_disallowed : bool;
  system : system_settings;
  trace : list server_event
}.

Definition set_iodevs (st : iodev_list) (h : gmap dev_ptr cras_iodev) : iodev_list :=
  {| iodevs := h; devs := devs st; enabled_devs := enabled_devs st;
     fallback_devs := fallback_devs st; empty_hotword_dev := empty_hotword_dev st;
     init_retries := init_retries st; floop_pair_list := floop_pair_list st;
     stream_list := stream_list st;
     stream_list_suspended := stream_list_suspended st;
     hotword_suspended := hotword_suspended st;
     non_dsp_aec_echo_ref_dev_alive := non_dsp_aec_echo_ref_dev_alive st;
     aec_on_dsp_is_disallowed := aec_on_dsp_is_disallowed st;
     system := system st; trace := trace st |}.

Definition set_enabled_devs (st : iodev_list) (dir : CRAS_STREAM_DIRECTION)
    (l : list dev_ptr) : iodev_list :=
  {| iodevs := iodevs st; devs := devs st;
     enabled_devs := fun d => if bool_decide (d = dir) then l else enabled_devs st d;
     fallback_devs := fallback_devs st; empty_hotword_dev := empty_hotword_dev st;
     init_retries := init_retries st; floop_pair_list := floop_pair_list st;
     stream_list := stream_list st;
     stream_list_suspended := stream_list_suspended st;
     hotword_suspended := hotword_suspended st;
     non_dsp_aec_echo_ref_dev_alive := non_dsp_aec_echo_ref_dev_alive st;
     aec_on_dsp_is_disallowed := aec_on_dsp_is_disallowed st;
     system := system st; trace := trace st |}.

Definition set_init_retries (st : iodev_list) (l : list Z) : iodev_list :=
  {| iodevs := iodevs st; devs := devs st; enabled_devs := enabled_devs st;
     fallback_devs := fallback_devs st; empty_hotword_dev := empty_hotword_dev st;
     init_retries := l; floop_pair_list := floop_pair_list st;
     stream_list := stream_list st;
     stream_list_suspended := stream_list_suspended st;
     hotword_suspended := hotword_suspended st;
     non_dsp_aec_echo_ref_dev_alive := non_dsp_aec_echo_ref_dev_alive st;
     aec_on_dsp_is_disallowed := aec_on_dsp_is_disallowed st;
     system := system st; trace := trace st |}.

Definition set_floop_pair_list (st : iodev_list) (l : list cras_floop_pair) : iodev_list :=
  {| iodevs := iodevs st; devs := devs st; enabled_devs := enabled_devs st;
     fallback_devs := fallback_devs st; empty_hotword_dev := empty_hotword_dev st;
     init_retries := init_retries st; floop_pair_list := l;
     stream_list := stream_list st;
     stream_list_suspended := stream_list_suspended st;
     hotword_suspended := hotword_suspended st;
     non_dsp_aec_echo_ref_dev_alive := non_dsp_aec_echo_ref_dev_alive st;
     aec_on_dsp_is_disallowed := aec_on_dsp_is_disallowed st;
     system := system st; trace := trace st |}.

Definition set_nc_flags (st : iodev_list) (alive disallowed : bool) : iodev_list :=
  {| iodevs := iodevs st; devs := devs st; enabled_devs := enabled_devs st;
     fallback_devs := fallback_devs st; empty_hotword_dev := empty_hotword_dev st;
     init_retries := init_retries st; floop_pair_list := floop_pair_list st;
     stream_list := stream_list st;
     stream_list_suspended := stream_list_suspended st;
     hotword_suspended := hotword_suspended st;
     non_dsp_aec_echo_ref_dev_alive := alive;
     aec_on_dsp_is_disallowed := disallowed;
     system := system st; trace := trace st |}.

Definition emits (st : iodev_list) (l : list server_event) : iodev_list :=
  {| iodevs := iodevs st; devs := devs st; enabled_devs := enabled_devs st;
     fallback_devs := fallback_devs st; empty_hotword_dev := empty_hotword_dev st;
     init_retries := init_retries st; floop_pair_list := floop_pair_list st;
     stream_list := stream_list st;
     stream_list_suspended := stream_list_suspended st;
     hotword_suspended := hotword_suspended st;
     non_dsp_aec_echo_ref_dev_alive := non_dsp_aec_echo_ref_dev_alive st;
     aec_on_dsp_is_disallowed := aec_on_dsp_is_disallowed st;
     system := system st; trace := trace st ++ l |}.

Definition emit (st : iodev_list) (e : server_event) : iodev_list := emits st [e].

(** The device at an address, and an update of it in place. *)
Definition deref (st : iodev_list) (p : dev_ptr) : cras_iodev :=
  default null_iodev (iodevs st !! p).

Definition update_dev (p : dev_ptr) (f : cras_iodev -> cras_iodev) (st : iodev_list)
  : iodev_list :=
  set_iodevs st (alter f p (iodevs st)).

(** ** Functions of other translation units

    What the device list calls in the device backends (cras_iodev.c), the
    audio thread, the flexible loopback devices and the feature flags, and
    three device indices of cras_types.h, none of them among the sources.
    The return codes are answers of the environment. *)
Class IodevListEnv : Type := {
  MAX_SPECIAL_DEVICE_IDX : Z;
  SILENT_RECORD_DEVICE : Z;
  SILENT_PLAYBACK_DEVICE : Z;
  (* cras_iodev_open: its return code, the format the device settles on,
     and whether the device has a start operation *)
  iodev_open_rc : cras_iodev -> Z -> cras_audio_format -> Z;
  iodev_open_format : cras_iodev -> cras_audio_format -> cras_audio_format;
  iodev_has_start : cras_iodev -> bool;
  audio_thread_add_open_dev : cras_iodev -> Z;
  audio_thread_add_stream : cras_rstream -> list cras_iodev -> Z;
  audio_thread_is_dev_open : cras_iodev -> bool;
  cras_iodev_is_dsp_aec_use_case : cras_ionode -> bool;
  cras_floop_pair_match_output_stream : cras_floop_pair -> cras_rstream -> bool;
  cras_floop_pair_match_params : cras_floop_pair -> cras_floop_params -> bool;
  cras_floop_pair_create : cras_floop_params -> option cras_floop_pair;
  (* cras_feature_enabled(CrOSLateBootAudioFlexibleLoopback) *)
  flexible_loopback_enabled : bool;
  (* whether calloc in schedule_init_device_retry returns memory *)
  retry_calloc : bool
}.

Definition INIT_DEV_DELAY_MS : Z := 1000.

Section DeviceList.
Context `{!IodevListEnv}.

(** Modelled from the spec: [cras_iodev_open] of cras_iodev.c (not among
    the sources) validates the format, acquires the hardware and sets the
    state to OPEN; a device that has no start operation skips OPEN and goes
    to NORMAL_RUN.  A failure leaves the device as it was. *)
Definition cras_iodev_open (d : cras_iodev) (cb_level : Z) (fmt : cras_audio_format)
  : Z * cras_iodev :=
  let rc := iodev_open_rc d cb_level fmt in
  if rc =? 0 then
    (0, set_dev_open_state d
          (if iodev_has_start d then CRAS_IODEV_STATE_OPEN
           else CRAS_IODEV_STATE_NORMAL_RUN)
          (Some (iodev_open_format d fmt)))
  else (rc, d).

(** Modelled from the spec: [cras_iodev_close] of cras_iodev.c (not among
    the sources) releases the hardware, clears the format and sets the
    state to CLOSE. *)
Definition cras_iodev_close (d : cras_iodev) : cras_iodev :=
  set_dev_open_state d CRAS_IODEV_STATE_CLOSE None.

(** Modelled from the spec: [stream_list_has_pinned_stream] of
    stream_list.c (not among the sources): is some stream of the list
    pinned to this device index. *)
Definition stream_list_has_pinned_stream (l : list cras_rstream) (idx : Z) : bool :=
  existsb (fun s => is_pinned s && (pinned_dev_idx s =? idx)) l.

(** *** Noise-cancellation blocking state *)

Definition get_nc_blocked_state (st : iodev_list) : bool :=
  if noise_cancellation_standalone_mode (system st)
  then non_dsp_aec_echo_ref_dev_alive st
  else non_dsp_aec_echo_ref_dev_alive st || aec_on_dsp_is_disallowed st.

Definition update_nc_blocked_state (new_non_dsp_aec_echo_ref_dev_alive
    new_aec_on_dsp_is_disallowed : bool) (st : iodev_list) : iodev_list :=
  let prev_state := get_nc_blocked_state st in
  let st1 := set_nc_flags st new_non_dsp_aec_echo_ref_dev_alive
                          new_aec_on_dsp_is_disallowed in
  if negb (eqb prev_state (get_nc_blocked_state st1)) then
    if negb (dsp_noise_cancellation_supported (system st1))
       || bypass_block_noise_cancellation (system st1)
    then st1
    else
      let nc_block_state_edge_type := if get_nc_blocked_state st1 then 1 else 0 in
      let st2 := emit (emit st1 EvUpdateDeviceList) EvNotifyNodesChanged in
      emit st2 (EvMainLog (MAIN_THREAD_NC_BLOCK_STATE nc_block_state_edge_type
                  (non_dsp_aec_echo_ref_dev_alive st2) (aec_on_dsp_is_disallowed st2)))
  else
    emit st1 (EvMainLog (MAIN_THREAD_NC_BLOCK_STATE 2
                (non_dsp_aec_echo_ref_dev_alive st1) (aec_on_dsp_is_disallowed st1))).

Definition set_non_dsp_aec_echo_ref_dev_alive (state : bool) (st : iodev_list) : iodev_list :=
  update_nc_blocked_state state (aec_on_dsp_is_disallowed st) st.

Definition set_aec_on_dsp_is_disallowed (state : bool) (st : iodev_list) : iodev_list :=
  update_nc_blocked_state (non_dsp_aec_echo_ref_dev_alive st) state st.

Definition cras_iodev_list_set_aec_on_dsp_is_disallowed (dev_idx : Z)
    (is_disallowed : bool) (st : iodev_list) : iodev_list :=
  if eqb (aec_on_dsp_is_disallowed st) is_disallowed then st
  else set_aec_on_dsp_is_disallowed is_disallowed st.

(** The number of NODES_CHANGED notifications in a stretch of the trace. *)
Definition nodes_changed_notifications (l : list server_event) : nat :=
  length (List.filter (fun e => match e with EvNotifyNodesChanged => true | _ => false end) l).

(** *** Looking devices up *)

Definition find_dev (st : iodev_list) (dev_index : Z) : option dev_ptr :=
  List.find (fun p => dev_idx (deref st p) =? dev_index)
            (devs st CRAS_STREAM_OUTPUT ++ devs st CRAS_STREAM_INPUT).

Definition cras_iodev_list_dev_is_enabled (st : iodev_list) (p : dev_ptr) : bool :=
  bool_decide (p ∈ enabled_devs st (dev_direction (deref st p))).

Definition is_dsp_aec_use_case (st : iodev_list) (node : cras_ionode) : bool :=
  if noise_cancellation_standalone_mode (system st)
  then negb (bool_decide (node_type node = CRAS_NODE_TYPE_INTERNAL_SPEAKER))
  else cras_iodev_is_dsp_aec_use_case node.

(** Does the device have an active node that cannot serve as echo
    reference for AEC on DSP. *)
Definition active_node_not_dsp_aec (st : iodev_list) (d : cras_iodev) : bool :=
  match active_node d with
  | Some n => negb (is_dsp_aec_use_case st n)
  | None => false
  end.

Definition possibly_set_non_dsp_aec_echo_ref_dev_alive (p : dev_ptr) (st : iodev_list)
  : iodev_list :=
  let d := deref st p in
  if non_dsp_aec_echo_ref_dev_alive st then st
  else if dev_idx d <? MAX_SPECIAL_DEVICE_IDX then st
  else if bool_decide (dev_direction d = CRAS_STREAM_INPUT) then st
  else if negb (cras_iodev_list_dev_is_enabled st p) && negb (cras_iodev_is_open d) then st
  else if active_node_not_dsp_aec st d then set_non_dsp_aec_echo_ref_dev_alive true st
  else st.

Definition possibly_clear_non_dsp_aec_echo_ref_dev_alive (st : iodev_list) : iodev_list :=
  if negb (non_dsp_aec_echo_ref_dev_alive st) then st
  else if existsb (fun p =>
             negb (dev_idx (deref st p) <? MAX_SPECIAL_DEVICE_IDX)
             && active_node_not_dsp_aec st (deref st p))
           (enabled_devs st CRAS_STREAM_OUTPUT) then st
  else if existsb (fun s =>
             negb (bool_decide (direction s = CRAS_STREAM_INPUT))
             && is_pinned s
             && match find_dev st (pinned_dev_idx s) with
                | None => false
                | Some p =>
                    negb (dev_idx (deref st p) <? MAX_SPECIAL_DEVICE_IDX)
                    && active_node_not_dsp_aec st (deref st p)
                end)
           (stream_list st) then st
  else set_non_dsp_aec_echo_ref_dev_alive false st.

(** *** Opening and closing *)

Definition remove_all_streams_from_dev (p : dev_ptr) (st : iodev_list) : iodev_list :=
  let d := deref st p in
  let st1 := emit st (EvAudioThreadRmOpenDev (dev_direction d) (dev_idx d)) in
  emits st1 (map (fun s => EvStreamApmRemove (stream_id s) p)
                 (List.filter stream_apm (stream_list st))).

Definition possibly_enable_echo_reference (p : dev_ptr) (st : iodev_list) : iodev_list :=
  let d := deref st p in
  if negb (bool_decide (dev_direction d = CRAS_STREAM_OUTPUT)) then st
  else
    match echo_reference_dev d with
    | None => st
    | Some e => emit st (EvServerStreamCreate (dev_idx (deref st e)))
    end.

Definition possibly_disable_echo_reference (p : dev_ptr) (st : iodev_list) : iodev_list :=
  match echo_reference_dev (deref st p) with
  | None => st
  | Some e => emit st (EvServerStreamDestroy (dev_idx (deref st e)))
  end.

Definition close_dev (p : dev_ptr) (st : iodev_list) : iodev_list :=
  if negb (cras_iodev_is_open (deref st p)) then st
  else
    let st1 := emit st (EvMainLog (MAIN_THREAD_DEV_CLOSE (dev_idx (deref st p)))) in
    let st2 := remove_all_streams_from_dev p st1 in
    let st3 := update_dev p (set_idle_timeout_sec 0) st2 in
    let st4 := possibly_disable_echo_reference p st3 in
    let st5 := emit (update_dev p cras_iodev_close st4) (EvIodevClose p) in
    possibly_clear_non_dsp_aec_echo_ref_dev_alive st5.

Definition cancel_pending_init_retries (dev_idx : Z) (st : iodev_list) : iodev_list :=
  let gone := List.filter (fun r => r =? dev_idx) (init_retries st) in
  let kept := List.filter (fun r => negb (r =? dev_idx)) (init_retries st) in
  emits (set_init_retries st kept) (map EvTimerCancel gone).

Definition init_device (p : dev_ptr) (rstream : cras_rstream) (st : iodev_list)
  : Z * iodev_list :=
  let st0 := update_dev p (set_idle_timeout_sec 0) st in
  if cras_iodev_is_open (deref st0 p) then (0, st0)
  else
    let st1 := update_dev p (set_last_open_result SUCCESS) st0 in
    let st2 := cancel_pending_init_retries (dev_idx (deref st1 p)) st1 in
    let st3 := emit st2 (EvMainLog (MAIN_THREAD_DEV_INIT (dev_idx (deref st2 p))
                           (num_channels (format rstream)) (frame_rate (format rstream)))) in
    let '(rc, d') := cras_iodev_open (deref st3 p) (cb_threshold rstream) (format rstream) in
    let st4 := emit (update_dev p (fun _ => d') st3)
                    (EvIodevOpen p (cb_threshold rstream) (format rstream) rc) in
    if negb (rc =? 0) then (rc, update_dev p (set_last_open_result FAILURE) st4)
    else
      let rc := audio_thread_add_open_dev (deref st4 p) in
      let st5 := emit st4 (EvAudioThreadAddOpenDev p rc) in
      let st6 :=
        if negb (rc =? 0)
        then emit (update_dev p cras_iodev_close st5) (EvIodevClose p)
        else st5 in
      let st7 := possibly_enable_echo_reference p st6 in
      (rc, possibly_set_non_dsp_aec_echo_ref_dev_alive p st7).

Definition add_stream_to_open_devs (stream : cras_rstream) (iodevs_ : list dev_ptr)
    (st : iodev_list) : Z * iodev_list :=
  let st1 :=
    if stream_apm stream
    then emits st (map (fun p => EvStreamApmAdd (stream_id stream) p) iodevs_)
    else st in
  let rc := audio_thread_add_stream stream (map (deref st1) iodevs_) in
  (rc, emit st1 (EvAudioThreadAddStream (stream_id stream) iodevs_ rc)).

(** The test of [init_and_attach_streams] for a stream of the list: it is
    of the direction of the device, and either a normal stream while the
    device is enabled, or pinned to this device or to a silent device. *)
Definition can_attach_stream (d : cras_iodev) (dev_enabled : bool) (stream : cras_rstream)
  : bool :=
  bool_decide (direction stream = dev_direction d)
  && (if negb (is_pinned stream) then dev_enabled
      else (pinned_dev_idx stream =? dev_idx d)
           || (SILENT_PLAYBACK_DEVICE =? dev_idx d)
           || (SILENT_RECORD_DEVICE =? dev_idx d)).

(** The loop of [init_and_attach_streams] over the stream list. *)
Fixpoint attach_streams (l : list cras_rstream) (p : dev_ptr) (dev_enabled : bool)
    (st : iodev_list) : Z * iodev_list :=
  match l with
  | [] => (0, st)
  | stream :: rest =>
      if negb (can_attach_stream (deref st p) dev_enabled stream)
      then attach_streams rest p dev_enabled st
      else
        let '(rc, st1) := init_device p stream st in
        if negb (rc =? 0) then (rc, st1)
        else
          let '(_, st2) := add_stream_to_open_devs stream [p] st1 in
          attach_streams rest p dev_enabled st2
  end.

Definition init_and_attach_streams (p : dev_ptr) (st : iodev_list) : Z * iodev_list :=
  let dev_enabled := cras_iodev_list_dev_is_enabled st p in
  if stream_list_suspended st then (0, st)
  else attach_streams (stream_list st) p dev_enabled st.

Definition schedule_init_device_retry (p : dev_ptr) (st : iodev_list) : Z * iodev_list :=
  if negb retry_calloc then (- ENOMEM, st)
  else
    let idx := dev_idx (deref st p) in
    (0, set_init_retries (emit st (EvTimerCreate INIT_DEV_DELAY_MS idx))
                         (init_retries st ++ [idx])).

(** [dev->update_active_node(dev, dev->active_node->idx, dev_enabled)]. *)
Definition update_active_node (p : dev_ptr) (dev_enabled : Z) (st : iodev_list) : iodev_list :=
  emit st (EvUpdateActiveNode p
             (match active_node (deref st p) with Some n => node_idx n | None => 0 end)
             dev_enabled).

(** *** The enabled-device list *)

Definition enable_device (p : dev_ptr) (st : iodev_list) : Z * iodev_list :=
  let dir := dev_direction (deref st p) in
  if bool_decide (p ∈ enabled_devs st dir) then (- EEXIST, st)
  else
    let st1 := set_enabled_devs st dir (enabled_devs st dir ++ [p]) in
    let st2 := update_dev p (set_is_enabled true) st1 in
    let '(rc, st3) := init_and_attach_streams p st2 in
    if rc <? 0 then
      let '(_, st4) := schedule_init_device_retry p st3 in
      (rc, st4)
    else
      let st4 := emit st3 (EvDeviceEnabledCbs p) in
      (0, possibly_set_non_dsp_aec_echo_ref_dev_alive p st4).

(** [disable_device(edev, force)], where [edev] is the node at position
    [i] of the enabled list of the direction of its device [p]. *)
Definition disable_device (i : nat) (p : dev_ptr) (force : bool) (st : iodev_list)
  : Z * iodev_list :=
  let d := deref st p in
  let dir := dev_direction d in
  let st1 := emit st (EvMainLog (MAIN_THREAD_DEV_DISABLE (dev_idx d) force)) in
  let st2 := set_enabled_devs st1 dir (delete i (enabled_devs st1 dir)) in
  let st3 := update_dev p (set_is_enabled false) st2 in
  let finish (st : iodev_list) :=
    let st5 := emit st (EvDeviceDisabledCbs p) in
    let st6 := close_dev p st5 in
    let st7 := update_active_node p 0 st6 in
    (0, possibly_clear_non_dsp_aec_echo_ref_dev_alive st7) in
  if force then finish (cancel_pending_init_retries (dev_idx d) st3)
  else if stream_list_has_pinned_stream (stream_list st3) (dev_idx d) then
    (0, emits st3
          (map (fun s => EvAudioThreadDisconnectStream (stream_id s) (Some p))
               (List.filter (fun s => bool_decide (direction s = dev_direction d)
                                 && negb (is_pinned s))
                       (stream_list st3))))
  else finish st3.

(** The loop of [possibly_disable_fallback]: [i] is the position of the
    head of [l] in the enabled list as it is now. *)
Fixpoint disable_fallback_scan (l : list dev_ptr) (i : nat) (dir : CRAS_STREAM_DIRECTION)
    (st : iodev_list) : iodev_list :=
  match l with
  | [] => st
  | e :: rest =>
      if bool_decide (Some e = fallback_devs st dir)
      then disable_fallback_scan rest i dir (snd (disable_device i e false st))
      else disable_fallback_scan rest (S i) dir st
  end.

Definition possibly_disable_fallback (dir : CRAS_STREAM_DIRECTION) (st : iodev_list)
  : iodev_list :=
  disable_fallback_scan (enabled_devs st dir) 0 dir st.

Definition possibly_enable_fallback (dir : CRAS_STREAM_DIRECTION) (error : bool)
    (st : iodev_list) : iodev_list :=
  match fallback_devs st dir with
  | None => st
  | Some fb =>
      let st1 :=
        update_dev fb (set_active_node_type
                         (if error then CRAS_NODE_TYPE_FALLBACK_ABNORMAL
                          else CRAS_NODE_TYPE_FALLBACK_NORMAL)) st in
      if negb (cras_iodev_list_dev_is_enabled st1 fb)
      then snd (enable_device fb st1)
      else st1
  end.

(** *** Routing a new stream *)

Definition restart_dev (dev_idx_ : Z) (st : iodev_list) : iodev_list :=
  match find_dev st dev_idx_ with
  | None => st
  | Some p =>
      let st1 := close_dev p st in
      let st2 := update_active_node p 0 st1 in
      let st3 := update_active_node p 1 st2 in
      let '(rc, st4) := init_and_attach_streams p st3 in
      if negb (rc =? 0) then snd (schedule_init_device_retry p st4) else st4
  end.

Definition is_hotword_stream (rstream : cras_rstream) : bool :=
  Z.land (flags rstream) HOTWORD_STREAM =? HOTWORD_STREAM.

Definition find_pinned_device (rstream : cras_rstream) (st : iodev_list) : option dev_ptr :=
  if negb (is_pinned rstream) then None
  else
    let dev := find_dev st (pinned_dev_idx rstream) in
    if negb (is_hotword_stream rstream) then dev
    else
      match dev with
      | Some p =>
          if negb (bool_decide (node_type <$> active_node (deref st p)
                                = Some CRAS_NODE_TYPE_HOTWORD))
          then None
          else if hotword_suspended st then empty_hotword_dev st else dev
      | None => if hotword_suspended st then empty_hotword_dev st else dev
      end.

Definition init_pinned_device (p : dev_ptr) (rstream : cras_rstream) (st : iodev_list)
  : Z * iodev_list :=
  let st0 := update_dev p (set_idle_timeout_sec 0) st in
  if audio_thread_is_dev_open (deref st0 p) then (0, st0)
  else init_device p rstream (update_active_node p 1 st0).

Definition pinned_stream_added (rstream : cras_rstream) (st : iodev_list)
  : Z * iodev_list :=
  match find_pinned_device rstream st with
  | None => (- EINVAL, st)
  | Some p =>
      let '(rc, st1) := init_pinned_device p rstream st in
      if negb (rc =? 0) then schedule_init_device_retry p st1
      else add_stream_to_open_devs rstream [p] st1
  end.

(** The local variables of [stream_added_cb] that its loops change, with
    the state: the devices collected in [iodevs] (in order), and the two
    flags. *)
Record added_scan : Type := {
  sc_state : iodev_list;
  sc_iodevs : list dev_ptr;
  sc_iodev_reopened : bool;
  sc_expect_fallback : bool
}.

Definition num_channels_of (f : option cras_audio_format) : Z :=
  match f with Some f => num_channels f | None => 0 end.

(** The test of [stream_added_cb] for re-opening an open device with more
    channels. *)
Definition needs_reopen (rstream : cras_rstream) (d : cras_iodev) : bool :=
  cras_iodev_is_open d
  && (num_channels_of (dev_format d) <? num_channels (format rstream))
  && (num_channels (format rstream) <=? max_supported_channels d).

Definition is_hfp_mic (d : cras_iodev) : bool :=
  match active_node d with
  | Some node =>
      (bool_decide (node_type node = CRAS_NODE_TYPE_BLUETOOTH)
       || bool_decide (node_type node = CRAS_NODE_TYPE_BLUETOOTH_NB_MIC))
      && bool_decide (dev_direction d = CRAS_STREAM_INPUT)
  | None => false
  end.

(** The entry of the main log for the re-opening of a device for a
    stream. *)
Definition reopen_log (rstream : cras_rstream) (d : cras_iodev) : server_event :=
  EvMainLog (MAIN_THREAD_DEV_REOPEN
               (num_channels (format rstream))
               (num_channels_of (dev_format d))
               (match dev_format d with Some f => frame_rate f | None => 0 end)).

(** One pass of the body of the loop of [stream_added_cb] over the enabled
    devices, for a device that is not the fallback and with room left in
    [iodevs]. *)
Definition stream_added_dev (rstream : cras_rstream) (e : dev_ptr) (sc : added_scan)
  : added_scan :=
  let st := sc_state sc in
  let d := deref st e in
  if needs_reopen rstream d then
    let st1 := emit st (reopen_log rstream d) in
    let st2 := possibly_enable_fallback (direction rstream) false st1 in
    let st3 := restart_dev (dev_idx (deref st2 e)) st2 in
    {| sc_state := st3; sc_iodevs := sc_iodevs sc; sc_iodev_reopened := true;
       sc_expect_fallback := sc_expect_fallback sc |}
  else
    let '(rc, st1) := init_device e rstream st in
    if negb (rc =? 0) then
      let expect := is_hfp_mic (deref st1 e) && (rc =? - EAGAIN) in
      let '(_, st2) := schedule_init_device_retry e st1 in
      {| sc_state := st2; sc_iodevs := sc_iodevs sc;
         sc_iodev_reopened := sc_iodev_reopened sc;
         sc_expect_fallback := if expect then true else sc_expect_fallback sc |}
    else
      {| sc_state := st1; sc_iodevs := sc_iodevs sc ++ [e];
         sc_iodev_reopened := sc_iodev_reopened sc;
         sc_expect_fallback := sc_expect_fallback sc |}.

(** The loop of [stream_added_cb] over [enabled_devs[rstream->direction]].
    The list [l] is the enabled list as the loop starts: the loop body
    removes no node, and the only node it can append (the fallback, through
    [possibly_enable_fallback]) is one the loop skips. *)
Fixpoint stream_added_scan (rstream : cras_rstream) (l : list dev_ptr) (sc : added_scan)
  : added_scan :=
  match l with
  | [] => sc
  | e :: rest =>
      if bool_decide (Some e = fallback_devs (sc_state sc) (direction rstream))
      then stream_added_scan rstream rest sc
      else if NUM_OPEN_DEVS_MAX <=? Z.of_nat (length (sc_iodevs sc)) then sc
      else stream_added_scan rstream rest (stream_added_dev rstream e sc)
  end.

(** The loop of [stream_added_cb] over the flexible loopback pairs. *)
Fixpoint stream_added_floop_scan (rstream : cras_rstream) (l : list cras_floop_pair)
    (sc : added_scan) : added_scan :=
  match l with
  | [] => sc
  | fpair :: rest =>
      if negb (cras_floop_pair_match_output_stream fpair rstream)
      then stream_added_floop_scan rstream rest sc
      else if NUM_OPEN_DEVS_MAX <=? Z.of_nat (length (sc_iodevs sc)) then sc
      else
        let '(rc, st1) := init_device (fp_output fpair) rstream (sc_state sc) in
        stream_added_floop_scan rstream rest
          {| sc_state := st1;
             sc_iodevs := if rc =? 0 then sc_iodevs sc ++ [fp_output fpair]
                          else sc_iodevs sc;
             sc_iodev_reopened := sc_iodev_reopened sc;
             sc_expect_fallback := sc_expect_fallback sc |}
  end.

(** What [stream_added_cb] does once both loops are done. *)
Definition stream_added_finish (rstream : cras_rstream) (sc : added_scan)
  : Z * iodev_list :=
  let st := sc_state sc in
  let attach :=
    match sc_iodevs sc with
    | [] =>
        if negb (sc_iodev_reopened sc)
        then (0, possibly_enable_fallback (direction rstream)
                   (negb (sc_expect_fallback sc)) st)
        else (0, st)
    | _ :: _ =>
        let '(rc, st1) := add_stream_to_open_devs rstream (sc_iodevs sc) st in
        if rc =? - EIO
        then (rc, emit st1 (EvMetricsStreamAddFailure CRAS_STREAM_ADD_IO_ERROR))
        else if rc =? - EINVAL
        then (rc, emit st1 (EvMetricsStreamAddFailure CRAS_STREAM_ADD_INVALID_ARG))
        else if negb (rc =? 0)
        then (rc, emit st1 (EvMetricsStreamAddFailure CRAS_STREAM_ADD_OTHER_ERR))
        else (0, st1)
    end in
  let '(rc, st2) := attach in
  if negb (rc =? 0) then (rc, st2)
  else if negb (length (sc_iodevs sc) =? 0)%nat || sc_iodev_reopened sc
  then (0, possibly_disable_fallback (direction rstream) st2)
  else (0, st2).

(** The first step of [stream_added_cb] for a stream that is not pinned:
    the stream is caught with the fallback when that is enabled.  The C
    code reads [fallback_devs[dir]->direction] here without a NULL check;
    the model skips the step when there is no fallback device. *)
Definition stream_added_catch (rstream : cras_rstream) (st : iodev_list) : iodev_list :=
  match fallback_devs st (direction rstream) with
  | Some fb =>
      if cras_iodev_list_dev_is_enabled st fb then
        let '(_, sta) := init_device fb rstream st in
        snd (add_stream_to_open_devs rstream [fb] sta)
      else st
  | None => st
  end.

(** The loop over the flexible loopback pairs, for output streams. *)
Definition stream_added_floop (rstream : cras_rstream) (sc : added_scan) : added_scan :=
  if bool_decide (direction rstream = CRAS_STREAM_OUTPUT)
  then stream_added_floop_scan rstream (floop_pair_list (sc_state sc)) sc
  else sc.

(** The scan state [stream_added_cb] starts its loops with. *)
Definition scan_start (st : iodev_list) : added_scan :=
  {| sc_state := st; sc_iodevs := []; sc_iodev_reopened := false;
     sc_expect_fallback := false |}.

Definition stream_added_cb (rstream : cras_rstream) (st : iodev_list) : Z * iodev_list :=
  if stream_list_suspended st then (0, st)
  else
    let st1 := emit st (EvMainLog (MAIN_THREAD_STREAM_ADDED (stream_id rstream)
                                     (direction rstream) (buffer_frames rstream))) in
    if is_pinned rstream then pinned_stream_added rstream st1
    else
      let st2 := stream_added_catch rstream st1 in
      let sc1 := stream_added_scan rstream (enabled_devs st2 (direction rstream))
                                   (scan_start st2) in
      stream_added_finish rstream (stream_added_floop rstream sc1).

(** *** Flexible loopback *)


End DeviceList.

(** ** What routing leaves alone *)

(** The fields of a device that no function of the device list writes. *)
Definition same_static (d d' : cras_iodev) : Prop :=
  dev_idx d' = dev_idx d
  /\ dev_direction d' = dev_direction d
  /\ max_supported_channels d' = max_supported_channels d
  /\ echo_reference_dev d' = echo_reference_dev d.

(** The enabled lists only gain devices. *)
Definition enabled_grows (l l' : CRAS_STREAM_DIRECTION -> list dev_ptr) : Prop :=
  forall dir q, q ∈ l dir -> q ∈ l' dir.

(** No constraint on the enabled lists. *)
Definition enabled_any (l l' : CRAS_STREAM_DIRECTION -> list dev_ptr) : Prop := True.

(** [frame E P st st']: from [st] to [st'] the registered devices, the
    fallback devices, the streams, the suspension flag, the system
    settings and the loopback pairs are the same; no device changed its
    static fields; the devices at addresses outside [P] are the same
    records; the enabled lists are related by [E]; and the trace only
    grew. *)
Record frame (E : relation (CRAS_STREAM_DIRECTION -> list dev_ptr)) (P : dev_ptr -> Prop)
    (st st' : iodev_list) : Prop := {
  fr_devs : devs st' = devs st;
  fr_fallback : fallback_devs st' = fallback_devs st;
  fr_stream_list : stream_list st' = stream_list st;
  fr_suspended : stream_list_suspended st' = stream_list_suspended st;
  fr_hotword : hotword_suspended st' = hotword_suspended st
               /\ empty_hotword_dev st' = empty_hotword_dev st;
  fr_system : system st' = system st;
  fr_floop : floop_pair_list st' = floop_pair_list st;
  fr_static : forall q, same_static (deref st q) (deref st' q);
  fr_other : forall q, ~ P q -> iodevs st' !! q = iodevs st !! q;
  fr_enabled : E (enabled_devs st) (enabled_devs st');
  fr_trace : trace st `prefix_of` trace st'
}.

(** Enabled lists without repetition stay so. *)
Definition enabled_keeps_nodup (l l' : CRAS_STREAM_DIRECTION -> list dev_ptr) : Prop :=
  (forall dir, NoDup (l dir)) -> forall dir, NoDup (l' dir).

(** A relation on enabled lists that admits the append of [enable_device]
    (of a device that is not in the list), and one that admits the
    removal of [disable_device]. *)
Class EnableClosed (E : relation (CRAS_STREAM_DIRECTION -> list dev_ptr)) : Prop :=
  enable_closed : forall st dir p,
    p ∉ enabled_devs st dir ->
    E (enabled_devs st)
      (enabled_devs (set_enabled_devs st dir (enabled_devs st dir ++ [p]))).

Class DisableClosed (E : relation (CRAS_STREAM_DIRECTION -> list dev_ptr)) : Prop :=
  disable_closed : forall st dir i,
    E (enabled_devs st)
      (enabled_devs (set_enabled_devs st dir (delete i (enabled_devs st dir)))).

(** The enabled lists of a state hold no device twice. *)
Definition enabled_nodup (st : iodev_list) : Prop :=
  forall dir, NoDup (enabled_devs st dir).

(** Enabling and disabling devices and adding streams, in any order. *)
Inductive routing_op : Type :=
| OpEnableDevice (p : dev_ptr)
| OpDisableDevice (i : nat) (p : dev_ptr) (force : bool)
| OpStreamAdded (rstream : cras_rstream).

(** The devices the loop of [stream_added_cb] over [l] can write to are
    all in [P]: the fallback of the direction, the devices of [l], and the
    devices [find_dev] gives for their indices. *)
Definition scan_within (P : dev_ptr -> Prop) (dir : CRAS_STREAM_DIRECTION)
    (l : list dev_ptr) (st : iodev_list) : Prop :=
  (forall fb, fallback_devs st dir = Some fb -> P fb)
  /\ forall e, e ∈ l ->
       P e /\ forall p, find_dev st (dev_idx (deref st e)) = Some p -> P p.


(** From [st] to [st'] the trace grew by events among which those of [l]
    occur in this order. *)
Definition emitted_in_order (l : list server_event) (st st' : iodev_list) : Prop :=
  exists evs, trace st' = trace st ++ evs /\ l `sublist_of` evs.


Section RoutingOps.
Context `{!IodevListEnv}.

Definition run_routing_op (op : routing_op) (st : iodev_list) : iodev_list :=
  match op with
  | OpEnableDevice p => snd (enable_device p st)
  | OpDisableDevice i p force => snd (disable_device i p force st)
  | OpStreamAdded rstream => snd (stream_added_cb rstream st)
  end.

Definition run_routing_ops (ops : list routing_op) (st : iodev_list) : iodev_list :=
  foldl (fun st op => run_routing_op op st) st ops.

End RoutingOps.

(** * Part IV.  Concrete environments for the worked examples *)

(** Modelled from the spec: the header of the shared audio buffer, with
    the two read and write offsets in bytes.  The writer advances
    [write_offset[write_buf_idx]], the reader [read_offset[read_buf_idx]];
    the frames readable are those between the two offsets of the read
    buffer. *)
Record sab_header : Type := {
  read_buf_idx : Z;
  write_buf_idx : Z;
  read_offset : Z * Z;
  write_offset : Z * Z;
  frame_bytes : Z;
  used_size : Z
}.

Definition sab_get (i : Z) (a : Z * Z) : Z := if i =? 0 then fst a else snd a.

Definition sab_add (i : Z) (n : Z) (a : Z * Z) : Z * Z :=
  if i =? 0 then (fst a + n, snd a) else (fst a, snd a + n).

#[global] Instance sab_ops : ShmOps sab_header := {
  cras_shm_get_curr_read_frames h :=
    (sab_get (read_buf_idx h) (write_offset h) - sab_get (read_buf_idx h) (read_offset h))
    / frame_bytes h;
  cras_shm_buffer_read_current h frames :=
    {| read_buf_idx := read_buf_idx h; write_buf_idx := write_buf_idx h;
       read_offset := sab_add (read_buf_idx h) (frames * frame_bytes h) (read_offset h);
       write_offset := write_offset h;
       frame_bytes := frame_bytes h; used_size := used_size h |};
  cras_shm_buffer_written_start h frames :=
    {| read_buf_idx := read_buf_idx h; write_buf_idx := write_buf_idx h;
       read_offset := read_offset h;
       write_offset := sab_add (write_buf_idx h) (frames * frame_bytes h) (write_offset h);
       frame_bytes := frame_bytes h; used_size := used_size h |}
}.

(** An empty buffer of a stereo S16LE stream with 4096 frames. *)
Definition sab_empty : sab_header :=
  {| read_buf_idx := 0; write_buf_idx := 0; read_offset := (0, 0);
     write_offset := (0, 0); frame_bytes := 4; used_size := 4096 * 4 |}.

(** The playback stream of the spec's round-trip scenario: threshold 480,
    a callback that fills every frame it is offered. *)
Definition playback_480 : client_stream sab_header :=
  {| cs_id := 65536; cs_aud_fd := 7; cs_direction := CRAS_STREAM_OUTPUT; cs_flags := 0;
     cs_config := {| sp_buffer_frames := 4096; sp_cb_threshold := 480;
                     sp_stream_cb := None; sp_unified_cb := None;
                     sp_aud_cb := fun frames => frames |};
     cs_shm := sab_empty |}.

(** The same stream with the [stream_cb] style of callback. *)
Definition playback_480_stream_cb : client_stream sab_header :=
  {| cs_id := 65536; cs_aud_fd := 7; cs_direction := CRAS_STREAM_OUTPUT; cs_flags := 0;
     cs_config := {| sp_buffer_frames := 4096; sp_cb_threshold := 480;
                     sp_stream_cb := Some (fun frames => frames); sp_unified_cb := None;
                     sp_aud_cb := fun frames => frames |};
     cs_shm := sab_empty |}.

(** A capture stream whose buffer holds 100 frames. *)
Definition capture_480 : client_stream sab_header :=
  {| cs_id := 65537; cs_aud_fd := 8; cs_direction := CRAS_STREAM_INPUT; cs_flags := 0;
     cs_config := {| sp_buffer_frames := 4096; sp_cb_threshold := 480;
                     sp_stream_cb := None; sp_unified_cb := None;
                     sp_aud_cb := fun frames => frames |};
     cs_shm := {| read_buf_idx := 0; write_buf_idx := 1; read_offset := (0, 0);
                  write_offset := (400, 0); frame_bytes := 4; used_size := 4096 * 4 |} |}.

(** A system in which every call succeeds, and one that is out of memory. *)
Definition sys_ok : audio_sys :=
  {| sys_cb_data_alloc := true; sys_errno := 0;
     sys_aud_write := sizeof_audio_message; sys_stream_pipe_write := sizeof_stream_msg |}.

Definition sys_no_memory : audio_sys :=
  {| sys_cb_data_alloc := false; sys_errno := ENOMEM;
     sys_aud_write := sizeof_audio_message; sys_stream_pipe_write := sizeof_stream_msg |}.

(** One wake-up of a running audio task by a complete audio message. *)
Definition poll_message (msg : audio_message) : poll_input :=
  {| pi_thread_state := CRAS_THREAD_RUNNING; pi_poll_rc := 1; pi_aud_pollin := true;
     pi_aud_nread := sizeof_audio_message; pi_aud_msg := msg;
     pi_wake_pollin := false; pi_wake_read := 0; pi_sys := sys_ok |}.

(** A wake-up by a message of which only 3 bytes could be read. *)
Definition poll_short_read : poll_input :=
  {| pi_thread_state := CRAS_THREAD_RUNNING; pi_poll_rc := 1; pi_aud_pollin := true;
     pi_aud_nread := 3;
     pi_aud_msg := {| am_id := AUDIO_MESSAGE_REQUEST_DATA; am_error := 0; am_frames := 0 |};
     pi_wake_pollin := false; pi_wake_read := 0; pi_sys := sys_ok |}.

Definition request_data (n : Z) : audio_message :=
  {| am_id := AUDIO_MESSAGE_REQUEST_DATA; am_error := 0; am_frames := n |}.

Definition data_ready (n : Z) : audio_message :=
  {| am_id := AUDIO_MESSAGE_DATA_READY; am_error := 0; am_frames := n |}.

Definition unknown_message : audio_message :=
  {| am_id := AUDIO_MESSAGE_UNKNOWN 9; am_error := 0; am_frames := 480 |}.

(** A server socket on which every write is complete, and one whose peer
    is gone: every write fails with EPIPE. *)
Definition socket_ok : ServerSocket :=
  {| sizeof_register_notification := 16;
     server_write := fun _ => 16;
     server_write_errno := fun _ => 0 |}.

Definition socket_broken_pipe : ServerSocket :=
  {| sizeof_register_notification := 16;
     server_write := fun _ => -1;
     server_write_errno := fun _ => EPIPE |}.

Definition no_observer_ops : cras_observer_ops :=
  {| output_volume_changed := None; output_mute_changed := None;
     capture_gain_changed := None; capture_mute_changed := None;
     nodes_changed := None; active_node_changed := None;
     output_node_volume_changed := None; node_left_right_swapped_changed := None;
     input_node_gain_changed := None; num_active_streams_changed := None |}.

(** A client that has just read CLIENT_CONNECTED (id 3), with callbacks
    for two notifications and a connection callback. *)
Definition client_first_message : cras_client :=
  {| id := 3; server_fd_state := CRAS_SOCKET_STATE_FIRST_MESSAGE;
     next_stream_id := 0; streams := [];
     observer_ops :=
       set_observer_op
         (set_observer_op no_observer_ops CRAS_CLIENT_NODES_CHANGED (Some 1%nat))
         CRAS_CLIENT_OUTPUT_VOLUME_CHANGED (Some 2%nat);
     server_connection_cb := Some 5%nat;
     server_event_value := 0; client_trace := [] |}.

(** A connected client whose next stream index collides with a stream it
    still has: index 0 is taken, index 1 is free. *)
Definition client_with_stream : cras_client :=
  {| id := 3; server_fd_state := CRAS_SOCKET_STATE_CONNECTED;
     next_stream_id := 0;
     streams := [ {| st_id := cras_get_stream_id 3 0; st_flags := 0 |} ];
     observer_ops := no_observer_ops; server_connection_cb := None;
     server_event_value := 1; client_trace := [] |}.

Definition add_stream_ok : add_stream_sys :=
  {| ass_hotword_idx := -1; ass_start_aud_thread := 0; ass_send_connect_message := 0 |}.

(** An environment of the device list: the special device indices as the
    spec reserves them (0 for "no device", the indices below
    MAX_SPECIAL_DEVICE_IDX for the silent devices), devices that open with
    return code [open_rc] on the format asked for, an audio thread that
    accepts everything, flexible loopback pairs matched by their client
    type mask and created with input index [100 + mask] unless
    [floop_alloc] is false. *)
Definition make_env (open_rc : Z) (floop_alloc : bool) : IodevListEnv :=
  {| MAX_SPECIAL_DEVICE_IDX := 4;
     SILENT_RECORD_DEVICE := 1;
     SILENT_PLAYBACK_DEVICE := 2;
     iodev_open_rc := fun d _ _ => if dev_idx d <? 4 then 0 else open_rc;
     iodev_open_format := fun _ fmt => fmt;
     iodev_has_start := fun _ => true;
     audio_thread_add_open_dev := fun _ => 0;
     audio_thread_add_stream := fun _ _ => 0;
     audio_thread_is_dev_open := cras_iodev_is_open;
     cras_iodev_is_dsp_aec_use_case := fun _ => true;
     cras_floop_pair_match_output_stream := fun _ _ => false;
     cras_floop_pair_match_params :=
       fun fpair params => client_types_mask (fp_params fpair) =? client_types_mask params;
     cras_floop_pair_create :=
       fun params =>
         if floop_alloc
         then Some {| fp_params := params; fp_input_idx := 100 + client_types_mask params;
                      fp_output := (1000 + Z.to_nat (client_types_mask params))%nat |}
         else None;
     flexible_loopback_enabled := true;
     retry_calloc := true |}.

Definition env_ok : IodevListEnv := make_env 0 true.

Definition default_settings : system_settings :=
  {| noise_cancellation_standalone_mode := false;
     dsp_noise_cancellation_supported := true;
     bypass_block_noise_cancellation := false |}.

(** A device list with no device, no stream and no pair. *)
Definition empty_list (sys : system_settings) : iodev_list :=
  {| iodevs := ∅; devs := fun _ => []; enabled_devs := fun _ => [];
     fallback_devs := fun _ => None; empty_hotword_dev := None; init_retries := [];
     floop_pair_list := []; stream_list := []; stream_list_suspended := false;
     hotword_suspended := false; non_dsp_aec_echo_ref_dev_alive := false;
     aec_on_dsp_is_disallowed := false; system := sys; trace := [] |}.



(** Noise cancellation in standalone mode, with an input stream that
    disallows AEC on DSP and no output device in the way. *)
Definition list_standalone : iodev_list :=
  set_nc_flags
    (empty_list {| noise_cancellation_standalone_mode := true;
                   dsp_noise_cancellation_supported := true;
                   bypass_block_noise_cancellation := false |})
    false true.

(** A board without noise cancellation on DSP. *)
Definition list_no_dsp_nc : iodev_list :=
  empty_list {| noise_cancellation_standalone_mode := false;
                dsp_noise_cancellation_supported := false;
                bypass_block_noise_cancellation := false |}.

(** An output device list: the silent playback device is the fallback, at
    address 10, and not enabled; the speaker, of index 5 and at address 11,
    is enabled and open with two channels of the six it supports; the
    stream list holds a stream of six channels and one of two. *)
Definition stereo_48k : cras_audio_format :=
  {| fmt_format := 0; frame_rate := 48000; num_channels := 2 |}.

Definition surround_48k : cras_audio_format :=
  {| fmt_format := 0; frame_rate := 48000; num_channels := 6 |}.

Definition fallback_output : cras_iodev :=
  {| dev_idx := 2; max_supported_channels := 2; last_open_result := SUCCESS;
     dev_direction := CRAS_STREAM_OUTPUT; dev_state := CRAS_IODEV_STATE_CLOSE;
     dev_format := None;
     active_node := Some {| node_idx := 0; node_type := CRAS_NODE_TYPE_FALLBACK_NORMAL |};
     is_enabled := false; idle_timeout_sec := 0; echo_reference_dev := None |}.

Definition speaker : cras_iodev :=
  {| dev_idx := 5; max_supported_channels := 6; last_open_result := SUCCESS;
     dev_direction := CRAS_STREAM_OUTPUT; dev_state := CRAS_IODEV_STATE_NORMAL_RUN;
     dev_format := Some stereo_48k;
     active_node := Some {| node_idx := 0; node_type := CRAS_NODE_TYPE_INTERNAL_SPEAKER |};
     is_enabled := true; idle_timeout_sec := 0; echo_reference_dev := None |}.

Definition surround_stream : cras_rstream :=
  {| stream_id := 196608; direction := CRAS_STREAM_OUTPUT; is_pinned := false;
     pinned_dev_idx := 0; flags := 0; format := surround_48k; cb_threshold := 480;
     buffer_frames := 960; stream_apm := false |}.

Definition stereo_stream : cras_rstream :=
  {| stream_id := 131072; direction := CRAS_STREAM_OUTPUT; is_pinned := false;
     pinned_dev_idx := 0; flags := 0; format := stereo_48k; cb_threshold := 480;
     buffer_frames := 960; stream_apm := false |}.

Definition output_only (l : list dev_ptr) (dir : CRAS_STREAM_DIRECTION) : list dev_ptr :=
  match dir with CRAS_STREAM_OUTPUT => l | _ => [] end.

Definition list_speaker : iodev_list :=
  {| iodevs := <[10%nat := fallback_output]> (<[11%nat := speaker]> ∅);
     devs := output_only [11%nat];
     enabled_devs := output_only [11%nat];
     fallback_devs := fun dir => match dir with
                                 | CRAS_STREAM_OUTPUT => Some 10%nat
                                 | _ => None
                                 end;
     empty_hotword_dev := None; init_retries := [];
     floop_pair_list := []; stream_list := [surround_stream; stereo_stream];
     stream_list_suspended := false; hotword_suspended := false;
     non_dsp_aec_echo_ref_dev_alive := false; aec_on_dsp_is_disallowed := false;
     system := default_settings; trace := [] |}.

(** Devices whose hardware is busy: every device but the silent ones
    fails to open with -EAGAIN. *)
Definition env_busy : IodevListEnv := make_env (- EAGAIN) true.

(** * Part IV.  More of the two translation units *)

(** ** Input gain, the way back (cras_iodev_list.c) *)

(** [convert_input_node_gain_from_dBFS].  [/] on [long] is [Z.quot]; the
    C division by a scale of 0 (a maximum gain below 50) is undefined,
    where [Z.quot] gives 0. *)
Definition convert_input_node_gain_from_dBFS (max_internal_mic_gain : Z)
    (dBFS : Z) (is_internal_mic : bool) : Z :=
  let max_gain :=
    if is_internal_mic then max_internal_mic_gain else DEFAULT_MAX_INPUT_NODE_GAIN in
  50 + Z.quot dBFS (if 0 <? dBFS then Z.quot max_gain 50 else 40).

(** ** Retries, suspension and hotword streams (cras_iodev_list.c) *)

Definition ENOENT : Z := 2.

Definition set_hotword_suspended (b : bool) (st : iodev_list) : iodev_list :=
  {| iodevs := iodevs st; devs := devs st; enabled_devs := enabled_devs st;
     fallback_devs := fallback_devs st; empty_hotword_dev := empty_hotword_dev st;
     init_retries := init_retries st; floop_pair_list := floop_pair_list st;
     stream_list := stream_list st;
     stream_list_suspended := stream_list_suspended st;
     hotword_suspended := b;
     non_dsp_aec_echo_ref_dev_alive := non_dsp_aec_echo_ref_dev_alive st;
     aec_on_dsp_is_disallowed := aec_on_dsp_is_disallowed st;
     system := system st; trace := trace st |}.

(** ** The index of a retry record

    [struct dev_init_retry] keeps the index of its device, an
    [unsigned int], in the field [int dev_idx], and [init_device_cb]
    passes that field to [find_dev(size_t)].  [int_of_uint32] is the value
    the [int] holds (the wrap to two's complement of the compilers the
    code is built with), and [size_t_of_int] what the conversion of an
    [int] to a [size_t] of [size_t_bits] bits gives: the width of [size_t]
    is that of the platform, 64 on an LP64 one and 32 on an ILP32 one. *)
Definition int_of_uint32 (x : Z) : Z :=
  if to_uint32 x <? 2 ^ 31 then to_uint32 x else to_uint32 x - 2 ^ 32.

Definition size_t_of_int (size_t_bits : Z) (x : Z) : Z := x mod 2 ^ size_t_bits.

Definition retry_dev_index (size_t_bits : Z) (idx : Z) : Z :=
  size_t_of_int size_t_bits (int_of_uint32 idx).

Section DeviceListMoreDefs.
Context `{!IodevListEnv}.

(** The local variables of [stream_added_cb] for a stream that is not
    pinned, when its two loops are done: the loop over the enabled devices
    of the direction and, for an output stream, the loop over the loopback
    pairs.  [sc_iodevs] of it is the array [iodevs] with its [num_iodevs]
    entries. *)
Definition stream_added_collected (rstream : cras_rstream) (st : iodev_list) : added_scan :=
  let st1 := emit st (EvMainLog (MAIN_THREAD_STREAM_ADDED (stream_id rstream)
                                   (direction rstream) (buffer_frames rstream))) in
  let st2 := stream_added_catch rstream st1 in
  stream_added_floop rstream
    (stream_added_scan rstream (enabled_devs st2 (direction rstream)) (scan_start st2)).

Definition close_pinned_device (p : dev_ptr) (st : iodev_list) : iodev_list :=
  update_active_node p 0 (close_dev p st).

Definition pinned_stream_removed (rstream : cras_rstream) (st : iodev_list) : iodev_list :=
  match find_pinned_device rstream st with
  | None => st
  | Some p =>
      if negb (cras_iodev_list_dev_is_enabled st p)
         && negb (stream_list_has_pinned_stream (stream_list st) (dev_idx (deref st p)))
      then close_pinned_device p st
      else st
  end.

(** [init_device_cb(timer, arg)], where [arg] is the retry record at
    position [i] of [init_retries].  The timer that fires keeps a pointer
    to a record of the list; at a position outside it there is nothing to
    run.  The device is looked up with [retry->dev_idx] as [find_dev]
    receives it, a [size_t] of [size_t_bits] bits. *)
Definition init_device_cb (size_t_bits : Z) (i : nat) (st : iodev_list) : iodev_list :=
  match init_retries st !! i with
  | None => st
  | Some idx =>
      let dev := find_dev st (retry_dev_index size_t_bits idx) in
      let st1 := set_init_retries st (delete i (init_retries st)) in
      match dev with
      | None => st1
      | Some p =>
          if cras_iodev_is_open (deref st1 p) then st1
          else
            let '(rc, st2) := init_and_attach_streams p st1 in
            if rc <? 0 then st2
            else possibly_disable_fallback (dev_direction (deref st2 p)) st2
      end
  end.

Definition cras_iodev_list_suspend_dev (dev_idx_ : Z) (st : iodev_list) : iodev_list :=
  match find_dev st dev_idx_ with
  | None => st
  | Some p => update_active_node p 0 (close_dev p st)
  end.

Definition cras_iodev_list_resume_dev (dev_idx_ : Z) (st : iodev_list) : iodev_list :=
  match find_dev st dev_idx_ with
  | None => st
  | Some p =>
      let st1 := update_active_node p 1 st in
      let '(rc, st2) := init_and_attach_streams p st1 in
      if rc =? 0 then
        if negb (stream_list_has_pinned_stream (stream_list st2) dev_idx_)
        then possibly_disable_fallback (dev_direction (deref st2 p)) st2
        else st2
      else snd (schedule_init_device_retry p st2)
  end.

(** [find_hotword_stream_dev(&dev, &stream)]: the return code, and the
    first hotword stream of the list with the device of its pinned index.
    Without a hotword stream the loop leaves [*stream] NULL. *)
Definition find_hotword_stream_dev (st : iodev_list)
  : Z * option (dev_ptr * cras_rstream) :=
  match List.find is_hotword_stream (stream_list st) with
  | None => (0, None)
  | Some s =>
      match find_dev st (pinned_dev_idx s) with
      | None => (- ENOENT, None)
      | Some p => (0, Some (p, s))
      end
  end.

(** The loop of the two hotword functions: every hotword stream pinned to
    the index of [hotword_dev] is disconnected from [from] and added to
    [to]. *)
Definition move_hotword_stream (hotword_dev : dev_ptr) (from : option dev_ptr)
    (to : dev_ptr) (st : iodev_list) (s : cras_rstream) : iodev_list :=
  if negb (is_hotword_stream s) then st
  else if negb (pinned_dev_idx s =? dev_idx (deref st hotword_dev)) then st
  else
    let st1 := emit st (EvAudioThreadDisconnectStream (stream_id s) from) in
    emit st1 (EvAudioThreadAddStream (stream_id s) [to]
                (audio_thread_add_stream s [deref st1 to])).

Definition move_hotword_streams (hotword_dev : dev_ptr) (from : option dev_ptr)
    (to : dev_ptr) (st : iodev_list) : iodev_list :=
  fold_left (move_hotword_stream hotword_dev from to) (stream_list st) st.

(** [cras_iodev_list_suspend_hotword_streams].  The result is [None] where
    the C code calls [init_pinned_device] on a NULL [empty_hotword_dev]. *)
Definition cras_iodev_list_suspend_hotword_streams (st : iodev_list)
  : option (Z * iodev_list) :=
  match find_hotword_stream_dev st with
  | (rc, None) =>
      if negb (rc =? 0) then Some (rc, st)
      else Some (0, set_hotword_suspended true st)
  | (_, Some (hotword_dev, stream)) =>
      match empty_hotword_dev st with
      | None => None
      | Some e =>
          let st1 := snd (init_pinned_device e stream st) in
          let st2 := move_hotword_streams hotword_dev (Some hotword_dev) e st1 in
          Some (0, set_hotword_suspended true (close_pinned_device hotword_dev st2))
      end
  end.

(** [cras_iodev_list_resume_hotword_stream].  The result is [None] where
    the C code calls [close_pinned_device] on a NULL [empty_hotword_dev]. *)
Definition cras_iodev_list_resume_hotword_stream (st : iodev_list)
  : option (Z * iodev_list) :=
  match find_hotword_stream_dev st with
  | (rc, None) =>
      if negb (rc =? 0) then Some (rc, st)
      else Some (0, set_hotword_suspended false st)
  | (_, Some (hotword_dev, stream)) =>
      let st1 := snd (init_pinned_device hotword_dev stream st) in
      let st2 := move_hotword_streams hotword_dev (empty_hotword_dev st1) hotword_dev st1 in
      match empty_hotword_dev st2 with
      | None => None
      | Some e => Some (0, set_hotword_suspended false (close_pinned_device e st2))
      end
  end.

(** ** Flexible loopback pairs and the reset (cras_iodev_list.c) *)

(** The loop of [cras_iodev_list_enable_floop_pair] over the stream list. *)
Definition enable_floop_pair_stream (pair : cras_floop_pair) (st : iodev_list)
    (stream : cras_rstream) : iodev_list :=
  if cras_floop_pair_match_output_stream pair stream then
    let '(rc, st1) := init_device (fp_output pair) stream st in
    if negb (rc =? 0) then st1
    else snd (add_stream_to_open_devs stream [fp_output pair] st1)
  else st.

Definition cras_iodev_list_enable_floop_pair (pair : cras_floop_pair) (st : iodev_list)
  : iodev_list :=
  fold_left (enable_floop_pair_stream pair) (stream_list st) st.

Definition cras_iodev_list_disable_floop_pair (pair : cras_floop_pair) (st : iodev_list)
  : iodev_list :=
  close_dev (fp_output pair) st.

End DeviceListMoreDefs.

(** From [st] to [st'] no init retry was scheduled: the list of pending
    retries only lost records, and the trace grew by events none of which
    creates a timer. *)
Definition is_timer_create (e : server_event) : bool :=
  match e with EvTimerCreate _ _ => true | _ => false end.

Definition no_new_retry (st st' : iodev_list) : Prop :=
  init_retries st' `sublist_of` init_retries st
  /\ exists evs, trace st' = trace st ++ evs
                 /\ Forall (fun e => is_timer_create e = false) evs.

(** ** The device registry (cras_iodev_list.c)

    The functions that add and remove devices, with the file-scope
    variables they use beyond those of the routing functions:
    [next_iodev_idx] and the list [device_enable_cbs]. *)

Definition EBUSY : Z := 16.

Definition set_devs (st : iodev_list) (dir : CRAS_STREAM_DIRECTION) (l : list dev_ptr)
  : iodev_list :=
  {| iodevs := iodevs st;
     devs := fun d => if bool_decide (d = dir) then l else devs st d;
     enabled_devs := enabled_devs st;
     fallback_devs := fallback_devs st; empty_hotword_dev := empty_hotword_dev st;
     init_retries := init_retries st; floop_pair_list := floop_pair_list st;
     stream_list := stream_list st;
     stream_list_suspended := stream_list_suspended st;
     hotword_suspended := hotword_suspended st;
     non_dsp_aec_echo_ref_dev_alive := non_dsp_aec_echo_ref_dev_alive st;
     aec_on_dsp_is_disallowed := aec_on_dsp_is_disallowed st;
     system := system st; trace := trace st |}.

Definition set_dev_idx (i : Z) (d : cras_iodev) : cras_iodev :=
  {| dev_idx := i; max_supported_channels := max_supported_channels d;
     last_open_result := last_open_result d; dev_direction := dev_direction d;
     dev_state := dev_state d; dev_format := dev_format d;
     active_node := active_node d; is_enabled := is_enabled d;
     idle_timeout_sec := idle_timeout_sec d;
     echo_reference_dev := echo_reference_dev d |}.

Definition set_dev_format (f : option cras_audio_format) (d : cras_iodev) : cras_iodev :=
  {| dev_idx := dev_idx d; max_supported_channels := max_supported_channels d;
     last_open_result := last_open_result d; dev_direction := dev_direction d;
     dev_state := dev_state d; dev_format := f;
     active_node := active_node d; is_enabled := is_enabled d;
     idle_timeout_sec := idle_timeout_sec d;
     echo_reference_dev := echo_reference_dev d |}.

(** [struct device_enabled_cb]; [cb_data] is an address. *)
Record device_enabled_cb : Type := {
  enabled_cb : callback_ptr;
  disabled_cb : callback_ptr;
  removed_cb : callback_ptr;
  cb_data : Z
}.

(** The calls of the registry functions that the routing functions do not
    make: a [removed_cb] callback, the log entry of an added device, and
    [cras_observer_notify_active_node].  The node id of the notification
    is made by [cras_make_node_id] of cras_types.h, which is not among the
    sources: the event carries its two arguments, the device index and the
    node index, and [None] for the id 0. *)
Inductive registry_event : Type :=
| EvRemovedCb (cb : nat) (dev : dev_ptr) (data : Z)
| EvMainLogAddToDevList (idx : Z) (dir : CRAS_STREAM_DIRECTION)
| EvNotifyActiveNode (dir : CRAS_STREAM_DIRECTION) (node : option (Z * Z)).

(** The state of the registry.  Each event of [registry_trace] comes with
    the length the trace of [list_state] had when the call was made, which
    fixes its place among the calls recorded there. *)
Record registry : Type := {
  list_state : iodev_list;
  next_iodev_idx : Z;
  device_enable_cbs : list device_enabled_cb;
  registry_trace : list (nat * registry_event)
}.

Definition with_list (r : registry) (st : iodev_list) : registry :=
  {| list_state := st; next_iodev_idx := next_iodev_idx r;
     device_enable_cbs := device_enable_cbs r; registry_trace := registry_trace r |}.

Definition set_next_iodev_idx (r : registry) (i : Z) : registry :=
  {| list_state := list_state r; next_iodev_idx := i;
     device_enable_cbs := device_enable_cbs r; registry_trace := registry_trace r |}.

Definition set_device_enable_cbs (r : registry) (l : list device_enabled_cb) : registry :=
  {| list_state := list_state r; next_iodev_idx := next_iodev_idx r;
     device_enable_cbs := l; registry_trace := registry_trace r |}.

Definition registry_emit (r : registry) (e : registry_event) : registry :=
  {| list_state := list_state r; next_iodev_idx := next_iodev_idx r;
     device_enable_cbs := device_enable_cbs r;
     registry_trace := registry_trace r ++ [(length (trace (list_state r)), e)] |}.

(** The events of the registry trace, without their places. *)
Definition registry_events (r : registry) : list registry_event :=
  map snd (registry_trace r).

(** [cras_iodev_list_get_first_enabled_iodev]. *)
Definition cras_iodev_list_get_first_enabled_iodev (st : iodev_list)
    (direction : CRAS_STREAM_DIRECTION) : option dev_ptr :=
  head (enabled_devs st direction).

(** [cras_iodev_list_get_active_node_id]: the arguments it passes to
    [cras_make_node_id], [None] where it returns 0. *)
Definition cras_iodev_list_get_active_node_id (st : iodev_list)
    (direction : CRAS_STREAM_DIRECTION) : option (Z * Z) :=
  match enabled_devs st direction with
  | [] => None
  | p :: _ =>
      match active_node (deref st p) with
      | None => None
      | Some n => Some (dev_idx (deref st p), node_idx n)
      end
  end.

(** [cras_iodev_list_set_device_enabled_callback].  The record of a new
    callback is written without a test of what [calloc] returned: the
    result is [None] where [calloc] fails. *)
Definition cras_iodev_list_set_device_enabled_callback
    (enabled disabled removed : callback_ptr) (data : Z) (calloc_ok : bool)
    (r : registry) : option (Z * registry) :=
  let kept := List.filter (fun c => negb (cb_data c =? data)) (device_enable_cbs r) in
  match enabled, disabled with
  | Some _, Some _ =>
      if calloc_ok
      then Some (0, set_device_enable_cbs r
                      (kept ++ [{| enabled_cb := enabled; disabled_cb := disabled;
                                   removed_cb := removed; cb_data := data |}]))
      else None
  | _, _ => Some (0, set_device_enable_cbs r kept)
  end.

(** The [while (1)] loop of [add_dev_to_list]: [used] holds the indices
    of the devices of the list, [new_idx] is a [uint32_t]. *)
Fixpoint next_free_idx (fuel : nat) (special : Z) (new_idx : Z) (used : list Z)
  : option Z :=
  match fuel with
  | O => None
  | S fuel' =>
      let new_idx := if new_idx <? special then special else new_idx in
      if existsb (Z.eqb new_idx) used
      then next_free_idx fuel' special (to_uint32 (new_idx + 1)) used
      else Some new_idx
  end.

(** [DL_DELETE] of the device [p] from a list of devices. *)
Fixpoint dl_delete (p : dev_ptr) (l : list dev_ptr) : list dev_ptr :=
  match l with
  | [] => []
  | q :: rest => if bool_decide (q = p) then rest else q :: dl_delete p rest
  end.

(** The two results of the loop of [cras_iodev_list_disable_dev] over the
    enabled list: the position of the last node of the device, and whether
    every node is of the device. *)
Fixpoint disable_dev_scan (l : list dev_ptr) (i : nat) (p : dev_ptr)
    (acc : option nat * bool) : option nat * bool :=
  match l with
  | [] => acc
  | e :: rest =>
      disable_dev_scan rest (S i) p
        (if bool_decide (e = p) then (Some i, snd acc) else (fst acc, false))
  end.

Section Registry.
Context `{!IodevListEnv}.

(** [add_dev_to_list]; the result is [None] when the search for a free
    index does not end within [fuel] rounds. *)
Definition add_dev_to_list (fuel : nat) (p : dev_ptr) (r : registry)
  : option (Z * registry) :=
  let st := list_state r in
  let dir := dev_direction (deref st p) in
  if bool_decide (p ∈ devs st dir) then Some (- EEXIST, r)
  else
    let st1 := update_dev p (set_dev_format None) st in
    match next_free_idx fuel (to_uint32 MAX_SPECIAL_DEVICE_IDX) (next_iodev_idx r)
                        (map (fun q => dev_idx (deref st1 q)) (devs st1 dir)) with
    | None => None
    | Some new_idx =>
        let st2 := update_dev p (set_dev_idx new_idx) st1 in
        let st3 := set_devs st2 dir (p :: devs st2 dir) in
        Some (0, set_next_iodev_idx (with_list r (emit st3 EvUpdateDeviceList))
                                    (to_uint32 (new_idx + 1)))
    end.

(** The first loop of [rm_dev_from_list], over the callbacks. *)
Definition run_removed_cbs (p : dev_ptr) (r : registry) : registry :=
  fold_left (fun r c =>
               match removed_cb c with
               | Some f => registry_emit r (EvRemovedCb f p (cb_data c))
               | None => r
               end)
            (device_enable_cbs r) r.

Definition rm_dev_from_list (p : dev_ptr) (r : registry) : Z * registry :=
  let r1 := run_removed_cbs p r in
  let st := list_state r1 in
  let dir := dev_direction (deref st p) in
  if bool_decide (p ∈ devs st dir) then
    if cras_iodev_is_open (deref st p) then (- EBUSY, r1)
    else (0, with_list r1 (set_devs st dir (dl_delete p (devs st dir))))
  else (- EINVAL, r1).

Definition cras_iodev_list_add_output (fuel : nat) (output : dev_ptr) (r : registry)
  : option (Z * registry) :=
  if negb (bool_decide (dev_direction (deref (list_state r) output) = CRAS_STREAM_OUTPUT))
  then Some (- EINVAL, r)
  else
    match add_dev_to_list fuel output r with
    | None => None
    | Some (rc, r1) =>
        if negb (rc =? 0) then Some (rc, r1)
        else Some (0, registry_emit r1
                        (EvMainLogAddToDevList (dev_idx (deref (list_state r1) output))
                                               CRAS_STREAM_OUTPUT))
    end.

Definition cras_iodev_list_add_input (fuel : nat) (input : dev_ptr) (r : registry)
  : option (Z * registry) :=
  if negb (bool_decide (dev_direction (deref (list_state r) input) = CRAS_STREAM_INPUT))
  then Some (- EINVAL, r)
  else
    match add_dev_to_list fuel input r with
    | None => None
    | Some (rc, r1) =>
        if negb (rc =? 0) then Some (rc, r1)
        else Some (0, registry_emit r1
                        (EvMainLogAddToDevList (dev_idx (deref (list_state r1) input))
                                               CRAS_STREAM_INPUT))
    end.

Definition cras_iodev_list_notify_active_node_changed (direction : CRAS_STREAM_DIRECTION)
    (r : registry) : registry :=
  registry_emit r (EvNotifyActiveNode direction
                     (cras_iodev_list_get_active_node_id (list_state r) direction)).

(** [cras_iodev_list_disable_dev]. *)
Definition cras_iodev_list_disable_dev (p : dev_ptr) (force_close : bool) (r : registry)
  : registry :=
  let st := list_state r in
  let dir := dev_direction (deref st p) in
  let '(edev_to_disable, is_the_only_enabled_device) :=
    disable_dev_scan (enabled_devs st dir) 0 p (None, true) in
  match edev_to_disable with
  | None => if force_close then with_list r (close_pinned_device p st) else r
  | Some i =>
      let st1 :=
        match fallback_devs st dir with
        | Some fb => if is_the_only_enabled_device then snd (enable_device fb st) else st
        | None => st
        end in
      let st2 := snd (disable_device i p force_close st1) in
      cras_iodev_list_notify_active_node_changed (dev_direction (deref st2 p))
                                                 (with_list r st2)
  end.

Definition cras_iodev_list_rm_output (p : dev_ptr) (r : registry) : Z * registry :=
  let r1 := cras_iodev_list_disable_dev p true r in
  let '(res, r2) := rm_dev_from_list p r1 in
  if res =? 0 then (res, with_list r2 (emit (list_state r2) EvUpdateDeviceList))
  else (res, r2).

Definition cras_iodev_list_rm_input (p : dev_ptr) (r : registry) : Z * registry :=
  let r1 := cras_iodev_list_disable_dev p true r in
  let '(res, r2) := rm_dev_from_list p r1 in
  if res =? 0 then (res, with_list r2 (emit (list_state r2) EvUpdateDeviceList))
  else (res, r2).

(** The loop of [cras_iodev_list_reset] over the loopback pairs: each pair
    leaves the list, and its output device is closed. *)
Fixpoint reset_floop_pairs (l : list cras_floop_pair) (st : iodev_list) : iodev_list :=
  match l with
  | [] => st
  | fpair :: rest =>
      reset_floop_pairs rest
        (cras_iodev_list_disable_floop_pair fpair (set_floop_pair_list st rest))
  end.

Definition cras_iodev_list_reset (st : iodev_list) : iodev_list :=
  let st1 := set_enabled_devs st CRAS_STREAM_OUTPUT [] in
  let st2 := set_enabled_devs st1 CRAS_STREAM_INPUT [] in
  let st3 := reset_floop_pairs (floop_pair_list st2) st2 in
  let st4 := set_enabled_devs st3 CRAS_STREAM_INPUT [] in
  set_devs (set_devs st4 CRAS_STREAM_OUTPUT []) CRAS_STREAM_INPUT [].

End Registry.

(** The index the loop of [add_dev_to_list] tests in its round [j], when
    it starts from [new_idx]: the indices from [special] to 2^32 - 1, in a
    circle. *)
Definition idx_candidate (special new_idx : Z) (j : nat) : Z :=
  special
  + ((if new_idx <? special then special else new_idx) - special + Z.of_nat j)
    mod (2 ^ 32 - special).

(** The [removed_cb] calls of [rm_dev_from_list] for the device [p]. *)
Definition removed_cb_events (p : dev_ptr) (l : list device_enabled_cb)
  : list registry_event :=
  flat_map (fun c => match removed_cb c with
                     | Some f => [EvRemovedCb f p (cb_data c)]
                     | None => []
                     end) l.

(** ** More concrete inputs *)

(** A capture stream whose buffer holds 600 frames, with a callback that
    takes half of what it is offered. *)
Definition capture_600 : client_stream sab_header :=
  {| cs_id := 65538; cs_aud_fd := 9; cs_direction := CRAS_STREAM_INPUT; cs_flags := 0;
     cs_config := {| sp_buffer_frames := 4096; sp_cb_threshold := 480;
                     sp_stream_cb := None; sp_unified_cb := None;
                     sp_aud_cb := fun frames => frames / 2 |};
     cs_shm := {| read_buf_idx := 0; write_buf_idx := 1; read_offset := (0, 0);
                  write_offset := (2400, 0); frame_bytes := 4;
                  used_size := 4096 * 4 |} |}.

(** A wake-up during warm-up, with a message waiting on the socket. *)
Definition poll_warmup : poll_input :=
  {| pi_thread_state := CRAS_THREAD_WARMUP; pi_poll_rc := 1; pi_aud_pollin := true;
     pi_aud_nread := sizeof_audio_message;
     pi_aud_msg := {| am_id := AUDIO_MESSAGE_REQUEST_DATA; am_error := 0;
                      am_frames := 512 |};
     pi_wake_pollin := true; pi_wake_read := 1; pi_sys := sys_ok |}.

(** A wake-up by a request whose reply cannot be written: the server has
    closed the audio socket. *)
Definition poll_request_reply_fails : poll_input :=
  {| pi_thread_state := CRAS_THREAD_RUNNING; pi_poll_rc := 1; pi_aud_pollin := true;
     pi_aud_nread := sizeof_audio_message;
     pi_aud_msg := {| am_id := AUDIO_MESSAGE_REQUEST_DATA; am_error := 0;
                      am_frames := 512 |};
     pi_wake_pollin := false; pi_wake_read := 0;
     pi_sys := {| sys_cb_data_alloc := true; sys_errno := EPIPE; sys_aud_write := -1;
                  sys_stream_pipe_write := sizeof_stream_msg |} |}.

(** A connected client (id 3) with one callback, and the same client
    while it waits for the socket file. *)
Definition client_connected : cras_client :=
  {| id := 3; server_fd_state := CRAS_SOCKET_STATE_CONNECTED;
     next_stream_id := 0; streams := [];
     observer_ops := set_observer_op no_observer_ops CRAS_CLIENT_NODES_CHANGED (Some 1%nat);
     server_connection_cb := Some 5%nat;
     server_event_value := 1; client_trace := [] |}.

Definition client_waiting : cras_client :=
  {| id := -1; server_fd_state := CRAS_SOCKET_STATE_WAIT_FOR_SOCKET;
     next_stream_id := 0; streams := [];
     observer_ops := set_observer_op no_observer_ops CRAS_CLIENT_NODES_CHANGED (Some 1%nat);
     server_connection_cb := Some 5%nat;
     server_event_value := 0; client_trace := [] |}.

(** A server socket that takes only 4 bytes of every message. *)
Definition socket_short_write : ServerSocket :=
  {| sizeof_register_notification := 16;
     server_write := fun _ => 4;
     server_write_errno := fun _ => 0 |}.

(** A hotword setup while hotword is suspended: the hotword microphone, of
    index 7 and at address 21, is registered and closed; the empty hotword
    device is at address 20; one hotword stream is pinned to index 7. *)
Definition mono_16k : cras_audio_format :=
  {| fmt_format := 0; frame_rate := 16000; num_channels := 1 |}.

Definition hotword_mic : cras_iodev :=
  {| dev_idx := 7; max_supported_channels := 1; last_open_result := SUCCESS;
     dev_direction := CRAS_STREAM_INPUT; dev_state := CRAS_IODEV_STATE_CLOSE;
     dev_format := None;
     active_node := Some {| node_idx := 0; node_type := CRAS_NODE_TYPE_HOTWORD |};
     is_enabled := false; idle_timeout_sec := 0; echo_reference_dev := None |}.

Definition empty_hotword : cras_iodev :=
  {| dev_idx := 3; max_supported_channels := 2; last_open_result := SUCCESS;
     dev_direction := CRAS_STREAM_INPUT; dev_state := CRAS_IODEV_STATE_CLOSE;
     dev_format := None;
     active_node := Some {| node_idx := 0; node_type := CRAS_NODE_TYPE_HOTWORD |};
     is_enabled := false; idle_timeout_sec := 0; echo_reference_dev := None |}.

Definition hotword_stream : cras_rstream :=
  {| stream_id := 262144; direction := CRAS_STREAM_INPUT; is_pinned := true;
     pinned_dev_idx := 7; flags := HOTWORD_STREAM; format := mono_16k;
     cb_threshold := 320; buffer_frames := 640; stream_apm := false |}.

Definition input_only (l : list dev_ptr) (dir : CRAS_STREAM_DIRECTION) : list dev_ptr :=
  match dir with CRAS_STREAM_INPUT => l | _ => [] end.

Definition list_hotword (suspended : bool) : iodev_list :=
  {| iodevs := <[20%nat := empty_hotword]> (<[21%nat := hotword_mic]> ∅);
     devs := input_only [21%nat];
     enabled_devs := fun _ => [];
     fallback_devs := fun _ => None;
     empty_hotword_dev := Some 20%nat; init_retries := [];
     floop_pair_list := []; stream_list := [hotword_stream];
     stream_list_suspended := false; hotword_suspended := suspended;
     non_dsp_aec_echo_ref_dev_alive := false; aec_on_dsp_is_disallowed := false;
     system := default_settings; trace := [] |}.

(** The speaker list after a failed open: the speaker is closed and one
    init retry for its index 5 is pending. *)
Definition list_pending : iodev_list :=
  set_init_retries (update_dev 11%nat cras_iodev_close list_speaker) [5].

(** The registry of the speaker list: a headphone device is allocated at
    address 12 and not registered; [next_iodev_idx] is 5, the index the
    speaker has; one client has registered callbacks with a [removed_cb]. *)
Definition headphone : cras_iodev :=
  {| dev_idx := 0; max_supported_channels := 2; last_open_result := SUCCESS;
     dev_direction := CRAS_STREAM_OUTPUT; dev_state := CRAS_IODEV_STATE_CLOSE;
     dev_format := Some stereo_48k;
     active_node := Some {| node_idx := 0; node_type := CRAS_NODE_TYPE_HEADPHONE |};
     is_enabled := false; idle_timeout_sec := 0; echo_reference_dev := None |}.

Definition registry_speaker : registry :=
  {| list_state := set_iodevs list_speaker (<[12%nat := headphone]> (iodevs list_speaker));
     next_iodev_idx := 5;
     device_enable_cbs := [{| enabled_cb := Some 1%nat; disabled_cb := Some 2%nat;
                              removed_cb := Some 3%nat; cb_data := 100 |}];
     registry_trace := [] |}.

(** Eleven speakers, at the addresses 30 to 40 with the indices 30 to 40,
    all open with two channels and enabled; the fallback is not. *)
Definition crowd : list nat := seq 30 11.

Definition list_crowded : iodev_list :=
  {| iodevs := foldr (fun a m => <[a := set_dev_idx (Z.of_nat a) speaker]> m)
                     (<[10%nat := fallback_output]> ∅) crowd;
     devs := output_only crowd;
     enabled_devs := output_only crowd;
     fallback_devs := fun dir => match dir with
                                 | CRAS_STREAM_OUTPUT => Some 10%nat
                                 | _ => None
                                 end;
     empty_hotword_dev := None; init_retries := [];
     floop_pair_list := []; stream_list := [stereo_stream];
     stream_list_suspended := false; hotword_suspended := false;
     non_dsp_aec_echo_ref_dev_alive := false; aec_on_dsp_is_disallowed := false;
     system := default_settings; trace := [] |}.

(** * Part V.  The connection to the server (cras_client.c)

    The socket state machine of the control task, with the fields of
    [struct cras_client] it uses beyond those of Part II. *)

Definition ENOTCONN : Z := 107.
Definition ECONNREFUSED : Z := 111.
Definition EINPROGRESS : Z := 115.

(** The event bits of [poll]. *)
Definition POLLIN : Z := 1.
Definition POLLOUT : Z := 4.
Definition POLLHUP : Z := 16.

Definition has_event (poll_revents bit : Z) : bool :=
  negb (Z.land poll_revents bit =? 0).

(** Modelled from the spec: every message between client and server
    begins with a [length] of 32 bits (cras_messages.h is not among the
    sources); this is [sizeof(msg->length)]. *)
Definition sizeof_msg_length : Z := 4.

(** [client->server_state]: NULL, the value [mmap] returns when it fails,
    or a mapped region. *)
Inductive server_state_ptr : Type :=
| SERVER_STATE_NULL
| SERVER_STATE_MAP_FAILED
| SERVER_STATE_MAPPED.

(** The messages of the server that [handle_message_from_server] tells
    apart, with the fields it reads. *)
Inductive cras_client_message : Type :=
| MSG_CLIENT_CONNECTED (client_id : Z)
| MSG_STREAM_CONNECTED (stream_id : Z)
| MSG_AUDIO_DEBUG_INFO_READY
| MSG_ATLOG_FD_READY
| MSG_GET_HOTWORD_MODELS_READY
| MSG_REQUEST_FLOOP_READY (dev_idx tag : Z)
| MSG_CHANGED (n : CRAS_CLIENT_MESSAGE_ID) (values : list Z)
| MSG_OTHER.

(** What [cras_recv_with_fds] gives: its return value, the [length] field
    of the message as an [int], the number of descriptors received and the
    descriptors, and the message. *)
Record server_recv : Type := {
  recv_nread : Z;
  recv_length : Z;
  recv_num_fds : Z;
  recv_fd0 : Z;
  recv_fd1 : Z;
  recv_msg : cras_client_message
}.

(** The calls of the state machine that Part II does not record: system
    calls with their results, callbacks of the application, and the parts
    of the client that are not modelled further. *)
Inductive conn_event : Type :=
| EvStreamErrCb (stream_id error : Z)
| EvDisconnectStreamWrite (stream_id : Z)
| EvStreamShutDown (stream_id : Z)
| EvMunmapServerState
| EvShutdownAndCloseSocket (fd : Z)
| EvClose (fd : Z)
| EvTimerfdCreate (fd : Z)
| EvTimerfdSettime (fd rc : Z)
| EvSocket (fd : Z)
| EvMakeFdNonblocking (fd : Z)
| EvMakeFdBlocking (fd : Z)
| EvConnect (fd rc : Z)
| EvRecvWithFds (fd : Z)
| EvMmapServerState (fd : Z)
| EvStreamConnected (stream_id rc : Z)
| EvAttachAtlog (fd : Z)
| EvRequestFloopReady (dev_idx tag : Z)
| EvAppCallback (cb : nat) (values : list Z).

(** The client of Part II with the server socket, the flag of the socket
    file, the server state pointer and three one-shot callbacks.  Each
    event of [conn_trace] comes with the length [client_trace] had when
    the call was made. *)
Record conn_client : Type := {
  base : cras_client;
  server_fd : Z;
  sock_file_exists : bool;
  server_state : server_state_ptr;
  debug_info_callback : callback_ptr;
  atlog_access_callback : callback_ptr;
  get_hotword_models_cb : callback_ptr;
  conn_trace : list (nat * conn_event)
}.

Definition with_base (c : conn_client) (b : cras_client) : conn_client :=
  {| base := b; server_fd := server_fd c; sock_file_exists := sock_file_exists c;
     server_state := server_state c; debug_info_callback := debug_info_callback c;
     atlog_access_callback := atlog_access_callback c;
     get_hotword_models_cb := get_hotword_models_cb c; conn_trace := conn_trace c |}.

Definition set_server_fd (c : conn_client) (fd : Z) : conn_client :=
  {| base := base c; server_fd := fd; sock_file_exists := sock_file_exists c;
     server_state := server_state c; debug_info_callback := debug_info_callback c;
     atlog_access_callback := atlog_access_callback c;
     get_hotword_models_cb := get_hotword_models_cb c; conn_trace := conn_trace c |}.

Definition set_sock_file_exists (c : conn_client) (b : bool) : conn_client :=
  {| base := base c; server_fd := server_fd c; sock_file_exists := b;
     server_state := server_state c; debug_info_callback := debug_info_callback c;
     atlog_access_callback := atlog_access_callback c;
     get_hotword_models_cb := get_hotword_models_cb c; conn_trace := conn_trace c |}.

Definition set_server_state (c : conn_client) (s : server_state_ptr) : conn_client :=
  {| base := base c; server_fd := server_fd c; sock_file_exists := sock_file_exists c;
     server_state := s; debug_info_callback := debug_info_callback c;
     atlog_access_callback := atlog_access_callback c;
     get_hotword_models_cb := get_hotword_models_cb c; conn_trace := conn_trace c |}.

Definition set_one_shot_callbacks (c : conn_client)
    (debug_info atlog_access hotword_models : callback_ptr) : conn_client :=
  {| base := base c; server_fd := server_fd c; sock_file_exists := sock_file_exists c;
     server_state := server_state c; debug_info_callback := debug_info;
     atlog_access_callback := atlog_access;
     get_hotword_models_cb := hotword_models; conn_trace := conn_trace c |}.

Definition conn_emit (c : conn_client) (e : conn_event) : conn_client :=
  {| base := base c; server_fd := server_fd c; sock_file_exists := sock_file_exists c;
     server_state := server_state c; debug_info_callback := debug_info_callback c;
     atlog_access_callback := atlog_access_callback c;
     get_hotword_models_cb := get_hotword_models_cb c;
     conn_trace := conn_trace c ++ [(length (client_trace (base c)), e)] |}.

(** The events of [conn_trace], without their places. *)
Definition conn_events (c : conn_client) : list conn_event := map snd (conn_trace c).

Definition set_client_id (b : cras_client) (i : Z) : cras_client :=
  {| id := i; server_fd_state := server_fd_state b; next_stream_id := next_stream_id b;
     streams := streams b; observer_ops := observer_ops b;
     server_connection_cb := server_connection_cb b;
     server_event_value := server_event_value b; client_trace := client_trace b |}.

(** The answers of the system.  Each is asked with the number of calls
    recorded in [conn_trace] so far, so that it can change from call to
    call: the descriptors [timerfd_create] and [socket] return (-1 when
    they fail), the return values of [timerfd_settime] and [connect], the
    [errno] a failed call leaves, what [cras_recv_with_fds] reads, whether
    [mmap] maps the server state and the state has the version of the
    client, and the return value of [stream_connected]. *)
Class ConnSys : Type := {
  conn_timerfd_create : nat -> Z;
  conn_timerfd_settime : nat -> Z;
  conn_socket : nat -> Z;
  conn_connect : nat -> Z;
  conn_errno : nat -> Z;
  conn_recv : nat -> server_recv;
  conn_mmap_ok : nat -> bool;
  conn_state_version_ok : nat -> bool;
  conn_stream_connected : nat -> Z
}.

Section Connection.
Context `{!ServerSocket} `{!ConnSys}.

Definition now (c : conn_client) : nat := length (conn_trace c).

(** ** Messages from the server *)

(** [client_attach_shm]. *)
Definition client_attach_shm (c : conn_client) (shm_fd : Z) : Z * conn_client :=
  match server_state c with
  | SERVER_STATE_NULL =>
      let mapped := conn_mmap_ok (now c) in
      let rc := - conn_errno (now c) in
      let c1 := conn_emit (conn_emit c (EvMmapServerState shm_fd)) (EvClose shm_fd) in
      if negb mapped then (rc, set_server_state c1 SERVER_STATE_MAP_FAILED)
      else if negb (conn_state_version_ok (now c)) then
        (- EINVAL, set_server_state (conn_emit c1 EvMunmapServerState) SERVER_STATE_NULL)
      else (0, set_server_state c1 SERVER_STATE_MAPPED)
  | _ => (- EBUSY, c)
  end.

(** A one-shot callback: called if it is set, and cleared. *)
Definition run_one_shot (c : conn_client) (cb : callback_ptr) : conn_client :=
  match cb with
  | Some f => conn_emit c (EvAppCallback f [])
  | None => c
  end.

(** [handle_message_from_server].  The ten cases of state-change messages
    are one here: each calls the callback of [observer_ops] for its id, if
    there is one, with the values of the message. *)
Definition handle_message_from_server (c : conn_client) : Z * conn_client :=
  let m := conn_recv (now c) in
  let c0 := conn_emit c (EvRecvWithFds (server_fd c)) in
  if (recv_nread m <? sizeof_msg_length) || negb (recv_length m =? recv_nread m)
  then (- EIO, c0)
  else
    match recv_msg m with
    | MSG_CLIENT_CONNECTED client_id =>
        if negb (recv_num_fds m =? 1) then (- EINVAL, c0)
        else
          let '(rc, c1) := client_attach_shm c0 (recv_fd0 m) in
          if negb (rc =? 0) then (rc, c1)
          else (0, with_base c1 (set_client_id (base c1) client_id))
    | MSG_STREAM_CONNECTED stream_id =>
        if negb (stream_id_in_use (streams (base c0)) stream_id) then
          if negb (recv_num_fds m =? 2) then (- EINVAL, c0)
          else (0, conn_emit (conn_emit c0 (EvClose (recv_fd0 m))) (EvClose (recv_fd1 m)))
        else
          let rc := conn_stream_connected (now c0) in
          let c1 := conn_emit c0 (EvStreamConnected stream_id rc) in
          (0, if rc <? 0 then conn_emit c1 (EvStreamErrCb stream_id rc) else c1)
    | MSG_AUDIO_DEBUG_INFO_READY =>
        (0, set_one_shot_callbacks (run_one_shot c0 (debug_info_callback c0))
              None (atlog_access_callback c0) (get_hotword_models_cb c0))
    | MSG_ATLOG_FD_READY =>
        if negb (recv_num_fds m =? 1) || (recv_fd0 m <? 0) then (- EINVAL, c0)
        else
          let c1 := conn_emit c0 (EvAttachAtlog (recv_fd0 m)) in
          (0, set_one_shot_callbacks (run_one_shot c1 (atlog_access_callback c1))
                (debug_info_callback c1) None (get_hotword_models_cb c1))
    | MSG_GET_HOTWORD_MODELS_READY =>
        match get_hotword_models_cb c0 with
        | None => (0, c0)
        | Some f =>
            (0, set_one_shot_callbacks (conn_emit c0 (EvAppCallback f []))
                  (debug_info_callback c0) (atlog_access_callback c0) None)
        end
    | MSG_REQUEST_FLOOP_READY dev_idx tag =>
        (0, conn_emit c0 (EvRequestFloopReady dev_idx tag))
    | MSG_CHANGED n values =>
        match observer_op (observer_ops (base c0)) n with
        | Some f => (0, conn_emit c0 (EvAppCallback f values))
        | None => (0, c0)
        end
    | MSG_OTHER => (0, c0)
    end.

(** ** The actions of the states *)

Definition conn_move_to_state (c : conn_client) (state : cras_socket_state_t)
  : conn_client :=
  with_base c (server_fd_move_to_state (base c) state).

(** [error_delay_next_action]. *)
Definition error_delay_next_action (c : conn_client) (poll_revents : Z)
  : Z * conn_client :=
  if server_fd c =? -1 then
    let fd := conn_timerfd_create (now c) in
    let errno1 := conn_errno (now c) in
    let c1 := set_server_fd (conn_emit c (EvTimerfdCreate fd)) fd in
    if fd =? -1 then (- errno1, c1)
    else
      let rc := conn_timerfd_settime (now c1) in
      let errno2 := conn_errno (now c1) in
      let c2 := conn_emit c1 (EvTimerfdSettime fd rc) in
      if negb (rc =? 0) then (- errno2, c2) else (0, c2)
  else if negb (has_event poll_revents POLLIN) then (0, c)
  else
    let c1 := set_server_fd (conn_emit c (EvClose (server_fd c))) (-1) in
    (0, conn_move_to_state c1 CRAS_SOCKET_STATE_WAIT_FOR_SOCKET).

(** [wait_for_socket_next_action]. *)
Definition wait_for_socket_next_action (c : conn_client) : conn_client :=
  if sock_file_exists c
  then conn_move_to_state c CRAS_SOCKET_STATE_WAIT_FOR_WRITABLE
  else c.

(** The part of [wait_for_writable_next_action] from [connect] on. *)
Definition connect_to_socket (c : conn_client) : Z * conn_client :=
  let c0 := conn_emit c (EvMakeFdNonblocking (server_fd c)) in
  let rc := conn_connect (now c0) in
  let errno := conn_errno (now c0) in
  let c1 := conn_emit c0 (EvConnect (server_fd c0) rc) in
  if negb (rc =? 0) then
    if - errno =? - ECONNREFUSED then
      (0, set_server_fd (conn_emit c1 (EvClose (server_fd c1))) (-1))
    else if negb (- errno =? - EINPROGRESS) then (- errno, c1)
    else (0, c1)
  else (0, conn_move_to_state (conn_emit c1 (EvMakeFdBlocking (server_fd c1)))
                             CRAS_SOCKET_STATE_FIRST_MESSAGE).

(** [wait_for_writable_next_action]. *)
Definition wait_for_writable_next_action (c : conn_client) (poll_revents : Z)
  : Z * conn_client :=
  if server_fd c =? -1 then
    let fd := conn_socket (now c) in
    let errno := conn_errno (now c) in
    let c1 := set_server_fd (conn_emit c (EvSocket fd)) fd in
    if fd <? 0 then (- errno, c1) else connect_to_socket c1
  else if negb (has_event poll_revents POLLOUT) then (0, c)
  else connect_to_socket c.

(** [connect_transition_action] of Part II, on the client with its
    socket. *)
Definition conn_connect_transition_action (c : conn_client) : Z * conn_client :=
  let '(rc, b) := connect_transition_action (base c) in
  (rc, with_base c b).

(** [first_message_next_action]. *)
Definition first_message_next_action (c : conn_client) (poll_revents : Z)
  : Z * conn_client :=
  if server_fd c <? 0 then (- EINVAL, c)
  else if negb (has_event poll_revents POLLIN) then (0, c)
  else
    let '(rc, c1) := handle_message_from_server c in
    if rc <? 0 then (rc, c1)
    else if 0 <=? id (base c1) then conn_connect_transition_action c1
    else (- EINVAL, c1).

(** ** Disconnecting *)

(** [client_thread_rm_stream] with what it does to the server and to the
    stream: for a stream of the list, a disconnect message is written to
    the server while the socket is CONNECTED, and the stream is shut down
    and leaves the list. *)
Definition conn_rm_stream (c : conn_client) (stream_id : Z) : conn_client :=
  if negb (stream_id_in_use (streams (base c)) stream_id) then c
  else
    let c1 :=
      if bool_decide (server_fd_state (base c) = CRAS_SOCKET_STATE_CONNECTED)
      then conn_emit c (EvDisconnectStreamWrite stream_id)
      else c in
    let c2 := conn_emit c1 (EvStreamShutDown stream_id) in
    with_base c2 (snd (client_thread_rm_stream (base c2) stream_id)).

(** The connection callback, if there is one. *)
Definition run_connection_cb (c : conn_client) (status : cras_connection_status_t)
  : conn_client :=
  match server_connection_cb (base c) with
  | Some _ => with_base c (client_emit (base c) (EvConnectionCb status))
  | None => c
  end.

(** [disconnect_transition_action].  The loop over the streams goes
    through the list as it is when the loop begins. *)
Definition disconnect_transition_action (c : conn_client) (force : bool) : conn_client :=
  let old_state := server_fd_state (base c) in
  let c1 :=
    fold_left (fun c s =>
                 conn_rm_stream (conn_emit c (EvStreamErrCb (st_id s) (- ENOTCONN)))
                                (st_id s))
              (streams (base c)) c in
  let c2 :=
    match server_state c1 with
    | SERVER_STATE_NULL => c1
    | _ => set_server_state (conn_emit c1 EvMunmapServerState) SERVER_STATE_NULL
    end in
  let c3 := with_base c2 (set_client_id (base c2) (-1)) in
  let c4 :=
    if 0 <=? server_fd c3 then
      set_server_fd
        (conn_emit c3 (if negb force then EvShutdownAndCloseSocket (server_fd c3)
                       else EvClose (server_fd c3)))
        (-1)
    else c3 in
  let c5 :=
    with_base c4 (set_server_event_value (client_emit (base c4) EvEventfdRead) 0) in
  match old_state with
  | CRAS_SOCKET_STATE_DISCONNECTED => c5
  | CRAS_SOCKET_STATE_ERROR_DELAY =>
      run_connection_cb (conn_move_to_state c5 CRAS_SOCKET_STATE_DISCONNECTED)
                        CRAS_CONN_STATUS_FAILED
  | CRAS_SOCKET_STATE_WAIT_FOR_SOCKET
  | CRAS_SOCKET_STATE_WAIT_FOR_WRITABLE
  | CRAS_SOCKET_STATE_FIRST_MESSAGE =>
      conn_move_to_state c5 CRAS_SOCKET_STATE_ERROR_DELAY
  | CRAS_SOCKET_STATE_CONNECTED =>
      run_connection_cb (conn_move_to_state c5 CRAS_SOCKET_STATE_WAIT_FOR_SOCKET)
                        CRAS_CONN_STATUS_DISCONNECTED
  end.

(** ** The dispatch *)

(** [server_fd_dispatch]; [fuel] bounds the depth of its calls of itself,
    and the result is [None] when that is not enough. *)
Fixpoint server_fd_dispatch (fuel : nat) (c : conn_client) (poll_revents : Z)
  : option (Z * conn_client) :=
  match fuel with
  | O => None
  | S fuel' =>
      let c1 :=
        if has_event poll_revents POLLHUP
        then disconnect_transition_action c true
        else c in
      let old_state := server_fd_state (base c1) in
      match old_state with
      | CRAS_SOCKET_STATE_DISCONNECTED => Some (- ENOTCONN, c1)
      | _ =>
          let '(rc, c2) :=
            match old_state with
            | CRAS_SOCKET_STATE_DISCONNECTED => (0, c1)
            | CRAS_SOCKET_STATE_ERROR_DELAY => error_delay_next_action c1 poll_revents
            | CRAS_SOCKET_STATE_WAIT_FOR_SOCKET => (0, wait_for_socket_next_action c1)
            | CRAS_SOCKET_STATE_WAIT_FOR_WRITABLE =>
                wait_for_writable_next_action c1 poll_revents
            | CRAS_SOCKET_STATE_FIRST_MESSAGE => first_message_next_action c1 poll_revents
            | CRAS_SOCKET_STATE_CONNECTED =>
                if has_event poll_revents POLLIN
                then handle_message_from_server c1
                else (0, c1)
            end in
          if negb (rc =? 0) then server_fd_dispatch fuel' c2 POLLHUP
          else if negb (bool_decide (old_state = server_fd_state (base c2)))
          then server_fd_dispatch fuel' c2 0
          else Some (rc, c2)
      end
  end.

(** [server_connect]. *)
Definition server_connect (fuel : nat) (c : conn_client) : option (Z * conn_client) :=
  if negb (bool_decide (server_fd_state (base c) = CRAS_SOCKET_STATE_DISCONNECTED))
  then Some (0, c)
  else server_fd_dispatch fuel
         (conn_move_to_state c CRAS_SOCKET_STATE_WAIT_FOR_SOCKET) 0.

(** [server_disconnect]. *)
Definition server_disconnect (c : conn_client) : conn_client :=
  if bool_decide (server_fd_state (base c) = CRAS_SOCKET_STATE_DISCONNECTED) then c
  else disconnect_transition_action
         (conn_move_to_state c CRAS_SOCKET_STATE_DISCONNECTED) false.

(** [cras_file_wait_event_t], and [sock_file_wait_callback]. *)
Inductive cras_file_wait_event_t : Type :=
| CRAS_FILE_WAIT_EVENT_NONE
| CRAS_FILE_WAIT_EVENT_CREATED
| CRAS_FILE_WAIT_EVENT_DELETED.

Definition sock_file_wait_callback (fuel : nat) (c : conn_client)
    (event : cras_file_wait_event_t) : option conn_client :=
  match event with
  | CRAS_FILE_WAIT_EVENT_CREATED =>
      let c1 := set_sock_file_exists c true in
      match server_fd_state (base c1) with
      | CRAS_SOCKET_STATE_WAIT_FOR_SOCKET
      | CRAS_SOCKET_STATE_WAIT_FOR_WRITABLE => snd <$> server_fd_dispatch fuel c1 0
      | _ => Some c1
      end
  | CRAS_FILE_WAIT_EVENT_DELETED =>
      let c1 := set_sock_file_exists c false in
      match server_fd_state (base c1) with
      | CRAS_SOCKET_STATE_DISCONNECTED => Some c1
      | _ => snd <$> server_connect fuel (server_disconnect c1)
      end
  | CRAS_FILE_WAIT_EVENT_NONE => Some c
  end.

(** [server_fill_pollfd]: the descriptor and the events asked for. *)
Definition server_fill_pollfd (c : conn_client) : Z * Z :=
  (server_fd c,
   match server_fd_state (base c) with
   | CRAS_SOCKET_STATE_DISCONNECTED => 0
   | CRAS_SOCKET_STATE_WAIT_FOR_WRITABLE => POLLOUT
   | _ => POLLIN
   end).

(** The state [disconnect_transition_action] leaves, by the state it
    finds. *)
Definition state_after_disconnect (old_state : cras_socket_state_t) : cras_socket_state_t :=
  match old_state with
  | CRAS_SOCKET_STATE_DISCONNECTED
  | CRAS_SOCKET_STATE_ERROR_DELAY => CRAS_SOCKET_STATE_DISCONNECTED
  | CRAS_SOCKET_STATE_WAIT_FOR_SOCKET
  | CRAS_SOCKET_STATE_WAIT_FOR_WRITABLE
  | CRAS_SOCKET_STATE_FIRST_MESSAGE => CRAS_SOCKET_STATE_ERROR_DELAY
  | CRAS_SOCKET_STATE_CONNECTED => CRAS_SOCKET_STATE_WAIT_FOR_SOCKET
  end.

(** The calls [disconnect_transition_action] makes for the streams [l]:
    the error callback of each stream, the disconnect message for it when
    the socket is still CONNECTED, and its shutdown. *)
Definition stream_drop_events (connected : bool) (l : list ctl_stream) : list conn_event :=
  flat_map (fun s =>
              EvStreamErrCb (st_id s) (- ENOTCONN)
              :: (if connected then [EvDisconnectStreamWrite (st_id s)] else [])
              ++ [EvStreamShutDown (st_id s)]) l.

(** A bound on the depth of the calls [server_fd_dispatch] makes of
    itself, by the state it acts on, the server descriptor and the events
    of [poll]. *)
Definition dispatch_rank (c : conn_client) (poll_revents : Z) : nat :=
  let c1 :=
    if has_event poll_revents POLLHUP then disconnect_transition_action c true else c in
  match server_fd_state (base c1) with
  | CRAS_SOCKET_STATE_DISCONNECTED => 0
  | CRAS_SOCKET_STATE_ERROR_DELAY =>
      if server_fd c1 =? -1 then 1
      else if has_event poll_revents POLLIN then 5 else 0
  | CRAS_SOCKET_STATE_FIRST_MESSAGE => 2
  | CRAS_SOCKET_STATE_WAIT_FOR_WRITABLE => 3
  | CRAS_SOCKET_STATE_WAIT_FOR_SOCKET => 4
  | CRAS_SOCKET_STATE_CONNECTED => if has_event poll_revents POLLIN then 5 else 0
  end.

(** A client that has an id has a server state pointer that is not NULL,
    and a client in the CONNECTED state has an id. *)
Definition connected_with_id (c : conn_client) : Prop :=
  (0 <= id (base c) -> server_state c <> SERVER_STATE_NULL)
  /\ (server_fd_state (base c) = CRAS_SOCKET_STATE_CONNECTED -> 0 <= id (base c)).

(** From [c] to [c'] the id and the server state pointer are the same,
    and the socket did not become CONNECTED. *)
Definition keeps_identity (c c' : conn_client) : Prop :=
  id (base c') = id (base c)
  /\ server_state c' = server_state c
  /\ (server_fd_state (base c') = server_fd_state (base c)
      \/ server_fd_state (base c') <> CRAS_SOCKET_STATE_CONNECTED).

End Connection.

(** ** Instances for the connection *)

(** A system whose calls succeed, and where the server sends an
    output-volume message with the value 75. *)
Definition conn_sys_volume : ConnSys :=
  {| conn_timerfd_create := fun _ => 9;
     conn_timerfd_settime := fun _ => 0;
     conn_socket := fun _ => 8;
     conn_connect := fun _ => 0;
     conn_errno := fun _ => EAGAIN;
     conn_recv := fun _ =>
       {| recv_nread := 12; recv_length := 12; recv_num_fds := 0;
          recv_fd0 := -1; recv_fd1 := -1;
          recv_msg := MSG_CHANGED CRAS_CLIENT_OUTPUT_VOLUME_CHANGED [75] |};
     conn_mmap_ok := fun _ => true;
     conn_state_version_ok := fun _ => true;
     conn_stream_connected := fun _ => 0 |}.

(** The connected client with one stream, on descriptor 5, with the
    server state mapped, after the socket file has gone. *)
Definition conn_with_stream : conn_client :=
  {| base := client_with_stream; server_fd := 5; sock_file_exists := false;
     server_state := SERVER_STATE_MAPPED; debug_info_callback := None;
     atlog_access_callback := None; get_hotword_models_cb := None;
     conn_trace := [] |}.

(** The connected client without streams, on descriptor 5. *)
Definition conn_connected : conn_client :=
  {| base := client_connected; server_fd := 5; sock_file_exists := true;
     server_state := SERVER_STATE_MAPPED; debug_info_callback := None;
     atlog_access_callback := None; get_hotword_models_cb := None;
     conn_trace := [] |}.

(** A system whose calls succeed, and where the server sends its greeting:
    the client id 7, with one descriptor, 11, for the server state. *)
Definition conn_sys_greeting : ConnSys :=
  {| conn_timerfd_create := fun _ => 9;
     conn_timerfd_settime := fun _ => 0;
     conn_socket := fun _ => 8;
     conn_connect := fun _ => 0;
     conn_errno := fun _ => EAGAIN;
     conn_recv := fun _ =>
       {| recv_nread := 8; recv_length := 8; recv_num_fds := 1;
          recv_fd0 := 11; recv_fd1 := -1;
          recv_msg := MSG_CLIENT_CONNECTED 7 |};
     conn_mmap_ok := fun _ => true;
     conn_state_version_ok := fun _ => true;
     conn_stream_connected := fun _ => 0 |}.

(** A client whose socket, descriptor 5, is connected and that waits for
    the first message of the server; it has a callback for node changes
    and a connection callback. *)
Definition conn_first_message : conn_client :=
  {| base :=
       {| id := -1; server_fd_state := CRAS_SOCKET_STATE_FIRST_MESSAGE;
          next_stream_id := 0; streams := [];
          observer_ops :=
            set_observer_op no_observer_ops CRAS_CLIENT_NODES_CHANGED (Some 1%nat);
          server_connection_cb := Some 5%nat;
          server_event_value := 0; client_trace := [] |};
     server_fd := 5; sock_file_exists := true;
     server_state := SERVER_STATE_NULL; debug_info_callback := None;
     atlog_access_callback := None; get_hotword_models_cb := None;
     conn_trace := [] |}.

(** * Part V.  Properties of the audio task *)

Section AudioTaskFacts.
Context {cras_audio_shm : Type} `{!ShmOps cras_audio_shm}.

Local Abbreviation stream := (client_stream cras_audio_shm).

Lemma MIN_le_l a b : MIN a b <= a.
Proof. unfold MIN. destruct (Z.ltb_spec a b); lia. Qed.

Lemma MIN_le_r a b : MIN a b <= b.
Proof. unfold MIN. destruct (Z.ltb_spec a b); lia. Qed.

Lemma to_uint32_small k : 0 <= k < 2 ^ 32 -> to_uint32 k = k.
Proof. intros Hk. unfold to_uint32. now apply Z.mod_small. Qed.

Lemma call_user_callback_ok config m sys :
  cb_data_available config sys ->
  call_user_callback config m sys = inr (selected_callback config m, [EvUserCallback m]).
Proof.
  unfold cb_data_available, call_user_callback, selected_callback.
  intros Havail. destruct (sp_stream_cb config) as [f|].
  - rewrite Havail by congruence. reflexivity.
  - destruct (sp_unified_cb config); reflexivity.
Qed.

Lemma call_user_callback_no_memory config m sys :
  sp_stream_cb config <> None -> sys_cb_data_alloc sys = false ->
  call_user_callback config m sys = inl (- sys_errno sys).
Proof.
  unfold call_user_callback. intros Hcb Halloc.
  destruct (sp_stream_cb config); [ now rewrite Halloc | congruence ].
Qed.

(** C3.  Capture, DATA_READY with frame count [n]: when the shared buffer
    holds fewer readable frames than the request clamped to the callback
    threshold (to the buffer size for a bulk stream), the handler returns 0
    and leaves the stream as it is, the read pointer with it; no user
    callback runs and nothing is written to the audio socket; the audio
    task goes on to its next wake-up. *)
Theorem capture_overrun_delivers_nothing (s : stream) (n : Z) (sys : audio_sys) :
  cras_stream_has_input (cs_direction s) = true ->
  cras_shm_get_curr_read_frames (cs_shm s)
    < (if Z.land (cs_flags s) BULK_AUDIO_OK =? 0
       then MIN n (sp_cb_threshold (cs_config s))
       else MIN n (sp_buffer_frames (cs_config s))) ->
  handle_capture_data_ready s n sys = (0, s, [])
  /\ forall p rest,
       thread_is_running (pi_thread_state p) = true ->
       0 < read_with_wake_fd
             (match pi_thread_state p with
              | CRAS_THREAD_WARMUP => -1
              | _ => cs_aud_fd s
              end) sizeof_audio_message p ->
       am_id (pi_aud_msg p) = AUDIO_MESSAGE_DATA_READY ->
       am_frames (pi_aud_msg p) = n ->
       audio_thread (p :: rest) s = audio_thread rest s.
Proof.
  intros Hdir Hfew.
  assert (Hh : forall sys', handle_capture_data_ready s n sys' = (0, s, [])).
  { intros sys'. unfold handle_capture_data_ready, config_capture_buf.
    rewrite Hdir. cbn [negb].
    apply Z.ltb_lt in Hfew. rewrite Hfew. reflexivity. }
  split; [ apply Hh | ].
  intros p rest Hrun Hread Hid Hframes.
  unfold audio_thread. cbn [audio_thread_loop]. cbn [Z.eqb negb].
  rewrite Hrun. cbn [negb].
  destruct (Z.ltb_spec
              (read_with_wake_fd
                 match pi_thread_state p with
                 | CRAS_THREAD_WARMUP => -1
                 | _ => cs_aud_fd s
                 end sizeof_audio_message p) 0); [ lia | ].
  destruct (Z.eqb_spec
              (read_with_wake_fd
                 match pi_thread_state p with
                 | CRAS_THREAD_WARMUP => -1
                 | _ => cs_aud_fd s
                 end sizeof_audio_message p) 0); [ lia | ].
  rewrite Hid, Hframes, Hh.
  destruct (audio_thread_loop rest s 0) as [[out s''] ev']. reflexivity.
Qed.

(** C1 (amended).  Playback, REQUEST_DATA with frame count [n].  The user
    callback is offered [m = MIN n cb_threshold] frames, at most [n] and at
    most the threshold.  Provided the argument record of a [stream_cb]
    callback can be allocated: when the callback returns [k >= 0] the
    handler hands exactly [k] frames to [cras_shm_buffer_written_start] and
    then writes DATA_READY with frames [k] and error 0 on the audio socket;
    when it returns [k < 0] the handler writes CLIENT_STREAM_EOF on the
    stream pipe, leaves the shared memory alone and writes DATA_READY with
    error [k].  When the record cannot be allocated the handler returns
    [-errno]: no callback runs and nothing is written. *)
Theorem playback_request_reply (s : stream) (n : Z) (sys : audio_sys) :
  cs_direction s = CRAS_STREAM_OUTPUT ->
  let m := MIN n (sp_cb_threshold (cs_config s)) in
  let k := selected_callback (cs_config s) m in
  m <= n /\ m <= sp_cb_threshold (cs_config s)
  /\ (cb_data_available (cs_config s) sys -> 0 <= k < 2 ^ 31 ->
      handle_playback_request s n sys
      = (reply_rc sys,
         set_cs_shm s (cras_shm_buffer_written_start (cs_shm s) k),
         [EvUserCallback m;
          EvAudWrite {| am_id := AUDIO_MESSAGE_DATA_READY; am_error := 0;
                        am_frames := k |}]))
  /\ (cb_data_available (cs_config s) sys -> k < 0 ->
      handle_playback_request s n sys
      = (reply_rc sys, s,
         [EvUserCallback m;
          EvStreamPipeWrite (cs_id s) CLIENT_STREAM_EOF;
          EvAudWrite {| am_id := AUDIO_MESSAGE_DATA_READY; am_error := k;
                        am_frames := to_uint32 k |}]))
  /\ (sp_stream_cb (cs_config s) <> None -> sys_cb_data_alloc sys = false ->
      handle_playback_request s n sys = (- sys_errno sys, s, [])).
Proof.
  intros Hdir m k.
  split; [ apply MIN_le_l | ]. split; [ apply MIN_le_r | ].
  unfold handle_playback_request. rewrite Hdir.
  rewrite bool_decide_eq_true_2 by reflexivity. cbn [negb].
  fold m. repeat split.
  - intros Havail Hk.
    rewrite (call_user_callback_ok _ m _ Havail). fold k.
    destruct (Z.ltb_spec k 0); [ lia | ].
    unfold send_playback_reply. cbn [set_cs_shm cs_direction].
    rewrite Hdir. unfold cras_stream_uses_output_hw.
    rewrite bool_decide_eq_true_2 by reflexivity. cbn [negb].
    rewrite to_uint32_small by lia. reflexivity.
  - intros Havail Hk.
    rewrite (call_user_callback_ok _ m _ Havail). fold k.
    destruct (Z.ltb_spec k 0); [ | lia ].
    unfold send_stream_message, send_playback_reply.
    rewrite Hdir. unfold cras_stream_uses_output_hw.
    rewrite bool_decide_eq_true_2 by reflexivity. reflexivity.
  - intros Hcb Halloc.
    now rewrite (call_user_callback_no_memory _ m _ Hcb Halloc).
Qed.

(** C2 (amended).  A wake-up of the running audio task.  A read from the
    audio socket that gives another number of bytes than the size of an
    audio message ends the task: the thread function returns -EIO.  A
    complete message whose id is neither DATA_READY nor REQUEST_DATA is
    dropped: no handler runs, the stream is as before, and the task goes
    on with its next wake-up. *)
Theorem audio_thread_short_read_and_unknown_id (s : stream) (p : poll_input)
    (rest : list poll_input) :
  thread_is_running (pi_thread_state p) = true ->
  let aud_fd := match pi_thread_state p with
                | CRAS_THREAD_WARMUP => -1
                | _ => cs_aud_fd s
                end in
  (0 <= pi_poll_rc p -> 0 <= aud_fd -> pi_aud_pollin p = true ->
   pi_aud_nread p <> sizeof_audio_message ->
   audio_thread (p :: rest) s = (ThreadReturned (- EIO), s, []))
  /\ (0 < read_with_wake_fd aud_fd sizeof_audio_message p ->
      am_id (pi_aud_msg p) <> AUDIO_MESSAGE_DATA_READY ->
      am_id (pi_aud_msg p) <> AUDIO_MESSAGE_REQUEST_DATA ->
      audio_thread (p :: rest) s = audio_thread rest s).
Proof.
  intros Hrun aud_fd. unfold audio_thread. cbn [audio_thread_loop Z.eqb negb].
  rewrite Hrun. cbn [negb]. fold aud_fd. split.
  - intros Hpoll Hfd Hin Hshort.
    assert (Hr : read_with_wake_fd aud_fd sizeof_audio_message p = - EIO).
    { unfold read_with_wake_fd.
      destruct (Z.ltb_spec (pi_poll_rc p) 0); [ lia | ].
      destruct (Z.leb_spec 0 aud_fd); [ | lia ].
      rewrite Hin. cbn [andb].
      destruct (Z.eqb_spec (pi_aud_nread p) sizeof_audio_message); [ contradiction | ].
      reflexivity. }
    rewrite Hr. reflexivity.
  - intros Hread Hid1 Hid2.
    destruct (Z.ltb_spec (read_with_wake_fd aud_fd sizeof_audio_message p) 0); [ lia | ].
    destruct (Z.eqb_spec (read_with_wake_fd aud_fd sizeof_audio_message p) 0); [ lia | ].
    destruct (am_id (pi_aud_msg p)); try contradiction;
      destruct (audio_thread_loop rest s 0) as [[out s''] ev']; reflexivity.
Qed.

End AudioTaskFacts.

(** C3, on the capture stream whose buffer holds 100 frames: a DATA_READY
    for 480 frames delivers nothing. *)
Lemma capture_overrun_delivers_nothing_witness :
  handle_capture_data_ready capture_480 480 sys_ok = (0, capture_480, [])
  /\ audio_thread [poll_message (data_ready 480)] capture_480
     = (ThreadInPoll, capture_480, []).
Proof.
  destruct (capture_overrun_delivers_nothing capture_480 480 sys_ok) as [H1 H2];
    [ reflexivity | vm_compute; reflexivity | ].
  split; [ exact H1 | ].
  rewrite (H2 (poll_message (data_ready 480)) []);
    [ reflexivity | reflexivity | vm_compute; reflexivity | reflexivity | reflexivity ].
Defined.

(** C1, on the round-trip scenario of the spec: threshold 480, a request
    for 512 frames, a callback that writes all 480 frames it is offered.
    The reply on the wire is DATA_READY with 480 frames and error 0, and
    the write offset of the concrete buffer moves by 480 * 4 bytes. *)
Lemma playback_request_reply_witness :
  handle_playback_request playback_480 512 sys_ok
  = (0,
     set_cs_shm playback_480
       {| read_buf_idx := 0; write_buf_idx := 0; read_offset := (0, 0);
          write_offset := (480 * 4, 0); frame_bytes := 4; used_size := 4096 * 4 |},
     [EvUserCallback 480;
      EvAudWrite {| am_id := AUDIO_MESSAGE_DATA_READY; am_error := 0; am_frames := 480 |}]).
Proof.
  destruct (playback_request_reply playback_480 512 sys_ok) as (_ & _ & H & _);
    [ reflexivity | ].
  rewrite H; [ reflexivity | intros Hcb; now contradiction Hcb | vm_compute; split; congruence ].
Defined.

(** C1 as stated fails when the argument record of a [stream_cb] callback
    cannot be allocated: the handler returns -ENOMEM, no callback is
    invoked and no reply is written. *)
Lemma playback_request_no_memory_counterexample :
  handle_playback_request playback_480_stream_cb 512 sys_no_memory
  = (- ENOMEM, playback_480_stream_cb, []).
Proof. reflexivity. Qed.

(** C2, on a running playback stream: a short read ends the task with
    -EIO, and after an unknown message the next request is served. *)
Lemma audio_thread_short_read_and_unknown_id_witness :
  audio_thread [poll_short_read; poll_message (request_data 512)] playback_480
  = (ThreadReturned (- EIO), playback_480, [])
  /\ audio_thread [poll_message unknown_message; poll_message (request_data 512)] playback_480
     = audio_thread [poll_message (request_data 512)] playback_480.
Proof.
  destruct (audio_thread_short_read_and_unknown_id playback_480 poll_short_read
              [poll_message (request_data 512)]) as [H1 _]; [ reflexivity | ].
  destruct (audio_thread_short_read_and_unknown_id playback_480
              (poll_message unknown_message)
              [poll_message (request_data 512)]) as [_ H2]; [ reflexivity | ].
  split.
  - apply H1; [ vm_compute; congruence | vm_compute; congruence | reflexivity
              | vm_compute; congruence ].
  - apply H2; [ vm_compute; reflexivity | cbn; congruence | cbn; congruence ].
Defined.

(** C2 as stated fails: a message with an unknown id does not end the
    audio task.  The task is back in [poll] afterwards and has served the
    request that followed, while a short read made it return -EIO. *)
Lemma audio_thread_unknown_id_counterexample :
  audio_thread [poll_message unknown_message; poll_message (request_data 512)] playback_480
  = (ThreadInPoll,
     set_cs_shm playback_480 (cras_shm_buffer_written_start sab_empty 480),
     [EvUserCallback 480;
      EvAudWrite {| am_id := AUDIO_MESSAGE_DATA_READY; am_error := 0; am_frames := 480 |}])
  /\ audio_thread [poll_short_read; poll_message (request_data 512)] playback_480
     = (ThreadReturned (- EIO), playback_480, []).
Proof. split; reflexivity. Qed.

(** * Part VI.  Properties of the control task *)

Section ControlTaskFacts.
Context `{!ServerSocket}.

Lemma set_observer_op_same ops n f :
  observer_op ops n = Some f -> set_observer_op ops n (Some f) = ops.
Proof.
  destruct ops, n; cbn; intros ->; reflexivity.
Qed.

Lemma set_observer_ops_same c : set_observer_ops c (observer_ops c) = c.
Proof. now destruct c. Qed.

(** A register request in the FIRST_MESSAGE state: one write, and return
    code 0 when the write was complete or failed with EPIPE. *)
Lemma cras_send_register_notification_first_message c n :
  server_fd_state c = CRAS_SOCKET_STATE_FIRST_MESSAGE ->
  0 < sizeof_register_notification ->
  (forall msg, server_write msg < 0 -> 0 < server_write_errno msg) ->
  cras_send_register_notification c n true
  = (if register_delivered n || register_broken_pipe n then 0 else register_error n,
     client_emit c (register_write n)).
Proof.
  intros Hst Hlen Herrno.
  unfold cras_send_register_notification, write_message_to_server.
  rewrite Hst.
  change (bool_decide (CRAS_SOCKET_STATE_FIRST_MESSAGE = CRAS_SOCKET_STATE_CONNECTED))
    with false.
  change (bool_decide (CRAS_SOCKET_STATE_FIRST_MESSAGE = CRAS_SOCKET_STATE_FIRST_MESSAGE))
    with true.
  cbn [orb andb negb]. rewrite andb_false_r.
  unfold register_delivered, register_broken_pipe, register_error, register_write,
    register_message.
  set (msg := {| rn_msg_id := n; rn_do_register := true |}).
  specialize (Herrno msg).
  destruct (Z.ltb_spec (server_write msg) 0) as [Hneg|Hpos].
  - specialize (Herrno Hneg).
    destruct (Z.ltb_spec (- server_write_errno msg) 0); [ | lia ].
    destruct (Z.eqb_spec (server_write msg) sizeof_register_notification); [ lia | ].
    cbn [orb andb].
    destruct (Z.eqb_spec (server_write_errno msg) EPIPE) as [He|He].
    + rewrite He. reflexivity.
    + destruct (Z.eqb_spec (- server_write_errno msg) (- EPIPE)); [ lia | reflexivity ].
  - destruct (Z.ltb_spec (server_write msg) 0); [ lia | ].
    destruct (Z.eqb_spec (server_write msg) sizeof_register_notification);
      cbn [orb andb negb]; reflexivity.
Qed.

Lemma register_error_nonzero n :
  (forall msg, server_write msg < 0 -> 0 < server_write_errno msg) ->
  register_error n < 0.
Proof.
  intros Herrno. unfold register_error.
  destruct (Z.ltb_spec (server_write (register_message n)) 0) as [Hneg|Hpos].
  - specialize (Herrno _ Hneg). lia.
  - unfold EIO. lia.
Qed.

Lemma client_emits_nil c : client_emits c [] = c.
Proof. destruct c. unfold client_emits. cbn. now rewrite app_nil_r. Qed.

Lemma client_emit_emits c e l :
  client_emits (client_emit c e) l = client_emits c (e :: l).
Proof. unfold client_emits, client_emit. cbn. now rewrite <- app_assoc. Qed.

Lemma reregister_from_first_message ns : forall c,
  server_fd_state c = CRAS_SOCKET_STATE_FIRST_MESSAGE ->
  0 < sizeof_register_notification ->
  (forall msg, server_write msg < 0 -> 0 < server_write_errno msg) ->
  let regs := List.filter (fun n => bool_decide (observer_op (observer_ops c) n <> None)) ns in
  reregister_from ns c
  = (fst (register_all regs), client_emits c (snd (register_all regs))).
Proof.
  induction ns as [|n ns IH]; intros c Hst Hlen Herrno; cbn zeta.
  - cbn. now rewrite client_emits_nil.
  - cbn [reregister_from List.filter].
    destruct (observer_op (observer_ops c) n) as [f|] eqn:Hop.
    + rewrite bool_decide_eq_true_2 by congruence.
      unfold cras_client_set_changed_callback.
      rewrite (set_observer_op_same _ _ _ Hop), set_observer_ops_same.
      rewrite bool_decide_eq_true_2 by congruence.
      rewrite (cras_send_register_notification_first_message c n Hst Hlen Herrno).
      cbn [register_all].
      destruct (register_delivered n || register_broken_pipe n) eqn:Hdone.
      * cbn [Z.eqb negb]. rewrite (IH (client_emit c (register_write n)) Hst Hlen Herrno).
        cbn [observer_ops client_emit fst snd].
        now rewrite client_emit_emits.
      * pose proof (register_error_nonzero n Herrno) as Hneg.
        destruct (Z.eqb_spec (register_error n) 0); [ lia | ].
        cbn [negb fst snd]. reflexivity.
    + rewrite bool_decide_eq_false_2 by (intros Hne; now apply Hne).
      apply (IH c Hst Hlen Herrno).
Qed.

Lemma register_all_done regs :
  Forall (fun n => register_delivered n || register_broken_pipe n = true) regs ->
  register_all regs = (0, map register_write regs).
Proof.
  induction 1 as [|n regs Hn _ IH]; [ reflexivity | ].
  cbn [register_all map]. rewrite Hn, IH. reflexivity.
Qed.

Lemma register_all_fails pre n post :
  Forall (fun n => register_delivered n || register_broken_pipe n = true) pre ->
  register_delivered n || register_broken_pipe n = false ->
  register_all (pre ++ n :: post) = (register_error n, map register_write (pre ++ [n])).
Proof.
  induction 1 as [|m pre Hm _ IH]; intros Hn.
  - cbn [app register_all map]. now rewrite Hn.
  - cbn [app register_all map]. rewrite Hm, (IH Hn). reflexivity.
Qed.

(** C7 (amended).  [connect_transition_action] in the FIRST_MESSAGE state
    (the state of its only caller), on a socket whose failed writes leave
    a positive [errno].  It first sends a register request for every
    notification the application has a callback for, in a fixed order.  A
    request counts as done when its write is complete and also when the
    write fails with EPIPE, in which case the server has not received it.
    When all requests are done the state becomes CONNECTED, and only then
    [server_event_fd] is read and 1 is written to it, and after that the
    connection callback is called with CONNECTED.  When a request fails
    otherwise the function returns that negative error after the failed
    write: the state stays FIRST_MESSAGE, nothing is written to
    [server_event_fd] and the connection callback is not called. *)
Theorem connect_transition_reregisters_first (c : cras_client) :
  server_fd_state c = CRAS_SOCKET_STATE_FIRST_MESSAGE ->
  0 < sizeof_register_notification ->
  (forall msg, server_write msg < 0 -> 0 < server_write_errno msg) ->
  let regs := registered_notifications c in
  let done := fun n => register_delivered n || register_broken_pipe n = true in
  (Forall done regs ->
   fst (connect_transition_action c) = 0
   /\ server_fd_state (snd (connect_transition_action c)) = CRAS_SOCKET_STATE_CONNECTED
   /\ server_event_value (snd (connect_transition_action c)) = 1
   /\ client_trace (snd (connect_transition_action c))
      = client_trace c ++ map register_write regs
        ++ [EvEventfdRead; EvEventfdWrite 1]
        ++ match server_connection_cb c with
           | Some _ => [EvConnectionCb CRAS_CONN_STATUS_CONNECTED]
           | None => []
           end)
  /\ (forall pre n post,
        regs = pre ++ n :: post -> Forall done pre -> ~ done n ->
        fst (connect_transition_action c) = register_error n
        /\ register_error n < 0
        /\ snd (connect_transition_action c)
           = client_emits c (map register_write (pre ++ [n]))).
Proof.
  intros Hst Hlen Herrno regs done.
  unfold connect_transition_action, reregister_notifications.
  rewrite (reregister_from_first_message observer_notifications c Hst Hlen Herrno).
  cbn zeta. fold (registered_notifications c). fold regs. split.
  - intros Hall. rewrite (register_all_done regs Hall). cbn [fst snd Z.ltb Z.compare].
    unfold server_fd_move_to_state. cbn [server_fd_state client_emits].
    rewrite Hst.
    change (bool_decide (CRAS_SOCKET_STATE_CONNECTED = CRAS_SOCKET_STATE_FIRST_MESSAGE))
      with false.
    cbn [set_server_fd_state client_emit set_server_event_value server_connection_cb
         server_event_value client_emits].
    destruct (server_connection_cb c);
      cbn [fst snd server_fd_state server_event_value client_trace client_emit
           client_emits set_server_event_value set_server_fd_state];
      repeat split; rewrite <- ?app_assoc; reflexivity.
  - intros pre n post Hregs Hpre Hn.
    assert (Hn' : register_delivered n || register_broken_pipe n = false).
    { unfold done in Hn. now destruct (register_delivered n || register_broken_pipe n). }
    rewrite Hregs, (register_all_fails pre n post Hpre Hn'). cbn [fst snd].
    pose proof (register_error_nonzero n Herrno) as Hneg.
    destruct (Z.ltb_spec (register_error n) 0); [ | lia ].
    cbn [fst snd]. repeat split; [ lia ].
Qed.



End ControlTaskFacts.

(** C7, on a socket that takes every write: both registered notifications
    are sent, then the state is CONNECTED, the event fd holds 1 and the
    connection callback has run. *)
Lemma connect_transition_reregisters_first_witness :
  fst (@connect_transition_action socket_ok client_first_message) = 0
  /\ server_fd_state (snd (@connect_transition_action socket_ok client_first_message))
     = CRAS_SOCKET_STATE_CONNECTED
  /\ server_event_value (snd (@connect_transition_action socket_ok client_first_message)) = 1
  /\ client_trace (snd (@connect_transition_action socket_ok client_first_message))
     = [ EvServerWrite (register_message CRAS_CLIENT_OUTPUT_VOLUME_CHANGED) 16;
         EvServerWrite (register_message CRAS_CLIENT_NODES_CHANGED) 16;
         EvEventfdRead; EvEventfdWrite 1; EvConnectionCb CRAS_CONN_STATUS_CONNECTED ].
Proof.
  destruct (@connect_transition_reregisters_first socket_ok client_first_message)
    as [H _]; [ reflexivity | reflexivity | cbn; intros; lia | ].
  apply H. vm_compute. repeat constructor.
Defined.

(** C7 as stated fails on a socket whose peer is gone.  Both register
    requests fail with EPIPE ([write] returns -1), so no notification is
    registered with the server; the transition goes on all the same: the
    state becomes CONNECTED, 1 is written to the event fd and the
    connection callback is called with CONNECTED. *)
Lemma connect_transition_broken_pipe_counterexample :
  fst (@connect_transition_action socket_broken_pipe client_first_message) = 0
  /\ server_fd_state (snd (@connect_transition_action socket_broken_pipe client_first_message))
     = CRAS_SOCKET_STATE_CONNECTED
  /\ client_trace (snd (@connect_transition_action socket_broken_pipe client_first_message))
     = [ EvServerWrite (register_message CRAS_CLIENT_OUTPUT_VOLUME_CHANGED) (-1);
         EvServerWrite (register_message CRAS_CLIENT_NODES_CHANGED) (-1);
         EvEventfdRead; EvEventfdWrite 1; EvConnectionCb CRAS_CONN_STATUS_CONNECTED ].
Proof. repeat split. Qed.

(** ** Stream ids *)

Lemma cras_get_stream_id_sum client_id i :
  cras_get_stream_id client_id i = (client_id mod 2 ^ 16) * 2 ^ 16 + i mod 2 ^ 16.
Proof.
  unfold cras_get_stream_id.
  assert (Hland : Z.land (Z.shiftl (client_id mod 2 ^ 16) 16) (i mod 2 ^ 16) = 0).
  { apply Z.bits_inj'; intros n Hn. rewrite Z.land_spec, Z.bits_0.
    destruct (Z.lt_ge_cases n 16).
    - rewrite Z.shiftl_spec_low by lia. reflexivity.
    - rewrite (Z.mod_pow2_bits_high i 16 n) by lia. apply andb_false_r. }
  rewrite <- Z.lxor_lor by exact Hland.
  rewrite <- Z.add_nocarry_lxor by exact Hland.
  rewrite Z.shiftl_mul_pow2 by lia. reflexivity.
Qed.

Lemma cras_get_stream_id_low client_id i :
  cras_get_stream_id client_id i mod 2 ^ 16 = i mod 2 ^ 16.
Proof.
  rewrite cras_get_stream_id_sum, Z.add_comm, Z_mod_plus_full.
  apply Z.mod_mod. lia.
Qed.

Lemma mod32_mod16 x : (x mod 2 ^ 32) mod 2 ^ 16 = x mod 2 ^ 16.
Proof.
  apply Z.mod_mod_divide. exists (2 ^ 16). reflexivity.
Qed.

(** Within 65536 consecutive stream indices no id repeats. *)
Lemma candidate_id_inj c (j1 j2 : nat) :
  Z.of_nat j1 < 65536 -> Z.of_nat j2 < 65536 ->
  candidate_id c j1 = candidate_id c j2 -> j1 = j2.
Proof.
  unfold candidate_id. intros H1 H2 Heq.
  apply (f_equal (fun x => x mod 2 ^ 16)) in Heq.
  rewrite !cras_get_stream_id_low, !mod32_mod16 in Heq.
  set (a := next_stream_id c) in *.
  pose proof (Z.div_mod (a + Z.of_nat j1) (2 ^ 16) ltac:(lia)) as E1.
  pose proof (Z.div_mod (a + Z.of_nat j2) (2 ^ 16) ltac:(lia)) as E2.
  change (2 ^ 16) with 65536 in *.
  lia.
Qed.

Lemma stream_id_in_use_elem l x : stream_id_in_use l x = true <-> x ∈ (st_id <$> l).
Proof.
  unfold stream_id_in_use. rewrite existsb_exists, list_elem_of_fmap. split.
  - intros (s & Hin & Heq). exists s. split; [ lia | now apply list_elem_of_In ].
  - intros (s & Heq & Hin). exists s. split; [ now apply list_elem_of_In | lia ].
Qed.

Lemma next_plus_mod next j :
  ((next + 1) mod 2 ^ 32 + Z.of_nat j) mod 2 ^ 32 = (next + Z.of_nat (S j)) mod 2 ^ 32.
Proof. rewrite Zplus_mod_idemp_l. f_equal. lia. Qed.

Lemma cras_get_stream_id_mod32 cid x :
  cras_get_stream_id cid (x mod 2 ^ 32) = cras_get_stream_id cid x.
Proof. rewrite !cras_get_stream_id_sum. now rewrite mod32_mod16. Qed.

(** The id loop: what it returns is the first candidate that is free. *)
Lemma find_available_stream_id_spec fuel : forall cid next l new_id next',
  find_available_stream_id fuel cid next l = Some (new_id, next') ->
  exists k : nat,
    (k < fuel)%nat
    /\ new_id = cras_get_stream_id cid ((next + Z.of_nat k) mod 2 ^ 32)
    /\ next' = (next + Z.of_nat k + 1) mod 2 ^ 32
    /\ (new_id ∉ (st_id <$> l))
    /\ forall j : nat, (j < k)%nat ->
         cras_get_stream_id cid ((next + Z.of_nat j) mod 2 ^ 32) ∈ (st_id <$> l).
Proof.
  induction fuel as [|fuel IH]; intros cid next l new_id next' Hfind; [ discriminate | ].
  cbn [find_available_stream_id] in Hfind.
  destruct (stream_id_in_use l (cras_get_stream_id cid next)) eqn:Huse.
  - (* the candidate is taken: the loop goes round again *)
    destruct (IH _ _ _ _ _ Hfind) as (k & Hk & Hid & Hn' & Hfree & Hused).
    exists (S k). repeat split.
    + lia.
    + rewrite Hid. now rewrite next_plus_mod.
    + rewrite Hn', <- Z.add_assoc, Zplus_mod_idemp_l. f_equal. lia.
    + exact Hfree.
    + intros [|j] Hj.
      * change (Z.of_nat 0) with 0. rewrite Z.add_0_r, cras_get_stream_id_mod32.
        now apply stream_id_in_use_elem.
      * rewrite <- next_plus_mod. apply Hused. lia.
  - (* the candidate is free *)
    injection Hfind as <- <-.
    exists 0%nat. repeat split.
    + lia.
    + change (Z.of_nat 0) with 0. now rewrite Z.add_0_r, cras_get_stream_id_mod32.
    + f_equal. lia.
    + intros Hin. apply stream_id_in_use_elem in Hin. congruence.
    + intros j Hj. lia.
Qed.

(** A loop that is still running after [fuel] rounds has found every one
    of its first [fuel] candidates taken. *)
Lemma find_available_stream_id_none fuel : forall cid next l,
  find_available_stream_id fuel cid next l = None ->
  forall j : nat, (j < fuel)%nat ->
    cras_get_stream_id cid ((next + Z.of_nat j) mod 2 ^ 32) ∈ (st_id <$> l).
Proof.
  induction fuel as [|fuel IH]; intros cid next l Hfind j Hj; [ lia | ].
  cbn [find_available_stream_id] in Hfind.
  destruct (stream_id_in_use l (cras_get_stream_id cid next)) eqn:Huse; [ | discriminate ].
  destruct j as [|j].
  - change (Z.of_nat 0) with 0. rewrite Z.add_0_r, cras_get_stream_id_mod32.
    now apply stream_id_in_use_elem.
  - rewrite <- next_plus_mod. apply IH; [ exact Hfind | lia ].
Qed.

(** With fewer than 65536 streams in the list the loop ends within 65536
    rounds. *)
Lemma find_available_stream_id_terminates (c : cras_client) :
  Z.of_nat (length (streams c)) < 65536 ->
  exists r, find_available_stream_id (Z.to_nat 65536) (id c) (next_stream_id c) (streams c)
            = Some r.
Proof.
  intros Hlen.
  destruct (find_available_stream_id (Z.to_nat 65536) (id c) (next_stream_id c) (streams c))
    as [r|] eqn:Hfind; [ now exists r | exfalso ].
  pose proof (find_available_stream_id_none _ _ _ _ Hfind) as Hall.
  set (cands := candidate_id c <$> seq 0 (Z.to_nat 65536)).
  assert (Hnodup : NoDup cands).
  { apply NoDup_fmap_2_strong; [ | apply NoDup_seq ].
    intros j1 j2 H1 H2 Heq. apply elem_of_seq in H1, H2.
    apply (candidate_id_inj c); [ lia | lia | exact Heq ]. }
  assert (Hsub : cands ⊆+ (st_id <$> streams c)).
  { apply NoDup_submseteq; [ exact Hnodup | ].
    intros x Hx. apply list_elem_of_fmap in Hx as (j & -> & Hj).
    apply elem_of_seq in Hj. apply Hall. lia. }
  apply submseteq_length in Hsub.
  unfold cands in Hsub. rewrite !length_fmap, length_seq in Hsub. lia.
Qed.

Lemma remove_stream_ids_sub l x y :
  y ∈ (st_id <$> remove_stream l x) -> y ∈ (st_id <$> l).
Proof.
  induction l as [|s l IH]; intros Hy; [ exact Hy | ].
  cbn [remove_stream] in Hy. rewrite fmap_cons. destruct (st_id s =? x).
  - now apply list_elem_of_further.
  - rewrite fmap_cons in Hy. apply elem_of_cons in Hy as [Hy|Hy].
    + subst. apply list_elem_of_here.
    + apply list_elem_of_further. now apply IH.
Qed.

Lemma remove_stream_NoDup l x :
  NoDup (st_id <$> l) -> NoDup (st_id <$> remove_stream l x).
Proof.
  induction l as [|s l IH]; intros Hnd; [ exact Hnd | ].
  cbn [remove_stream]. rewrite fmap_cons in Hnd. apply NoDup_cons in Hnd as [Hnotin Hnd'].
  destruct (st_id s =? x); [ exact Hnd' | ].
  rewrite fmap_cons. apply NoDup_cons. split; [ | now apply IH ].
  intros Hin. apply Hnotin. now apply (remove_stream_ids_sub l x).
Qed.

Lemma client_thread_add_stream_NoDup fuel c s dev_idx sys rc c' out :
  client_thread_add_stream fuel c s dev_idx sys = Some (rc, c', out) ->
  NoDup (stream_ids c) -> NoDup (stream_ids c').
Proof.
  unfold client_thread_add_stream, stream_ids. intros Hadd Hnd.
  destruct (_ && _ && _) in Hadd; [ now injection Hadd as <- <- <- | ].
  destruct (find_available_stream_id fuel (id c) (next_stream_id c) (streams c))
    as [[new_id next']|] eqn:Hfind; [ | discriminate ].
  destruct (find_available_stream_id_spec _ _ _ _ _ _ Hfind) as (k & _ & _ & _ & Hfree & _).
  destruct (negb (ass_start_aud_thread sys =? 0)); [ now injection Hadd as <- <- <- | ].
  destruct (negb (ass_send_connect_message sys =? 0)); injection Hadd as <- <- <-;
    cbn [streams set_streams]; [ exact Hnd | ].
  rewrite fmap_app. apply NoDup_app. repeat split.
  - exact Hnd.
  - intros x Hx Hx'. apply list_elem_of_singleton in Hx'. cbn in Hx'. subst x.
    now apply Hfree.
  - apply NoDup_singleton.
Qed.

Lemma run_client_ops_NoDup fuel ops : forall c c',
  NoDup (stream_ids c) -> run_client_ops fuel ops c = Some c' -> NoDup (stream_ids c').
Proof.
  induction ops as [|[s dev_idx sys|stream_id] ops IH]; intros c c' Hnd Hrun.
  - now injection Hrun as <-.
  - cbn [run_client_ops] in Hrun.
    destruct (client_thread_add_stream fuel c s dev_idx sys) as [[[rc c1] out]|] eqn:Hadd;
      [ | discriminate ].
    apply (IH c1 c'); [ | exact Hrun ].
    now apply (client_thread_add_stream_NoDup _ _ _ _ _ _ _ _ Hadd).
  - cbn [run_client_ops] in Hrun.
    apply (IH (snd (client_thread_rm_stream c stream_id)) c'); [ | exact Hrun ].
    unfold client_thread_rm_stream, stream_ids. cbn [snd streams set_streams].
    now apply remove_stream_NoDup.
Qed.

(** C8.  A client whose streams have distinct ids.  (1) After any
    sequence of stream additions and removals the ids are still distinct.
    (2) While the client has fewer than 65536 streams, the id loop of
    [client_thread_add_stream] ends within 65536 rounds.  (3) The id an
    addition assigns is (client_id << 16) | stream_index for the stream
    index reached after [k] retries from [next_stream_id]; it is the id of
    no stream in the list, each of the [k] candidates before it was the id
    of a stream in the list, [next_stream_id] is left one past the index
    used, and when the addition succeeds the stream joins the list with
    that id. *)
Theorem stream_ids_stay_unique (c : cras_client) :
  NoDup (stream_ids c) ->
  (forall fuel ops c', run_client_ops fuel ops c = Some c' -> NoDup (stream_ids c'))
  /\ (forall s dev_idx sys,
        Z.of_nat (length (streams c)) < 65536 ->
        exists r, client_thread_add_stream (Z.to_nat 65536) c s dev_idx sys = Some r)
  /\ (forall fuel s dev_idx sys rc c' new_id,
        client_thread_add_stream fuel c s dev_idx sys = Some (rc, c', Some new_id) ->
        exists k : nat,
          let stream_index := (next_stream_id c + Z.of_nat k) mod 2 ^ 32 in
          (k < fuel)%nat
          /\ new_id = Z.lor (Z.shiftl (id c mod 2 ^ 16) 16) (stream_index mod 2 ^ 16)
          /\ (new_id ∉ stream_ids c)
          /\ (forall j : nat, (j < k)%nat -> candidate_id c j ∈ stream_ids c)
          /\ next_stream_id c' = (stream_index + 1) mod 2 ^ 32
          /\ (rc = 0 -> exists flags',
                streams c' = streams c ++ [ {| st_id := new_id; st_flags := flags' |} ])
          /\ (rc <> 0 -> streams c' = streams c)).
Proof.
  intros Hnd. split; [ | split ].
  - intros fuel ops c'. now apply run_client_ops_NoDup.
  - intros s dev_idx sys Hlen. unfold client_thread_add_stream.
    destruct (_ && _ && _); [ eauto | ].
    destruct (find_available_stream_id_terminates c Hlen) as [[new_id next'] ->].
    destruct (negb (ass_start_aud_thread sys =? 0)); [ eauto | ].
    destruct (negb (ass_send_connect_message sys =? 0)); eauto.
  - intros fuel s dev_idx sys rc c' new_id Hadd.
    unfold client_thread_add_stream in Hadd.
    destruct (_ && _ && _) in Hadd; [ discriminate | ].
    destruct (find_available_stream_id fuel (id c) (next_stream_id c) (streams c))
      as [[new_id' next']|] eqn:Hfind; [ | discriminate ].
    destruct (find_available_stream_id_spec _ _ _ _ _ _ Hfind)
      as (k & Hk & Hid & Hnext & Hfree & Hused).
    assert (Hnext' : next' = ((next_stream_id c + Z.of_nat k) mod 2 ^ 32 + 1) mod 2 ^ 32).
    { rewrite Hnext. now rewrite Zplus_mod_idemp_l. }
    exists k. cbn zeta.
    destruct (Z.eqb_spec (ass_start_aud_thread sys) 0) as [Hs|Hs]; cbn [negb] in Hadd.
    + destruct (Z.eqb_spec (ass_send_connect_message sys) 0) as [Hm|Hm]; cbn [negb] in Hadd;
        injection Hadd as <- <- <-; cbn [streams next_stream_id set_streams];
        refine (conj Hk (conj Hid (conj Hfree (conj Hused (conj Hnext' (conj _ _)))))).
      * intros _. eexists. reflexivity.
      * congruence.
      * congruence.
      * reflexivity.
    + injection Hadd as <- <- <-; cbn [streams next_stream_id set_streams].
      refine (conj Hk (conj Hid (conj Hfree (conj Hused (conj Hnext' (conj _ _)))))).
      * congruence.
      * reflexivity.
Qed.

(** C8, on a client (id 3) that still has the stream of index 0 while
    [next_stream_id] is 0 again: the addition retries once and assigns
    (3 << 16) | 1. *)
Lemma stream_ids_stay_unique_witness :
  NoDup (stream_ids client_with_stream)
  /\ exists c',
       client_thread_add_stream (Z.to_nat 65536) client_with_stream
         {| st_id := 0; st_flags := 0 |} NO_DEVICE add_stream_ok
       = Some (0, c', Some (3 * 65536 + 1))
       /\ stream_ids c' = [3 * 65536; 3 * 65536 + 1]
       /\ NoDup (stream_ids c').
Proof.
  assert (Hnd : NoDup (stream_ids client_with_stream)) by (apply NoDup_singleton).
  split; [ exact Hnd | ].
  destruct (stream_ids_stay_unique client_with_stream Hnd) as (Hseq & Hterm & _).
  destruct (Hterm {| st_id := 0; st_flags := 0 |} NO_DEVICE add_stream_ok) as [[[rc c'] out] Hadd];
    [ vm_compute; reflexivity | ].
  assert (Hval : client_thread_add_stream (Z.to_nat 65536) client_with_stream
                   {| st_id := 0; st_flags := 0 |} NO_DEVICE add_stream_ok
                 = Some (0, set_streams client_with_stream 2
                              (streams client_with_stream
                               ++ [ {| st_id := 3 * 65536 + 1; st_flags := 0 |} ]),
                         Some (3 * 65536 + 1))) by (vm_compute; reflexivity).
  eexists. split; [ exact Hval | ]. split; [ reflexivity | ].
  apply (Hseq (Z.to_nat 65536)
              [OpAddStream {| st_id := 0; st_flags := 0 |} NO_DEVICE add_stream_ok]).
  cbn [run_client_ops]. rewrite Hval. reflexivity.
Defined.

(** * Part VII.  Properties of the device list *)

(** ** Input gain *)

(** C9.  For a node gain [gain] in 0..100 on a node that is not an
    internal mic the conversion gives (gain - 50) * 40, in units of
    0.01 dBFS: below 50 the result lies in [-2000, 0), from 50 on in
    [0, 2000], and the ends -2000, 0 and 2000 are reached at 0, 50 and 100.
    For an internal mic the gains above 50 are scaled by the maximum gain
    of the board divided by 50 instead. *)
Theorem input_node_gain_to_dBFS (max_internal_mic_gain gain : Z) :
  0 <= gain <= 100 ->
  let dBFS := convert_dBFS_from_input_node_gain max_internal_mic_gain in
  dBFS gain false = (gain - 50) * 40
  /\ (gain < 50 -> -2000 <= dBFS gain false < 0)
  /\ (50 <= gain -> 0 <= dBFS gain false <= DEFAULT_MAX_INPUT_NODE_GAIN)
  /\ dBFS 0 false = -2000 /\ dBFS 50 false = 0
  /\ dBFS 100 false = DEFAULT_MAX_INPUT_NODE_GAIN
  /\ DEFAULT_MAX_INPUT_NODE_GAIN = 2000
  /\ dBFS gain true
     = if 50 <? gain then (gain - 50) * Z.quot max_internal_mic_gain 50
       else (gain - 50) * 40.
Proof.
  intros Hgain dBFS.
  assert (Hnon : dBFS gain false = (gain - 50) * 40).
  { unfold dBFS, convert_dBFS_from_input_node_gain, DEFAULT_MAX_INPUT_NODE_GAIN.
    destruct (Z.ltb_spec gain 0); [ lia | ].
    destruct (Z.ltb_spec 100 gain); [ lia | ].
    change (Z.quot 2000 50) with 40. now destruct (50 <? gain). }
  split; [ exact Hnon | ].
  split; [ rewrite Hnon; lia | ].
  split; [ rewrite Hnon; unfold DEFAULT_MAX_INPUT_NODE_GAIN; lia | ].
  repeat split.
  unfold dBFS, convert_dBFS_from_input_node_gain.
  destruct (Z.ltb_spec gain 0); [ lia | ].
  destruct (Z.ltb_spec 100 gain); [ lia | ].
  now destruct (50 <? gain).
Qed.

(** C9 at gain 75 on a board whose internal mic goes up to 1000: 1000 for
    an external mic, 500 for the internal one. *)
Lemma input_node_gain_to_dBFS_witness :
  convert_dBFS_from_input_node_gain 1000 75 false = 1000
  /\ convert_dBFS_from_input_node_gain 1000 75 true = 500.
Proof.
  destruct (input_node_gain_to_dBFS 1000 75) as (H1 & _ & _ & _ & _ & _ & _ & H2); [ lia | ].
  split; [ rewrite H1; reflexivity | rewrite H2; reflexivity ].
Defined.

(** ** Noise-cancellation blocking state *)

Lemma nodes_changed_notifications_app l1 l2 :
  nodes_changed_notifications (l1 ++ l2)
  = (nodes_changed_notifications l1 + nodes_changed_notifications l2)%nat.
Proof.
  unfold nodes_changed_notifications. now rewrite List.filter_app, length_app.
Qed.

(** C4 (amended).  [update_nc_blocked_state] stores the two flags it is
    given.  The NC-blocked state is [non_dsp_aec_echo_ref_dev_alive] alone
    when noise cancellation runs in standalone mode, and the disjunction
    of the two flags otherwise.  An update that changes the NC-blocked
    state sends exactly one NODES_CHANGED notification when noise
    cancellation on DSP is supported and blocking is not bypassed, and
    none otherwise; an update that leaves the state as it was sends
    none. *)
Theorem nc_blocked_state_update (alive disallowed : bool) (st : iodev_list) :
  let st' := update_nc_blocked_state alive disallowed st in
  non_dsp_aec_echo_ref_dev_alive st' = alive
  /\ aec_on_dsp_is_disallowed st' = disallowed
  /\ get_nc_blocked_state st'
     = (if noise_cancellation_standalone_mode (system st) then alive
        else alive || disallowed)
  /\ exists evs,
       trace st' = trace st ++ evs
       /\ nodes_changed_notifications evs
          = if negb (eqb (get_nc_blocked_state st) (get_nc_blocked_state st'))
               && dsp_noise_cancellation_supported (system st)
               && negb (bypass_block_noise_cancellation (system st))
            then 1%nat else 0%nat.
Proof.
  cbn zeta. unfold update_nc_blocked_state.
  set (st1 := set_nc_flags st alive disallowed).
  assert (Hget1 : get_nc_blocked_state st1
                  = if noise_cancellation_standalone_mode (system st) then alive
                    else alive || disallowed) by reflexivity.
  destruct (eqb (get_nc_blocked_state st) (get_nc_blocked_state st1)) eqn:Hsame;
    cbn [negb].
  - repeat split. exists [EvMainLog (MAIN_THREAD_NC_BLOCK_STATE 2 alive disallowed)].
    split; [ reflexivity | ].
    change (get_nc_blocked_state (emit st1 _)) with (get_nc_blocked_state st1).
    rewrite Hsame. reflexivity.
  - change (system st1) with (system st).
    destruct (dsp_noise_cancellation_supported (system st)) eqn:Hsup;
      destruct (bypass_block_noise_cancellation (system st)) eqn:Hbyp; cbn [negb orb andb].
    all: repeat split.
    all: try (exists []; split; [ cbn; now rewrite app_nil_r | ];
              change (get_nc_blocked_state st1) with (get_nc_blocked_state st1);
              rewrite Hsame; reflexivity).
    eexists. split; [ cbn [trace emit emits]; rewrite <- !app_assoc; reflexivity | ].
    change (get_nc_blocked_state (emit _ _)) with (get_nc_blocked_state st1).
    rewrite Hsame. reflexivity.
Qed.

(** C4 as stated fails in standalone mode: with an input stream that
    disallows AEC on DSP the disjunction of the two flags is true and the
    NC-blocked state is false.  It also fails on a board without noise
    cancellation on DSP: the state changes from false to true and no
    NODES_CHANGED notification is sent. *)
Lemma nc_blocked_state_counterexample :
  get_nc_blocked_state list_standalone
  <> (non_dsp_aec_echo_ref_dev_alive list_standalone
      || aec_on_dsp_is_disallowed list_standalone)
  /\ (get_nc_blocked_state list_no_dsp_nc = false
      /\ get_nc_blocked_state (update_nc_blocked_state true false list_no_dsp_nc) = true
      /\ trace (update_nc_blocked_state true false list_no_dsp_nc) = []).
Proof. repeat split. discriminate. Qed.

(** ** Flexible loopback requests *)

Section FloopFacts.
Context `{!IodevListEnv}.




End FloopFacts.



(** ** Frames of the routing functions *)

Lemma same_static_refl d : same_static d d.
Proof. now repeat split. Qed.

Lemma same_static_trans d1 d2 d3 :
  same_static d1 d2 -> same_static d2 d3 -> same_static d1 d3.
Proof. unfold same_static. intros (?&?&?&?) (?&?&?&?). repeat split; congruence. Qed.

#[global] Instance enabled_grows_preorder : PreOrder enabled_grows.
Proof. split; [ now intros l dir q | intros l1 l2 l3 H1 H2 dir q Hq; apply H2, H1, Hq ]. Qed.

#[global] Instance enabled_any_preorder : PreOrder enabled_any.
Proof. split; constructor. Qed.

Lemma frame_refl E `{!Reflexive E} P st : frame E P st st.
Proof. constructor; try reflexivity; try (now split); intros; apply same_static_refl. Qed.

Lemma frame_trans E `{!Transitive E} P st1 st2 st3 :
  frame E P st1 st2 -> frame E P st2 st3 -> frame E P st1 st3.
Proof.
  intros [] []. constructor; try congruence.
  - split; [ transitivity (hotword_suspended st2) | transitivity (empty_hotword_dev st2) ];
      tauto.
  - intros q. eapply same_static_trans; eauto.
  - intros q Hq. transitivity (iodevs st2 !! q); auto.
  - etransitivity; eauto.
  - etransitivity; eauto.
Qed.

Lemma frame_weaken (E E' : relation (CRAS_STREAM_DIRECTION -> list dev_ptr))
    (P Q : dev_ptr -> Prop) st st' :
  (forall l l', E l l' -> E' l l') -> (forall q, P q -> Q q) ->
  frame E P st st' -> frame E' Q st st'.
Proof. intros HE HP []. constructor; auto. Qed.



Lemma deref_update_dev p f st q :
  deref (update_dev p f st) q
  = if decide (p = q) then match iodevs st !! q with
                           | Some d => f d
                           | None => null_iodev
                           end
    else deref st q.
Proof.
  unfold deref, update_dev. cbn [iodevs set_iodevs]. rewrite lookup_alter.
  destruct (decide (p = q)) as [->|]; [ | reflexivity ].
  now destruct (iodevs st !! q).
Qed.

Section Frames.
Context `{!IodevListEnv}.
Context (E : relation (CRAS_STREAM_DIRECTION -> list dev_ptr)) `{!PreOrder E}.
Context (P : dev_ptr -> Prop).

Lemma frame_emits st l : frame E P st (emits st l).
Proof.
  constructor; try reflexivity; try (now split);
    try (intros q; apply same_static_refl).
  now apply prefix_app_r.
Qed.

Lemma frame_emit st e : frame E P st (emit st e).
Proof. apply frame_emits. Qed.

Lemma frame_update_dev p f st :
  P p -> (forall d, same_static d (f d)) -> frame E P st (update_dev p f st).
Proof.
  intros Hp Hf. constructor; try reflexivity; try (now split).
  - intros q. rewrite deref_update_dev. destruct (decide (p = q)); [ | apply same_static_refl ].
    unfold deref. destruct (iodevs st !! q); [ apply Hf | apply same_static_refl ].
  - intros q Hq. unfold update_dev. cbn [iodevs set_iodevs]. rewrite lookup_alter_ne; congruence.
Qed.

Lemma frame_set_init_retries st l : frame E P st (set_init_retries st l).
Proof.
  constructor; try reflexivity; try (now split); intros q; apply same_static_refl.
Qed.

Lemma frame_set_nc_flags st a b : frame E P st (set_nc_flags st a b).
Proof.
  constructor; try reflexivity; try (now split); intros q; apply same_static_refl.
Qed.

(** Steps that extend a frame. *)
Lemma frame_then_emits st st' l : frame E P st st' -> frame E P st (emits st' l).
Proof. intros Hfr. eapply frame_trans; [ apply _ | exact Hfr | apply frame_emits ]. Qed.

Lemma frame_then_emit st st' e : frame E P st st' -> frame E P st (emit st' e).
Proof. apply frame_then_emits. Qed.

Lemma frame_then_update_dev st st' p f :
  P p -> (forall d, same_static d (f d)) ->
  frame E P st st' -> frame E P st (update_dev p f st').
Proof.
  intros Hp Hf Hfr. eapply frame_trans; [ apply _ | exact Hfr | now apply frame_update_dev ].
Qed.

Lemma frame_then_set_init_retries st st' l :
  frame E P st st' -> frame E P st (set_init_retries st' l).
Proof.
  intros Hfr. eapply frame_trans; [ apply _ | exact Hfr | apply frame_set_init_retries ].
Qed.

Lemma static_set_idle_timeout_sec t d : same_static d (set_idle_timeout_sec t d).
Proof. now repeat split. Qed.

Lemma static_set_last_open_result r d : same_static d (set_last_open_result r d).
Proof. now repeat split. Qed.

Lemma static_set_is_enabled b d : same_static d (set_is_enabled b d).
Proof. now repeat split. Qed.

Lemma static_set_active_node_type t d : same_static d (set_active_node_type t d).
Proof. now repeat split. Qed.

Lemma static_cras_iodev_close d : same_static d (cras_iodev_close d).
Proof. now repeat split. Qed.

Lemma static_cras_iodev_open d cb fmt : same_static d (snd (cras_iodev_open d cb fmt)).
Proof.
  unfold cras_iodev_open. destruct (_ =? 0); cbn [snd]; now repeat split.
Qed.

Lemma frame_update_nc_blocked_state a b st : frame E P st (update_nc_blocked_state a b st).
Proof.
  unfold update_nc_blocked_state.
  destruct (negb _); [ destruct (_ || _) | ];
    repeat apply frame_then_emit; apply frame_set_nc_flags.
Qed.

Lemma frame_possibly_set p st :
  frame E P st (possibly_set_non_dsp_aec_echo_ref_dev_alive p st).
Proof.
  unfold possibly_set_non_dsp_aec_echo_ref_dev_alive, set_non_dsp_aec_echo_ref_dev_alive.
  repeat (match goal with |- context [if ?c then _ else _] => destruct c end);
    first [ apply frame_refl; apply _ | apply frame_update_nc_blocked_state ].
Qed.

Lemma frame_possibly_clear st :
  frame E P st (possibly_clear_non_dsp_aec_echo_ref_dev_alive st).
Proof.
  unfold possibly_clear_non_dsp_aec_echo_ref_dev_alive, set_non_dsp_aec_echo_ref_dev_alive.
  destruct (negb _); [ apply frame_refl; apply _ | ].
  destruct (existsb _ _); [ apply frame_refl; apply _ | ].
  destruct (existsb _ _); [ apply frame_refl; apply _ | ].
  apply frame_update_nc_blocked_state.
Qed.

Lemma frame_then (f : iodev_list -> iodev_list) st st' :
  (forall x, frame E P x (f x)) -> frame E P st st' -> frame E P st (f st').
Proof. intros Hf Hfr. eapply frame_trans; [ apply _ | exact Hfr | apply Hf ]. Qed.

Lemma frame_close_dev p st : P p -> frame E P st (close_dev p st).
Proof.
  intros Hp. unfold close_dev. destruct (negb _); [ apply frame_refl; apply _ | ].
  apply frame_then; [ apply frame_possibly_clear | ].
  apply frame_then_emit.
  apply frame_then_update_dev; [ exact Hp | apply static_cras_iodev_close | ].
  unfold possibly_disable_echo_reference.
  match goal with |- context [match ?c with Some _ => _ | None => _ end] => destruct c end;
    [ apply frame_then_emit | ];
    (apply frame_then_update_dev; [ exact Hp | apply static_set_idle_timeout_sec | ];
     unfold remove_all_streams_from_dev; apply frame_then_emits, frame_then_emit, frame_emit).
Qed.

Lemma frame_cancel_pending_init_retries idx st :
  frame E P st (cancel_pending_init_retries idx st).
Proof.
  unfold cancel_pending_init_retries. apply frame_then_emits, frame_set_init_retries.
Qed.

Lemma frame_possibly_enable_echo_reference p st :
  frame E P st (possibly_enable_echo_reference p st).
Proof.
  unfold possibly_enable_echo_reference.
  destruct (negb _); [ apply frame_refl; apply _ | ].
  destruct (echo_reference_dev _); [ apply frame_emit | apply frame_refl; apply _ ].
Qed.

Lemma frame_init_device p rstream st :
  P p -> frame E P st (snd (init_device p rstream st)).
Proof.
  intros Hp. unfold init_device.
  set (st0 := update_dev p (set_idle_timeout_sec 0) st).
  assert (H0 : frame E P st st0)
    by (apply frame_update_dev; [ exact Hp | apply static_set_idle_timeout_sec ]).
  destruct (cras_iodev_is_open (deref st0 p)); [ exact H0 | ].
  set (st1 := update_dev p (set_last_open_result SUCCESS) st0).
  set (st2 := cancel_pending_init_retries _ st1).
  set (st3 := emit st2 _).
  assert (H3 : frame E P st st3).
  { apply frame_then_emit.
    apply frame_then; [ intros x; apply frame_cancel_pending_init_retries | ].
    apply frame_then_update_dev; [ exact Hp | apply static_set_last_open_result | exact H0 ]. }
  pose proof (static_cras_iodev_open (deref st3 p) (cb_threshold rstream) (format rstream))
    as Hopen.
  destruct (cras_iodev_open (deref st3 p) (cb_threshold rstream) (format rstream))
    as [rc d'] eqn:Hco. cbn [snd] in Hopen.
  assert (H4 : frame E P st (emit (update_dev p (fun _ => d') st3)
                               (EvIodevOpen p (cb_threshold rstream) (format rstream) rc))).
  { apply frame_then_emit. eapply frame_trans; [ apply _ | exact H3 | ].
    constructor; try reflexivity; try (now split).
    - intros q. rewrite deref_update_dev. destruct (decide (p = q)) as [->|];
        [ | apply same_static_refl ].
      unfold deref in *. destruct (iodevs st3 !! q); [ exact Hopen | apply same_static_refl ].
    - intros q Hq. unfold update_dev. cbn [iodevs set_iodevs].
      rewrite lookup_alter_ne; congruence. }
  destruct (negb (rc =? 0)); cbn [snd].
  - apply frame_then_update_dev; [ exact Hp | apply static_set_last_open_result | exact H4 ].
  - apply frame_then; [ intros x; apply frame_possibly_set | ].
    apply frame_then; [ intros x; apply frame_possibly_enable_echo_reference | ].
    destruct (negb _).
    + apply frame_then_emit.
      apply frame_then_update_dev; [ exact Hp | apply static_cras_iodev_close | ].
      now apply frame_then_emit.
    + now apply frame_then_emit.
Qed.

Lemma frame_add_stream_to_open_devs stream l st :
  frame E P st (snd (add_stream_to_open_devs stream l st)).
Proof.
  unfold add_stream_to_open_devs. cbn [snd]. apply frame_then_emit.
  destruct (stream_apm stream); [ apply frame_emits | apply frame_refl; apply _ ].
Qed.

Lemma frame_attach_streams l p dev_enabled : forall st,
  P p -> frame E P st (snd (attach_streams l p dev_enabled st)).
Proof.
  induction l as [|stream l IH]; intros st Hp; cbn [attach_streams].
  - apply frame_refl; apply _.
  - destruct (negb (can_attach_stream _ _ _)); [ now apply IH | ].
    pose proof (frame_init_device p stream st Hp) as Hinit.
    destruct (init_device p stream st) as [rc st1]. cbn [snd] in Hinit.
    destruct (negb (rc =? 0)); [ exact Hinit | ].
    pose proof (frame_add_stream_to_open_devs stream [p] st1) as Hadd.
    destruct (add_stream_to_open_devs stream [p] st1) as [rc2 st2]. cbn [snd] in Hadd.
    eapply frame_trans; [ apply _ | | now apply IH ].
    eapply frame_trans; [ apply _ | exact Hinit | exact Hadd ].
Qed.

Lemma frame_init_and_attach_streams p st :
  P p -> frame E P st (snd (init_and_attach_streams p st)).
Proof.
  intros Hp. unfold init_and_attach_streams.
  destruct (stream_list_suspended st); [ apply frame_refl; apply _ | ].
  now apply frame_attach_streams.
Qed.

Lemma frame_schedule_init_device_retry p st :
  frame E P st (snd (schedule_init_device_retry p st)).
Proof.
  unfold schedule_init_device_retry. destruct (negb retry_calloc); cbn [snd].
  - apply frame_refl; apply _.
  - apply frame_then_set_init_retries, frame_emit.
Qed.

Lemma frame_update_active_node p en st : frame E P st (update_active_node p en st).
Proof. apply frame_emit. Qed.

Lemma frame_restart_dev idx st :
  (forall p, find_dev st idx = Some p -> P p) -> frame E P st (restart_dev idx st).
Proof.
  intros Hp. unfold restart_dev.
  destruct (find_dev st idx) as [p|]; [ | apply frame_refl; apply _ ].
  specialize (Hp p eq_refl).
  set (st3 := update_active_node p 1 _).
  assert (H3 : frame E P st st3).
  { apply frame_then; [ intros x; apply frame_update_active_node | ].
    apply frame_then; [ intros x; apply frame_update_active_node | ].
    now apply frame_close_dev. }
  pose proof (frame_init_and_attach_streams p st3 Hp) as Hi.
  destruct (init_and_attach_streams p st3) as [rc st4]. cbn [snd] in Hi.
  assert (H4 : frame E P st st4) by (eapply frame_trans; [ apply _ | exact H3 | exact Hi ]).
  destruct (negb (rc =? 0)); [ | exact H4 ].
  eapply frame_trans; [ apply _ | exact H4 | apply frame_schedule_init_device_retry ].
Qed.

End Frames.

(** ** The enabled lists *)

#[global] Instance enabled_keeps_nodup_preorder : PreOrder enabled_keeps_nodup.
Proof. split; [ now intros l | intros l1 l2 l3 H1 H2 Hnd; apply H2, H1, Hnd ]. Qed.

#[global] Instance enabled_grows_enable : EnableClosed enabled_grows.
Proof.
  intros st dir p _ dir' q Hq. cbn [enabled_devs set_enabled_devs].
  destruct (bool_decide_reflect (dir' = dir)) as [->|];
    [ apply elem_of_app; now left | exact Hq ].
Qed.

#[global] Instance enabled_any_enable : EnableClosed enabled_any.
Proof. intros st dir p _. exact I. Qed.

#[global] Instance enabled_any_disable : DisableClosed enabled_any.
Proof. intros st dir i. exact I. Qed.

#[global] Instance enabled_keeps_nodup_enable : EnableClosed enabled_keeps_nodup.
Proof.
  intros st dir p Hnot Hnd dir'. cbn [enabled_devs set_enabled_devs].
  destruct (bool_decide_reflect (dir' = dir)) as [->|]; [ | apply Hnd ].
  apply NoDup_app. split; [ apply Hnd | ]. split; [ | apply NoDup_singleton ].
  intros x Hx Hx'. apply list_elem_of_singleton in Hx'. now subst.
Qed.

#[global] Instance enabled_keeps_nodup_disable : DisableClosed enabled_keeps_nodup.
Proof.
  intros st dir i Hnd dir'. cbn [enabled_devs set_enabled_devs].
  destruct (bool_decide_reflect (dir' = dir)) as [->|]; [ | apply Hnd ].
  eapply sublist_NoDup; [ apply Hnd | apply sublist_delete ].
Qed.

Section EnabledLists.
Context `{!IodevListEnv}.

Lemma frame_set_enabled_devs E P st dir l :
  E (enabled_devs st) (enabled_devs (set_enabled_devs st dir l)) ->
  frame E P st (set_enabled_devs st dir l).
Proof.
  intros HE. constructor; try reflexivity; try (now split); try exact HE;
    intros q; apply same_static_refl.
Qed.

Lemma enable_device_already p st :
  p ∈ enabled_devs st (dev_direction (deref st p)) -> enable_device p st = (- EEXIST, st).
Proof. intros Hin. unfold enable_device. now rewrite bool_decide_eq_true_2. Qed.

Section Closed.
Context (E : relation (CRAS_STREAM_DIRECTION -> list dev_ptr)) `{!PreOrder E}.
Context (P : dev_ptr -> Prop).

Lemma frame_enable_device `{!EnableClosed E} p st :
  P p -> frame E P st (snd (enable_device p st)).
Proof.
  intros Hp. unfold enable_device.
  destruct (bool_decide_reflect (p ∈ enabled_devs st (dev_direction (deref st p))))
    as [|Hnot]; [ apply frame_refl; apply _ | ].
  set (st1 := set_enabled_devs st _ _).
  assert (H1 : frame E P st st1)
    by (apply frame_set_enabled_devs; now apply enable_closed).
  set (st2 := update_dev p (set_is_enabled true) st1).
  assert (H2 : frame E P st st2)
    by (apply frame_then_update_dev;
        [ apply _ | exact Hp | apply static_set_is_enabled | exact H1 ]).
  pose proof (frame_init_and_attach_streams E P p st2 Hp) as H3.
  destruct (init_and_attach_streams p st2) as [rc st3]. cbn [snd] in H3.
  assert (H3' : frame E P st st3)
    by (eapply frame_trans; [ apply _ | exact H2 | exact H3 ]).
  destruct (rc <? 0).
  - pose proof (frame_schedule_init_device_retry E P p st3) as H4.
    destruct (schedule_init_device_retry p st3) as [rc4 st4]. cbn [snd] in *.
    eapply frame_trans; [ apply _ | exact H3' | exact H4 ].
  - cbn [snd]. apply frame_then; [ apply _ | intros x; apply frame_possibly_set; apply _ | ].
    apply frame_then_emit; [ apply _ | exact H3' ].
Qed.

Lemma frame_possibly_enable_fallback `{!EnableClosed E} dir error st :
  (forall fb, fallback_devs st dir = Some fb -> P fb) ->
  frame E P st (possibly_enable_fallback dir error st).
Proof.
  intros Hfb. unfold possibly_enable_fallback.
  destruct (fallback_devs st dir) as [fb|]; [ | apply frame_refl; apply _ ].
  specialize (Hfb fb eq_refl).
  set (st1 := update_dev fb _ st).
  assert (H1 : frame E P st st1)
    by (apply frame_update_dev; [ apply _ | exact Hfb | apply static_set_active_node_type ]).
  destruct (negb _); [ | exact H1 ].
  eapply frame_trans; [ apply _ | exact H1 | now apply frame_enable_device ].
Qed.

Lemma frame_disable_device `{!DisableClosed E} i p force st :
  P p -> frame E P st (snd (disable_device i p force st)).
Proof.
  intros Hp. unfold disable_device.
  set (d := deref st p).
  set (st1 := emit st _).
  set (st2 := set_enabled_devs st1 _ _).
  set (st3 := update_dev p (set_is_enabled false) st2).
  assert (H3 : frame E P st st3).
  { apply frame_then_update_dev; [ apply _ | exact Hp | apply static_set_is_enabled | ].
    eapply frame_trans; [ apply _ | apply frame_emit; apply _ | ].
    apply frame_set_enabled_devs. apply (disable_closed st1). }
  assert (Hfin : forall x, frame E P st x ->
            frame E P st
              (possibly_clear_non_dsp_aec_echo_ref_dev_alive
                 (update_active_node p 0 (close_dev p (emit x (EvDeviceDisabledCbs p)))))).
  { intros x Hx.
    apply frame_then; [ apply _ | intros y; apply frame_possibly_clear; apply _ | ].
    apply frame_then; [ apply _ | intros y; apply frame_update_active_node; apply _ | ].
    apply frame_then; [ apply _ | intros y; apply frame_close_dev; [ apply _ | exact Hp ] | ].
    now apply frame_then_emit; [ apply _ | ]. }
  destruct force; [ | destruct (stream_list_has_pinned_stream _ _) ]; cbn [snd].
  - apply Hfin.
    apply frame_then;
      [ apply _ | intros y; apply frame_cancel_pending_init_retries; apply _ | exact H3 ].
  - apply frame_then_emits; [ apply _ | exact H3 ].
  - now apply Hfin.
Qed.

Lemma frame_disable_fallback_scan `{!DisableClosed E} dir l : forall i st,
  (forall fb, fallback_devs st dir = Some fb -> P fb) ->
  frame E P st (disable_fallback_scan l i dir st).
Proof.
  induction l as [|e l IH]; intros i st Hfb; cbn [disable_fallback_scan].
  - apply frame_refl; apply _.
  - destruct (bool_decide_reflect (Some e = fallback_devs st dir)) as [He|He].
    + assert (Hd : frame E P st (snd (disable_device i e false st)))
        by (apply frame_disable_device; apply Hfb; now symmetry).
      eapply frame_trans; [ apply _ | exact Hd | ].
      apply IH. intros fb Hfb'. apply Hfb. now rewrite <- (fr_fallback _ _ _ _ Hd).
    + now apply IH.
Qed.

Lemma frame_possibly_disable_fallback `{!DisableClosed E} dir st :
  (forall fb, fallback_devs st dir = Some fb -> P fb) ->
  frame E P st (possibly_disable_fallback dir st).
Proof. intros Hfb. unfold possibly_disable_fallback. now apply frame_disable_fallback_scan. Qed.

End Closed.

(** What follows in [enable_device] once the device is in the list leaves
    the enabled lists alone. *)
Lemma enable_device_enabled_devs p st :
  p ∉ enabled_devs st (dev_direction (deref st p)) ->
  enabled_devs (snd (enable_device p st))
  = enabled_devs (set_enabled_devs st (dev_direction (deref st p))
                    (enabled_devs st (dev_direction (deref st p)) ++ [p])).
Proof.
  intros Hnot. unfold enable_device. rewrite bool_decide_eq_false_2 by exact Hnot.
  set (st1 := set_enabled_devs st _ _).
  set (st2 := update_dev p (set_is_enabled true) st1).
  assert (H2 : frame eq (fun _ => True) st1 st2)
    by (apply frame_update_dev; [ apply _ | exact I | apply static_set_is_enabled ]).
  pose proof (frame_init_and_attach_streams eq (fun _ => True) p st2 I) as H3.
  destruct (init_and_attach_streams p st2) as [rc st3]. cbn [snd] in H3.
  destruct (rc <? 0).
  - pose proof (frame_schedule_init_device_retry eq (fun _ => True) p st3) as H4.
    destruct (schedule_init_device_retry p st3) as [rc4 st4]. cbn [snd] in *.
    rewrite <- (fr_enabled _ _ _ _ H4), <- (fr_enabled _ _ _ _ H3).
    symmetry. apply (fr_enabled _ _ _ _ H2).
  - cbn [snd].
    pose proof (frame_possibly_set eq (fun _ => True) p (emit st3 (EvDeviceEnabledCbs p)))
      as H5.
    rewrite <- (fr_enabled _ _ _ _ H5). cbn [enabled_devs emit emits].
    rewrite <- (fr_enabled _ _ _ _ H3).
    symmetry. apply (fr_enabled _ _ _ _ H2).
Qed.

(** [disable_device] takes the node at position [i] out of the enabled
    list of the direction of its device, and no other. *)
Lemma disable_device_enabled_devs i p force st :
  enabled_devs (snd (disable_device i p force st))
  = enabled_devs (set_enabled_devs st (dev_direction (deref st p))
                    (delete i (enabled_devs st (dev_direction (deref st p))))).
Proof.
  unfold disable_device.
  set (d := deref st p).
  set (st1 := emit st _).
  set (st2 := set_enabled_devs st1 _ _).
  set (st3 := update_dev p (set_is_enabled false) st2).
  assert (Hfin : forall x, enabled_devs x = enabled_devs st2 ->
            enabled_devs
              (possibly_clear_non_dsp_aec_echo_ref_dev_alive
                 (update_active_node p 0 (close_dev p (emit x (EvDeviceDisabledCbs p)))))
            = enabled_devs st2).
  { intros x Hx.
    rewrite <- (fr_enabled _ _ _ _ (frame_possibly_clear eq (fun _ => True) _)).
    cbn [enabled_devs update_active_node emit emits].
    rewrite <- (fr_enabled _ _ _ _ (frame_close_dev eq (fun _ => True) p _ I)).
    exact Hx. }
  destruct force; [ | destruct (stream_list_has_pinned_stream _ _) ]; cbn [snd].
  - apply Hfin.
    now rewrite <- (fr_enabled _ _ _ _
                      (frame_cancel_pending_init_retries eq (fun _ => True) _ st3)).
  - reflexivity.
  - now apply Hfin.
Qed.

End EnabledLists.

(** ** Frames of [stream_added_cb] *)

Lemma find_ext_in {A} (f g : A -> bool) l :
  (forall a, f a = g a) -> List.find f l = List.find g l.
Proof.
  intros Hfg. induction l as [|a l IH]; [ reflexivity | ].
  cbn [List.find]. now rewrite Hfg, IH.
Qed.

Lemma find_dev_frame E P st st' i : frame E P st st' -> find_dev st' i = find_dev st i.
Proof.
  intros Hfr. unfold find_dev. rewrite (fr_devs _ _ _ _ Hfr).
  apply find_ext_in. intros p.
  destruct (fr_static _ _ _ _ Hfr p) as (-> & _). reflexivity.
Qed.

Lemma dev_idx_frame E P st st' q : frame E P st st' -> dev_idx (deref st' q) = dev_idx (deref st q).
Proof. intros Hfr. now destruct (fr_static _ _ _ _ Hfr q) as (-> & _). Qed.

Lemma dev_direction_frame E P st st' q :
  frame E P st st' -> dev_direction (deref st' q) = dev_direction (deref st q).
Proof. intros Hfr. now destruct (fr_static _ _ _ _ Hfr q) as (_ & -> & _). Qed.

Lemma deref_frame E (P : dev_ptr -> Prop) st st' q :
  frame E P st st' -> ~ P q -> deref st' q = deref st q.
Proof. intros Hfr Hq. unfold deref. now rewrite (fr_other _ _ _ _ Hfr q Hq). Qed.

Lemma scan_within_frame E Q P dir l st st' :
  frame E Q st st' -> scan_within P dir l st -> scan_within P dir l st'.
Proof.
  intros Hfr [Hfb Hl]. split.
  - intros fb. rewrite (fr_fallback _ _ _ _ Hfr). apply Hfb.
  - intros e He. destruct (Hl e He) as [HPe Hfind]. split; [ exact HPe | ].
    intros p. rewrite (find_dev_frame _ _ _ _ _ Hfr), (dev_idx_frame _ _ _ _ _ Hfr).
    apply Hfind.
Qed.

Section AddedFrames.
Context `{!IodevListEnv}.
Context (E : relation (CRAS_STREAM_DIRECTION -> list dev_ptr)) `{!PreOrder E}.
Context `{!EnableClosed E}.
Context (P : dev_ptr -> Prop).

Lemma frame_stream_added_dev rstream e sc :
  scan_within P (direction rstream) [e] (sc_state sc) ->
  frame E P (sc_state sc) (sc_state (stream_added_dev rstream e sc)).
Proof.
  intros [Hfb He]. destruct (He e (list_elem_of_here _ _)) as [HPe Hfind].
  unfold stream_added_dev.
  destruct (needs_reopen rstream (deref (sc_state sc) e)).
  - cbn [sc_state].
    set (st1 := emit (sc_state sc) _).
    set (st2 := possibly_enable_fallback (direction rstream) false st1).
    assert (H2 : frame E P (sc_state sc) st2).
    { eapply frame_trans; [ apply _ | apply frame_emit; apply _ | ].
      apply frame_possibly_enable_fallback; [ apply _ | apply _ | exact Hfb ]. }
    eapply frame_trans; [ apply _ | exact H2 | ].
    apply frame_restart_dev; [ apply _ | ].
    intros p. rewrite (find_dev_frame _ _ _ _ _ H2).
    rewrite (dev_idx_frame _ _ _ _ _ H2). apply Hfind.
  - pose proof (frame_init_device E P e rstream (sc_state sc) HPe) as H1.
    destruct (init_device e rstream (sc_state sc)) as [rc st1]. cbn [snd] in H1.
    destruct (negb (rc =? 0)); [ | exact H1 ].
    pose proof (frame_schedule_init_device_retry E P e st1) as H2.
    destruct (schedule_init_device_retry e st1) as [rc2 st2]. cbn [snd sc_state] in *.
    eapply frame_trans; [ apply _ | exact H1 | exact H2 ].
Qed.

Lemma frame_stream_added_scan rstream l : forall sc,
  scan_within P (direction rstream) l (sc_state sc) ->
  frame E P (sc_state sc) (sc_state (stream_added_scan rstream l sc)).
Proof.
  induction l as [|e l IH]; intros sc Hin; cbn [stream_added_scan].
  - apply frame_refl; apply _.
  - assert (Hrest : scan_within P (direction rstream) l (sc_state sc)).
    { destruct Hin as [Hfb Hl]. split; [ exact Hfb | ].
      intros x Hx. apply Hl. now apply list_elem_of_further. }
    destruct (bool_decide _); [ now apply IH | ].
    destruct (_ <=? _); [ apply frame_refl; apply _ | ].
    assert (H1 : frame E P (sc_state sc) (sc_state (stream_added_dev rstream e sc))).
    { apply frame_stream_added_dev. destruct Hin as [Hfb Hl]. split; [ exact Hfb | ].
      intros x Hx. apply list_elem_of_singleton in Hx as ->. apply Hl, list_elem_of_here. }
    eapply frame_trans; [ apply _ | exact H1 | ].
    apply IH. eapply scan_within_frame; [ exact H1 | exact Hrest ].
Qed.

Lemma frame_stream_added_floop_scan rstream l : forall sc,
  (forall fpair, fpair ∈ l -> P (fp_output fpair)) ->
  frame E P (sc_state sc) (sc_state (stream_added_floop_scan rstream l sc)).
Proof.
  induction l as [|fpair l IH]; intros sc Hout; cbn [stream_added_floop_scan].
  - apply frame_refl; apply _.
  - assert (Hrest : forall q, q ∈ l -> P (fp_output q))
      by (intros q Hq; apply Hout; now apply list_elem_of_further).
    destruct (negb _); [ now apply IH | ].
    destruct (_ <=? _); [ apply frame_refl; apply _ | ].
    pose proof (frame_init_device E P (fp_output fpair) rstream (sc_state sc)
                  (Hout fpair (list_elem_of_here _ _))) as H1.
    destruct (init_device (fp_output fpair) rstream (sc_state sc)) as [rc st1].
    cbn [snd] in H1.
    eapply frame_trans; [ apply _ | exact H1 | ].
    now apply (IH {| sc_state := st1; sc_iodevs := _; sc_iodev_reopened := _;
                     sc_expect_fallback := _ |}).
Qed.

Lemma frame_stream_added_finish `{!DisableClosed E} rstream sc :
  (forall fb, fallback_devs (sc_state sc) (direction rstream) = Some fb -> P fb) ->
  frame E P (sc_state sc) (snd (stream_added_finish rstream sc)).
Proof.
  intros Hfb. unfold stream_added_finish.
  set (attach := match sc_iodevs sc with [] => _ | _ :: _ => _ end).
  assert (Ha : frame E P (sc_state sc) (snd attach)).
  { unfold attach. destruct (sc_iodevs sc) as [|x l].
    - destruct (negb _); cbn [snd]; [ | apply frame_refl; apply _ ].
      apply frame_possibly_enable_fallback; [ apply _ | apply _ | exact Hfb ].
    - pose proof (frame_add_stream_to_open_devs E P rstream (x :: l) (sc_state sc)) as H1.
      destruct (add_stream_to_open_devs rstream (x :: l) (sc_state sc)) as [rc st1].
      cbn [snd] in H1.
      repeat (match goal with |- context [if ?c then _ else _] => destruct c end);
        cbn [snd]; try exact H1; (apply frame_then_emit; [ apply _ | exact H1 ]). }
  destruct attach as [rc st2]. cbn [snd] in Ha.
  destruct (negb (rc =? 0)); [ exact Ha | ].
  destruct (_ || _); cbn [snd]; [ | exact Ha ].
  eapply frame_trans; [ apply _ | exact Ha | ].
  apply frame_possibly_disable_fallback; [ apply _ | apply _ | ].
  intros fb. rewrite (fr_fallback _ _ _ _ Ha). apply Hfb.
Qed.

End AddedFrames.

Section WholeHook.
Context `{!IodevListEnv}.
Context (E : relation (CRAS_STREAM_DIRECTION -> list dev_ptr)) `{!PreOrder E}.
Context `{!EnableClosed E} `{!DisableClosed E}.

Local Abbreviation anywhere := (fun _ : dev_ptr => True).

Lemma scan_within_anywhere dir l st : scan_within anywhere dir l st.
Proof. split; [ auto | intros e _; split; auto ]. Qed.

Lemma frame_pinned_stream_added rstream st :
  frame E anywhere st (snd (pinned_stream_added rstream st)).
Proof.
  unfold pinned_stream_added.
  destruct (find_pinned_device rstream st) as [p|]; [ | apply frame_refl; apply _ ].
  assert (H1 : frame E anywhere st (snd (init_pinned_device p rstream st))).
  { unfold init_pinned_device.
    set (st0 := update_dev p (set_idle_timeout_sec 0) st).
    assert (H0 : frame E anywhere st st0)
      by (apply frame_update_dev; [ apply _ | exact I | apply static_set_idle_timeout_sec ]).
    destruct (audio_thread_is_dev_open _); [ exact H0 | ].
    eapply frame_trans; [ apply _ | | apply frame_init_device; [ apply _ | exact I ] ].
    apply frame_then; [ apply _ | intros x; apply frame_update_active_node; apply _ | exact H0 ]. }
  destruct (init_pinned_device p rstream st) as [rc st1]. cbn [snd] in H1.
  destruct (negb (rc =? 0)).
  - eapply frame_trans; [ apply _ | exact H1 | apply frame_schedule_init_device_retry; apply _ ].
  - eapply frame_trans; [ apply _ | exact H1 | apply frame_add_stream_to_open_devs; apply _ ].
Qed.

Lemma frame_stream_added_cb rstream st :
  frame E anywhere st (snd (stream_added_cb rstream st)).
Proof.
  unfold stream_added_cb.
  destruct (stream_list_suspended st); [ apply frame_refl; apply _ | ].
  set (st1 := emit st _).
  assert (H1 : frame E anywhere st st1) by (apply frame_emit; apply _).
  destruct (is_pinned rstream).
  { eapply frame_trans; [ apply _ | exact H1 | apply frame_pinned_stream_added ]. }
  set (st2 := stream_added_catch rstream st1).
  assert (H2 : frame E anywhere st st2).
  { unfold st2, stream_added_catch.
    destruct (fallback_devs st1 (direction rstream)) as [fb|]; [ | exact H1 ].
    destruct (cras_iodev_list_dev_is_enabled st1 fb); [ | exact H1 ].
    pose proof (frame_init_device E anywhere fb rstream st1 I) as Hi.
    destruct (init_device fb rstream st1) as [rc sta]. cbn [snd] in Hi.
    eapply frame_trans; [ apply _ | exact H1 | ].
    eapply frame_trans; [ apply _ | exact Hi | apply frame_add_stream_to_open_devs; apply _ ]. }
  set (sc1 := stream_added_scan rstream _ (scan_start st2)).
  assert (Hs1 : frame E anywhere st (sc_state sc1)).
  { eapply frame_trans; [ apply _ | exact H2 | ].
    apply (frame_stream_added_scan E anywhere rstream _ (scan_start st2)),
      scan_within_anywhere. }
  assert (Hs2 : frame E anywhere st (sc_state (stream_added_floop rstream sc1))).
  { unfold stream_added_floop. destruct (bool_decide _); [ | exact Hs1 ].
    eapply frame_trans; [ apply _ | exact Hs1 | ].
    apply frame_stream_added_floop_scan; [ apply _ | auto ]. }
  eapply frame_trans; [ apply _ | exact Hs2 | ].
  apply frame_stream_added_finish; auto; apply _.
Qed.

End WholeHook.

(** ** A device is enabled once *)

Section EnableOnce.
Context `{!IodevListEnv}.

Lemma run_routing_op_nodup op st :
  enabled_nodup st -> enabled_nodup (run_routing_op op st).
Proof.
  intros Hnd. destruct op as [p|i p force|rstream]; cbn [run_routing_op].
  - exact (fr_enabled _ _ _ _
             (frame_enable_device enabled_keeps_nodup (fun _ => True) p st I) Hnd).
  - exact (fr_enabled _ _ _ _
             (frame_disable_device enabled_keeps_nodup (fun _ => True) i p force st I) Hnd).
  - exact (fr_enabled _ _ _ _ (frame_stream_added_cb enabled_keeps_nodup rstream st) Hnd).
Qed.

(** C10.  Enabling a device that is in the enabled list of its direction
    returns -EEXIST and changes nothing: the enabled lists, the
    [is_enabled] flag and the open or closed state of every device, and
    all the rest of the state, are as before.  When the device is not in
    the list it is appended at the end of the list of its direction and
    the other lists stay as they are.  So enabled lists that hold no
    device twice never come to hold one twice, whatever devices are
    enabled and disabled and whatever streams are added. *)
Theorem enable_device_once (p : dev_ptr) (st : iodev_list) :
  let dir := dev_direction (deref st p) in
  (p ∈ enabled_devs st dir -> enable_device p st = (- EEXIST, st))
  /\ (p ∉ enabled_devs st dir ->
      enabled_devs (snd (enable_device p st)) dir = enabled_devs st dir ++ [p]
      /\ forall dir', dir' <> dir ->
           enabled_devs (snd (enable_device p st)) dir' = enabled_devs st dir')
  /\ (enabled_nodup st -> forall ops, enabled_nodup (run_routing_ops ops st)).
Proof.
  cbn zeta. split; [ apply enable_device_already | ]. split.
  - intros Hnot. rewrite (enable_device_enabled_devs p st Hnot).
    cbn [enabled_devs set_enabled_devs]. split.
    + now rewrite bool_decide_eq_true_2.
    + intros dir' Hne. now rewrite bool_decide_eq_false_2.
  - intros Hnd ops. revert st Hnd. unfold run_routing_ops.
    induction ops as [|op ops IH]; intros st Hnd; [ exact Hnd | ].
    cbn [foldl]. apply IH. now apply run_routing_op_nodup.
Qed.

End EnableOnce.

(** The speaker is in the enabled list of the outputs: enabling it again
    gives -EEXIST and the same state.  Enabling the fallback appends it.
    Whatever is enabled, disabled and added afterwards, no list holds a
    device twice. *)
Lemma enable_device_once_witness :
  @enable_device env_ok 11%nat list_speaker = (- EEXIST, list_speaker)
  /\ enabled_devs (snd (@enable_device env_ok 10%nat list_speaker)) CRAS_STREAM_OUTPUT
     = [11%nat; 10%nat]
  /\ enabled_nodup
       (@run_routing_ops env_ok
          [OpEnableDevice 10%nat; OpEnableDevice 11%nat; OpStreamAdded surround_stream;
           OpDisableDevice 0 11%nat true; OpEnableDevice 11%nat]
          list_speaker).
Proof.
  split; [ | split ].
  - destruct (@enable_device_once env_ok 11%nat list_speaker) as (H & _).
    apply H. vm_compute. apply list_elem_of_here.
  - destruct (@enable_device_once env_ok 10%nat list_speaker) as (_ & H & _).
    apply H. vm_compute. intros Hin. apply list_elem_of_singleton in Hin. discriminate.
  - destruct (@enable_device_once env_ok 11%nat list_speaker) as (_ & _ & H).
    apply H. intros dir. destruct dir; vm_compute; repeat constructor;
      intros Hin; inversion Hin.
Defined.

(** ** Re-opening a device for a stream with more channels *)

Lemma emitted_nil st st' :
  trace st `prefix_of` trace st' -> emitted_in_order [] st st'.
Proof. intros [evs Hevs]. exists evs. split; [ exact Hevs | apply sublist_nil_l ]. Qed.

Lemma emitted_app l1 l2 st1 st2 st3 :
  emitted_in_order l1 st1 st2 -> emitted_in_order l2 st2 st3 ->
  emitted_in_order (l1 ++ l2) st1 st3.
Proof.
  intros (e1 & H1 & S1) (e2 & H2 & S2). exists (e1 ++ e2). split.
  - now rewrite H2, H1, <- app_assoc.
  - now apply sublist_app.
Qed.

Lemma emitted_emit st e : emitted_in_order [e] st (emit st e).
Proof. now exists [e]. Qed.


Lemma emitted_then l st1 st2 st3 :
  emitted_in_order l st1 st2 -> trace st2 `prefix_of` trace st3 ->
  emitted_in_order l st1 st3.
Proof.
  intros H1 H2. rewrite <- (app_nil_r l).
  eapply emitted_app; [ exact H1 | now apply emitted_nil ].
Qed.

Lemma emitted_after l st1 st2 st3 :
  trace st1 `prefix_of` trace st2 -> emitted_in_order l st2 st3 ->
  emitted_in_order l st1 st3.
Proof.
  intros H1 H2. change l with ([] ++ l).
  eapply emitted_app; [ apply emitted_nil; exact H1 | exact H2 ].
Qed.


Lemma lookup_deref st p x : iodevs st !! p = Some x -> deref st p = x.
Proof. unfold deref. now intros ->. Qed.

Lemma open_lookup st p :
  cras_iodev_is_open (deref st p) = true -> iodevs st !! p = Some (deref st p).
Proof. unfold deref. now destruct (iodevs st !! p). Qed.

Lemma lookup_update_dev p f st x :
  iodevs st !! p = Some x -> iodevs (update_dev p f st) !! p = Some (f x).
Proof.
  intros Hx. unfold update_dev. cbn [iodevs set_iodevs].
  rewrite lookup_alter. destruct (decide (p = p)); [ | congruence ].
  now rewrite Hx.
Qed.


Section Reopen.
Context `{!IodevListEnv}.

Local Abbreviation nowhere := (fun _ : dev_ptr => False).
Local Abbreviation anywhere := (fun _ : dev_ptr => True).

(** A function that writes to no device leaves every address as it is. *)
Lemma lookup_frame_nowhere E st st' q :
  frame E nowhere st st' -> iodevs st' !! q = iodevs st !! q.
Proof. intros Hfr. apply (fr_other _ _ _ _ Hfr). tauto. Qed.


Lemma close_dev_lookup p x st :
  iodevs st !! p = Some x -> cras_iodev_is_open x = true ->
  iodevs (close_dev p st) !! p = Some (cras_iodev_close (set_idle_timeout_sec 0 x))
  /\ emitted_in_order [EvIodevClose p] st (close_dev p st).
Proof.
  intros Hx Hopen. unfold close_dev. rewrite (lookup_deref _ _ _ Hx), Hopen. cbn [negb].
  set (st1 := emit st _).
  set (st2 := remove_all_streams_from_dev p st1).
  set (st3 := update_dev p (set_idle_timeout_sec 0) st2).
  set (st4 := possibly_disable_echo_reference p st3).
  set (st5 := update_dev p cras_iodev_close st4).
  assert (H3 : iodevs st3 !! p = Some (set_idle_timeout_sec 0 x))
    by now apply lookup_update_dev.
  assert (H4 : iodevs st4 !! p = Some (set_idle_timeout_sec 0 x)).
  { unfold st4, possibly_disable_echo_reference.
    now destruct (echo_reference_dev (deref st3 p)). }
  split.
  - rewrite (lookup_frame_nowhere eq _ _ _ (frame_possibly_clear eq nowhere _)).
    change (iodevs st5 !! p = Some (cras_iodev_close (set_idle_timeout_sec 0 x))).
    now apply lookup_update_dev.
  - eapply emitted_after; [ | eapply emitted_then; [ apply (emitted_emit st5) | ] ].
    + apply (fr_trace eq anywhere).
      apply frame_then_update_dev; [ apply _ | exact I | apply static_cras_iodev_close | ].
      unfold st4, possibly_disable_echo_reference.
      destruct (echo_reference_dev (deref st3 p)); [ apply frame_then_emit; [ apply _ | ] | ];
        (apply frame_then_update_dev;
           [ apply _ | exact I | apply static_set_idle_timeout_sec | ];
         unfold st2, remove_all_streams_from_dev;
         apply frame_then_emits, frame_then_emit, frame_emit; apply _).
    + apply (fr_trace _ _ _ _ (frame_possibly_clear eq nowhere _)).
Qed.









(** *** The fallback around the re-opening *)


Lemma disable_fallback_scan_gone dir fb l : forall i st pre,
  enabled_devs st dir = pre ++ l -> length pre = i -> fb ∉ pre ->
  fallback_devs st dir = Some fb -> dev_direction (deref st fb) = dir ->
  fb ∉ enabled_devs (disable_fallback_scan l i dir st) dir.
Proof.
  induction l as [|e l IH]; intros i st pre Hen Hlen Hpre Hfb Hdir;
    cbn [disable_fallback_scan].
  - rewrite Hen, app_nil_r. exact Hpre.
  - rewrite Hfb.
    destruct (bool_decide_reflect (Some e = Some fb)) as [He|He].
    + injection He as ->.
      pose proof (frame_disable_device enabled_any anywhere i fb false st I) as Fd.
      apply (IH i _ pre); auto.
      * rewrite disable_device_enabled_devs, Hdir. cbn [enabled_devs set_enabled_devs].
        rewrite bool_decide_eq_true_2 by reflexivity.
        rewrite Hen, <- Hlen. apply delete_middle.
      * now rewrite (fr_fallback _ _ _ _ Fd).
      * now rewrite (dev_direction_frame _ _ _ _ fb Fd).
    + apply (IH (S i) st (pre ++ [e])); auto.
      * now rewrite <- app_assoc.
      * rewrite length_app. cbn. lia.
      * intros Hin. apply elem_of_app in Hin as [Hin|Hin]; [ now apply Hpre | ].
        apply list_elem_of_singleton in Hin. congruence.
Qed.

Lemma possibly_disable_fallback_gone dir st fb :
  fallback_devs st dir = Some fb -> dev_direction (deref st fb) = dir ->
  fb ∉ enabled_devs (possibly_disable_fallback dir st) dir.
Proof.
  intros Hfb Hdir. unfold possibly_disable_fallback.
  apply (disable_fallback_scan_gone dir fb _ 0%nat st []); auto.
  intros Hin. inversion Hin.
Qed.

(** *** The loop over the enabled devices *)








Lemma find_dev_idx st i p : find_dev st i = Some p -> dev_idx (deref st p) = i.
Proof.
  unfold find_dev. intros Hf. apply List.find_some in Hf as [_ Hf]. now apply Z.eqb_eq.
Qed.




End Reopen.


(** C5.  The code at the input where the claim fails.  The speaker is
    the one enabled output device, open with two channels and able to
    take six, and the stream of six channels is added while the hardware
    of the speaker is busy (-EAGAIN to the re-opening).  The claim has the
    device re-opened for the stream before the fallback is disabled.
    [stream_added_cb] sets [iodev_reopened] whatever became of
    [restart_dev], so it skips the branch that keeps the fallback for the
    case that no device could be initialized or re-opened,
    and disables the fallback: it returns 0, the speaker is closed without
    a format, with a retry pending, the fallback is out of the enabled
    list and closed, and no device of the enabled list is open. *)
Lemma stream_added_reopen_failure_drops_fallback :
  let res := @stream_added_cb env_busy surround_stream list_speaker in
  (is_pinned surround_stream = false
   /\ direction surround_stream = CRAS_STREAM_OUTPUT
   /\ enabled_devs list_speaker CRAS_STREAM_OUTPUT = [11%nat]
   /\ fallback_devs list_speaker CRAS_STREAM_OUTPUT = Some 10%nat
   /\ needs_reopen surround_stream (deref list_speaker 11%nat) = true)
  /\ fst res = 0
  /\ cras_iodev_is_open (deref (snd res) 11%nat) = false
  /\ dev_format (deref (snd res) 11%nat) = None
  /\ init_retries (snd res) = [5]
  /\ enabled_devs (snd res) CRAS_STREAM_OUTPUT = [11%nat]
  /\ cras_iodev_is_open (deref (snd res) 10%nat) = false.
Proof. vm_compute. repeat split; reflexivity. Qed.

(** * Part VIII.  Further properties *)

(** ** The audio task *)

Section AudioTaskMore.
Context {cras_audio_shm : Type} `{!ShmOps cras_audio_shm}.

Local Abbreviation stream := (client_stream cras_audio_shm).

Lemma audio_thread_loop_terminated (rest : list poll_input) (s : stream) rc :
  rc <> 0 -> audio_thread_loop rest s rc = (ThreadReturned 0, s, []).
Proof.
  intros Hrc. destruct rest; cbn [audio_thread_loop];
    destruct (Z.eqb_spec rc 0); try contradiction; reflexivity.
Qed.

(** X1.  Capture, DATA_READY with frame count [n], on a stream whose
    buffer holds the [m] frames the request comes to after clamping, with
    [m] not 0.  When the stream has a [stream_cb] callback and the
    argument record of the callback cannot be allocated, the handler
    returns -errno: no callback runs, nothing is marked read and nothing
    is written.  Otherwise the user callback is offered [m] frames.  When
    it returns [k > 0] the read pointer moves by [k] frames; a stream of
    direction INPUT then writes DATA_CAPTURED with frames [k] and error 0
    on the audio socket, a loopback stream writes nothing.  When it
    returns 0 nothing is marked read and nothing is written.  When it
    returns [k < 0] CLIENT_STREAM_EOF goes to the stream pipe, nothing is
    marked read, and an INPUT stream writes DATA_CAPTURED with error
    [k]. *)
Theorem capture_data_ready_delivery (s : stream) (n : Z) (sys : audio_sys) :
  cras_stream_has_input (cs_direction s) = true ->
  let m := if Z.land (cs_flags s) BULK_AUDIO_OK =? 0
           then MIN n (sp_cb_threshold (cs_config s))
           else MIN n (sp_buffer_frames (cs_config s)) in
  let k := selected_callback (cs_config s) m in
  let input_hw := cras_stream_uses_input_hw (cs_direction s) in
  m <= cras_shm_get_curr_read_frames (cs_shm s) ->
  m <> 0 ->
  (sp_stream_cb (cs_config s) <> None -> sys_cb_data_alloc sys = false ->
   handle_capture_data_ready s n sys = (- sys_errno sys, s, []))
  /\ (sp_stream_cb (cs_config s) = None \/ sys_cb_data_alloc sys = true ->
      (0 < k < 2 ^ 31 ->
       handle_capture_data_ready s n sys
       = (if input_hw then reply_rc sys else 0,
          set_cs_shm s (cras_shm_buffer_read_current (cs_shm s) k),
          EvUserCallback m ::
          if input_hw
          then [EvAudWrite {| am_id := AUDIO_MESSAGE_DATA_CAPTURED; am_error := 0;
                              am_frames := k |}]
          else []))
      /\ (k = 0 -> handle_capture_data_ready s n sys = (0, s, [EvUserCallback m]))
      /\ (k < 0 ->
          handle_capture_data_ready s n sys
          = (if input_hw then reply_rc sys else 0, s,
             EvUserCallback m :: EvStreamPipeWrite (cs_id s) CLIENT_STREAM_EOF ::
             if input_hw
             then [EvAudWrite {| am_id := AUDIO_MESSAGE_DATA_CAPTURED; am_error := k;
                                 am_frames := to_uint32 k |}]
             else []))).
Proof.
  intros Hdir m k input_hw Hroom Hm.
  unfold handle_capture_data_ready, config_capture_buf. rewrite Hdir. cbn [negb].
  fold m. destruct (Z.ltb_spec (cras_shm_get_curr_read_frames (cs_shm s)) m); [ lia | ].
  destruct (Z.eqb_spec m 0); [ contradiction | ].
  split.
  { intros Hcb Halloc. now rewrite (call_user_callback_no_memory _ m _ Hcb Halloc). }
  intros Hok.
  assert (Havail : cb_data_available (cs_config s) sys).
  { intros Hcb. destruct Hok as [Hnone|Halloc]; [ contradiction | exact Halloc ]. }
  rewrite (call_user_callback_ok _ m _ Havail). fold k.
  unfold send_capture_reply, send_stream_message, complete_capture_read_current.
  cbn [cs_direction set_cs_shm]. fold input_hw. unfold reply_rc.
  repeat split.
  - intros Hk. destruct (Z.ltb_spec k 0); [ lia | ].
    destruct (Z.eqb_spec k 0); [ lia | ].
    destruct input_hw; cbn [negb app]; [ | reflexivity ].
    now rewrite to_uint32_small by lia.
  - intros Hk. rewrite Hk. reflexivity.
  - intros Hk. destruct (Z.ltb_spec k 0); [ | lia ].
    destruct input_hw; reflexivity.
Qed.

(** X2.  While the stream thread is warming up the audio task does not
    read the audio socket: a wake-up in the WARMUP state runs no handler,
    leaves the stream as it is and writes nothing, whatever waits on the
    socket, and the task goes on with its next wake-up.  Only a failed
    [poll] or a failed read of the wake pipe ends the task, with -EIO. *)
Theorem audio_thread_warmup_reads_nothing (s : stream) (p : poll_input)
    (rest : list poll_input) :
  pi_thread_state p = CRAS_THREAD_WARMUP ->
  let wake_failed := pi_wake_pollin p && (pi_wake_read p <? 0) in
  (0 <= pi_poll_rc p -> wake_failed = false ->
   audio_thread (p :: rest) s = audio_thread rest s)
  /\ (pi_poll_rc p < 0 \/ (0 <= pi_poll_rc p /\ wake_failed = true) ->
      audio_thread (p :: rest) s = (ThreadReturned (- EIO), s, [])).
Proof.
  intros Hst wake_failed. unfold audio_thread. cbn [audio_thread_loop Z.eqb negb].
  rewrite Hst. cbn [thread_is_running negb].
  unfold read_with_wake_fd. cbn [Z.leb andb]. fold (0 <=? -1).
  change (0 <=? -1) with false. cbn [andb].
  unfold wake_failed. split.
  - intros Hpoll Hwake. destruct (Z.ltb_spec (pi_poll_rc p) 0); [ lia | ].
    destruct (pi_wake_pollin p); cbn [andb] in Hwake |- *; [ rewrite Hwake | ];
      reflexivity.
  - intros [Hpoll|[Hpoll Hwake]].
    + destruct (Z.ltb_spec (pi_poll_rc p) 0) as [Hlt|]; [ | lia ].
      apply Z.ltb_lt in Hlt. now rewrite Hlt.
    + destruct (Z.ltb_spec (pi_poll_rc p) 0); [ lia | ].
      destruct (pi_wake_pollin p); cbn [andb] in Hwake; [ | discriminate ].
      rewrite Hwake. now rewrite Hwake.
Qed.

(** X3.  A handler that returns a value other than 0 ends the audio
    task: the thread function returns NULL after that message, with the
    stream and the events the handler left, and reads nothing more.  A
    playback reply that cannot be written is such a case: the handler
    returns -EPIPE. *)
Theorem audio_thread_ends_after_handler_error (s : stream) (p : poll_input)
    (rest : list poll_input) :
  thread_is_running (pi_thread_state p) = true ->
  0 < read_with_wake_fd (match pi_thread_state p with
                         | CRAS_THREAD_WARMUP => -1
                         | _ => cs_aud_fd s
                         end) sizeof_audio_message p ->
  let n := am_frames (pi_aud_msg p) in
  (forall rc s' ev,
      am_id (pi_aud_msg p) = AUDIO_MESSAGE_REQUEST_DATA ->
      handle_playback_request s n (pi_sys p) = (rc, s', ev) -> rc <> 0 ->
      audio_thread (p :: rest) s = (ThreadReturned 0, s', ev))
  /\ (forall rc s' ev,
        am_id (pi_aud_msg p) = AUDIO_MESSAGE_DATA_READY ->
        handle_capture_data_ready s n (pi_sys p) = (rc, s', ev) -> rc <> 0 ->
        audio_thread (p :: rest) s = (ThreadReturned 0, s', ev))
  /\ (cs_direction s = CRAS_STREAM_OUTPUT ->
      cb_data_available (cs_config s) (pi_sys p) ->
      sys_aud_write (pi_sys p) <> sizeof_audio_message ->
      fst (fst (handle_playback_request s n (pi_sys p))) = - EPIPE).
Proof.
  intros Hrun Hread n. unfold audio_thread. cbn [audio_thread_loop Z.eqb negb].
  rewrite Hrun. cbn [negb].
  destruct (Z.ltb_spec (read_with_wake_fd
              (match pi_thread_state p with
               | CRAS_THREAD_WARMUP => -1
               | _ => cs_aud_fd s
               end) sizeof_audio_message p) 0); [ lia | ].
  destruct (Z.eqb_spec (read_with_wake_fd
              (match pi_thread_state p with
               | CRAS_THREAD_WARMUP => -1
               | _ => cs_aud_fd s
               end) sizeof_audio_message p) 0); [ lia | ].
  fold n. split; [ | split ].
  - intros rc s' ev Hid Hh Hrc. rewrite Hid, Hh.
    rewrite (audio_thread_loop_terminated rest s' rc Hrc). now rewrite app_nil_r.
  - intros rc s' ev Hid Hh Hrc. rewrite Hid, Hh.
    rewrite (audio_thread_loop_terminated rest s' rc Hrc). now rewrite app_nil_r.
  - intros Hdir Havail Hwrite. unfold handle_playback_request. rewrite Hdir.
    rewrite bool_decide_eq_true_2 by reflexivity. cbn [negb].
    rewrite (call_user_callback_ok _ _ _ Havail).
    unfold send_playback_reply, send_stream_message. cbn [cs_direction set_cs_shm].
    rewrite Hdir. unfold cras_stream_uses_output_hw.
    rewrite bool_decide_eq_true_2 by reflexivity. cbn [negb].
    destruct (Z.eqb_spec (sys_aud_write (pi_sys p)) sizeof_audio_message);
      [ contradiction | ].
    now destruct (_ <? 0).
Qed.

End AudioTaskMore.

(** X1 on the capture stream that holds 600 frames: of the 480 frames
    offered the callback takes 240, which are marked read and reported. *)
Lemma capture_data_ready_delivery_witness :
  handle_capture_data_ready capture_600 512 sys_ok
  = (0,
     set_cs_shm capture_600
       {| read_buf_idx := 0; write_buf_idx := 1; read_offset := (960, 0);
          write_offset := (2400, 0); frame_bytes := 4; used_size := 4096 * 4 |},
     [EvUserCallback 480;
      EvAudWrite {| am_id := AUDIO_MESSAGE_DATA_CAPTURED; am_error := 0;
                    am_frames := 240 |}]).
Proof.
  destruct (capture_data_ready_delivery capture_600 512 sys_ok) as (_ & H);
    [ reflexivity | vm_compute; congruence | vm_compute; congruence | ].
  destruct H as (H & _); [ now right | ].
  rewrite H; [ reflexivity | vm_compute; split; reflexivity ].
Defined.

(** X2: the request that waits on the socket during warm-up is not
    read. *)
Lemma audio_thread_warmup_reads_nothing_witness :
  audio_thread [poll_warmup] playback_480 = (ThreadInPoll, playback_480, []).
Proof.
  destruct (audio_thread_warmup_reads_nothing playback_480 poll_warmup []) as [H _];
    [ reflexivity | ].
  rewrite H; [ reflexivity | vm_compute; congruence | reflexivity ].
Defined.

(** X3: the reply to the first request cannot be written, and the second
    request is never served. *)
Lemma audio_thread_ends_after_handler_error_witness :
  audio_thread [poll_request_reply_fails; poll_message (request_data 512)] playback_480
  = (ThreadReturned 0,
     set_cs_shm playback_480 (cras_shm_buffer_written_start sab_empty 480),
     [EvUserCallback 480;
      EvAudWrite {| am_id := AUDIO_MESSAGE_DATA_READY; am_error := 0; am_frames := 480 |}]).
Proof.
  destruct (audio_thread_ends_after_handler_error playback_480 poll_request_reply_fails
              [poll_message (request_data 512)]) as (H & _);
    [ reflexivity | vm_compute; reflexivity | ].
  apply (H (- EPIPE)); [ reflexivity | reflexivity | vm_compute; congruence ].
Defined.

(** ** The control task *)

Section ControlTaskMore.
Context `{!ServerSocket}.

Lemma observer_op_set_observer_op ops n cb m :
  observer_op (set_observer_op ops n cb) m = if bool_decide (m = n) then cb else observer_op ops m.
Proof. destruct n, m; reflexivity. Qed.

Lemma elem_of_registered_notifications c m :
  m ∈ registered_notifications c <-> observer_op (observer_ops c) m <> None.
Proof.
  unfold registered_notifications. rewrite list_elem_of_In, filter_In.
  rewrite bool_decide_eq_true. split; [ tauto | ]. intros Hm. split; [ | exact Hm ].
  unfold observer_notifications. destruct m; cbn; tauto.
Qed.

(** X4.  The ten setters of the state-change callbacks.  The callback is
    stored in [observer_ops] whatever happens to the register request, so
    a later connect transition registers it if it is not NULL and leaves
    it out if it is.  A request is written to the server socket only in the
    CONNECTED and FIRST_MESSAGE states, once, with [do_register] saying
    whether the callback is non-NULL.  Outside the FIRST_MESSAGE state the
    setter returns 0, also when the write fails or is short. *)
Theorem set_changed_callback_stores_and_returns (n : CRAS_CLIENT_MESSAGE_ID)
    (c : cras_client) (cb : callback_ptr) :
  0 < sizeof_register_notification ->
  let r := cras_client_set_changed_callback n c cb in
  let msg := {| rn_msg_id := n; rn_do_register := bool_decide (cb <> None) |} in
  observer_ops (snd r) = set_observer_op (observer_ops c) n cb
  /\ (forall m, m ∈ registered_notifications (snd r)
                <-> (m = n /\ cb <> None) \/ (m <> n /\ m ∈ registered_notifications c))
  /\ (server_fd_state c <> CRAS_SOCKET_STATE_FIRST_MESSAGE -> fst r = 0)
  /\ client_trace (snd r)
     = client_trace c
       ++ (if bool_decide (server_fd_state c = CRAS_SOCKET_STATE_CONNECTED)
              || bool_decide (server_fd_state c = CRAS_SOCKET_STATE_FIRST_MESSAGE)
           then [EvServerWrite msg (server_write msg)] else [])
  /\ server_fd_state (snd r) = server_fd_state c
  /\ streams (snd r) = streams c.
Proof.
  intros Hlen r msg.
  assert (Hr : observer_ops (snd r) = set_observer_op (observer_ops c) n cb
               /\ (server_fd_state c <> CRAS_SOCKET_STATE_FIRST_MESSAGE -> fst r = 0)
               /\ client_trace (snd r)
                  = client_trace c
                    ++ (if bool_decide (server_fd_state c = CRAS_SOCKET_STATE_CONNECTED)
                           || bool_decide (server_fd_state c
                                           = CRAS_SOCKET_STATE_FIRST_MESSAGE)
                        then [EvServerWrite msg (server_write msg)] else [])
               /\ server_fd_state (snd r) = server_fd_state c
               /\ streams (snd r) = streams c).
  { unfold r, cras_client_set_changed_callback, cras_send_register_notification,
      write_message_to_server. fold msg.
    cbn [server_fd_state set_observer_ops].
    destruct (bool_decide_reflect (server_fd_state c = CRAS_SOCKET_STATE_CONNECTED))
      as [Hc|Hc];
      destruct (bool_decide_reflect (server_fd_state c = CRAS_SOCKET_STATE_FIRST_MESSAGE))
        as [Hf|Hf]; cbn [orb negb andb].
    - congruence.
    - rewrite andb_true_r.
      set (w := if server_write msg <? 0 then - server_write_errno msg
                else server_write msg).
      destruct (Z.eqb_spec w sizeof_register_notification) as [He|He]; cbn [negb].
      + replace (w <? 0) with false by (symmetry; apply Z.ltb_ge; lia).
        cbn [fst snd Z.eqb]. repeat split; reflexivity.
      + cbn [fst snd]. repeat split; reflexivity.
    - rewrite andb_false_r.
      repeat (match goal with |- context [if ?b then _ else _] => destruct b end);
        cbn [fst snd]; repeat split; try reflexivity; intros; contradiction.
    - rewrite andb_true_r.
      destruct (Z.eqb_spec (- EPIPE) sizeof_register_notification) as [He|He];
        [ unfold EPIPE in He; lia | ].
      cbn [negb fst snd]. rewrite app_nil_r. repeat split; reflexivity. }
  destruct Hr as (Hops & Hrc & Htr & Hst & Hstreams).
  split; [ exact Hops | ]. split; [ | tauto ].
  intros m. rewrite !elem_of_registered_notifications, Hops, observer_op_set_observer_op.
  destruct (bool_decide_reflect (m = n)) as [->|Hne]; [ tauto | ]. tauto.
Qed.

End ControlTaskMore.

(** X4 on a connected client whose socket takes 4 bytes of the 16: the
    setter returns 0, the callback is stored and counts as registered. *)
Lemma set_changed_callback_stores_and_returns_witness :
  let r := @cras_client_set_changed_callback socket_short_write
             CRAS_CLIENT_OUTPUT_MUTE_CHANGED client_connected (Some 7%nat) in
  fst r = 0
  /\ observer_op (observer_ops (snd r)) CRAS_CLIENT_OUTPUT_MUTE_CHANGED = Some 7%nat
  /\ CRAS_CLIENT_OUTPUT_MUTE_CHANGED ∈ registered_notifications (snd r).
Proof.
  destruct (@set_changed_callback_stores_and_returns socket_short_write
              CRAS_CLIENT_OUTPUT_MUTE_CHANGED client_connected (Some 7%nat))
    as (Hops & Hreg & Hrc & _); [ reflexivity | ].
  split; [ apply Hrc; discriminate | ]. split; [ now rewrite Hops | ].
  apply Hreg. left. split; [ reflexivity | discriminate ].
Defined.

(** ** Removal of streams *)

Lemma remove_stream_absent l x : x ∉ (st_id <$> l) -> remove_stream l x = l.
Proof.
  induction l as [|s l IH]; intros Hx; cbn [remove_stream]; [ reflexivity | ].
  rewrite fmap_cons, not_elem_of_cons in Hx. destruct Hx as [Hne Hx].
  destruct (Z.eqb_spec (st_id s) x); [ congruence | ]. now rewrite IH.
Qed.

Lemma remove_stream_last l s : st_id s ∉ (st_id <$> l) -> remove_stream (l ++ [s]) (st_id s) = l.
Proof.
  induction l as [|y l IH]; intros Hx; cbn [app remove_stream].
  - now rewrite Z.eqb_refl.
  - rewrite fmap_cons, not_elem_of_cons in Hx. destruct Hx as [Hne Hx].
    destruct (Z.eqb_spec (st_id y) (st_id s)); [ congruence | ]. now rewrite IH.
Qed.

(** X5.  Removal undoes addition: when [client_thread_add_stream] has
    added a stream, [client_thread_rm_stream] with the id it gave leaves
    the stream list as it was before the addition, while [next_stream_id]
    keeps the value the addition left.  A removal with an id that no
    stream of the list has changes nothing. *)
Theorem client_thread_rm_stream_undoes_add (fuel : nat) (c c' : cras_client)
    (s : ctl_stream) (dev_idx : Z) (sys : add_stream_sys) (new_id : Z) :
  client_thread_add_stream fuel c s dev_idx sys = Some (0, c', Some new_id) ->
  streams (snd (client_thread_rm_stream c' new_id)) = streams c
  /\ next_stream_id (snd (client_thread_rm_stream c' new_id)) = next_stream_id c'
  /\ forall x, x ∉ stream_ids c' -> client_thread_rm_stream c' x = (0, c').
Proof.
  intros Hadd. split; [ | split; [ reflexivity | ] ].
  - unfold client_thread_add_stream in Hadd.
    destruct (_ && _ && _) in Hadd; [ discriminate | ].
    destruct (find_available_stream_id fuel (id c) (next_stream_id c) (streams c))
      as [[id' next']|] eqn:Hfind; [ | discriminate ].
    destruct (find_available_stream_id_spec fuel _ _ _ _ _ Hfind)
      as (k & Hk & Hid & Hnext & Hfree & Htaken).
    destruct (negb (ass_start_aud_thread sys =? 0)) eqn:H1;
      [ injection Hadd as Hrc _ _; apply negb_true_iff, Z.eqb_neq in H1; congruence | ].
    destruct (negb (ass_send_connect_message sys =? 0)) eqn:H2;
      [ injection Hadd as Hrc _ _; apply negb_true_iff, Z.eqb_neq in H2; congruence | ].
    injection Hadd as <- <-.
    cbn [client_thread_rm_stream snd streams set_streams].
    apply (remove_stream_last (streams c) {| st_id := id'; st_flags := _ |}).
    exact Hfree.
  - intros x Hx. unfold client_thread_rm_stream, stream_ids in *.
    rewrite remove_stream_absent by exact Hx. now destruct c'.
Qed.

(** X5 on the client that has the stream of index 0: the stream added
    with id (3 << 16) | 1 is removed again, and the list is as before. *)
Lemma client_thread_rm_stream_undoes_add_witness :
  exists c',
    client_thread_add_stream (Z.to_nat 65536) client_with_stream
      {| st_id := 0; st_flags := 0 |} NO_DEVICE add_stream_ok
    = Some (0, c', Some (3 * 65536 + 1))
    /\ streams (snd (client_thread_rm_stream c' (3 * 65536 + 1)))
       = streams client_with_stream.
Proof.
  eexists. split; [ vm_compute; reflexivity | ].
  eapply (client_thread_rm_stream_undoes_add (Z.to_nat 65536) client_with_stream _
            {| st_id := 0; st_flags := 0 |} NO_DEVICE add_stream_ok (3 * 65536 + 1)).
  vm_compute. reflexivity.
Defined.

(** ** The device list *)

(** X6.  Input node gain to dBFS and back.  For a node that is not an
    internal mic, and for an internal mic on a board whose maximum gain is
    at least 50, converting a gain to dBFS and back gives the gain clamped
    to 0..100.  On a board whose maximum internal mic gain is below 50
    every internal mic gain above 50 converts to 0 dBFS and comes back as
    50. *)
Theorem input_node_gain_round_trip (max_internal_mic_gain : Z) :
  let to_dBFS := convert_dBFS_from_input_node_gain max_internal_mic_gain in
  let from_dBFS := convert_input_node_gain_from_dBFS max_internal_mic_gain in
  (forall gain, from_dBFS (to_dBFS gain false) false = Z.max 0 (Z.min 100 gain))
  /\ (forall gain, 50 <= max_internal_mic_gain ->
        from_dBFS (to_dBFS gain true) true = Z.max 0 (Z.min 100 gain))
  /\ (forall gain, 0 <= max_internal_mic_gain < 50 -> 50 < gain ->
        to_dBFS gain true = 0 /\ from_dBFS (to_dBFS gain true) true = 50).
Proof.
  cbn zeta.
  assert (Hgen : forall max_gain gain, 50 <= max_gain ->
            let g := if 100 <? (if gain <? 0 then 0 else gain) then 100
                     else if gain <? 0 then 0 else gain in
            let there := (g - 50) * (if 50 <? g then Z.quot max_gain 50 else 40) in
            50 + Z.quot there (if 0 <? there then Z.quot max_gain 50 else 40)
            = Z.max 0 (Z.min 100 gain)).
  { intros max_gain gain Hmax g there.
    assert (Hg : g = Z.max 0 (Z.min 100 gain)).
    { unfold g. destruct (Z.ltb_spec gain 0);
        [ destruct (Z.ltb_spec 100 0) | destruct (Z.ltb_spec 100 gain) ]; lia. }
    assert (Hs : 0 < Z.quot max_gain 50) by (apply Z.quot_str_pos; lia).
    unfold there. destruct (Z.ltb_spec 50 g).
    - destruct (Z.ltb_spec 0 ((g - 50) * Z.quot max_gain 50)); [ | nia ].
      rewrite Z.quot_mul by lia. lia.
    - destruct (Z.ltb_spec 0 ((g - 50) * 40)); [ nia | ].
      rewrite Z.quot_mul by lia. lia. }
  split; [ | split ].
  - intros gain. apply (Hgen DEFAULT_MAX_INPUT_NODE_GAIN gain). unfold DEFAULT_MAX_INPUT_NODE_GAIN. lia.
  - intros gain Hmax. apply (Hgen max_internal_mic_gain gain Hmax).
  - intros gain Hmax Hgain.
    unfold convert_dBFS_from_input_node_gain, convert_input_node_gain_from_dBFS.
    destruct (Z.ltb_spec gain 0); [ lia | ].
    assert (Hq : Z.quot max_internal_mic_gain 50 = 0) by (apply Z.quot_small; lia).
    rewrite Hq.
    destruct (Z.ltb_spec 100 gain);
      [ destruct (Z.ltb_spec 50 100) | destruct (Z.ltb_spec 50 gain) ]; try lia;
      rewrite Z.mul_0_r; split; reflexivity.
Qed.

Section DeviceListMore.
Context `{!IodevListEnv}.

Local Abbreviation nowhere := (fun _ : dev_ptr => False).
Local Abbreviation anywhere := (fun _ : dev_ptr => True).

(** *** What the helpers leave alone *)

Lemma init_retries_update_nc_blocked_state a b st :
  init_retries (update_nc_blocked_state a b st) = init_retries st.
Proof.
  unfold update_nc_blocked_state.
  repeat (match goal with |- context [if ?c then _ else _] => destruct c end); reflexivity.
Qed.

Lemma init_retries_possibly_clear st :
  init_retries (possibly_clear_non_dsp_aec_echo_ref_dev_alive st) = init_retries st.
Proof.
  unfold possibly_clear_non_dsp_aec_echo_ref_dev_alive, set_non_dsp_aec_echo_ref_dev_alive.
  repeat (match goal with |- context [if ?c then _ else _] => destruct c end);
    try reflexivity; apply init_retries_update_nc_blocked_state.
Qed.

Lemma init_retries_close_dev p st : init_retries (close_dev p st) = init_retries st.
Proof.
  unfold close_dev. destruct (negb _); [ reflexivity | ].
  rewrite init_retries_possibly_clear.
  unfold possibly_disable_echo_reference.
  now destruct (echo_reference_dev _).
Qed.

(** The record at [p] after [close_dev]: as before when the device was
    closed, and closed out of idle mode when it was open. *)
Lemma close_dev_deref p st :
  deref (close_dev p st) p
  = if cras_iodev_is_open (deref st p)
    then cras_iodev_close (set_idle_timeout_sec 0 (deref st p))
    else deref st p.
Proof.
  destruct (cras_iodev_is_open (deref st p)) eqn:Hopen.
  - destruct (close_dev_lookup p (deref st p) st (open_lookup st p Hopen) Hopen) as [Hl _].
    apply (lookup_deref _ _ _ Hl).
  - unfold close_dev. now rewrite Hopen.
Qed.

Lemma close_dev_closed p st : cras_iodev_is_open (deref (close_dev p st) p) = false.
Proof.
  rewrite close_dev_deref. destruct (cras_iodev_is_open (deref st p)) eqn:Hopen;
    [ reflexivity | exact Hopen ].
Qed.

Lemma deref_possibly_clear st q :
  deref (possibly_clear_non_dsp_aec_echo_ref_dev_alive st) q = deref st q.
Proof.
  apply (deref_frame eq nowhere st _ q); [ apply frame_possibly_clear; apply _ | tauto ].
Qed.

Lemma deref_update_dev_same p f st :
  f null_iodev = null_iodev -> deref (update_dev p f st) p = f (deref st p).
Proof.
  intros Hnull. rewrite deref_update_dev. destruct (decide (p = p)); [ | congruence ].
  unfold deref. destruct (iodevs st !! p); [ reflexivity | symmetry; exact Hnull ].
Qed.

(** X7.  [disable_device].  The node at position [i] leaves the enabled
    list of the direction of its device and the device is marked not
    enabled; the function returns 0.  Without [force], a device that some
    stream is pinned to stays in the state it was in, open or not: only
    the streams of its direction that are not pinned are disconnected
    from it, and its pending init retries stay.  Otherwise the device is
    closed; with [force] no init retry for its index is pending
    afterwards. *)
Theorem disable_device_cases (i : nat) (p : dev_ptr) (force : bool) (st : iodev_list) :
  let d := deref st p in
  let res := disable_device i p force st in
  let pinned := stream_list_has_pinned_stream (stream_list st) (dev_idx d) in
  fst res = 0
  /\ enabled_devs (snd res) (dev_direction d) = delete i (enabled_devs st (dev_direction d))
  /\ is_enabled (deref (snd res) p) = false
  /\ (force = false -> pinned = true ->
      dev_state (deref (snd res) p) = dev_state d
      /\ init_retries (snd res) = init_retries st
      /\ trace (snd res)
         = trace st
           ++ EvMainLog (MAIN_THREAD_DEV_DISABLE (dev_idx d) false)
              :: map (fun s => EvAudioThreadDisconnectStream (stream_id s) (Some p))
                     (List.filter (fun s => bool_decide (direction s = dev_direction d)
                                            && negb (is_pinned s))
                                  (stream_list st)))
  /\ (force = true \/ pinned = false ->
      cras_iodev_is_open (deref (snd res) p) = false)
  /\ (force = true -> dev_idx d ∉ init_retries (snd res)).
Proof.
  intros d res pinned.
  split; [ | split ].
  { unfold res, disable_device. destruct force; [ reflexivity | ].
    now destruct (stream_list_has_pinned_stream _ _). }
  { unfold res. rewrite disable_device_enabled_devs. cbn [enabled_devs set_enabled_devs].
    now rewrite bool_decide_eq_true_2. }
  unfold res, disable_device. fold d.
  set (st1 := emit st _).
  set (st2 := set_enabled_devs st1 _ _).
  set (st3 := update_dev p (set_is_enabled false) st2).
  assert (H3 : deref st3 p = set_is_enabled false d)
    by (unfold st3; now rewrite deref_update_dev_same).
  assert (Hfin : forall stx, deref stx p = set_is_enabled false d ->
            let stf := possibly_clear_non_dsp_aec_echo_ref_dev_alive
                         (update_active_node p 0
                            (close_dev p (emit stx (EvDeviceDisabledCbs p)))) in
            is_enabled (deref stf p) = false
            /\ cras_iodev_is_open (deref stf p) = false
            /\ init_retries stf = init_retries stx).
  { intros stx Hx stf. unfold stf. rewrite deref_possibly_clear.
    change (deref (update_active_node p 0 ?s) p) with (deref s p).
    split; [ | split ].
    - rewrite close_dev_deref. change (deref (emit stx _) p) with (deref stx p).
      rewrite Hx. now destruct (cras_iodev_is_open _).
    - apply close_dev_closed.
    - rewrite init_retries_possibly_clear.
      change (init_retries (update_active_node p 0 ?s)) with (init_retries s).
      now rewrite init_retries_close_dev. }
  change (stream_list st3) with (stream_list st). fold pinned.
  destruct force.
  - set (stc := cancel_pending_init_retries (dev_idx d) st3).
    assert (Hc : deref stc p = set_is_enabled false d) by exact H3.
    destruct (Hfin stc Hc) as (He & Ho & Hr). cbn [snd].
    split; [ exact He | ]. split; [ discriminate | ]. split; [ intros _; exact Ho | ].
    intros _. rewrite Hr. unfold stc, cancel_pending_init_retries.
    cbn [init_retries emits set_init_retries].
    rewrite list_elem_of_In, filter_In. intros [_ Hne].
    now rewrite Z.eqb_refl in Hne.
  - destruct pinned eqn:Hp; cbn [snd].
    + set (stp := emits st3 _).
      assert (Hp3 : deref stp p = set_is_enabled false d) by exact H3.
      split; [ now rewrite Hp3 | ].
      split; [ | split; [ intros [|]; discriminate | discriminate ] ].
      intros _ _. split; [ now rewrite Hp3 | ]. split; [ reflexivity | ].
      unfold stp, st3, st2, st1. cbn [trace emit emits update_dev set_iodevs set_enabled_devs].
      now rewrite <- app_assoc.
    + destruct (Hfin st3 H3) as (He & Ho & Hr).
      split; [ exact He | ]. split; [ discriminate | ]. split; [ intros _; exact Ho | ].
      discriminate.
Qed.

(** X8.  Enabling and disabling devices and adding streams, in any
    order, never changes the registered devices, the fallback devices, the
    stream list, the suspension flag or the loopback pairs; no device
    changes its index, its direction, its maximum channel count or its
    echo reference; [find_dev] gives the same device for every index; and
    the trace of outside calls only grows. *)
Theorem routing_leaves_registry (ops : list routing_op) (st : iodev_list) :
  let st' := run_routing_ops ops st in
  devs st' = devs st
  /\ fallback_devs st' = fallback_devs st
  /\ stream_list st' = stream_list st
  /\ stream_list_suspended st' = stream_list_suspended st
  /\ floop_pair_list st' = floop_pair_list st
  /\ (forall q, same_static (deref st q) (deref st' q))
  /\ (forall idx, find_dev st' idx = find_dev st idx)
  /\ trace st `prefix_of` trace st'.
Proof.
  cbn zeta.
  assert (Hfr : frame enabled_any anywhere st (run_routing_ops ops st)).
  { unfold run_routing_ops. revert st.
    induction ops as [|op ops IH]; intros st; cbn [foldl].
    - apply frame_refl; apply _.
    - eapply frame_trans; [ apply _ | | apply IH ].
      destruct op as [p|i p force|rstream]; cbn [run_routing_op].
      + apply frame_enable_device; [ apply _ | apply _ | exact I ].
      + apply frame_disable_device; [ apply _ | apply _ | exact I ].
      + apply frame_stream_added_cb; apply _. }
  exact (conj (fr_devs _ _ _ _ Hfr)
          (conj (fr_fallback _ _ _ _ Hfr)
             (conj (fr_stream_list _ _ _ _ Hfr)
                (conj (fr_suspended _ _ _ _ Hfr)
                   (conj (fr_floop _ _ _ _ Hfr)
                      (conj (fr_static _ _ _ _ Hfr)
                         (conj (fun idx => find_dev_frame _ _ _ _ idx Hfr)
                               (fr_trace _ _ _ _ Hfr)))))))).
Qed.

(** *** The fallback device *)

Lemma disable_fallback_scan_enabled dir fb l : forall i st pre,
  enabled_devs st dir = pre ++ l -> length pre = i ->
  fallback_devs st dir = Some fb -> dev_direction (deref st fb) = dir ->
  enabled_devs (disable_fallback_scan l i dir st) dir
  = pre ++ List.filter (fun e => negb (bool_decide (e = fb))) l
  /\ forall dir', dir' <> dir ->
       enabled_devs (disable_fallback_scan l i dir st) dir' = enabled_devs st dir'.
Proof.
  induction l as [|e l IH]; intros i st pre Hen Hlen Hfb Hdir;
    cbn [disable_fallback_scan List.filter].
  - split; [ exact Hen | reflexivity ].
  - rewrite Hfb.
    destruct (bool_decide_reflect (Some e = Some fb)) as [He|He].
    + injection He as ->.
      rewrite bool_decide_eq_true_2 by reflexivity. cbn [negb].
      pose proof (frame_disable_device enabled_any anywhere i fb false st I) as Fd.
      pose proof (disable_device_enabled_devs i fb false st) as Hd. rewrite Hdir in Hd.
      destruct (IH i (snd (disable_device i fb false st)) pre) as [H1 H2]; auto.
      * rewrite Hd. cbn [enabled_devs set_enabled_devs].
        rewrite bool_decide_eq_true_2 by reflexivity.
        rewrite Hen, <- Hlen. apply delete_middle.
      * now rewrite (fr_fallback _ _ _ _ Fd).
      * now rewrite (dev_direction_frame _ _ _ _ fb Fd).
      * split; [ exact H1 | ]. intros dir' Hne. rewrite (H2 dir' Hne), Hd.
        cbn [enabled_devs set_enabled_devs]. now rewrite bool_decide_eq_false_2.
    + rewrite bool_decide_eq_false_2 by congruence. cbn [negb].
      destruct (IH (S i) st (pre ++ [e])) as [H1 H2]; auto.
      * now rewrite <- app_assoc.
      * rewrite length_app. cbn. lia.
      * split; [ | exact H2 ]. now rewrite H1, <- app_assoc.
Qed.

Lemma filter_not_elem {A} `{EqDecision A} (x : A) l :
  x ∉ l -> List.filter (fun e => negb (bool_decide (e = x))) l = l.
Proof.
  induction l as [|y l IH]; intros Hx; cbn [List.filter]; [ reflexivity | ].
  rewrite not_elem_of_cons in Hx. destruct Hx as [Hne Hx].
  rewrite bool_decide_eq_false_2 by congruence. cbn [negb]. now rewrite IH.
Qed.

Lemma filter_app_last {A} `{EqDecision A} (x : A) l :
  x ∉ l -> List.filter (fun e => negb (bool_decide (e = x))) (l ++ [x]) = l.
Proof.
  intros Hx. rewrite List.filter_app, filter_not_elem by exact Hx.
  cbn [List.filter]. rewrite bool_decide_eq_true_2 by reflexivity. cbn [negb].
  apply app_nil_r.
Qed.

(** X9.  The fallback device around an operation.
    [possibly_disable_fallback] takes every occurrence of the fallback out
    of the enabled list of the direction and leaves the other devices in
    their order.  When the fallback is not enabled,
    [possibly_enable_fallback] appends it to the enabled list of the
    direction, and [possibly_disable_fallback] after it gives back the
    enabled lists of all directions as they were. *)
Theorem fallback_enabled_then_disabled (dir : CRAS_STREAM_DIRECTION) (error : bool)
    (st : iodev_list) (fb : dev_ptr) :
  fallback_devs st dir = Some fb ->
  dev_direction (deref st fb) = dir ->
  let st1 := possibly_enable_fallback dir error st in
  let st2 := possibly_disable_fallback dir st1 in
  enabled_devs (possibly_disable_fallback dir st) dir
  = List.filter (fun e => negb (bool_decide (e = fb))) (enabled_devs st dir)
  /\ (fb ∉ enabled_devs st dir ->
      enabled_devs st1 dir = enabled_devs st dir ++ [fb]
      /\ forall dir', enabled_devs st2 dir' = enabled_devs st dir').
Proof.
  intros Hfb Hdir st1 st2. split.
  { unfold possibly_disable_fallback.
    destruct (disable_fallback_scan_enabled dir fb (enabled_devs st dir) 0%nat st [])
      as [H1 _]; auto. }
  intros Hnot.
  assert (F1 : frame enabled_any anywhere st st1)
    by (apply frame_possibly_enable_fallback; [ apply _ | apply _ | intros; exact I ]).
  assert (Hfb1 : fallback_devs st1 dir = Some fb) by now rewrite (fr_fallback _ _ _ _ F1).
  assert (Hdir1 : dev_direction (deref st1 fb) = dir)
    by now rewrite (dev_direction_frame _ _ _ _ fb F1).
  set (st0 := update_dev fb (set_active_node_type
                               (if error then CRAS_NODE_TYPE_FALLBACK_ABNORMAL
                                else CRAS_NODE_TYPE_FALLBACK_NORMAL)) st).
  assert (F0 : frame eq anywhere st st0)
    by (apply frame_update_dev; [ apply _ | exact I | apply static_set_active_node_type ]).
  assert (Hdir0 : dev_direction (deref st0 fb) = dir)
    by now rewrite (dev_direction_frame _ _ _ _ fb F0).
  assert (Hen1 : enabled_devs st1 = enabled_devs (set_enabled_devs st0 dir
                                                    (enabled_devs st0 dir ++ [fb]))).
  { unfold st1, possibly_enable_fallback. rewrite Hfb. fold st0.
    unfold cras_iodev_list_dev_is_enabled. rewrite Hdir0.
    rewrite bool_decide_eq_false_2 by exact Hnot. cbn [negb].
    rewrite enable_device_enabled_devs by now rewrite Hdir0.
    now rewrite Hdir0. }
  assert (Hen1dir : enabled_devs st1 dir = enabled_devs st dir ++ [fb]).
  { rewrite Hen1. cbn [enabled_devs set_enabled_devs].
    now rewrite bool_decide_eq_true_2. }
  destruct (disable_fallback_scan_enabled dir fb (enabled_devs st1 dir) 0%nat st1 [])
    as [H1 H2]; auto.
  fold (possibly_disable_fallback dir st1) in H1, H2. fold st2 in H1, H2.
  split; [ exact Hen1dir | ].
  intros dir'. destruct (decide (dir' = dir)) as [->|Hne].
  - rewrite H1, Hen1dir. cbn [app]. now apply filter_app_last.
  - rewrite (H2 dir' Hne), Hen1. cbn [enabled_devs set_enabled_devs].
    now rewrite bool_decide_eq_false_2.
Qed.

(** *** The devices a new stream is attached to *)

Lemma stream_added_dev_collect rstream e sc :
  sc_iodevs (stream_added_dev rstream e sc) = sc_iodevs sc
  \/ sc_iodevs (stream_added_dev rstream e sc) = sc_iodevs sc ++ [e].
Proof.
  unfold stream_added_dev. destruct (needs_reopen _ _); [ now left | ].
  destruct (init_device e rstream (sc_state sc)) as [rc st1].
  destruct (negb (rc =? 0)); [ | now right ].
  destruct (schedule_init_device_retry e st1). now left.
Qed.

Lemma stream_added_scan_collect rstream l : forall sc,
  Z.of_nat (length (sc_iodevs sc)) <= NUM_OPEN_DEVS_MAX ->
  let sc' := stream_added_scan rstream l sc in
  Z.of_nat (length (sc_iodevs sc')) <= NUM_OPEN_DEVS_MAX
  /\ frame enabled_any anywhere (sc_state sc) (sc_state sc')
  /\ forall x, x ∈ sc_iodevs sc' ->
       x ∈ sc_iodevs sc
       \/ (x ∈ l /\ Some x <> fallback_devs (sc_state sc) (direction rstream)).
Proof.
  induction l as [|e l IH]; intros sc Hlen; cbn [stream_added_scan].
  - split; [ exact Hlen | ]. split; [ apply frame_refl; apply _ | ]. intros x Hx. now left.
  - destruct (bool_decide_reflect
                (Some e = fallback_devs (sc_state sc) (direction rstream))) as [He|He].
    + destruct (IH sc Hlen) as (H1 & H2 & H3). split; [ exact H1 | ].
      split; [ exact H2 | ].
      intros x Hx. destruct (H3 x Hx) as [|[Hin Hne]]; [ now left | right ].
      split; [ now apply list_elem_of_further | exact Hne ].
    + destruct (Z.leb_spec NUM_OPEN_DEVS_MAX (Z.of_nat (length (sc_iodevs sc)))) as [Hfull|Hroom].
      * split; [ exact Hlen | ]. split; [ apply frame_refl; apply _ | ].
        intros x Hx. now left.
      * pose proof (frame_stream_added_dev enabled_any anywhere rstream e sc
                      (scan_within_anywhere _ _ _)) as Fd.
        assert (Hlen' : Z.of_nat (length (sc_iodevs (stream_added_dev rstream e sc)))
                        <= NUM_OPEN_DEVS_MAX).
        { destruct (stream_added_dev_collect rstream e sc) as [->| ->]; [ lia | ].
          rewrite length_app. cbn [length]. lia. }
        destruct (IH _ Hlen') as (H1 & H2 & H3). split; [ exact H1 | ].
        split; [ eapply frame_trans; [ apply _ | exact Fd | exact H2 ] | ].
        intros x Hx. destruct (H3 x Hx) as [Hin|[Hin Hne]].
        -- destruct (stream_added_dev_collect rstream e sc) as [Hc|Hc];
             rewrite Hc in Hin; [ now left | ].
           apply elem_of_app in Hin as [Hin|Hin]; [ now left | right ].
           apply list_elem_of_singleton in Hin as ->.
           split; [ apply list_elem_of_here | exact He ].
        -- right. split; [ now apply list_elem_of_further | ].
           now rewrite <- (fr_fallback _ _ _ _ Fd).
Qed.

Lemma stream_added_floop_scan_collect rstream l : forall sc,
  Z.of_nat (length (sc_iodevs sc)) <= NUM_OPEN_DEVS_MAX ->
  let sc' := stream_added_floop_scan rstream l sc in
  Z.of_nat (length (sc_iodevs sc')) <= NUM_OPEN_DEVS_MAX
  /\ forall x, x ∈ sc_iodevs sc' ->
       x ∈ sc_iodevs sc
       \/ exists fpair, fpair ∈ l /\ fp_output fpair = x
                        /\ cras_floop_pair_match_output_stream fpair rstream = true.
Proof.
  induction l as [|fpair l IH]; intros sc Hlen; cbn [stream_added_floop_scan].
  - split; [ exact Hlen | ]. intros x Hx. now left.
  - assert (Hlift : forall sc0 x,
              (x ∈ sc_iodevs sc0
               \/ exists q, q ∈ l /\ fp_output q = x
                            /\ cras_floop_pair_match_output_stream q rstream = true) ->
              x ∈ sc_iodevs sc0
              \/ exists q, q ∈ fpair :: l /\ fp_output q = x
                           /\ cras_floop_pair_match_output_stream q rstream = true).
    { intros sc0 x [Hin|(q & Hq & Hx)]; [ now left | right ].
      exists q. split; [ now apply list_elem_of_further | exact Hx ]. }
    destruct (cras_floop_pair_match_output_stream fpair rstream) eqn:Hmatch; cbn [negb].
    + destruct (Z.leb_spec NUM_OPEN_DEVS_MAX (Z.of_nat (length (sc_iodevs sc)))) as [Hfull|Hroom].
      * split; [ exact Hlen | ]. intros x Hx. now left.
      * destruct (init_device (fp_output fpair) rstream (sc_state sc)) as [rc st1].
        set (sc1 := {| sc_state := st1; sc_iodevs := _; sc_iodev_reopened := _;
                       sc_expect_fallback := _ |}).
        assert (Hlen' : Z.of_nat (length (sc_iodevs sc1)) <= NUM_OPEN_DEVS_MAX).
        { unfold sc1. cbn [sc_iodevs]. destruct (rc =? 0); [ | lia ].
          rewrite length_app. cbn [length]. lia. }
        destruct (IH sc1 Hlen') as (H1 & H3). split; [ exact H1 | ].
        intros x Hx. destruct (H3 x Hx) as [Hin|Hq]; [ | apply (Hlift sc); now right ].
        unfold sc1 in Hin. cbn [sc_iodevs] in Hin.
        destruct (rc =? 0); [ | now left ].
        apply elem_of_app in Hin as [Hin|Hin]; [ now left | right ].
        apply list_elem_of_singleton in Hin as ->.
        exists fpair. split; [ apply list_elem_of_here | now split ].
    + destruct (IH sc Hlen) as (H1 & H3). split; [ exact H1 | ].
      intros x Hx. apply (Hlift sc), H3, Hx.
Qed.

(** What [stream_added_finish] does with an array that is not empty:
    the stream goes to the audio thread with the devices of the array,
    and the value of that call is returned. *)
Lemma stream_added_finish_attached rstream sc :
  sc_iodevs sc <> [] ->
  let rc := audio_thread_add_stream rstream (map (deref (sc_state sc)) (sc_iodevs sc)) in
  fst (stream_added_finish rstream sc) = rc
  /\ EvAudioThreadAddStream (stream_id rstream) (sc_iodevs sc) rc
     ∈ trace (snd (stream_added_finish rstream sc)).
Proof.
  intros Hne rc. unfold stream_added_finish.
  destruct (sc_iodevs sc) as [|e l] eqn:Hl; [ contradiction | ].
  unfold add_stream_to_open_devs.
  set (st1 := if stream_apm rstream then _ else sc_state sc).
  assert (Hd : map (deref st1) (e :: l) = map (deref (sc_state sc)) (e :: l)).
  { unfold st1. destruct (stream_apm rstream); [ | reflexivity ].
    apply map_ext. intros q.
    apply (deref_frame eq nowhere); [ apply frame_emits; apply _ | now intros [] ]. }
  rewrite Hd. fold rc.
  set (ev := EvAudioThreadAddStream (stream_id rstream) (e :: l) rc).
  assert (Hin : ev ∈ trace (emit st1 ev)).
  { unfold emit, emits. cbn [trace]. apply elem_of_app. right. apply list_elem_of_here. }
  assert (Hlater : forall st', ev ∈ trace st' -> forall e', ev ∈ trace (emit st' e')).
  { intros st' H' e'. unfold emit, emits. cbn [trace]. apply elem_of_app. now left. }
  destruct (Z.eqb_spec rc (- EIO)) as [Hio|Hio].
  { cbn [fst snd negb]. replace (rc =? 0) with false
      by (symmetry; apply Z.eqb_neq; rewrite Hio; discriminate).
    cbn [negb fst snd]. split; [ reflexivity | now apply Hlater ]. }
  destruct (Z.eqb_spec rc (- EINVAL)) as [Hinv|Hinv].
  { cbn [fst snd negb]. replace (rc =? 0) with false
      by (symmetry; apply Z.eqb_neq; rewrite Hinv; discriminate).
    cbn [negb fst snd]. split; [ reflexivity | now apply Hlater ]. }
  destruct (Z.eqb_spec rc 0) as [H0|H0]; cbn [negb fst snd].
  - cbn [Z.eqb negb length Nat.eqb orb fst snd].
    split; [ now rewrite H0 | ].
    pose proof (frame_possibly_disable_fallback enabled_any anywhere (direction rstream)
                  (emit st1 ev) (fun _ _ => I)) as Ff.
    destruct (fr_trace _ _ _ _ Ff) as [evs ->]. apply elem_of_app. now left.
  - destruct (Z.eqb_spec rc 0); [ contradiction | ]. cbn [negb fst snd].
    split; [ reflexivity | now apply Hlater ].
Qed.

(** X10.  The array of devices [stream_added_cb] collects never
    overflows.  For a stream that is not pinned, added while streams are
    not suspended, the array [iodevs] holds at most NUM_OPEN_DEVS_MAX
    devices when the two loops are done, however many devices are enabled
    and however many loopback pairs match; each of them is an enabled
    device of the direction of the stream other than the fallback, or, for
    an output stream, the output device of a loopback pair that matches
    the stream.  When the array is not empty the stream is handed to the
    audio thread with exactly these devices, and [stream_added_cb]
    returns what that call returned. *)
Theorem stream_added_collects_within_bound (rstream : cras_rstream) (st : iodev_list) :
  stream_list_suspended st = false ->
  is_pinned rstream = false ->
  let dir := direction rstream in
  let sc := stream_added_collected rstream st in
  let res := stream_added_cb rstream st in
  res = stream_added_finish rstream sc
  /\ Z.of_nat (length (sc_iodevs sc)) <= NUM_OPEN_DEVS_MAX
  /\ (forall x, x ∈ sc_iodevs sc ->
        (x ∈ enabled_devs st dir /\ Some x <> fallback_devs st dir)
        \/ (dir = CRAS_STREAM_OUTPUT
            /\ exists fpair, fpair ∈ floop_pair_list st /\ fp_output fpair = x
                 /\ cras_floop_pair_match_output_stream fpair rstream = true))
  /\ (sc_iodevs sc <> [] ->
      let rc := audio_thread_add_stream rstream
                  (map (deref (sc_state sc)) (sc_iodevs sc)) in
      fst res = rc
      /\ EvAudioThreadAddStream (stream_id rstream) (sc_iodevs sc) rc ∈ trace (snd res)).
Proof.
  intros Hsusp Hpin dir sc res.
  assert (Hres : res = stream_added_finish rstream sc).
  { unfold res, stream_added_cb. now rewrite Hsusp, Hpin. }
  split; [ exact Hres | ].
  unfold sc, stream_added_collected. fold dir.
  set (st1 := emit st _).
  set (st2 := stream_added_catch rstream st1).
  assert (F2 : frame eq anywhere st st2).
  { assert (F1 : frame eq anywhere st st1) by (apply frame_emit; apply _).
    unfold st2, stream_added_catch.
    destruct (fallback_devs st1 (direction rstream)) as [fb|]; [ | exact F1 ].
    destruct (cras_iodev_list_dev_is_enabled st1 fb); [ | exact F1 ].
    pose proof (frame_init_device eq anywhere fb rstream st1 I) as Fi.
    destruct (init_device fb rstream st1) as [rc sta]. cbn [snd] in Fi.
    eapply frame_trans; [ apply _ | exact F1 | ].
    eapply frame_trans; [ apply _ | exact Fi | apply frame_add_stream_to_open_devs; apply _ ]. }
  set (sc1 := stream_added_scan rstream (enabled_devs st2 dir) (scan_start st2)).
  destruct (stream_added_scan_collect rstream (enabled_devs st2 dir) (scan_start st2))
    as (L1 & Fs & C1); [ cbn; unfold NUM_OPEN_DEVS_MAX; lia | ].
  fold sc1 in L1, Fs, C1. cbn [sc_state sc_iodevs scan_start] in Fs, C1.
  assert (Hscan : forall x, x ∈ sc_iodevs sc1 ->
            x ∈ enabled_devs st dir /\ Some x <> fallback_devs st dir).
  { intros x Hx. destruct (C1 x Hx) as [Hin|[Hin Hne]]; [ inversion Hin | ].
    rewrite <- (fr_enabled _ _ _ _ F2) in Hin.
    fold dir in Hne. rewrite (fr_fallback _ _ _ _ F2) in Hne. now split. }
  assert (Hcollect :
    Z.of_nat (length (sc_iodevs (stream_added_floop rstream sc1))) <= NUM_OPEN_DEVS_MAX
    /\ forall x, x ∈ sc_iodevs (stream_added_floop rstream sc1) ->
         (x ∈ enabled_devs st dir /\ Some x <> fallback_devs st dir)
         \/ (dir = CRAS_STREAM_OUTPUT
             /\ exists fpair, fpair ∈ floop_pair_list st /\ fp_output fpair = x
                  /\ cras_floop_pair_match_output_stream fpair rstream = true)).
  { unfold stream_added_floop.
    destruct (bool_decide_reflect (direction rstream = CRAS_STREAM_OUTPUT)) as [Hout|Hout].
    - destruct (stream_added_floop_scan_collect rstream (floop_pair_list (sc_state sc1)) sc1 L1)
        as (L2 & C2).
      split; [ exact L2 | ].
      intros x Hx. destruct (C2 x Hx) as [Hin|(fpair & Hin & Hx2)]; [ left; now apply Hscan | ].
      right. split; [ exact Hout | ]. exists fpair. split; [ | exact Hx2 ].
      rewrite (fr_floop _ _ _ _ Fs), (fr_floop _ _ _ _ F2) in Hin. exact Hin.
    - split; [ exact L1 | ]. intros x Hx. left. now apply Hscan. }
  destruct Hcollect as [Hlen Hmem].
  split; [ exact Hlen | ]. split; [ exact Hmem | ].
  fold st1 st2 sc1 in sc. fold dir in sc. change (stream_added_floop rstream sc1) with sc.
  intros Hne. rewrite Hres. now apply stream_added_finish_attached.
Qed.

(** *** Hotword streams while hotword is suspended *)

Local Abbreviation just_dev e := (fun q : dev_ptr => q = e).

(** X11.  A pinned stream is added while streams are not suspended.  If
    [find_pinned_device] gives no device, [stream_added_cb] returns
    -EINVAL and only logs the addition; that is so for a hotword stream
    pinned to a device whose active node is not of type HOTWORD.  If it
    gives the device [t], no other device is written to and the enabled
    lists stay as they are.  While hotword is suspended, [t] is the empty
    hotword device for every hotword stream pinned to a hotword device: the
    real device is neither opened nor changed. *)
Theorem pinned_stream_added_touches_one_device (rstream : cras_rstream)
    (st : iodev_list) :
  stream_list_suspended st = false ->
  is_pinned rstream = true ->
  let res := stream_added_cb rstream st in
  let logged := emit st (EvMainLog (MAIN_THREAD_STREAM_ADDED (stream_id rstream)
                                      (direction rstream) (buffer_frames rstream))) in
  (find_pinned_device rstream st = None -> res = (- EINVAL, logged))
  /\ (forall t, find_pinned_device rstream st = Some t ->
        (forall q, q <> t -> iodevs (snd res) !! q = iodevs st !! q)
        /\ enabled_devs (snd res) = enabled_devs st)
  /\ (is_hotword_stream rstream = true ->
      forall p, find_dev st (pinned_dev_idx rstream) = Some p ->
        (node_type <$> active_node (deref st p) <> Some CRAS_NODE_TYPE_HOTWORD ->
         find_pinned_device rstream st = None)
        /\ (node_type <$> active_node (deref st p) = Some CRAS_NODE_TYPE_HOTWORD ->
            find_pinned_device rstream st
            = if hotword_suspended st then empty_hotword_dev st else Some p)).
Proof.
  intros Hsusp Hpin res logged.
  assert (Hfind : find_pinned_device rstream logged = find_pinned_device rstream st)
    by reflexivity.
  unfold res, stream_added_cb. rewrite Hsusp, Hpin. fold logged.
  unfold pinned_stream_added. rewrite Hfind.
  split; [ now intros -> | ]. split.
  - intros t ->.
    assert (Fr : frame eq (just_dev t) st
                   (snd (let '(rc, st1) := init_pinned_device t rstream logged in
                         if negb (rc =? 0) then schedule_init_device_retry t st1
                         else add_stream_to_open_devs rstream [t] st1))).
    { assert (Fi : frame eq (just_dev t) st (snd (init_pinned_device t rstream logged))).
      { unfold init_pinned_device.
        set (st0 := update_dev t (set_idle_timeout_sec 0) logged).
        assert (F0 : frame eq (just_dev t) st st0).
        { apply frame_then_update_dev;
            [ apply _ | reflexivity | apply static_set_idle_timeout_sec
            | apply frame_emit; apply _ ]. }
        destruct (audio_thread_is_dev_open (deref st0 t)); [ exact F0 | ].
        eapply frame_trans; [ apply _ | | apply frame_init_device; [ apply _ | reflexivity ] ].
        apply frame_then; [ apply _ | intros y; apply frame_update_active_node; apply _ | ].
        exact F0. }
      destruct (init_pinned_device t rstream logged) as [rc st1]. cbn [snd] in Fi.
      destruct (negb (rc =? 0)).
      - eapply frame_trans; [ apply _ | exact Fi | ].
        apply frame_schedule_init_device_retry; apply _.
      - eapply frame_trans; [ apply _ | exact Fi | ].
        apply frame_add_stream_to_open_devs; apply _. }
    split; [ | symmetry; apply (fr_enabled _ _ _ _ Fr) ].
    intros q Hq. apply (fr_other _ _ _ _ Fr q Hq).
  - intros Hhot p Hp. unfold find_pinned_device. rewrite Hpin, Hhot, Hp. cbn [negb].
    split.
    + intros Hne. now rewrite bool_decide_eq_false_2.
    + intros He. now rewrite bool_decide_eq_true_2.
Qed.

End DeviceListMore.

(** X9 on the speaker list: the fallback at address 10 joins the enabled
    outputs behind the speaker and leaves them again. *)
Lemma fallback_enabled_then_disabled_witness :
  enabled_devs (@possibly_enable_fallback env_ok CRAS_STREAM_OUTPUT false list_speaker)
               CRAS_STREAM_OUTPUT = [11%nat; 10%nat]
  /\ enabled_devs (@possibly_disable_fallback env_ok CRAS_STREAM_OUTPUT
                     (@possibly_enable_fallback env_ok CRAS_STREAM_OUTPUT false
                                                list_speaker))
                  CRAS_STREAM_OUTPUT = [11%nat].
Proof.
  destruct (@fallback_enabled_then_disabled env_ok CRAS_STREAM_OUTPUT false list_speaker
              10%nat) as [_ H]; [ reflexivity | vm_compute; reflexivity | ].
  destruct H as [H1 H2].
  - vm_compute. intros Hin. apply list_elem_of_singleton in Hin. discriminate.
  - split; [ exact H1 | apply H2 ].
Defined.

(** X10 on a list with eleven enabled speakers: the stream is handed to
    the audio thread with the first ten, and the last is left out. *)
Lemma stream_added_collects_within_bound_witness :
  length (enabled_devs list_crowded CRAS_STREAM_OUTPUT) = 11%nat
  /\ sc_iodevs (@stream_added_collected env_ok stereo_stream list_crowded) = seq 30 10
  /\ EvAudioThreadAddStream (stream_id stereo_stream) (seq 30 10) 0
     ∈ trace (snd (@stream_added_cb env_ok stereo_stream list_crowded)).
Proof.
  destruct (@stream_added_collects_within_bound env_ok stereo_stream list_crowded)
    as (_ & _ & _ & H4); [ reflexivity | reflexivity | ].
  assert (Hsc : sc_iodevs (@stream_added_collected env_ok stereo_stream list_crowded)
                = seq 30 10) by (vm_compute; reflexivity).
  split; [ reflexivity | ]. split; [ exact Hsc | ].
  destruct H4 as [_ H5]; [ rewrite Hsc; discriminate | ].
  rewrite Hsc in H5. exact H5.
Defined.

(** X11 on the hotword setup: while hotword is suspended, the stream
    pinned to the hotword microphone goes to the empty hotword device, and
    the record of the microphone stays as it was. *)
Lemma pinned_stream_added_touches_one_device_witness :
  find_pinned_device hotword_stream (list_hotword true) = Some 20%nat
  /\ iodevs (snd (@stream_added_cb env_ok hotword_stream (list_hotword true))) !! 21%nat
     = Some hotword_mic.
Proof.
  destruct (@pinned_stream_added_touches_one_device env_ok hotword_stream
              (list_hotword true)) as (_ & H2 & H3); [ reflexivity | reflexivity | ].
  destruct (H3 eq_refl 21%nat) as [_ H4]; [ reflexivity | ].
  split; [ apply H4; reflexivity | ].
  destruct (H2 20%nat) as [H5 _]; [ apply H4; reflexivity | ].
  rewrite H5; [ reflexivity | discriminate ].
Defined.

(** ** Retries, suspension and hotword streams *)

Lemma no_new_retry_refl st : no_new_retry st st.
Proof. split; [ reflexivity | exists []; split; [ now rewrite app_nil_r | constructor ] ]. Qed.

Lemma no_new_retry_trans st1 st2 st3 :
  no_new_retry st1 st2 -> no_new_retry st2 st3 -> no_new_retry st1 st3.
Proof.
  intros [S1 (e1 & T1 & F1)] [S2 (e2 & T2 & F2)]. split; [ now transitivity (init_retries st2) | ].
  exists (e1 ++ e2). split; [ now rewrite T2, T1, app_assoc | now apply Forall_app ].
Qed.

Lemma no_new_retry_same st st' :
  init_retries st' = init_retries st -> trace st' = trace st -> no_new_retry st st'.
Proof.
  intros Hr Ht. split; [ now rewrite Hr | ]. exists []. split; [ now rewrite app_nil_r | constructor ].
Qed.

Lemma no_new_retry_emits st l :
  Forall (fun e => is_timer_create e = false) l -> no_new_retry st (emits st l).
Proof. intros Hl. split; [ reflexivity | now exists l ]. Qed.

Lemma sublist_of_filter {A} (f : A -> bool) (l : list A) : List.filter f l `sublist_of` l.
Proof.
  induction l as [|a l IH]; cbn [List.filter]; [ constructor | ].
  destruct (f a); [ now apply sublist_skip | now apply sublist_cons ].
Qed.

Lemma no_timer_create_map {A} (f : A -> server_event) (l : list A) :
  (forall a, is_timer_create (f a) = false) ->
  Forall (fun e => is_timer_create e = false) (map f l).
Proof. intros Hf. induction l; cbn [map]; constructor; auto. Qed.

Lemma no_new_retry_emit st e : is_timer_create e = false -> no_new_retry st (emit st e).
Proof. intros He. apply no_new_retry_emits. now constructor. Qed.

Lemma no_new_retry_update_dev p f st : no_new_retry st (update_dev p f st).
Proof. now apply no_new_retry_same. Qed.

Lemma no_new_retry_then (f : iodev_list -> iodev_list) st st' :
  (forall x, no_new_retry x (f x)) -> no_new_retry st st' -> no_new_retry st (f st').
Proof. intros Hf Hn. eapply no_new_retry_trans; [ exact Hn | apply Hf ]. Qed.

Section Retries.
Context `{!IodevListEnv}.

Local Abbreviation nowhere := (fun _ : dev_ptr => False).
Local Abbreviation anywhere := (fun _ : dev_ptr => True).

Lemma no_new_retry_update_nc_blocked_state a b st :
  no_new_retry st (update_nc_blocked_state a b st).
Proof.
  unfold update_nc_blocked_state.
  repeat (match goal with |- context [if ?c then _ else _] => destruct c end);
    repeat (eapply no_new_retry_trans; [ | apply no_new_retry_emit; reflexivity ]);
    now apply no_new_retry_same.
Qed.

Lemma no_new_retry_possibly_set p st :
  no_new_retry st (possibly_set_non_dsp_aec_echo_ref_dev_alive p st).
Proof.
  unfold possibly_set_non_dsp_aec_echo_ref_dev_alive, set_non_dsp_aec_echo_ref_dev_alive.
  repeat (match goal with |- context [if ?c then _ else _] => destruct c end);
    first [ apply no_new_retry_refl | apply no_new_retry_update_nc_blocked_state ].
Qed.

Lemma no_new_retry_possibly_clear st :
  no_new_retry st (possibly_clear_non_dsp_aec_echo_ref_dev_alive st).
Proof.
  unfold possibly_clear_non_dsp_aec_echo_ref_dev_alive, set_non_dsp_aec_echo_ref_dev_alive.
  destruct (negb _); [ apply no_new_retry_refl | ].
  destruct (existsb _ _); [ apply no_new_retry_refl | ].
  destruct (existsb _ _); [ apply no_new_retry_refl | ].
  apply no_new_retry_update_nc_blocked_state.
Qed.

Lemma no_new_retry_close_dev p st : no_new_retry st (close_dev p st).
Proof.
  unfold close_dev. destruct (negb _); [ apply no_new_retry_refl | ].
  apply no_new_retry_then; [ apply no_new_retry_possibly_clear | ].
  eapply no_new_retry_trans; [ | apply no_new_retry_emit; reflexivity ].
  eapply no_new_retry_trans; [ | apply no_new_retry_update_dev ].
  unfold possibly_disable_echo_reference.
  match goal with |- context [match ?c with Some _ => _ | None => _ end] => destruct c end;
    [ eapply no_new_retry_trans; [ | apply no_new_retry_emit; reflexivity ] | ];
    (eapply no_new_retry_trans; [ | apply no_new_retry_update_dev ];
     unfold remove_all_streams_from_dev;
     eapply no_new_retry_trans;
       [ | apply no_new_retry_emits, no_timer_create_map; reflexivity ];
     eapply no_new_retry_trans; [ | apply no_new_retry_emit; reflexivity ];
     apply no_new_retry_emit; reflexivity).
Qed.

Lemma no_new_retry_cancel idx st : no_new_retry st (cancel_pending_init_retries idx st).
Proof.
  unfold cancel_pending_init_retries. split.
  - cbn. apply sublist_of_filter.
  - eexists. split; [ reflexivity | ]. now apply no_timer_create_map.
Qed.

Lemma no_new_retry_possibly_enable_echo_reference p st :
  no_new_retry st (possibly_enable_echo_reference p st).
Proof.
  unfold possibly_enable_echo_reference.
  destruct (negb _); [ apply no_new_retry_refl | ].
  destruct (echo_reference_dev _); [ now apply no_new_retry_emit | apply no_new_retry_refl ].
Qed.

Lemma no_new_retry_init_device p rstream st :
  no_new_retry st (snd (init_device p rstream st)).
Proof.
  unfold init_device.
  set (st0 := update_dev p (set_idle_timeout_sec 0) st).
  assert (H0 : no_new_retry st st0) by apply no_new_retry_update_dev.
  destruct (cras_iodev_is_open (deref st0 p)); [ exact H0 | ].
  set (st1 := update_dev p (set_last_open_result SUCCESS) st0).
  set (st2 := cancel_pending_init_retries _ st1).
  set (st3 := emit st2 _).
  assert (H3 : no_new_retry st st3).
  { eapply no_new_retry_trans; [ | apply no_new_retry_emit; reflexivity ].
    apply no_new_retry_then; [ intros x; apply no_new_retry_cancel | ].
    eapply no_new_retry_trans; [ exact H0 | apply no_new_retry_update_dev ]. }
  destruct (cras_iodev_open _ _ _) as [rc d'].
  set (st4 := emit _ _).
  assert (H4 : no_new_retry st st4).
  { eapply no_new_retry_trans; [ | apply no_new_retry_emit; reflexivity ].
    eapply no_new_retry_trans; [ exact H3 | apply no_new_retry_update_dev ]. }
  destruct (negb (rc =? 0)); cbn [snd].
  { eapply no_new_retry_trans; [ exact H4 | apply no_new_retry_update_dev ]. }
  apply no_new_retry_then; [ intros x; apply no_new_retry_possibly_set | ].
  apply no_new_retry_then; [ intros x; apply no_new_retry_possibly_enable_echo_reference | ].
  set (st5 := emit st4 _).
  assert (H5 : no_new_retry st st5)
    by (eapply no_new_retry_trans; [ exact H4 | apply no_new_retry_emit; reflexivity ]).
  destruct (negb _); [ | exact H5 ].
  eapply no_new_retry_trans; [ | apply no_new_retry_emit; reflexivity ].
  eapply no_new_retry_trans; [ exact H5 | apply no_new_retry_update_dev ].
Qed.

Lemma no_new_retry_add_stream_to_open_devs stream l st :
  no_new_retry st (snd (add_stream_to_open_devs stream l st)).
Proof.
  unfold add_stream_to_open_devs. cbn [snd].
  eapply no_new_retry_trans; [ | apply no_new_retry_emit; reflexivity ].
  destruct (stream_apm stream); [ | apply no_new_retry_refl ].
  now apply no_new_retry_emits, no_timer_create_map.
Qed.

Lemma no_new_retry_attach_streams l p dev_enabled : forall st,
  no_new_retry st (snd (attach_streams l p dev_enabled st)).
Proof.
  induction l as [|s l IH]; intros st; cbn [attach_streams]; [ apply no_new_retry_refl | ].
  destruct (negb _); [ apply IH | ].
  pose proof (no_new_retry_init_device p s st) as Hi.
  destruct (init_device p s st) as [rc st1]. cbn [snd] in Hi.
  destruct (negb (rc =? 0)); [ exact Hi | ].
  pose proof (no_new_retry_add_stream_to_open_devs s [p] st1) as Ha.
  destruct (add_stream_to_open_devs s [p] st1) as [rc2 st2]. cbn [snd] in Ha.
  eapply no_new_retry_trans; [ exact Hi | ].
  eapply no_new_retry_trans; [ exact Ha | apply IH ].
Qed.

Lemma no_new_retry_init_and_attach_streams p st :
  no_new_retry st (snd (init_and_attach_streams p st)).
Proof.
  unfold init_and_attach_streams.
  destruct (stream_list_suspended st); [ apply no_new_retry_refl | ].
  apply no_new_retry_attach_streams.
Qed.

Lemma no_new_retry_update_active_node p en st : no_new_retry st (update_active_node p en st).
Proof. unfold update_active_node. now apply no_new_retry_emit. Qed.

Lemma no_new_retry_disable_device i p force st :
  no_new_retry st (snd (disable_device i p force st)).
Proof.
  unfold disable_device.
  set (st3 := update_dev p (set_is_enabled false) _).
  assert (H3 : no_new_retry st st3).
  { eapply no_new_retry_trans; [ | apply no_new_retry_update_dev ].
    eapply no_new_retry_trans; [ | now apply no_new_retry_same ].
    now apply no_new_retry_emit. }
  assert (Hfin : forall x, no_new_retry st x ->
            no_new_retry st (possibly_clear_non_dsp_aec_echo_ref_dev_alive
                               (update_active_node p 0
                                  (close_dev p (emit x (EvDeviceDisabledCbs p)))))).
  { intros x Hx.
    apply no_new_retry_then; [ apply no_new_retry_possibly_clear | ].
    apply no_new_retry_then; [ intros y; apply no_new_retry_update_active_node | ].
    apply no_new_retry_then; [ intros y; apply no_new_retry_close_dev | ].
    eapply no_new_retry_trans; [ exact Hx | now apply no_new_retry_emit ]. }
  destruct force; cbn [snd].
  - apply Hfin. apply no_new_retry_then; [ intros y; apply no_new_retry_cancel | exact H3 ].
  - destruct (stream_list_has_pinned_stream _ _); cbn [snd]; [ | apply Hfin, H3 ].
    eapply no_new_retry_trans; [ exact H3 | ].
    now apply no_new_retry_emits, no_timer_create_map.
Qed.

Lemma no_new_retry_disable_fallback_scan dir l : forall i st,
  no_new_retry st (disable_fallback_scan l i dir st).
Proof.
  induction l as [|e l IH]; intros i st; cbn [disable_fallback_scan];
    [ apply no_new_retry_refl | ].
  destruct (bool_decide _); [ | apply IH ].
  eapply no_new_retry_trans; [ apply no_new_retry_disable_device | apply IH ].
Qed.

Lemma no_new_retry_possibly_disable_fallback dir st :
  no_new_retry st (possibly_disable_fallback dir st).
Proof. unfold possibly_disable_fallback. apply no_new_retry_disable_fallback_scan. Qed.

(** The index a retry record gives [find_dev]: the index of the device
    when that is below 2^31, or when [size_t] has 32 bits; with a [size_t]
    of 64 bits an index from 2^31 on becomes a value of 2^64 - 2^31 or
    more. *)
Lemma retry_dev_index_small size_t_bits idx :
  32 <= size_t_bits -> 0 <= idx < 2 ^ 31 -> retry_dev_index size_t_bits idx = idx.
Proof.
  intros Hb Hidx. unfold retry_dev_index, size_t_of_int, int_of_uint32, to_uint32.
  assert (2 ^ 32 <= 2 ^ size_t_bits) by (apply Z.pow_le_mono_r; lia).
  rewrite (Z.mod_small idx (2 ^ 32)) by lia.
  destruct (Z.ltb_spec idx (2 ^ 31)); [ | lia ].
  apply Z.mod_small. lia.
Qed.

Lemma retry_dev_index_32 idx : 0 <= idx < 2 ^ 32 -> retry_dev_index 32 idx = idx.
Proof.
  intros Hidx. unfold retry_dev_index, size_t_of_int, int_of_uint32, to_uint32.
  rewrite (Z.mod_small idx (2 ^ 32)) by lia.
  destruct (Z.ltb_spec idx (2 ^ 31)); [ apply Z.mod_small; lia | ].
  replace (idx - 2 ^ 32) with (idx + (-1) * 2 ^ 32) by lia.
  rewrite Z.mod_add by lia. apply Z.mod_small. lia.
Qed.

Lemma retry_dev_index_64 idx :
  2 ^ 31 <= idx < 2 ^ 32 -> retry_dev_index 64 idx = idx + (2 ^ 64 - 2 ^ 32).
Proof.
  intros Hidx. unfold retry_dev_index, size_t_of_int, int_of_uint32, to_uint32.
  rewrite (Z.mod_small idx (2 ^ 32)) by lia.
  destruct (Z.ltb_spec idx (2 ^ 31)); [ lia | ].
  replace (idx - 2 ^ 32) with (idx + (2 ^ 64 - 2 ^ 32) + (-1) * 2 ^ 64) by lia.
  rewrite Z.mod_add by lia. apply Z.mod_small. lia.
Qed.

Lemma find_dev_out_of_range st key :
  (forall q, q ∈ devs st CRAS_STREAM_OUTPUT ++ devs st CRAS_STREAM_INPUT ->
     0 <= dev_idx (deref st q) < 2 ^ 32) ->
  2 ^ 32 <= key -> find_dev st key = None.
Proof.
  intros Hall Hkey. unfold find_dev.
  destruct (List.find _ _) as [q|] eqn:Hf; [ exfalso | reflexivity ].
  apply List.find_some in Hf as [Hin Heq]. apply Z.eqb_eq in Heq.
  apply list_elem_of_In in Hin. specialize (Hall q Hin). lia.
Qed.

(** X12.  The retry timer callback [init_device_cb] runs once.  It takes
    its own record out of the list of pending retries, schedules no other
    retry and creates no timer, whether the device opens or not.  The
    device is looked up with the index of the record as [find_dev]
    receives it: that is the index of the device when it is below 2^31 or
    [size_t] has 32 bits, while with a [size_t] of 64 bits a record for an
    index from 2^31 on finds no device.  When no device is found, or the
    device is open by now, the callback does nothing else.  When the retry
    fails, the state is the one [init_and_attach_streams] left: the
    fallback is not touched.  When it succeeds, the fallback of the
    direction of the device is not enabled afterwards. *)
Theorem init_device_cb_runs_once (size_t_bits : Z) (i : nat) (idx : Z) (st : iodev_list) :
  init_retries st !! i = Some idx ->
  let key := retry_dev_index size_t_bits idx in
  let st1 := set_init_retries st (delete i (init_retries st)) in
  let st' := init_device_cb size_t_bits i st in
  init_retries st' `sublist_of` delete i (init_retries st)
  /\ (exists evs, trace st' = trace st ++ evs
                  /\ Forall (fun e => is_timer_create e = false) evs)
  /\ (32 <= size_t_bits -> 0 <= idx < 2 ^ 31 -> key = idx)
  /\ (size_t_bits = 32 -> 0 <= idx < 2 ^ 32 -> key = idx)
  /\ (size_t_bits = 64 -> 2 ^ 31 <= idx < 2 ^ 32 ->
      (forall q, q ∈ devs st CRAS_STREAM_OUTPUT ++ devs st CRAS_STREAM_INPUT ->
         0 <= dev_idx (deref st q) < 2 ^ 32) ->
      find_dev st key = None /\ st' = st1)
  /\ (find_dev st key = None -> st' = st1)
  /\ (forall p, find_dev st key = Some p ->
        (cras_iodev_is_open (deref st p) = true -> st' = st1)
        /\ (cras_iodev_is_open (deref st p) = false ->
            let res := init_and_attach_streams p st1 in
            (fst res < 0 -> st' = snd res)
            /\ (0 <= fst res ->
                forall fb, fallback_devs st (dev_direction (deref st p)) = Some fb ->
                  dev_direction (deref st fb) = dev_direction (deref st p) ->
                  fb ∉ enabled_devs st' (dev_direction (deref st p))))).
Proof.
  intros Hi key st1 st'.
  assert (Hq : no_new_retry st1 st').
  { unfold st', init_device_cb. rewrite Hi. fold key st1.
    destruct (find_dev st key) as [p|]; [ | apply no_new_retry_refl ].
    destruct (cras_iodev_is_open (deref st1 p)); [ apply no_new_retry_refl | ].
    pose proof (no_new_retry_init_and_attach_streams p st1) as Ha.
    destruct (init_and_attach_streams p st1) as [rc st2]. cbn [snd] in Ha.
    destruct (rc <? 0); [ exact Ha | ].
    eapply no_new_retry_trans; [ exact Ha | apply no_new_retry_possibly_disable_fallback ]. }
  destruct Hq as [Hs Ht].
  split; [ exact Hs | ]. split; [ exact Ht | ].
  split; [ apply retry_dev_index_small | ].
  split; [ intros ->; apply retry_dev_index_32 | ].
  assert (Hnone : find_dev st key = None -> st' = st1).
  { unfold st', init_device_cb. rewrite Hi. fold key st1. now intros ->. }
  split.
  { intros -> Hidx Hall.
    assert (Hf : find_dev st key = None).
    { apply find_dev_out_of_range; [ exact Hall | ].
      unfold key. rewrite retry_dev_index_64 by exact Hidx. lia. }
    split; [ exact Hf | now apply Hnone ]. }
  split; [ exact Hnone | ].
  unfold st', init_device_cb. rewrite Hi. fold key st1.
  intros p ->. change (deref st1 p) with (deref st p).
  split; [ now intros -> | ]. intros Hcl. rewrite Hcl.
  assert (Fa : frame enabled_any anywhere st (snd (init_and_attach_streams p st1))).
  { apply (frame_trans enabled_any anywhere st st1);
      [ apply frame_set_init_retries; apply _
      | apply frame_init_and_attach_streams; [ apply _ | exact I ] ]. }
  destruct (init_and_attach_streams p st1) as [rc st2]. cbn [fst snd] in *.
  split.
  - intros Hrc. now replace (rc <? 0) with true by (symmetry; apply Z.ltb_lt; lia).
  - intros Hrc fb Hfb Hdir.
    replace (rc <? 0) with false by (symmetry; apply Z.ltb_ge; lia).
    rewrite <- (dev_direction_frame _ _ _ _ p Fa).
    apply possibly_disable_fallback_gone.
    + now rewrite (fr_fallback _ _ _ _ Fa), (dev_direction_frame _ _ _ _ p Fa).
    + now rewrite !(dev_direction_frame _ _ _ _ _ Fa).
Qed.

(** *** Suspending and resuming one device *)

Lemma frame_close_pinned_device E `{!PreOrder E} (P : dev_ptr -> Prop) p st :
  P p -> frame E P st (close_pinned_device p st).
Proof.
  intros Hp. unfold close_pinned_device.
  apply frame_then; [ apply _ | intros x; apply frame_update_active_node; apply _ | ].
  now apply frame_close_dev.
Qed.

Lemma deref_update_active_node p en st q : deref (update_active_node p en st) q = deref st q.
Proof. reflexivity. Qed.

Lemma deref_set_hotword_suspended b st q : deref (set_hotword_suspended b st) q = deref st q.
Proof. reflexivity. Qed.

Lemma close_pinned_device_closed p st :
  cras_iodev_is_open (deref (close_pinned_device p st) p) = false.
Proof. unfold close_pinned_device. rewrite deref_update_active_node. apply close_dev_closed. Qed.

(** X13.  Suspending and resuming one device by index.  For an index no
    device has, both calls do nothing.  [cras_iodev_list_suspend_dev]
    leaves the device closed, and still in the enabled list if it was
    there.  [cras_iodev_list_resume_dev] after it is [restart_dev] of the
    state before the suspension, followed by [possibly_disable_fallback]
    when the device opened and no stream is pinned to it. *)
Theorem suspend_then_resume_dev (idx : Z) (st : iodev_list) :
  (find_dev st idx = None ->
     cras_iodev_list_suspend_dev idx st = st /\ cras_iodev_list_resume_dev idx st = st)
  /\ (forall p, find_dev st idx = Some p ->
        let st1 := cras_iodev_list_suspend_dev idx st in
        let rc := fst (init_and_attach_streams p (update_active_node p 1 st1)) in
        cras_iodev_is_open (deref st1 p) = false
        /\ enabled_devs st1 = enabled_devs st
        /\ cras_iodev_list_resume_dev idx st1
           = if (rc =? 0) && negb (stream_list_has_pinned_stream (stream_list st) idx)
             then possibly_disable_fallback (dev_direction (deref st p)) (restart_dev idx st)
             else restart_dev idx st).
Proof.
  split.
  { intros Hnone. unfold cras_iodev_list_suspend_dev, cras_iodev_list_resume_dev.
    now rewrite Hnone. }
  intros p Hp st1 rc.
  assert (Hst1 : st1 = update_active_node p 0 (close_dev p st))
    by (unfold st1, cras_iodev_list_suspend_dev; now rewrite Hp).
  assert (F1 : frame eq anywhere st st1).
  { rewrite Hst1. apply frame_then; [ apply _ | intros x; apply frame_update_active_node; apply _ | ].
    apply frame_close_dev; [ apply _ | exact I ]. }
  split; [ rewrite Hst1, deref_update_active_node; apply close_dev_closed | ].
  split; [ symmetry; apply (fr_enabled _ _ _ _ F1) | ].
  unfold cras_iodev_list_resume_dev, restart_dev.
  rewrite (find_dev_frame _ _ _ _ idx F1), Hp.
  unfold rc. rewrite Hst1.
  set (st3 := update_active_node p 1 (update_active_node p 0 (close_dev p st))).
  assert (F3 : frame eq anywhere st st3).
  { unfold st3. apply frame_then; [ apply _ | intros x; apply frame_update_active_node; apply _ | ].
    rewrite <- Hst1. exact F1. }
  pose proof (frame_init_and_attach_streams eq anywhere p st3 I) as Fa.
  destruct (init_and_attach_streams p st3) as [rc' st4]. cbn [fst snd] in *.
  assert (F4 : frame eq anywhere st st4)
    by (eapply frame_trans; [ apply _ | exact F3 | exact Fa ]).
  rewrite (fr_stream_list _ _ _ _ F4), (dev_direction_frame _ _ _ _ p F4).
  destruct (rc' =? 0); cbn [negb andb]; [ | reflexivity ].
  now destruct (stream_list_has_pinned_stream (stream_list st) idx).
Qed.

(** *** Hotword streams *)

Local Abbreviation either_dev a b := (fun q : dev_ptr => q = a \/ q = b).

Lemma frame_init_pinned_device E `{!PreOrder E} (P : dev_ptr -> Prop) p rstream st :
  P p -> frame E P st (snd (init_pinned_device p rstream st)).
Proof.
  intros Hp. unfold init_pinned_device.
  set (st0 := update_dev p (set_idle_timeout_sec 0) st).
  assert (F0 : frame E P st st0)
    by (apply frame_update_dev; [ apply _ | exact Hp | apply static_set_idle_timeout_sec ]).
  destruct (audio_thread_is_dev_open (deref st0 p)); [ exact F0 | ].
  eapply frame_trans; [ apply _ | | apply frame_init_device; [ apply _ | exact Hp ] ].
  apply frame_then; [ apply _ | intros y; apply frame_update_active_node; apply _ | ].
  exact F0.
Qed.

Lemma frame_move_hotword_stream hd from to st s :
  frame eq nowhere st (move_hotword_stream hd from to st s).
Proof.
  unfold move_hotword_stream.
  destruct (negb _); [ apply frame_refl; apply _ | ].
  destruct (negb _); [ apply frame_refl; apply _ | ].
  apply frame_then_emit; [ apply _ | ]. apply frame_emit. apply _.
Qed.

Lemma frame_move_hotword_streams_from hd from to l : forall st,
  frame eq nowhere st (fold_left (move_hotword_stream hd from to) l st).
Proof.
  induction l as [|s l IH]; intros st; cbn [fold_left]; [ apply frame_refl; apply _ | ].
  eapply frame_trans; [ apply _ | apply frame_move_hotword_stream | apply IH ].
Qed.

Lemma move_hotword_streams_emitted hd from to l : forall st s,
  s ∈ l -> is_hotword_stream s = true -> pinned_dev_idx s = dev_idx (deref st hd) ->
  exists rc,
    emitted_in_order [EvAudioThreadDisconnectStream (stream_id s) from;
                      EvAudioThreadAddStream (stream_id s) [to] rc]
                     st (fold_left (move_hotword_stream hd from to) l st).
Proof.
  induction l as [|s0 l IH]; intros st s Hin Hhot Hidx; [ inversion Hin | ].
  cbn [fold_left].
  pose proof (frame_move_hotword_stream hd from to st s0) as F0.
  apply elem_of_cons in Hin as [->|Hin].
  - exists (audio_thread_add_stream s0 [deref st to]).
    eapply emitted_then;
      [ | apply (fr_trace _ _ _ _ (frame_move_hotword_streams_from hd from to l _)) ].
    unfold move_hotword_stream. rewrite Hhot, Hidx, Z.eqb_refl. cbn [negb].
    apply (emitted_app [EvAudioThreadDisconnectStream (stream_id s0) from]
                       [EvAudioThreadAddStream (stream_id s0) [to]
                          (audio_thread_add_stream s0 [deref st to])]
                       st (emit st (EvAudioThreadDisconnectStream (stream_id s0) from)));
      apply emitted_emit.
  - destruct (IH (move_hotword_stream hd from to st s0) s Hin Hhot) as [rc Hrc].
    + now rewrite (dev_idx_frame _ _ _ _ hd F0).
    + exists rc. eapply emitted_after; [ apply (fr_trace _ _ _ _ F0) | exact Hrc ].
Qed.

Lemma find_hotword_stream_dev_frame E P st st' :
  frame E P st st' -> find_hotword_stream_dev st' = find_hotword_stream_dev st.
Proof.
  intros F. unfold find_hotword_stream_dev. rewrite (fr_stream_list _ _ _ _ F).
  destruct (List.find _ _); [ | reflexivity ].
  now rewrite (find_dev_frame _ _ _ _ _ F).
Qed.

(** X14.  [cras_iodev_list_suspend_hotword_streams], with the empty
    hotword device [e] in place.  Without a hotword stream in the list it
    only sets the flag.  When no device has the index the first hotword
    stream is pinned to, it returns -ENOENT and changes nothing: hotword
    stays as it was, suspended or not.  Otherwise it returns 0 with the
    flag set; the device [h] of the first hotword stream ends closed; each
    hotword stream pinned to the index of [h] was disconnected from [h]
    and then added to [e]; the enabled lists and every device but [h] and
    [e] are as before. *)
Theorem suspend_hotword_streams_cases (st : iodev_list) (e : dev_ptr) :
  empty_hotword_dev st = Some e ->
  (List.find is_hotword_stream (stream_list st) = None ->
     cras_iodev_list_suspend_hotword_streams st = Some (0, set_hotword_suspended true st))
  /\ (forall s, List.find is_hotword_stream (stream_list st) = Some s ->
        (find_dev st (pinned_dev_idx s) = None ->
           cras_iodev_list_suspend_hotword_streams st = Some (- ENOENT, st))
        /\ (forall h, find_dev st (pinned_dev_idx s) = Some h ->
             exists st',
               cras_iodev_list_suspend_hotword_streams st = Some (0, st')
               /\ hotword_suspended st' = true
               /\ cras_iodev_is_open (deref st' h) = false
               /\ enabled_devs st' = enabled_devs st
               /\ (forall q, q <> h -> q <> e -> iodevs st' !! q = iodevs st !! q)
               /\ (forall s', s' ∈ stream_list st -> is_hotword_stream s' = true ->
                      pinned_dev_idx s' = pinned_dev_idx s ->
                      exists rc,
                        emitted_in_order
                          [EvAudioThreadDisconnectStream (stream_id s') (Some h);
                           EvAudioThreadAddStream (stream_id s') [e] rc] st st'))).
Proof.
  intros He. unfold cras_iodev_list_suspend_hotword_streams, find_hotword_stream_dev.
  split; [ now intros -> | ].
  intros s ->. split; [ now intros -> | ].
  intros h Hh. rewrite Hh, He.
  set (st1 := snd (init_pinned_device e s st)).
  set (st2 := move_hotword_streams h (Some h) e st1).
  set (st3 := close_pinned_device h st2).
  assert (F1 : frame eq (either_dev h e) st st1)
    by (apply frame_init_pinned_device; [ apply _ | now right ]).
  assert (F12 : frame eq nowhere st1 st2) by apply frame_move_hotword_streams_from.
  assert (F2 : frame eq (either_dev h e) st st2).
  { eapply frame_trans; [ apply _ | exact F1 | ].
    eapply frame_weaken; [ | | exact F12 ]; [ auto | intros q []]. }
  assert (F23 : frame eq (either_dev h e) st2 st3)
    by (apply frame_close_pinned_device; [ apply _ | now left ]).
  assert (F3 : frame eq (either_dev h e) st st3)
    by (eapply frame_trans; [ apply _ | exact F2 | exact F23 ]).
  exists (set_hotword_suspended true st3).
  split; [ reflexivity | ]. split; [ reflexivity | ].
  split; [ rewrite deref_set_hotword_suspended; apply close_pinned_device_closed | ].
  split; [ symmetry; apply (fr_enabled _ _ _ _ F3) | ].
  split.
  - intros q Hqh Hqe. apply (fr_other _ _ _ _ F3 q). intros [|]; congruence.
  - intros s' Hin Hhot Hidx.
    destruct (move_hotword_streams_emitted h (Some h) e (stream_list st1) st1 s') as [rc Hrc].
    + now rewrite (fr_stream_list _ _ _ _ F1).
    + exact Hhot.
    + rewrite Hidx, (dev_idx_frame _ _ _ _ h F1). symmetry. now apply find_dev_idx.
    + exists rc. eapply emitted_after; [ apply (fr_trace _ _ _ _ F1) | ].
      eapply emitted_then; [ exact Hrc | apply (fr_trace _ _ _ _ F23) ].
Qed.

(** X15.  Resuming after a suspension.  When
    [cras_iodev_list_suspend_hotword_streams] has moved the hotword
    streams to the empty hotword device [e],
    [cras_iodev_list_resume_hotword_stream] finds the same stream and
    device, returns 0 and clears the flag; [e] ends closed, each hotword
    stream pinned to the index of the device [h] is disconnected from [e]
    and added to [h] again, and the enabled lists are those from before
    the suspension. *)
Theorem resume_hotword_after_suspend (st : iodev_list) (e h : dev_ptr) (s : cras_rstream) :
  empty_hotword_dev st = Some e ->
  List.find is_hotword_stream (stream_list st) = Some s ->
  find_dev st (pinned_dev_idx s) = Some h ->
  exists st1 st2,
    cras_iodev_list_suspend_hotword_streams st = Some (0, st1)
    /\ cras_iodev_list_resume_hotword_stream st1 = Some (0, st2)
    /\ hotword_suspended st1 = true
    /\ hotword_suspended st2 = false
    /\ cras_iodev_is_open (deref st2 e) = false
    /\ enabled_devs st2 = enabled_devs st
    /\ (forall s', s' ∈ stream_list st -> is_hotword_stream s' = true ->
           pinned_dev_idx s' = pinned_dev_idx s ->
           exists rc,
             emitted_in_order
               [EvAudioThreadDisconnectStream (stream_id s') (Some e);
                EvAudioThreadAddStream (stream_id s') [h] rc] st1 st2).
Proof.
  intros He Hs Hh.
  set (sa := close_pinned_device h
               (move_hotword_streams h (Some h) e (snd (init_pinned_device e s st)))).
  assert (Hsus : cras_iodev_list_suspend_hotword_streams st
                 = Some (0, set_hotword_suspended true sa)).
  { unfold cras_iodev_list_suspend_hotword_streams, find_hotword_stream_dev.
    now rewrite Hs, Hh, He. }
  assert (Fa : frame eq anywhere st sa).
  { unfold sa.
    eapply frame_trans;
      [ apply _ | | apply frame_close_pinned_device; [ apply _ | exact I ] ].
    eapply frame_trans; [ apply _ | apply frame_init_pinned_device; [ apply _ | exact I ] | ].
    eapply frame_weaken; [ | | apply frame_move_hotword_streams_from ];
      [ auto | intros q [] ]. }
  set (st1 := set_hotword_suspended true sa).
  assert (Hlist : stream_list st1 = stream_list st) by apply (fr_stream_list _ _ _ _ Fa).
  assert (Hfind : forall i, find_dev st1 i = find_dev st i)
    by (intros i; apply (find_dev_frame _ _ _ _ i Fa)).
  assert (He1 : empty_hotword_dev st1 = Some e)
    by (change (empty_hotword_dev sa = Some e);
        now rewrite (proj2 (fr_hotword _ _ _ _ Fa))).
  set (sb := snd (init_pinned_device h s st1)).
  set (sc := move_hotword_streams h (empty_hotword_dev sb) h sb).
  assert (Fb : frame eq anywhere st1 sb)
    by (apply frame_init_pinned_device; [ apply _ | exact I ]).
  assert (Fbc : frame eq nowhere sb sc) by apply frame_move_hotword_streams_from.
  assert (Fc : frame eq anywhere st1 sc).
  { eapply frame_trans; [ apply _ | exact Fb | ].
    eapply frame_weaken; [ | | exact Fbc ]; [ auto | intros q [] ]. }
  assert (Heb : empty_hotword_dev sb = Some e)
    by now rewrite (proj2 (fr_hotword _ _ _ _ Fb)).
  assert (Hec : empty_hotword_dev sc = Some e)
    by now rewrite (proj2 (fr_hotword _ _ _ _ Fc)).
  set (sd := close_pinned_device e sc).
  assert (Fcd : frame eq anywhere sc sd)
    by (apply frame_close_pinned_device; [ apply _ | exact I ]).
  exists st1, (set_hotword_suspended false sd).
  split; [ exact Hsus | ]. split.
  { unfold cras_iodev_list_resume_hotword_stream, find_hotword_stream_dev.
    rewrite Hlist, Hs, Hfind, Hh. fold sb. fold sc. now rewrite Hec. }
  split; [ reflexivity | ]. split; [ reflexivity | ].
  split; [ rewrite deref_set_hotword_suspended; apply close_pinned_device_closed | ].
  split.
  { change (enabled_devs sd = enabled_devs st).
    rewrite <- (fr_enabled _ _ _ _ Fcd), <- (fr_enabled _ _ _ _ Fc).
    change (enabled_devs sa = enabled_devs st). symmetry. apply (fr_enabled _ _ _ _ Fa). }
  intros s' Hin Hhot Hidx.
  destruct (move_hotword_streams_emitted h (empty_hotword_dev sb) h (stream_list sb) sb s')
    as [rc Hrc].
  - now rewrite (fr_stream_list _ _ _ _ Fb), Hlist.
  - exact Hhot.
  - rewrite Hidx, (dev_idx_frame _ _ _ _ h Fb).
    change (dev_idx (deref st1 h)) with (dev_idx (deref sa h)).
    rewrite (dev_idx_frame _ _ _ _ h Fa). symmetry. now apply find_dev_idx.
  - exists rc. rewrite <- Heb.
    eapply emitted_after; [ apply (fr_trace _ _ _ _ Fb) | ].
    eapply emitted_then; [ exact Hrc | apply (fr_trace _ _ _ _ Fcd) ].
Qed.

(** *** Removing a pinned stream *)

(** X29.  [pinned_stream_removed], called when the stream has left the
    stream list.  It changes nothing for a stream without a pinned
    device, for a device in an enabled list, and for a device that another
    stream of the list is still pinned to: such a device stays as it is.
    Otherwise it leaves the device closed.  Nothing but the record of the
    pinned device changes, the enabled lists are the same, and no init
    retry is scheduled or cancelled. *)
Theorem pinned_stream_removed_closes_unused (rstream : cras_rstream) (st : iodev_list) :
  let st' := pinned_stream_removed rstream st in
  (find_pinned_device rstream st = None -> st' = st)
  /\ (forall p, find_pinned_device rstream st = Some p ->
        frame eq (fun q => q = p) st st'
        /\ (cras_iodev_list_dev_is_enabled st p = true
            \/ stream_list_has_pinned_stream (stream_list st) (dev_idx (deref st p)) = true ->
            st' = st)
        /\ (cras_iodev_list_dev_is_enabled st p = false ->
            stream_list_has_pinned_stream (stream_list st) (dev_idx (deref st p)) = false ->
            cras_iodev_is_open (deref st' p) = false))
  /\ no_new_retry st st'
  /\ init_retries st' = init_retries st.
Proof.
  intros st'. subst st'. unfold pinned_stream_removed.
  destruct (find_pinned_device rstream st) as [p|].
  2:{ split; [ reflexivity | ]. split; [ discriminate | ].
      split; [ apply no_new_retry_refl | reflexivity ]. }
  split; [ discriminate | ].
  destruct (cras_iodev_list_dev_is_enabled st p) eqn:Hen; cbn [negb andb];
    [ | destruct (stream_list_has_pinned_stream _ _) eqn:Hpin; cbn [negb] ].
  - split; [ | split; [ apply no_new_retry_refl | reflexivity ] ].
    intros q [= <-]. split; [ apply frame_refl; apply _ | ].
    split; [ reflexivity | congruence ].
  - split; [ | split; [ apply no_new_retry_refl | reflexivity ] ].
    intros q [= <-]. split; [ apply frame_refl; apply _ | ].
    split; [ reflexivity | congruence ].
  - split; [ | split ].
    + intros q [= <-]. split; [ now apply frame_close_pinned_device; [ apply _ | ] | ].
      split; [ intros [?|?]; congruence | ].
      intros _ _. apply close_pinned_device_closed.
    + unfold close_pinned_device.
      eapply no_new_retry_trans; [ apply no_new_retry_close_dev | ].
      apply no_new_retry_update_active_node.
    + unfold close_pinned_device. apply init_retries_close_dev.
Qed.

End Retries.

(** X12 on the speaker list with its hardware busy: the one pending retry
    is consumed and none is left. *)
Lemma init_device_cb_runs_once_witness :
  init_retries (@init_device_cb env_busy 64 0 list_pending) = [].
Proof.
  destruct (@init_device_cb_runs_once env_busy 64 0%nat 5 list_pending eq_refl) as [Hs _].
  exact (proj1 (sublist_nil_r _) Hs).
Defined.

(** X14 on the hotword setup: the stream pinned to the microphone at
    address 21 is moved to the empty hotword device at address 20. *)
Lemma suspend_hotword_streams_cases_witness :
  exists st',
    @cras_iodev_list_suspend_hotword_streams env_ok (list_hotword false) = Some (0, st')
    /\ hotword_suspended st' = true
    /\ cras_iodev_is_open (deref st' 21%nat) = false.
Proof.
  destruct (@suspend_hotword_streams_cases env_ok (list_hotword false) 20%nat eq_refl)
    as [_ H].
  destruct (H hotword_stream eq_refl) as [_ H2].
  destruct (H2 21%nat eq_refl) as (st' & H3 & H4 & H5 & _).
  exists st'. split; [ exact H3 | split; [ exact H4 | exact H5 ] ].
Defined.

(** X15 on the hotword setup. *)
Lemma resume_hotword_after_suspend_witness :
  exists st1 st2,
    @cras_iodev_list_suspend_hotword_streams env_ok (list_hotword false) = Some (0, st1)
    /\ @cras_iodev_list_resume_hotword_stream env_ok st1 = Some (0, st2)
    /\ hotword_suspended st2 = false.
Proof.
  destruct (@resume_hotword_after_suspend env_ok (list_hotword false) 20%nat 21%nat
              hotword_stream eq_refl eq_refl eq_refl)
    as (st1 & st2 & H1 & H2 & _ & H4 & _).
  exists st1, st2. split; [ exact H1 | split; [ exact H2 | exact H4 ] ].
Defined.

(** ** The device registry *)

(** *** The search for a free index *)

Lemma idx_candidate_range special new_idx j :
  0 <= special < 2 ^ 32 -> special <= idx_candidate special new_idx j < 2 ^ 32.
Proof.
  intros Hs. unfold idx_candidate.
  pose proof (Z.mod_pos_bound
                ((if new_idx <? special then special else new_idx) - special + Z.of_nat j)
                (2 ^ 32 - special)).
  lia.
Qed.

Lemma idx_candidate_0 special new_idx :
  0 <= special < 2 ^ 32 -> 0 <= new_idx < 2 ^ 32 ->
  idx_candidate special new_idx 0 = if new_idx <? special then special else new_idx.
Proof.
  intros Hs Hn. unfold idx_candidate. change (Z.of_nat 0) with 0. rewrite Z.add_0_r.
  rewrite Z.mod_small; [ lia | ]. destruct (Z.ltb_spec new_idx special); lia.
Qed.

Lemma idx_candidate_next special new_idx j :
  0 <= special < 2 ^ 32 -> 0 <= new_idx < 2 ^ 32 ->
  idx_candidate special
    (to_uint32 ((if new_idx <? special then special else new_idx) + 1)) j
  = idx_candidate special new_idx (S j).
Proof.
  intros Hs Hn. unfold idx_candidate, to_uint32.
  set (c := if new_idx <? special then special else new_idx).
  assert (Hc : special <= c < 2 ^ 32) by (unfold c; destruct (Z.ltb_spec new_idx special); lia).
  f_equal.
  destruct (Z.eq_dec (c + 1) (2 ^ 32)) as [Hwrap|Hwrap].
  - rewrite Hwrap, Z_mod_same_full.
    replace (if 0 <? special then special else 0) with special
      by (destruct (Z.ltb_spec 0 special); lia).
    replace (c - special + Z.of_nat (S j))
      with (Z.of_nat j + 1 * (2 ^ 32 - special)) by lia.
    rewrite Z_mod_plus_full. f_equal. lia.
  - rewrite (Z.mod_small (c + 1)) by lia.
    destruct (Z.ltb_spec (c + 1) special); [ lia | ]. f_equal. lia.
Qed.

Lemma idx_candidate_inj special new_idx (j1 j2 : nat) :
  0 <= special < 2 ^ 32 ->
  Z.of_nat j1 < 2 ^ 32 - special -> Z.of_nat j2 < 2 ^ 32 - special ->
  idx_candidate special new_idx j1 = idx_candidate special new_idx j2 -> j1 = j2.
Proof.
  intros Hs H1 H2 Heq. unfold idx_candidate in Heq.
  set (a := (if new_idx <? special then special else new_idx) - special) in *.
  set (P := 2 ^ 32 - special) in *.
  assert (Hmod : (a + Z.of_nat j1) mod P = (a + Z.of_nat j2) mod P) by lia.
  assert (Hd : forall x y : Z, 0 <= x -> x <= y -> y < P ->
                 (a + x) mod P = (a + y) mod P -> x = y).
  { intros x y Hx Hxy Hy He.
    assert (Hz : (y - x) mod P = 0).
    { replace (y - x) with ((a + y) - (a + x)) by lia.
      rewrite Zminus_mod, He, Z.sub_diag. apply Z.mod_0_l. lia. }
    rewrite Z.mod_small in Hz by lia. lia. }
  destruct (Z.le_gt_cases (Z.of_nat j1) (Z.of_nat j2)).
  - apply Nat2Z.inj. apply Hd; auto; lia.
  - symmetry. apply Nat2Z.inj. apply Hd; auto; lia.
Qed.

(** What the loop returns is the first candidate that no device of the
    list has. *)
Lemma next_free_idx_spec special used fuel : forall new_idx k,
  0 <= special < 2 ^ 32 -> 0 <= new_idx < 2 ^ 32 ->
  next_free_idx fuel special new_idx used = Some k ->
  exists j : nat,
    (j < fuel)%nat /\ k = idx_candidate special new_idx j /\ (k ∉ used)
    /\ forall i : nat, (i < j)%nat -> idx_candidate special new_idx i ∈ used.
Proof.
  induction fuel as [|fuel IH]; intros new_idx k Hs Hn Hfind; [ discriminate | ].
  cbn [next_free_idx] in Hfind.
  set (c := if new_idx <? special then special else new_idx) in *.
  destruct (existsb (Z.eqb c) used) eqn:Hex.
  - destruct (IH _ _ Hs (Z.mod_pos_bound _ (2 ^ 32) eq_refl) Hfind)
      as (j & Hj & Hk & Hfree & Hused).
    exists (S j). split; [ lia | ]. split; [ | split; [ exact Hfree | ] ].
    + rewrite Hk. now apply idx_candidate_next.
    + intros [|i] Hi.
      * rewrite idx_candidate_0 by assumption. fold c.
        apply existsb_exists in Hex as (x & Hx & Heq). apply Z.eqb_eq in Heq. subst x.
        now apply list_elem_of_In.
      * rewrite <- idx_candidate_next by assumption. apply Hused. lia.
  - injection Hfind as <-. exists 0%nat. split; [ lia | ].
    split; [ now rewrite idx_candidate_0 | ]. split; [ | intros i Hi; lia ].
    intros Hin. apply list_elem_of_In in Hin.
    assert (existsb (Z.eqb c) used = true); [ | congruence ].
    apply existsb_exists. exists c. split; [ exact Hin | apply Z.eqb_refl ].
Qed.

Lemma next_free_idx_none special used fuel : forall new_idx,
  0 <= special < 2 ^ 32 -> 0 <= new_idx < 2 ^ 32 ->
  next_free_idx fuel special new_idx used = None ->
  forall j : nat, (j < fuel)%nat -> idx_candidate special new_idx j ∈ used.
Proof.
  induction fuel as [|fuel IH]; intros new_idx Hs Hn Hfind j Hj; [ lia | ].
  cbn [next_free_idx] in Hfind.
  set (c := if new_idx <? special then special else new_idx) in *.
  destruct (existsb (Z.eqb c) used) eqn:Hex; [ | discriminate ].
  destruct j as [|j].
  - rewrite idx_candidate_0 by assumption. fold c.
    apply existsb_exists in Hex as (x & Hx & Heq). apply Z.eqb_eq in Heq. subst x.
    now apply list_elem_of_In.
  - rewrite <- idx_candidate_next by assumption.
    apply IH; [ exact Hs | apply Z.mod_pos_bound; reflexivity | exact Hfind | lia ].
Qed.

(** With fewer devices in the list than there are indices, the loop ends
    within one round more than the list is long. *)
Lemma next_free_idx_terminates special used fuel new_idx :
  0 <= special < 2 ^ 32 -> 0 <= new_idx < 2 ^ 32 ->
  (length used < fuel)%nat -> Z.of_nat (length used) < 2 ^ 32 - special ->
  exists k, next_free_idx fuel special new_idx used = Some k.
Proof.
  intros Hs Hn Hfuel Hlen.
  destruct (next_free_idx fuel special new_idx used) as [k|] eqn:Hfind;
    [ now exists k | exfalso ].
  pose proof (next_free_idx_none _ _ _ _ Hs Hn Hfind) as Hall.
  set (cands := idx_candidate special new_idx <$> seq 0 (S (length used))).
  assert (Hnodup : NoDup cands).
  { apply NoDup_fmap_2_strong; [ | apply NoDup_seq ].
    intros j1 j2 H1 H2 Heq. apply elem_of_seq in H1, H2.
    apply (idx_candidate_inj special new_idx); [ exact Hs | lia | lia | exact Heq ]. }
  assert (Hsub : cands ⊆+ used).
  { apply NoDup_submseteq; [ exact Hnodup | ].
    intros x Hx. apply list_elem_of_fmap in Hx as (j & -> & Hj).
    apply elem_of_seq in Hj. apply Hall. lia. }
  apply submseteq_length in Hsub.
  unfold cands in Hsub. rewrite length_fmap, length_seq in Hsub. lia.
Qed.

(** *** Adding a device *)

Lemma deref_update_dev_other p f st q : q <> p -> deref (update_dev p f st) q = deref st q.
Proof.
  intros Hq. rewrite deref_update_dev. destruct (decide (p = q)); [ congruence | reflexivity ].
Qed.

Lemma deref_update_dev_allocated p f st :
  is_Some (iodevs st !! p) -> deref (update_dev p f st) p = f (deref st p).
Proof.
  intros [x Hx]. rewrite (lookup_deref _ _ _ Hx).
  apply lookup_deref. now apply lookup_update_dev.
Qed.

Lemma update_dev_allocated p f st q :
  is_Some (iodevs st !! q) -> is_Some (iodevs (update_dev p f st) !! q).
Proof.
  intros [x Hx]. unfold update_dev. cbn [iodevs set_iodevs].
  destruct (decide (q = p)) as [->|Hq].
  - exists (f x). rewrite lookup_alter. destruct (decide (p = p)); [ | congruence ].
    now rewrite Hx.
  - exists x. rewrite lookup_alter_ne by congruence. exact Hx.
Qed.

Lemma find_head_match {A} (f : A -> bool) (x : A) (l : list A) :
  f x = true -> List.find f (x :: l) = Some x.
Proof. intros Hx. cbn [List.find]. now rewrite Hx. Qed.

Lemma find_first_of {A} `{EqDecision A} (f : A -> bool) (x : A) (l1 l2 : list A) :
  f x = true -> (forall y, y ∈ l1 -> y <> x -> f y = false) ->
  List.find f (l1 ++ x :: l2) = Some x.
Proof.
  intros Hx. induction l1 as [|y l1 IH]; intros Hl1; cbn [app List.find].
  - now rewrite Hx.
  - destruct (f y) eqn:Hy.
    + f_equal. destruct (decide (y = x)) as [Heq|Hne]; [ exact Heq | ].
      rewrite (Hl1 y (list_elem_of_here _ _) Hne) in Hy. discriminate.
    + apply IH. intros z Hz. apply Hl1. now apply list_elem_of_further.
Qed.

Section RegistryFacts.
Context `{!IodevListEnv}.

Local Abbreviation anywhere := (fun _ : dev_ptr => True).

(** X16.  [add_dev_to_list].  A device that is in the list of its
    direction is refused with -EEXIST.  Otherwise, when the list is
    shorter than the span of indices from MAX_SPECIAL_DEVICE_IDX to
    2^32 - 1, the search for an index ends within one round more than the
    list is long: the device gets an index in that span which no device of
    that list has, is put at the head of the list without a format, and
    [next_iodev_idx] is left one past the index, wrapping at 2^32.  The
    other devices, the lists of the other directions and the enabled lists
    are as before.  [find_dev] with the new index gives the new device if
    it is an output, and also if it is an input and no output has that
    index. *)
Theorem add_dev_to_list_fresh_index (fuel : nat) (p : dev_ptr) (r : registry) :
  let st := list_state r in
  let dir := dev_direction (deref st p) in
  let special := to_uint32 MAX_SPECIAL_DEVICE_IDX in
  is_Some (iodevs st !! p) ->
  0 <= next_iodev_idx r < 2 ^ 32 ->
  (p ∈ devs st dir -> add_dev_to_list fuel p r = Some (- EEXIST, r))
  /\ (p ∉ devs st dir ->
      (length (devs st dir) < fuel)%nat ->
      Z.of_nat (length (devs st dir)) < 2 ^ 32 - special ->
      exists r',
        add_dev_to_list fuel p r = Some (0, r')
        /\ devs (list_state r') dir = p :: devs st dir
        /\ (forall d, d <> dir -> devs (list_state r') d = devs st d)
        /\ special <= dev_idx (deref (list_state r') p) < 2 ^ 32
        /\ (forall q, q ∈ devs st dir ->
              dev_idx (deref (list_state r') q) <> dev_idx (deref (list_state r') p))
        /\ next_iodev_idx r' = (dev_idx (deref (list_state r') p) + 1) mod 2 ^ 32
        /\ dev_format (deref (list_state r') p) = None
        /\ dev_direction (deref (list_state r') p) = dir
        /\ (forall q, q <> p -> iodevs (list_state r') !! q = iodevs st !! q)
        /\ enabled_devs (list_state r') = enabled_devs st
        /\ (dir = CRAS_STREAM_OUTPUT
            \/ (dir = CRAS_STREAM_INPUT
                /\ forall q, q ∈ devs st CRAS_STREAM_OUTPUT ->
                     dev_idx (deref st q) <> dev_idx (deref (list_state r') p)) ->
            find_dev (list_state r') (dev_idx (deref (list_state r') p)) = Some p)).
Proof.
  intros st dir special Halloc Hnext.
  assert (Hs : 0 <= special < 2 ^ 32) by (apply Z.mod_pos_bound; reflexivity).
  unfold add_dev_to_list. fold st. fold dir. fold special.
  split; [ intros Hin; now rewrite bool_decide_eq_true_2 | ].
  intros Hnot Hfuel Hlen. rewrite bool_decide_eq_false_2 by exact Hnot.
  set (st1 := update_dev p (set_dev_format None) st).
  set (used := map (fun q => dev_idx (deref st1 q)) (devs st1 dir)).
  assert (Hused_len : length used = length (devs st dir)) by apply length_map.
  destruct (next_free_idx_terminates special used fuel (next_iodev_idx r) Hs Hnext)
    as [k Hk]; [ lia | lia | ].
  rewrite Hk.
  destruct (next_free_idx_spec special used fuel _ _ Hs Hnext Hk)
    as (j & _ & Hkj & Hfree & _).
  pose proof (idx_candidate_range special (next_iodev_idx r) j Hs) as Hrange.
  rewrite <- Hkj in Hrange.
  set (st2 := update_dev p (set_dev_idx k) st1).
  set (st3 := set_devs st2 dir (p :: devs st2 dir)).
  assert (Halloc1 : is_Some (iodevs st1 !! p)) by now apply update_dev_allocated.
  assert (Hp1 : deref st1 p = set_dev_format None (deref st p))
    by now apply deref_update_dev_allocated.
  assert (Hp2 : deref st2 p = set_dev_idx k (set_dev_format None (deref st p)))
    by (unfold st2; rewrite deref_update_dev_allocated by exact Halloc1; now rewrite Hp1).
  assert (Hother : forall q, q <> p -> deref st2 q = deref st q).
  { intros q Hq. unfold st2, st1. now rewrite !deref_update_dev_other. }
  eexists. split; [ reflexivity | ].
  cbn [list_state with_list set_next_iodev_idx next_iodev_idx].
  change (deref (emit st3 EvUpdateDeviceList)) with (deref st2).
  rewrite Hp2. cbn [dev_idx set_dev_idx dev_format set_dev_format dev_direction].
  fold dir.
  split; [ cbn; now rewrite bool_decide_eq_true_2 | ].
  split; [ intros d Hd; cbn; now rewrite bool_decide_eq_false_2 | ].
  split; [ exact Hrange | ].
  split.
  { intros q Hq Heq. apply Hfree. rewrite <- Heq.
    assert (Hqp : q <> p) by (intros ->; contradiction).
    rewrite (Hother q Hqp).
    unfold used. apply list_elem_of_In, in_map_iff. exists q.
    split; [ unfold st1; now rewrite deref_update_dev_other | now apply list_elem_of_In ]. }
  split; [ reflexivity | ]. split; [ reflexivity | ]. split; [ reflexivity | ].
  split.
  { intros q Hq. cbn. rewrite !lookup_alter_ne by congruence. reflexivity. }
  split; [ reflexivity | ].
  intros Hdir. unfold find_dev.
  change (deref (emit st3 EvUpdateDeviceList)) with (deref st2).
  change (devs (emit st3 EvUpdateDeviceList)) with (devs st3).
  destruct Hdir as [Hout|[Hin Hnone]].
  - assert (Hd : devs st3 CRAS_STREAM_OUTPUT = p :: devs st CRAS_STREAM_OUTPUT)
      by (cbn; rewrite Hout; now rewrite bool_decide_eq_true_2).
    rewrite Hd. cbn [app]. apply find_head_match. rewrite Hp2. apply Z.eqb_refl.
  - assert (Hd : devs st3 CRAS_STREAM_INPUT = p :: devs st CRAS_STREAM_INPUT)
      by (cbn; rewrite Hin; now rewrite bool_decide_eq_true_2).
    assert (Ho : devs st3 CRAS_STREAM_OUTPUT = devs st CRAS_STREAM_OUTPUT)
      by (cbn; rewrite Hin; now rewrite bool_decide_eq_false_2).
    rewrite Hd, Ho.
    apply find_first_of; [ rewrite Hp2; apply Z.eqb_refl | ].
    intros q Hq Hqp. rewrite (Hother q Hqp). apply Z.eqb_neq. now apply Hnone.
Qed.

(** *** Disabling a device that may not be enabled *)

Lemma disable_dev_scan_notin l p : forall i acc,
  p ∉ l -> disable_dev_scan l i p acc = (fst acc, snd acc && bool_decide (l = [])).
Proof.
  induction l as [|e l IH]; intros i [a b] Hp; cbn [disable_dev_scan fst snd].
  - now rewrite andb_true_r.
  - apply not_elem_of_cons in Hp as [Hne Hp].
    rewrite bool_decide_eq_false_2 by congruence.
    rewrite IH by exact Hp. cbn [fst snd]. now rewrite andb_false_r.
Qed.

Lemma disable_dev_scan_in pre post p : forall i acc,
  p ∉ pre -> p ∉ post ->
  disable_dev_scan (pre ++ p :: post) i p acc
  = (Some (i + length pre)%nat,
     snd acc && bool_decide (pre = []) && bool_decide (post = [])).
Proof.
  induction pre as [|e pre IH]; intros i [a b] Hpre Hpost; cbn [app disable_dev_scan fst snd].
  - rewrite bool_decide_eq_true_2 by reflexivity.
    rewrite disable_dev_scan_notin by exact Hpost. cbn [fst snd length].
    now rewrite Nat.add_0_r, andb_true_r.
  - apply not_elem_of_cons in Hpre as [Hne Hpre].
    rewrite bool_decide_eq_false_2 by congruence.
    rewrite IH by assumption. cbn [fst snd length andb].
    now rewrite andb_false_r, Nat.add_succ_r.
Qed.

Lemma enable_device_dir_list fb st dir :
  exists extra,
    enabled_devs (snd (enable_device fb st)) dir = enabled_devs st dir ++ extra
    /\ (forall q, q ∈ extra -> q = fb /\ fb ∉ enabled_devs st dir)
    /\ (dev_direction (deref st fb) = dir -> fb ∉ enabled_devs st dir -> extra = [fb]).
Proof.
  destruct (decide (fb ∈ enabled_devs st (dev_direction (deref st fb)))) as [Hin|Hnot].
  - rewrite (enable_device_already fb st Hin). exists []. cbn [snd].
    split; [ now rewrite app_nil_r | ]. split; [ intros q Hq; inversion Hq | ].
    intros <- Hn. contradiction.
  - rewrite (enable_device_enabled_devs fb st Hnot). cbn [enabled_devs set_enabled_devs].
    destruct (decide (dir = dev_direction (deref st fb))) as [->|Hne].
    + rewrite bool_decide_eq_true_2 by reflexivity. exists [fb].
      split; [ reflexivity | ]. split; [ | reflexivity ].
      intros q Hq. apply list_elem_of_singleton in Hq. now subst q.
    + rewrite bool_decide_eq_false_2 by exact Hne. exists [].
      split; [ now rewrite app_nil_r | ]. split; [ intros q Hq; inversion Hq | ].
      intros Heq. congruence.
Qed.

Lemma frame_cras_iodev_list_disable_dev p force_close r :
  frame enabled_any anywhere (list_state r)
        (list_state (cras_iodev_list_disable_dev p force_close r)).
Proof.
  unfold cras_iodev_list_disable_dev.
  destruct (disable_dev_scan _ _ _ _) as [[i|] only].
  - cbn [list_state cras_iodev_list_notify_active_node_changed registry_emit with_list].
    eapply frame_trans; [ apply _ | | apply frame_disable_device; [ apply _ | apply _ | exact I ] ].
    destruct (fallback_devs _ _); [ | apply frame_refl; apply _ ].
    destruct only; [ | apply frame_refl; apply _ ].
    apply frame_enable_device; [ apply _ | apply _ | exact I ].
  - destruct force_close; [ | apply frame_refl; apply _ ].
    cbn [list_state with_list]. apply frame_close_pinned_device; [ apply _ | exact I ].
Qed.

Lemma disable_device_forced_closed i p st :
  cras_iodev_is_open (deref (snd (disable_device i p true st)) p) = false.
Proof.
  unfold disable_device. cbn [snd].
  rewrite deref_possibly_clear, deref_update_active_node. apply close_dev_closed.
Qed.

(** After [cras_iodev_list_disable_dev] with [force_close] the device is
    closed, whether it was enabled or not. *)
Lemma disable_dev_forced_closed p r :
  cras_iodev_is_open (deref (list_state (cras_iodev_list_disable_dev p true r)) p) = false.
Proof.
  unfold cras_iodev_list_disable_dev.
  destruct (disable_dev_scan _ _ _ _) as [[i|] only].
  - cbn [list_state cras_iodev_list_notify_active_node_changed registry_emit with_list].
    apply disable_device_forced_closed.
  - cbn [list_state with_list]. apply close_pinned_device_closed.
Qed.

(** X17.  [cras_iodev_list_disable_dev].  For a device that is not in the
    enabled list of its direction, the enabled lists stay as they are and
    no notification is sent: without [force_close] nothing happens at all,
    with it the device is closed.  For a device that is in the list (once),
    the device leaves the list, every other device of the list stays, and
    the call ends with one active-node notification for the direction.
    When the direction has a fallback device other than the device itself,
    the list is not empty afterwards: a device that was the only enabled
    one is replaced by the fallback. *)
Theorem disable_dev_keeps_direction_served (p : dev_ptr) (force_close : bool)
    (r : registry) :
  let st := list_state r in
  let dir := dev_direction (deref st p) in
  let r' := cras_iodev_list_disable_dev p force_close r in
  let st' := list_state r' in
  (p ∉ enabled_devs st dir ->
     enabled_devs st' = enabled_devs st
     /\ registry_trace r' = registry_trace r
     /\ (force_close = false -> r' = r)
     /\ (force_close = true -> cras_iodev_is_open (deref st' p) = false))
  /\ (p ∈ enabled_devs st dir -> NoDup (enabled_devs st dir) ->
      (p ∉ enabled_devs st' dir)
      /\ (forall q, q ∈ enabled_devs st dir -> q <> p -> q ∈ enabled_devs st' dir)
      /\ registry_events r'
         = registry_events r
           ++ [EvNotifyActiveNode dir (cras_iodev_list_get_active_node_id st' dir)]
      /\ (forall fb, fallback_devs st dir = Some fb -> fb <> p ->
            dev_direction (deref st fb) = dir ->
            enabled_devs st' dir <> []
            /\ (enabled_devs st dir = [p] -> enabled_devs st' dir = [fb]))).
Proof.
  intros st dir r' st'. split.
  - intros Hnot. unfold st', r', cras_iodev_list_disable_dev. fold st. fold dir.
    rewrite disable_dev_scan_notin by exact Hnot. cbn [fst snd].
    destruct force_close; cbn [list_state with_list registry_trace].
    + split; [ | split; [ reflexivity | split; [ discriminate | ] ] ].
      * symmetry.
        apply (fr_enabled _ _ _ _ (frame_close_pinned_device eq anywhere p st I)).
      * intros _. apply close_pinned_device_closed.
    + split; [ reflexivity | split; [ reflexivity | split; [ reflexivity | discriminate ] ] ].
  - intros Hin Hnd.
    apply list_elem_of_split in Hin as (pre & post & Hl).
    assert (Hpre : (p ∉ pre) /\ (p ∉ post)).
    { rewrite Hl in Hnd. apply NoDup_app in Hnd as (_ & Hdisj & Hnd2).
      apply NoDup_cons in Hnd2 as [Hpost _]. split; [ | exact Hpost ].
      intros Hp. apply (Hdisj p Hp). apply list_elem_of_here. }
    destruct Hpre as [Hpre Hpost].
    unfold st', r', cras_iodev_list_disable_dev. fold st. fold dir.
    rewrite Hl, disable_dev_scan_in by assumption. cbn [fst snd andb Nat.add].
    set (only := bool_decide (pre = []) && bool_decide (post = [])).
    set (st1 := match fallback_devs st dir with
                | Some fb => if only then snd (enable_device fb st) else st
                | None => st
                end).
    assert (F1 : frame enabled_any anywhere st st1).
    { unfold st1. destruct (fallback_devs st dir); [ | apply frame_refl; apply _ ].
      destruct only; [ | apply frame_refl; apply _ ].
      apply frame_enable_device; [ apply _ | apply _ | exact I ]. }
    assert (Hdir1 : dev_direction (deref st1 p) = dir)
      by apply (dev_direction_frame _ _ _ _ p F1).
    assert (H1 : exists extra,
               enabled_devs st1 dir = (pre ++ p :: post) ++ extra
               /\ (p ∉ extra)
               /\ (forall fb, fallback_devs st dir = Some fb -> fb <> p ->
                     dev_direction (deref st fb) = dir -> only = true -> extra = [fb])).
    { unfold st1. destruct (fallback_devs st dir) as [fb|] eqn:Hfb.
      - destruct only eqn:Honly.
        + destruct (enable_device_dir_list fb st dir) as (extra & He & Hex & Hfresh).
          exists extra. rewrite He, Hl. split; [ reflexivity | ]. split.
          * intros Hp. destruct (Hex p Hp) as [-> Hn]. apply Hn. rewrite Hl.
            apply elem_of_app. right. apply list_elem_of_here.
          * intros fb' Hfb' Hne Hd _. injection Hfb' as <-. apply Hfresh; [ exact Hd | ].
            unfold only in Honly. apply andb_prop in Honly as [Ha Hb].
            apply bool_decide_eq_true in Ha, Hb. rewrite Hl, Ha, Hb. cbn [app].
            intros Hq. apply list_elem_of_singleton in Hq. congruence.
        + exists []. rewrite Hl, app_nil_r. split; [ reflexivity | ].
          split; [ intros Hq; inversion Hq | discriminate ].
      - exists []. rewrite Hl, app_nil_r. split; [ reflexivity | ].
        split; [ intros Hq; inversion Hq | discriminate ]. }
    destruct H1 as (extra & He1 & Hpx & Hfresh).
    set (st2 := snd (disable_device (length pre) p force_close st1)).
    assert (F2 : frame enabled_any anywhere st st2).
    { eapply frame_trans; [ apply _ | exact F1 | ].
      apply frame_disable_device; [ apply _ | apply _ | exact I ]. }
    assert (Hdir2 : dev_direction (deref st2 p) = dir)
      by apply (dev_direction_frame _ _ _ _ p F2).
    assert (He2 : enabled_devs st2 dir = pre ++ post ++ extra).
    { unfold st2. rewrite disable_device_enabled_devs, Hdir1.
      cbn [enabled_devs set_enabled_devs]. rewrite bool_decide_eq_true_2 by reflexivity.
      rewrite He1, <- app_assoc. cbn [app Nat.add]. apply delete_middle. }
    cbn [list_state cras_iodev_list_notify_active_node_changed registry_emit with_list].
    fold st2.
    split; [ | split; [ | split ] ].
    + rewrite He2. intros Hq. apply elem_of_app in Hq as [Hq|Hq]; [ now apply Hpre | ].
      apply elem_of_app in Hq as [Hq|Hq]; [ now apply Hpost | now apply Hpx ].
    + intros q Hq Hqp. rewrite He2.
      apply elem_of_app in Hq as [Hq|Hq]; [ apply elem_of_app; now left | ].
      apply elem_of_cons in Hq as [Hq|Hq]; [ contradiction | ].
      apply elem_of_app. right. apply elem_of_app. now left.
    + unfold registry_events, cras_iodev_list_notify_active_node_changed, registry_emit.
      cbn [registry_trace with_list list_state]. rewrite map_app. cbn [map snd].
      now rewrite Hdir2.
    + intros fb Hfb Hne Hd. rewrite He2. split.
      * destruct only eqn:Honly.
        -- rewrite (Hfresh fb Hfb Hne Hd eq_refl). now destruct pre, post.
        -- unfold only in Honly. destruct pre; [ | discriminate ].
           destruct post; [ | discriminate ].
           rewrite !bool_decide_eq_true_2 in Honly by reflexivity. discriminate.
      * intros Hone.
        assert (Hnil : pre = [] /\ post = []).
        { destruct pre as [|a pre']; [ now injection Hone | ].
          injection Hone as _ Hrest. now destruct pre'. }
        destruct Hnil as [-> ->].
        rewrite (Hfresh fb Hfb Hne Hd); [ reflexivity | ].
        unfold only. now rewrite !bool_decide_eq_true_2.
Qed.

(** *** Removing a device *)

Lemma run_removed_cbs_fold p l : forall r,
  let r' := fold_left (fun r c =>
                         match removed_cb c with
                         | Some f => registry_emit r (EvRemovedCb f p (cb_data c))
                         | None => r
                         end) l r in
  list_state r' = list_state r
  /\ next_iodev_idx r' = next_iodev_idx r
  /\ device_enable_cbs r' = device_enable_cbs r
  /\ registry_events r' = registry_events r ++ removed_cb_events p l.
Proof.
  induction l as [|c l IH]; intros r; cbn [fold_left removed_cb_events flat_map].
  - repeat split. now rewrite app_nil_r.
  - destruct (removed_cb c) as [f|].
    + destruct (IH (registry_emit r (EvRemovedCb f p (cb_data c)))) as (H1 & H2 & H3 & H4).
      cbn zeta in *. rewrite H1, H2, H3, H4. repeat split.
      unfold registry_events, registry_emit. cbn [registry_trace].
      rewrite map_app. cbn [map snd app]. now rewrite <- app_assoc.
    + apply IH.
Qed.

Lemma run_removed_cbs_spec p r :
  list_state (run_removed_cbs p r) = list_state r
  /\ next_iodev_idx (run_removed_cbs p r) = next_iodev_idx r
  /\ device_enable_cbs (run_removed_cbs p r) = device_enable_cbs r
  /\ registry_events (run_removed_cbs p r)
     = registry_events r ++ removed_cb_events p (device_enable_cbs r).
Proof. apply (run_removed_cbs_fold p (device_enable_cbs r) r). Qed.

Lemma dl_delete_notin p l : p ∉ l -> dl_delete p l = l.
Proof.
  induction l as [|q l IH]; intros Hp; cbn [dl_delete]; [ reflexivity | ].
  apply not_elem_of_cons in Hp as [Hne Hp].
  rewrite bool_decide_eq_false_2 by congruence. now rewrite IH.
Qed.

Lemma dl_delete_elem p l q : q ∈ dl_delete p l -> q ∈ l.
Proof.
  induction l as [|x l IH]; cbn [dl_delete]; [ auto | ].
  destruct (bool_decide (x = p)); intros Hq; [ now apply list_elem_of_further | ].
  apply elem_of_cons in Hq as [->|Hq]; [ apply list_elem_of_here | ].
  apply list_elem_of_further. now apply IH.
Qed.

Lemma dl_delete_NoDup p l : NoDup l -> p ∉ dl_delete p l.
Proof.
  induction l as [|x l IH]; intros Hnd; cbn [dl_delete]; [ intros H0; inversion H0 | ].
  apply NoDup_cons in Hnd as [Hx Hnd].
  destruct (bool_decide_reflect (x = p)) as [->|Hne]; [ exact Hx | ].
  intros Hp. apply elem_of_cons in Hp as [Hp|Hp]; [ congruence | now apply IH ].
Qed.

Lemma disable_dev_scan_found l p : forall i acc,
  p ∈ l -> exists k only, disable_dev_scan l i p acc = (Some k, only).
Proof.
  induction l as [|e l IH]; intros i acc Hp; [ inversion Hp | ].
  cbn [disable_dev_scan].
  destruct (decide (p ∈ l)) as [Hin|Hnot]; [ now apply IH | ].
  apply elem_of_cons in Hp as [->|Hp]; [ | contradiction ].
  rewrite bool_decide_eq_true_2 by reflexivity.
  rewrite disable_dev_scan_notin by exact Hnot. cbn [fst snd]. eauto.
Qed.

(** The removal after the forced disabling, for a device of the list. *)
Lemma rm_after_disable_registered p r :
  let st := list_state r in
  let dir := dev_direction (deref st p) in
  p ∈ devs st dir ->
  let r1 := run_removed_cbs p (cras_iodev_list_disable_dev p true r) in
  let st1 := list_state r1 in
  cras_iodev_list_rm_output p r
  = (0, with_list r1 (emit (set_devs st1 dir (dl_delete p (devs st dir)))
                           EvUpdateDeviceList)).
Proof.
  intros st dir Hin r1 st1.
  pose proof (frame_cras_iodev_list_disable_dev p true r) as F.
  destruct (run_removed_cbs_spec p (cras_iodev_list_disable_dev p true r)) as (Hst & _).
  unfold cras_iodev_list_rm_output, rm_dev_from_list. fold r1. fold st1.
  assert (Hst1 : st1 = list_state (cras_iodev_list_disable_dev p true r)) by exact Hst.
  assert (Hdir : dev_direction (deref st1 p) = dir)
    by (rewrite Hst1; apply (dev_direction_frame _ _ _ _ p F)).
  assert (Hdevs : devs st1 = devs st) by (rewrite Hst1; apply (fr_devs _ _ _ _ F)).
  rewrite Hdir, Hdevs. rewrite bool_decide_eq_true_2 by exact Hin.
  rewrite Hst1 at 1. rewrite disable_dev_forced_closed. reflexivity.
Qed.

Lemma rm_after_disable_unknown p r :
  let st := list_state r in
  let dir := dev_direction (deref st p) in
  p ∉ devs st dir ->
  cras_iodev_list_rm_output p r
  = (- EINVAL, run_removed_cbs p (cras_iodev_list_disable_dev p true r)).
Proof.
  intros st dir Hnot.
  pose proof (frame_cras_iodev_list_disable_dev p true r) as F.
  destruct (run_removed_cbs_spec p (cras_iodev_list_disable_dev p true r)) as (Hst & _).
  unfold cras_iodev_list_rm_output, rm_dev_from_list.
  rewrite Hst, (dev_direction_frame _ _ _ _ p F), (fr_devs _ _ _ _ F).
  fold st. fold dir. now rewrite bool_decide_eq_false_2.
Qed.

(** X18.  [cras_iodev_list_rm_output] and [cras_iodev_list_rm_input],
    which are the same function, never return -EBUSY: the forced disabling
    they start with closes the device, enabled or not, before
    [rm_dev_from_list] tests whether it is open.  For a device of the list
    of its direction the result is 0, the device leaves that list, the
    other lists stay, and the device list of the system state is updated
    last; otherwise the result is -EINVAL and the lists stay.  In both
    cases the device ends closed and every [removed_cb] callback is run
    once, after the active-node notification that is sent when the device
    was enabled. *)
Theorem rm_output_never_busy (p : dev_ptr) (r : registry) :
  let st := list_state r in
  let dir := dev_direction (deref st p) in
  let res := cras_iodev_list_rm_output p r in
  let st' := list_state (snd res) in
  cras_iodev_list_rm_input p r = res
  /\ cras_iodev_is_open (deref st' p) = false
  /\ (exists note,
        registry_events (snd res)
        = registry_events r ++ note ++ removed_cb_events p (device_enable_cbs r)
        /\ (p ∉ enabled_devs st dir -> note = [])
        /\ (p ∈ enabled_devs st dir -> exists n, note = [EvNotifyActiveNode dir n]))
  /\ (p ∈ devs st dir ->
      fst res = 0
      /\ devs st' dir = dl_delete p (devs st dir)
      /\ (forall d, d <> dir -> devs st' d = devs st d)
      /\ last (trace st') = Some EvUpdateDeviceList)
  /\ (p ∉ devs st dir -> fst res = - EINVAL /\ devs st' = devs st).
Proof.
  intros st dir res st'.
  pose proof (frame_cras_iodev_list_disable_dev p true r) as F.
  destruct (run_removed_cbs_spec p (cras_iodev_list_disable_dev p true r))
    as (Hst & _ & _ & Hev).
  pose proof (disable_dev_forced_closed p r) as Hclosed.
  assert (Hcbs : device_enable_cbs (cras_iodev_list_disable_dev p true r)
                 = device_enable_cbs r).
  { unfold cras_iodev_list_disable_dev.
    destruct (disable_dev_scan _ _ _ _) as [[i|] only]; reflexivity. }
  assert (Hnote : exists note,
             registry_events (cras_iodev_list_disable_dev p true r)
             = registry_events r ++ note
             /\ (p ∉ enabled_devs st dir -> note = [])
             /\ (p ∈ enabled_devs st dir -> exists n, note = [EvNotifyActiveNode dir n])).
  { unfold cras_iodev_list_disable_dev. fold st. fold dir.
    destruct (decide (p ∈ enabled_devs st dir)) as [Hin|Hnot].
    - destruct (disable_dev_scan_found _ p 0%nat (None, true) Hin) as (k & only & ->).
      eexists. split; [ | split; [ contradiction | ] ].
      + unfold registry_events, cras_iodev_list_notify_active_node_changed, registry_emit.
        cbn [registry_trace with_list list_state]. rewrite map_app. cbn [map snd].
        reflexivity.
      + intros _. eexists. f_equal. f_equal.
        set (st1 := match fallback_devs st dir with
                    | Some fb => if only then snd (enable_device fb st) else st
                    | None => st
                    end).
        assert (F1 : frame enabled_any anywhere st st1).
        { unfold st1. destruct (fallback_devs st dir); [ | apply frame_refl; apply _ ].
          destruct only; [ | apply frame_refl; apply _ ].
          apply frame_enable_device; [ apply _ | apply _ | exact I ]. }
        assert (F2 : frame enabled_any anywhere st (snd (disable_device k p true st1))).
        { eapply frame_trans; [ apply _ | exact F1 | ].
          apply frame_disable_device; [ apply _ | apply _ | exact I ]. }
        apply (dev_direction_frame _ _ _ _ p F2).
    - rewrite disable_dev_scan_notin by exact Hnot. cbn [fst snd].
      exists []. split; [ now rewrite app_nil_r | ]. split; [ reflexivity | contradiction ]. }
  split; [ reflexivity | ].
  destruct (decide (p ∈ devs st dir)) as [Hin|Hnot].
  - pose proof (rm_after_disable_registered p r Hin) as Hrm. cbn zeta in Hrm.
    unfold st', res. rewrite Hrm. cbn [fst snd list_state with_list].
    split.
    { change (cras_iodev_is_open
                (deref (list_state (run_removed_cbs p (cras_iodev_list_disable_dev p true r)))
                       p) = false).
      now rewrite Hst. }
    split.
    { destruct Hnote as (note & Hn & Hn1 & Hn2). exists note.
      split; [ | split; assumption ].
      change (registry_events (run_removed_cbs p (cras_iodev_list_disable_dev p true r))
              = registry_events r ++ note ++ removed_cb_events p (device_enable_cbs r)).
      now rewrite Hev, Hn, Hcbs, <- app_assoc. }
    split; [ | intros Hn; contradiction ].
    intros _. split; [ reflexivity | ].
    split; [ cbn; now rewrite bool_decide_eq_true_2 | ].
    split.
    + intros d Hd. cbn. rewrite bool_decide_eq_false_2 by exact Hd.
      rewrite Hst. now rewrite (fr_devs _ _ _ _ F).
    + cbn [trace emit emits]. apply last_snoc.
  - pose proof (rm_after_disable_unknown p r Hnot) as Hrm. cbn zeta in Hrm.
    unfold st', res. rewrite Hrm. cbn [fst snd].
    split; [ now rewrite Hst | ].
    split.
    { destruct Hnote as (note & Hn & Hn1 & Hn2). exists note.
      split; [ | split; assumption ].
      now rewrite Hev, Hn, Hcbs, <- app_assoc. }
    split; [ intros Hin; contradiction | ].
    intros _. split; [ reflexivity | ].
    rewrite Hst. apply (fr_devs _ _ _ _ F).
Qed.

(** The state [add_dev_to_list] leaves for a device that is not in the
    list of its direction, with the index [k] the loop settled on. *)
Lemma add_dev_to_list_added fuel p r :
  let st := list_state r in
  let dir := dev_direction (deref st p) in
  0 <= next_iodev_idx r < 2 ^ 32 ->
  p ∉ devs st dir ->
  (length (devs st dir) < fuel)%nat ->
  Z.of_nat (length (devs st dir)) < 2 ^ 32 - to_uint32 MAX_SPECIAL_DEVICE_IDX ->
  exists k,
    add_dev_to_list fuel p r
    = Some (0, set_next_iodev_idx
                 (with_list r
                    (emit (set_devs (update_dev p (set_dev_idx k)
                                       (update_dev p (set_dev_format None) st))
                                    dir (p :: devs st dir))
                          EvUpdateDeviceList))
                 (to_uint32 (k + 1))).
Proof.
  intros st dir Hnext Hnot Hfuel Hlen.
  assert (Hs : 0 <= to_uint32 MAX_SPECIAL_DEVICE_IDX < 2 ^ 32)
    by (apply Z.mod_pos_bound; reflexivity).
  unfold add_dev_to_list. fold st. fold dir.
  rewrite bool_decide_eq_false_2 by exact Hnot.
  set (used := map _ _).
  assert (Hused_len : length used = length (devs st dir)) by apply length_map.
  destruct (next_free_idx_terminates (to_uint32 MAX_SPECIAL_DEVICE_IDX) used fuel
              (next_iodev_idx r) Hs Hnext) as [k Hk]; [ lia | lia | ].
  rewrite Hk. now exists k.
Qed.

(** X19.  Adding an output and removing it again.  For a device of
    direction OUTPUT that is not in the output list,
    [cras_iodev_list_add_input] refuses it with -EINVAL, and
    [cras_iodev_list_add_output] returns 0 and logs the addition with the
    index the device got.  [cras_iodev_list_rm_output] after that returns 0
    and the device lists of all directions are as before the addition;
    [next_iodev_idx] stays one past the index, which is not given back. *)
Theorem add_output_then_rm_output (fuel : nat) (p : dev_ptr) (r : registry) :
  let st := list_state r in
  is_Some (iodevs st !! p) ->
  0 <= next_iodev_idx r < 2 ^ 32 ->
  dev_direction (deref st p) = CRAS_STREAM_OUTPUT ->
  p ∉ devs st CRAS_STREAM_OUTPUT ->
  (length (devs st CRAS_STREAM_OUTPUT) < fuel)%nat ->
  Z.of_nat (length (devs st CRAS_STREAM_OUTPUT))
  < 2 ^ 32 - to_uint32 MAX_SPECIAL_DEVICE_IDX ->
  cras_iodev_list_add_input fuel p r = Some (- EINVAL, r)
  /\ exists r1,
       cras_iodev_list_add_output fuel p r = Some (0, r1)
       /\ registry_events r1
          = registry_events r
            ++ [EvMainLogAddToDevList (dev_idx (deref (list_state r1) p))
                                      CRAS_STREAM_OUTPUT]
       /\ fst (cras_iodev_list_rm_output p r1) = 0
       /\ (forall d, devs (list_state (snd (cras_iodev_list_rm_output p r1))) d
                     = devs st d)
       /\ next_iodev_idx (snd (cras_iodev_list_rm_output p r1))
          = (dev_idx (deref (list_state r1) p) + 1) mod 2 ^ 32.
Proof.
  intros st Halloc Hnext Hdir Hnot Hfuel Hlen.
  split.
  { unfold cras_iodev_list_add_input. fold st. rewrite Hdir.
    now rewrite bool_decide_eq_false_2. }
  unfold cras_iodev_list_add_output. fold st. rewrite Hdir.
  rewrite bool_decide_eq_true_2 by reflexivity. cbn [negb].
  destruct (add_dev_to_list_added fuel p r Hnext) as [k Hk].
  { fold st. now rewrite Hdir. }
  { fold st. now rewrite Hdir. }
  { fold st. now rewrite Hdir. }
  cbn zeta in Hk. fold st in Hk. rewrite Hdir in Hk. rewrite Hk.
  cbn [Z.eqb negb].
  set (st1 := update_dev p (set_dev_format None) st) in *.
  set (st2 := update_dev p (set_dev_idx k) st1) in *.
  set (st3 := emit (set_devs st2 CRAS_STREAM_OUTPUT (p :: devs st CRAS_STREAM_OUTPUT))
                   EvUpdateDeviceList) in *.
  set (ra := set_next_iodev_idx (with_list r st3) (to_uint32 (k + 1))).
  assert (Halloc1 : is_Some (iodevs st1 !! p)) by now apply update_dev_allocated.
  assert (Hp3 : deref st3 p = set_dev_idx k (set_dev_format None (deref st p))).
  { change (deref st3 p) with (deref st2 p). unfold st2.
    rewrite deref_update_dev_allocated by exact Halloc1. f_equal.
    now apply deref_update_dev_allocated. }
  set (r1 := registry_emit ra _).
  assert (Hl1 : list_state r1 = st3) by reflexivity.
  assert (Hdir1 : dev_direction (deref (list_state r1) p) = CRAS_STREAM_OUTPUT)
    by (rewrite Hl1, Hp3; exact Hdir).
  assert (Hidx1 : dev_idx (deref (list_state r1) p) = k) by (rewrite Hl1, Hp3; reflexivity).
  assert (Hdevs1 : devs (list_state r1) CRAS_STREAM_OUTPUT = p :: devs st CRAS_STREAM_OUTPUT).
  { rewrite Hl1. cbn. now rewrite bool_decide_eq_true_2. }
  exists r1. split; [ reflexivity | ].
  split.
  { unfold r1, registry_events, registry_emit. cbn [registry_trace]. rewrite map_app.
    cbn [map snd]. reflexivity. }
  pose proof (rm_after_disable_registered p r1) as Hrm. cbn zeta in Hrm.
  rewrite Hdir1, Hdevs1 in Hrm. rewrite Hrm by apply list_elem_of_here.
  cbn [fst snd list_state with_list next_iodev_idx].
  split; [ reflexivity | ].
  pose proof (frame_cras_iodev_list_disable_dev p true r1) as F.
  destruct (run_removed_cbs_spec p (cras_iodev_list_disable_dev p true r1))
    as (Hst & Hnx & _).
  split.
  - intros d. cbn [devs emit emits set_devs dl_delete].
    destruct (bool_decide_reflect (d = CRAS_STREAM_OUTPUT)) as [->|Hd].
    + now rewrite bool_decide_eq_true_2.
    + rewrite Hst, (fr_devs _ _ _ _ F), Hl1. cbn. now rewrite bool_decide_eq_false_2.
  - rewrite Hnx, Hidx1.
    assert (Hnd : next_iodev_idx (cras_iodev_list_disable_dev p true r1) = next_iodev_idx r1).
    { unfold cras_iodev_list_disable_dev.
      destruct (disable_dev_scan _ _ _ _) as [[i|] only]; reflexivity. }
    rewrite Hnd. reflexivity.
Qed.

(** *** The reset *)

Lemma close_dev_stays_closed q p st :
  cras_iodev_is_open (deref st p) = false ->
  cras_iodev_is_open (deref (close_dev q st) p) = false.
Proof.
  intros Hp. destruct (decide (q = p)) as [->|Hne]; [ apply close_dev_closed | ].
  rewrite (deref_frame eq (fun x => x = q) st _ p); [ exact Hp | | congruence ].
  apply frame_close_dev; [ apply _ | reflexivity ].
Qed.

Lemma reset_floop_pairs_spec l : forall st,
  let st' := reset_floop_pairs l st in
  floop_pair_list st' = match l with [] => floop_pair_list st | _ => [] end
  /\ devs st' = devs st
  /\ enabled_devs st' = enabled_devs st
  /\ init_retries st' = init_retries st
  /\ (forall p, cras_iodev_is_open (deref st p) = false ->
        cras_iodev_is_open (deref st' p) = false)
  /\ (forall fpair, fpair ∈ l -> cras_iodev_is_open (deref st' (fp_output fpair)) = false)
  /\ (forall q, (forall fpair, fpair ∈ l -> fp_output fpair <> q) ->
        iodevs st' !! q = iodevs st !! q).
Proof.
  induction l as [|fpair l IH]; intros st; cbn [reset_floop_pairs].
  - repeat split; auto. intros fpair Hin. inversion Hin.
  - set (st1 := cras_iodev_list_disable_floop_pair fpair (set_floop_pair_list st l)).
    assert (F1 : frame eq (fun x => x = fp_output fpair) (set_floop_pair_list st l) st1)
      by (apply frame_close_dev; [ apply _ | reflexivity ]).
    destruct (IH st1) as (H1 & H2 & H3 & H4 & H5 & H6 & H7). cbn zeta in *.
    split.
    { rewrite H1. destruct l; [ | reflexivity ]. now rewrite (fr_floop _ _ _ _ F1). }
    split; [ rewrite H2; apply (fr_devs _ _ _ _ F1) | ].
    split; [ rewrite H3; symmetry; apply (fr_enabled _ _ _ _ F1) | ].
    split; [ rewrite H4; apply (init_retries_close_dev _ (set_floop_pair_list st l)) | ].
    split.
    { intros p Hp. apply H5. now apply close_dev_stays_closed. }
    split.
    { intros f Hf. apply elem_of_cons in Hf as [->|Hf]; [ | now apply H6 ].
      apply H5. apply close_dev_closed. }
    intros q Hq. rewrite H7 by (intros f Hf; apply Hq; now apply list_elem_of_further).
    apply (fr_other _ _ _ _ F1). intros Heq. apply (Hq fpair (list_elem_of_here _ _)).
    now symmetry.
Qed.

(** X20.  [cras_iodev_list_reset] forgets the devices without closing
    them.  Afterwards [find_dev] finds no device, the enabled lists of
    outputs and inputs and the list of loopback pairs are empty, and the
    output device of every loopback pair is closed.  Every other device
    record is as it was, so a device that was enabled and open stays open;
    and the pending init retries stay in their list. *)
Theorem reset_forgets_devices (st : iodev_list) :
  let st' := cras_iodev_list_reset st in
  (forall idx, find_dev st' idx = None)
  /\ enabled_devs st' CRAS_STREAM_OUTPUT = []
  /\ enabled_devs st' CRAS_STREAM_INPUT = []
  /\ floop_pair_list st' = []
  /\ (forall fpair, fpair ∈ floop_pair_list st ->
        cras_iodev_is_open (deref st' (fp_output fpair)) = false)
  /\ (forall q, (forall fpair, fpair ∈ floop_pair_list st -> fp_output fpair <> q) ->
        iodevs st' !! q = iodevs st !! q)
  /\ init_retries st' = init_retries st.
Proof.
  intros st'. unfold st', cras_iodev_list_reset.
  set (st2 := set_enabled_devs (set_enabled_devs st CRAS_STREAM_OUTPUT []) CRAS_STREAM_INPUT []).
  destruct (reset_floop_pairs_spec (floop_pair_list st2) st2)
    as (H1 & H2 & H3 & H4 & H5 & H6 & H7). cbn zeta in *.
  set (st3 := reset_floop_pairs (floop_pair_list st2) st2) in *.
  split; [ intros idx; reflexivity | ].
  split; [ change (enabled_devs st3 CRAS_STREAM_OUTPUT = []); now rewrite H3 | ].
  split; [ reflexivity | ].
  split.
  { change (floop_pair_list st3 = []). rewrite H1. now destruct (floop_pair_list st2). }
  split; [ intros fpair Hin; now apply H6 | ].
  split; [ intros q Hq; now apply H7 | exact H4 ].
Qed.

(** *** The callbacks of enabled devices *)

Lemma filter_filter_neg {A} (f : A -> bool) (l : list A) :
  List.filter f (List.filter (fun x => negb (f x)) l) = [].
Proof.
  induction l as [|x l IH]; cbn [List.filter]; [ reflexivity | ].
  destruct (f x) eqn:Hx; cbn [negb List.filter]; [ exact IH | ]. now rewrite Hx.
Qed.

Lemma filter_idem {A} (f : A -> bool) (l : list A) :
  List.filter f (List.filter f l) = List.filter f l.
Proof.
  induction l as [|x l IH]; cbn [List.filter]; [ reflexivity | ].
  destruct (f x) eqn:Hx; cbn [List.filter]; [ | exact IH ]. now rewrite Hx, IH.
Qed.

(** X21.  [cras_iodev_list_set_device_enabled_callback], when [calloc]
    gives memory.  It returns 0 and leaves at most one record for
    [cb_data]: the new one, at the end of the list, when both the enabled
    and the disabled callback are given, and none when either is NULL, so
    that a call with a NULL callback unregisters.  The records of other
    [cb_data] keep their order, and the devices are not touched. *)
Theorem set_device_enabled_callback_replaces (enabled disabled removed : callback_ptr)
    (data : Z) (r : registry) :
  exists r',
    cras_iodev_list_set_device_enabled_callback enabled disabled removed data true r
    = Some (0, r')
    /\ list_state r' = list_state r
    /\ registry_trace r' = registry_trace r
    /\ List.filter (fun c => negb (cb_data c =? data)) (device_enable_cbs r')
       = List.filter (fun c => negb (cb_data c =? data)) (device_enable_cbs r)
    /\ List.filter (fun c => cb_data c =? data) (device_enable_cbs r')
       = match enabled, disabled with
         | Some _, Some _ =>
             [{| enabled_cb := enabled; disabled_cb := disabled;
                 removed_cb := removed; cb_data := data |}]
         | _, _ => []
         end
    /\ (enabled = None \/ disabled = None ->
        device_enable_cbs r'
        = List.filter (fun c => negb (cb_data c =? data)) (device_enable_cbs r))
    /\ (enabled <> None -> disabled <> None ->
        device_enable_cbs r'
        = List.filter (fun c => negb (cb_data c =? data)) (device_enable_cbs r)
          ++ [{| enabled_cb := enabled; disabled_cb := disabled;
                 removed_cb := removed; cb_data := data |}]).
Proof.
  unfold cras_iodev_list_set_device_enabled_callback.
  set (kept := List.filter (fun c => negb (cb_data c =? data)) (device_enable_cbs r)).
  assert (Hk1 : List.filter (fun c => negb (cb_data c =? data)) kept = kept)
    by apply filter_idem.
  assert (Hk2 : List.filter (fun c => cb_data c =? data) kept = [])
    by apply (filter_filter_neg (fun c => cb_data c =? data)).
  destruct enabled as [e|], disabled as [d|]; eexists;
    (split; [ reflexivity | ]); cbn [list_state registry_trace device_enable_cbs
                                      set_device_enable_cbs];
    (split; [ reflexivity | ]); (split; [ reflexivity | ]).
  - rewrite !List.filter_app, Hk1, Hk2. cbn [List.filter cb_data].
    rewrite Z.eqb_refl. cbn [negb app].
    split; [ apply app_nil_r | ]. split; [ reflexivity | ].
    split; [ intros [H0|H0]; discriminate | reflexivity ].
  - split; [ exact Hk1 | ]. split; [ exact Hk2 | ]. split; [ reflexivity | ].
    intros _ Hd. now contradiction Hd.
  - split; [ exact Hk1 | ]. split; [ exact Hk2 | ]. split; [ reflexivity | ].
    intros He. now contradiction He.
  - split; [ exact Hk1 | ]. split; [ exact Hk2 | ]. split; [ reflexivity | ].
    intros He. now contradiction He.
Qed.

End RegistryFacts.

(** X16 on the registry of the speaker list: index 5 is taken by the
    speaker, so the headphone gets index 6 and heads the output list. *)
Lemma add_dev_to_list_fresh_index_witness :
  exists r',
    @add_dev_to_list env_ok 2 12%nat registry_speaker = Some (0, r')
    /\ devs (list_state r') CRAS_STREAM_OUTPUT = [12%nat; 11%nat]
    /\ next_iodev_idx r' = (dev_idx (deref (list_state r') 12%nat) + 1) mod 2 ^ 32.
Proof.
  destruct (@add_dev_to_list_fresh_index env_ok 2 12%nat registry_speaker) as [_ H].
  - eexists. vm_compute. reflexivity.
  - vm_compute. split; [ discriminate | reflexivity ].
  - destruct H as (r' & H1 & H2 & _ & _ & _ & H6 & _).
    + vm_compute. intros Hin. apply list_elem_of_singleton in Hin. discriminate.
    + vm_compute. lia.
    + vm_compute. reflexivity.
    + exists r'. split; [ exact H1 | split; [ exact H2 | exact H6 ] ].
Defined.

(** X19 on the registry of the speaker list. *)
Lemma add_output_then_rm_output_witness :
  exists r1,
    @cras_iodev_list_add_output env_ok 2 12%nat registry_speaker = Some (0, r1)
    /\ fst (@cras_iodev_list_rm_output env_ok 12%nat r1) = 0
    /\ devs (list_state (snd (@cras_iodev_list_rm_output env_ok 12%nat r1)))
            CRAS_STREAM_OUTPUT = [11%nat].
Proof.
  destruct (@add_output_then_rm_output env_ok 2 12%nat registry_speaker)
    as (_ & r1 & H1 & _ & H3 & H4 & _).
  - eexists. vm_compute. reflexivity.
  - vm_compute. split; [ discriminate | reflexivity ].
  - reflexivity.
  - vm_compute. intros Hin. apply list_elem_of_singleton in Hin. discriminate.
  - vm_compute. lia.
  - vm_compute. reflexivity.
  - exists r1. split; [ exact H1 | split; [ exact H3 | apply H4 ] ].
Defined.

(** ** The connection to the server *)

Lemma server_fd_state_client_emit b e :
  server_fd_state (client_emit b e) = server_fd_state b.
Proof. reflexivity. Qed.

Section ConnectionFacts.
Context `{!ServerSocket} `{!ConnSys}.

(** *** What the parts leave alone *)

Lemma write_message_to_server_state b msg :
  server_fd_state (snd (write_message_to_server b msg)) = server_fd_state b
  /\ streams (snd (write_message_to_server b msg)) = streams b
  /\ id (snd (write_message_to_server b msg)) = id b.
Proof.
  unfold write_message_to_server.
  destruct (_ || _); cbn [fst snd];
    repeat (match goal with |- context [if ?x then _ else _] => destruct x end);
    cbn [snd]; auto.
Qed.

Lemma set_changed_callback_state n b cb :
  server_fd_state (snd (cras_client_set_changed_callback n b cb)) = server_fd_state b
  /\ streams (snd (cras_client_set_changed_callback n b cb)) = streams b
  /\ id (snd (cras_client_set_changed_callback n b cb)) = id b.
Proof.
  unfold cras_client_set_changed_callback, cras_send_register_notification.
  match goal with |- context [write_message_to_server ?x ?m] =>
    pose proof (write_message_to_server_state x m) as Hw;
    destruct (write_message_to_server x m) as [rc b'] end.
  exact Hw.
Qed.

Lemma reregister_from_state ns : forall b,
  server_fd_state (snd (reregister_from ns b)) = server_fd_state b
  /\ streams (snd (reregister_from ns b)) = streams b
  /\ id (snd (reregister_from ns b)) = id b.
Proof.
  induction ns as [|n ns IH]; intros b; cbn [reregister_from]; [ auto | ].
  destruct (observer_op (observer_ops b) n) as [f|]; [ | apply IH ].
  pose proof (set_changed_callback_state n b (Some f)) as Hs.
  destruct (cras_client_set_changed_callback n b (Some f)) as [rc b']. cbn [snd] in Hs.
  destruct (negb (rc =? 0)); cbn [snd]; [ exact Hs | ].
  destruct (IH b') as (H1 & H2 & H3). destruct Hs as (H4 & H5 & H6).
  repeat split; congruence.
Qed.

(** [connect_transition_action] returns 0 with the state CONNECTED, or a
    negative value with the state as it was. *)
Lemma connect_transition_action_state b :
  let r := connect_transition_action b in
  (fst r = 0 /\ server_fd_state (snd r) = CRAS_SOCKET_STATE_CONNECTED)
  \/ (fst r < 0 /\ server_fd_state (snd r) = server_fd_state b).
Proof.
  unfold connect_transition_action, reregister_notifications.
  destruct (reregister_from_state observer_notifications b) as (Hst & _).
  destruct (reregister_from observer_notifications b) as [rc b1]. cbn [snd] in Hst.
  destruct (Z.ltb_spec rc 0); cbn [fst snd]; [ right; auto | left ].
  split; [ reflexivity | ].
  assert (Hm : server_fd_state (server_fd_move_to_state b1 CRAS_SOCKET_STATE_CONNECTED)
               = CRAS_SOCKET_STATE_CONNECTED).
  { unfold server_fd_move_to_state.
    destruct (bool_decide_reflect (CRAS_SOCKET_STATE_CONNECTED = server_fd_state b1));
      [ congruence | reflexivity ]. }
  destruct (server_connection_cb _); exact Hm.
Qed.

Lemma conn_move_to_state_state c s : server_fd_state (base (conn_move_to_state c s)) = s.
Proof.
  unfold conn_move_to_state, server_fd_move_to_state. cbn [base with_base].
  destruct (bool_decide_reflect (s = server_fd_state (base c))); [ congruence | reflexivity ].
Qed.

Lemma client_attach_shm_state c fd :
  server_fd_state (base (snd (client_attach_shm c fd))) = server_fd_state (base c)
  /\ server_fd (snd (client_attach_shm c fd)) = server_fd c.
Proof.
  unfold client_attach_shm. destruct (server_state c); cbn [snd]; auto.
  destruct (negb _); [ auto | ]. destruct (negb _); auto.
Qed.

(** [handle_message_from_server] changes neither the state of the socket
    nor the descriptor. *)
Lemma handle_message_from_server_state c :
  server_fd_state (base (snd (handle_message_from_server c))) = server_fd_state (base c)
  /\ server_fd (snd (handle_message_from_server c)) = server_fd c.
Proof.
  unfold handle_message_from_server.
  destruct (_ || _); [ auto | ].
  destruct (recv_msg _) as [cid|sid| | | |d t|n vs|].
  - destruct (negb _); [ auto | ].
    match goal with |- context [client_attach_shm ?x ?f] =>
      pose proof (client_attach_shm_state x f) as Ha;
      destruct (client_attach_shm x f) as [rc c1] end.
    cbn [snd] in Ha. destruct (negb _); exact Ha.
  - destruct (negb (stream_id_in_use _ _)); [ destruct (negb _); auto | ].
    cbn [snd]. destruct (_ <? 0); auto.
  - cbn [snd]. unfold run_one_shot. destruct (debug_info_callback _); auto.
  - destruct (_ || _); [ auto | ]. cbn [snd]. unfold run_one_shot.
    destruct (atlog_access_callback _); auto.
  - destruct (get_hotword_models_cb _); auto.
  - auto.
  - destruct (observer_op _ _); auto.
  - auto.
Qed.

(** *** Disconnecting *)

Lemma conn_rm_stream_head c s rest :
  streams (base c) = s :: rest ->
  let c' := conn_rm_stream c (st_id s) in
  streams (base c') = rest
  /\ server_fd_state (base c') = server_fd_state (base c)
  /\ id (base c') = id (base c)
  /\ server_connection_cb (base c') = server_connection_cb (base c)
  /\ client_trace (base c') = client_trace (base c)
  /\ server_fd c' = server_fd c
  /\ server_state c' = server_state c
  /\ sock_file_exists c' = sock_file_exists c
  /\ conn_events c'
     = conn_events c
       ++ (if bool_decide (server_fd_state (base c) = CRAS_SOCKET_STATE_CONNECTED)
           then [EvDisconnectStreamWrite (st_id s)] else [])
       ++ [EvStreamShutDown (st_id s)].
Proof.
  intros Hs. unfold conn_rm_stream, stream_id_in_use. rewrite Hs.
  cbn [existsb]. rewrite Z.eqb_refl. cbn [orb negb].
  destruct (bool_decide (server_fd_state (base c) = CRAS_SOCKET_STATE_CONNECTED));
    cbn [base with_base conn_emit client_thread_rm_stream snd streams set_streams
         server_fd_state id server_connection_cb client_trace server_fd server_state
         sock_file_exists];
    rewrite Hs; cbn [remove_stream]; rewrite Z.eqb_refl;
    unfold conn_events; cbn [conn_trace with_base conn_emit]; rewrite ?map_app;
    cbn [map snd app]; rewrite <- ?app_assoc; repeat split.
Qed.

Lemma drop_streams_spec l : forall c,
  streams (base c) = l ->
  let c' := fold_left (fun c s =>
                         conn_rm_stream
                           (conn_emit c (EvStreamErrCb (st_id s) (- ENOTCONN)))
                           (st_id s)) l c in
  streams (base c') = []
  /\ server_fd_state (base c') = server_fd_state (base c)
  /\ id (base c') = id (base c)
  /\ server_connection_cb (base c') = server_connection_cb (base c)
  /\ client_trace (base c') = client_trace (base c)
  /\ server_fd c' = server_fd c
  /\ server_state c' = server_state c
  /\ sock_file_exists c' = sock_file_exists c
  /\ conn_events c'
     = conn_events c
       ++ stream_drop_events
            (bool_decide (server_fd_state (base c) = CRAS_SOCKET_STATE_CONNECTED)) l.
Proof.
  induction l as [|s l IH]; intros c Hl; cbn [fold_left stream_drop_events flat_map].
  - repeat split; auto. now rewrite app_nil_r.
  - set (c0 := conn_emit c (EvStreamErrCb (st_id s) (- ENOTCONN))).
    destruct (conn_rm_stream_head c0 s l Hl) as (H1 & H2 & H3 & H4 & H5 & H6 & H7 & H8 & H9).
    cbn zeta in *.
    destruct (IH (conn_rm_stream c0 (st_id s)) H1)
      as (I1 & I2 & I3 & I4 & I5 & I6 & I7 & I8 & I9).
    cbn zeta in *.
    split; [ exact I1 | ]. split; [ now rewrite I2, H2 | ].
    split; [ now rewrite I3, H3 | ]. split; [ now rewrite I4, H4 | ].
    split; [ now rewrite I5, H5 | ]. split; [ now rewrite I6, H6 | ].
    split; [ now rewrite I7, H7 | ]. split; [ now rewrite I8, H8 | ].
    rewrite I9, H9, H2.
    unfold c0, conn_events. cbn [conn_trace conn_emit base server_fd_state].
    rewrite map_app. unfold stream_drop_events.
    destruct (bool_decide (server_fd_state (base c) = CRAS_SOCKET_STATE_CONNECTED));
      cbn [map snd app]; rewrite <- !app_assoc; reflexivity.
Qed.

Lemma disconnect_transition_action_state c force :
  server_fd_state (base (disconnect_transition_action c force))
  = state_after_disconnect (server_fd_state (base c))
  /\ server_fd (disconnect_transition_action c force)
     = (if 0 <=? server_fd c then -1 else server_fd c)
  /\ sock_file_exists (disconnect_transition_action c force) = sock_file_exists c.
Proof.
  unfold disconnect_transition_action.
  destruct (drop_streams_spec (streams (base c)) c eq_refl)
    as (_ & H2 & _ & _ & _ & H6 & _ & H8 & _). cbn zeta in *.
  set (c1 := fold_left _ _ c) in *.
  set (c2 := match server_state c1 with SERVER_STATE_NULL => c1 | _ => _ end).
  assert (Hc2 : server_fd c2 = server_fd c /\ sock_file_exists c2 = sock_file_exists c).
  { unfold c2. destruct (server_state c1); cbn; auto. }
  destruct Hc2 as [Hfd2 Hsf2].
  set (c3 := with_base c2 _).
  set (c4 := if 0 <=? server_fd c3 then _ else c3).
  assert (Hc4 : server_fd c4 = (if 0 <=? server_fd c then -1 else server_fd c)
                /\ sock_file_exists c4 = sock_file_exists c).
  { unfold c4. change (server_fd c3) with (server_fd c2). rewrite Hfd2.
    destruct (0 <=? server_fd c); cbn; auto. }
  destruct Hc4 as [Hfd4 Hsf4].
  set (c5 := with_base c4 _).
  assert (Hb5 : server_fd_state (base c5) = server_fd_state (base c)).
  { unfold c5. cbn [base with_base set_server_event_value client_emit server_fd_state].
    unfold c4. destruct (0 <=? server_fd c3);
      cbn [base set_server_fd conn_emit]; unfold c3;
      cbn [base with_base set_client_id server_fd_state]; unfold c2;
      destruct (server_state c1); cbn [base set_server_state conn_emit]; exact H2. }
  destruct (server_fd_state (base c)) eqn:Hst; cbn [state_after_disconnect].
  - split; [ exact Hb5 | auto ].
  - rewrite conn_move_to_state_state. auto.
  - rewrite conn_move_to_state_state. auto.
  - rewrite conn_move_to_state_state. auto.
  - unfold run_connection_cb.
    destruct (server_connection_cb _); cbn [base with_base server_fd sock_file_exists];
      rewrite ?server_fd_state_client_emit, conn_move_to_state_state; auto.
  - unfold run_connection_cb.
    destruct (server_connection_cb _); cbn [base with_base server_fd sock_file_exists];
      rewrite ?server_fd_state_client_emit, conn_move_to_state_state; auto.
Qed.

Lemma disconnect_transition_action_spec c force :
  let c' := disconnect_transition_action c force in
  let old := server_fd_state (base c) in
  streams (base c') = []
  /\ id (base c') = -1
  /\ server_state c' = SERVER_STATE_NULL
  /\ server_event_value (base c') = 0
  /\ client_trace (base c')
     = client_trace (base c)
       ++ EvEventfdRead
          :: match server_connection_cb (base c), old with
             | Some _, CRAS_SOCKET_STATE_ERROR_DELAY =>
                 [EvConnectionCb CRAS_CONN_STATUS_FAILED]
             | Some _, CRAS_SOCKET_STATE_CONNECTED =>
                 [EvConnectionCb CRAS_CONN_STATUS_DISCONNECTED]
             | _, _ => []
             end
  /\ conn_events c'
     = conn_events c
       ++ stream_drop_events (bool_decide (old = CRAS_SOCKET_STATE_CONNECTED))
                             (streams (base c))
       ++ match server_state c with
          | SERVER_STATE_NULL => []
          | _ => [EvMunmapServerState]
          end
       ++ (if 0 <=? server_fd c
           then [if force then EvClose (server_fd c)
                 else EvShutdownAndCloseSocket (server_fd c)]
           else []).
Proof.
  intros c' old. unfold c', disconnect_transition_action. fold old.
  destruct (drop_streams_spec (streams (base c)) c eq_refl)
    as (H1 & H2 & H3 & H4 & H5 & H6 & H7 & H8 & H9). cbn zeta in *. fold old in H9.
  set (c1 := fold_left _ _ c) in *.
  unfold run_connection_cb, conn_move_to_state, server_fd_move_to_state, conn_events.
  destruct (server_state c1) eqn:Hss; rewrite <- H7;
    cbn [base with_base set_server_fd conn_emit set_server_state set_client_id
         server_fd server_state conn_trace id streams server_fd_state server_connection_cb
         server_event_value client_trace set_server_event_value client_emit];
    rewrite H6;
    destruct (0 <=? server_fd c);
    cbn [base with_base set_server_fd conn_emit set_server_state set_client_id
         server_fd server_state conn_trace id streams server_fd_state server_connection_cb
         server_event_value client_trace set_server_event_value client_emit];
    rewrite ?H2; fold old; destruct old;
    repeat (match goal with
            | |- context [bool_decide ?P] =>
                destruct (bool_decide P);
                cbn [base with_base set_server_fd conn_emit set_server_state set_client_id
                     server_fd server_state conn_trace id streams server_fd_state
                     server_connection_cb server_event_value client_trace
                     set_server_event_value client_emit set_server_fd_state]
            end);
    rewrite ?H4; destruct (server_connection_cb (base c));
    cbn [base with_base set_server_fd conn_emit set_server_state set_client_id
         server_fd server_state conn_trace id streams server_fd_state server_connection_cb
         server_event_value client_trace set_server_event_value client_emit
         set_server_fd_state];
    rewrite ?H1, ?Hss, ?H5;
    (split; [ reflexivity | ]); (split; [ reflexivity | ]); (split; [ reflexivity | ]);
    (split; [ reflexivity | ]);
    (split; [ now rewrite <- ?app_assoc | ]);
    unfold conn_events in H9; rewrite ?map_app, H9; destruct force;
    cbn [map snd negb app]; rewrite <- ?app_assoc, ?app_nil_r; reflexivity.
Qed.

(** *** The actions of the states *)

Lemma error_delay_next_action_outcome c ev :
  let r := error_delay_next_action c ev in
  (server_fd c = -1 -> server_fd_state (base (snd r)) = server_fd_state (base c))
  /\ (server_fd c <> -1 ->
      fst r = 0
      /\ (has_event ev POLLIN = false -> snd r = c)
      /\ (has_event ev POLLIN = true ->
          server_fd_state (base (snd r)) = CRAS_SOCKET_STATE_WAIT_FOR_SOCKET)).
Proof.
  unfold error_delay_next_action. destruct (Z.eqb_spec (server_fd c) (-1)) as [Hfd|Hfd].
  - split; [ | contradiction ]. intros _.
    destruct (_ =? -1); [ reflexivity | ]. destruct (negb _); reflexivity.
  - split; [ contradiction | ]. intros _.
    destruct (has_event ev POLLIN); cbn [negb fst snd].
    + split; [ reflexivity | ]. split; [ discriminate | ]. intros _.
      apply conn_move_to_state_state.
    + split; [ reflexivity | ]. split; [ reflexivity | discriminate ].
Qed.

Lemma connect_to_socket_outcome c :
  let r := connect_to_socket c in
  (fst r = 0 /\ server_fd_state (base (snd r)) = CRAS_SOCKET_STATE_FIRST_MESSAGE)
  \/ server_fd_state (base (snd r)) = server_fd_state (base c).
Proof.
  unfold connect_to_socket. destruct (negb _); cbn [fst snd].
  - right. destruct (_ =? _); [ reflexivity | ]. destruct (negb _); reflexivity.
  - left. split; [ reflexivity | apply conn_move_to_state_state ].
Qed.

Lemma wait_for_writable_next_action_outcome c ev :
  let r := wait_for_writable_next_action c ev in
  (fst r = 0 /\ server_fd_state (base (snd r)) = CRAS_SOCKET_STATE_FIRST_MESSAGE)
  \/ server_fd_state (base (snd r)) = server_fd_state (base c).
Proof.
  unfold wait_for_writable_next_action. destruct (_ =? -1).
  - destruct (_ <? 0); [ right; reflexivity | ].
    match goal with |- context [connect_to_socket ?x] =>
      destruct (connect_to_socket_outcome x) as [Ho|Ho] end; [ now left | right; exact Ho ].
  - destruct (negb _); [ right; reflexivity | apply connect_to_socket_outcome ].
Qed.

Lemma first_message_next_action_outcome c ev :
  let r := first_message_next_action c ev in
  (fst r = 0 /\ server_fd_state (base (snd r)) = CRAS_SOCKET_STATE_CONNECTED)
  \/ server_fd_state (base (snd r)) = server_fd_state (base c).
Proof.
  unfold first_message_next_action. destruct (_ <? 0); [ right; reflexivity | ].
  destruct (negb _); [ right; reflexivity | ].
  destruct (handle_message_from_server_state c) as [Hst _].
  destruct (handle_message_from_server c) as [rc c1]. cbn [snd] in Hst.
  destruct (rc <? 0); [ right; exact Hst | ].
  destruct (0 <=? id (base c1)); [ | right; exact Hst ].
  unfold conn_connect_transition_action.
  pose proof (connect_transition_action_state (base c1)) as Hc. cbn zeta in Hc.
  destruct (connect_transition_action (base c1)) as [rc' b]. cbn [fst snd base with_base] in *.
  destruct Hc as [[H1 H2]|[H1 H2]]; [ left; auto | right; congruence ].
Qed.

(** *** The depth of the dispatch *)

Lemma has_event_none bit : has_event 0 bit = false.
Proof. reflexivity. Qed.

Lemma dispatch_rank_hangup c :
  (dispatch_rank c POLLHUP
   <= match server_fd_state (base c) with
      | CRAS_SOCKET_STATE_DISCONNECTED | CRAS_SOCKET_STATE_ERROR_DELAY => 0
      | CRAS_SOCKET_STATE_CONNECTED => 4
      | _ => 1
      end)%nat.
Proof.
  unfold dispatch_rank. change (has_event POLLHUP POLLHUP) with true.
  change (has_event POLLHUP POLLIN) with false. cbv iota.
  destruct (disconnect_transition_action_state c true) as (Hst & _).
  rewrite Hst. destruct (server_fd_state (base c)); cbn [state_after_disconnect];
    try destruct (_ =? -1); lia.
Qed.

Lemma dispatch_rank_none c :
  dispatch_rank c 0
  = match server_fd_state (base c) with
    | CRAS_SOCKET_STATE_DISCONNECTED | CRAS_SOCKET_STATE_CONNECTED => 0%nat
    | CRAS_SOCKET_STATE_ERROR_DELAY => if server_fd c =? -1 then 1%nat else 0%nat
    | CRAS_SOCKET_STATE_FIRST_MESSAGE => 2%nat
    | CRAS_SOCKET_STATE_WAIT_FOR_WRITABLE => 3%nat
    | CRAS_SOCKET_STATE_WAIT_FOR_SOCKET => 4%nat
    end.
Proof. reflexivity. Qed.

Lemma dispatch_rank_bound c ev : (dispatch_rank c ev <= 5)%nat.
Proof.
  unfold dispatch_rank.
  repeat (match goal with |- context [if ?x then _ else _] => destruct x end);
    match goal with |- context [server_fd_state ?b] => destruct (server_fd_state b) end;
    repeat (match goal with |- context [if ?x then _ else _] => destruct x end); lia.
Qed.

(** With more fuel than the rank, the dispatch returns; it returns 0 or
    -ENOTCONN, and -ENOTCONN with the state DISCONNECTED only. *)
Lemma server_fd_dispatch_ranked n : forall c ev,
  (dispatch_rank c ev < n)%nat ->
  exists rc c',
    server_fd_dispatch n c ev = Some (rc, c')
    /\ (rc = 0 \/ rc = - ENOTCONN)
    /\ (rc = - ENOTCONN <-> server_fd_state (base c') = CRAS_SOCKET_STATE_DISCONNECTED).
Proof.
  induction n as [|n IH]; intros c ev Hrank; [ lia | ].
  cbn [server_fd_dispatch]. unfold dispatch_rank in Hrank.
  set (c1 := if has_event ev POLLHUP then disconnect_transition_action c true else c) in *.
  assert (Hret : forall c2, server_fd_state (base c2) <> CRAS_SOCKET_STATE_DISCONNECTED ->
            exists rc c', Some (0, c2) = Some (rc, c')
              /\ (rc = 0 \/ rc = - ENOTCONN)
              /\ (rc = - ENOTCONN
                  <-> server_fd_state (base c') = CRAS_SOCKET_STATE_DISCONNECTED)).
  { intros c2 Hne. exists 0, c2. split; [ reflexivity | ]. split; [ now left | ].
    split; [ discriminate | contradiction ]. }
  assert (Herr : forall c2,
            (match server_fd_state (base c2) with
             | CRAS_SOCKET_STATE_DISCONNECTED | CRAS_SOCKET_STATE_ERROR_DELAY => 0
             | CRAS_SOCKET_STATE_CONNECTED => 4
             | _ => 1
             end < n)%nat ->
            exists rc c', server_fd_dispatch n c2 POLLHUP = Some (rc, c')
              /\ (rc = 0 \/ rc = - ENOTCONN)
              /\ (rc = - ENOTCONN
                  <-> server_fd_state (base c') = CRAS_SOCKET_STATE_DISCONNECTED)).
  { intros c2 Hlt. apply IH. pose proof (dispatch_rank_hangup c2). lia. }
  destruct (server_fd_state (base c1)) eqn:Hst.
  - (* DISCONNECTED *)
    exists (- ENOTCONN), c1. split; [ reflexivity | ]. split; [ now right | ].
    split; [ intros _; exact Hst | reflexivity ].
  - (* WAIT_FOR_SOCKET *)
    unfold wait_for_socket_next_action. destruct (sock_file_exists c1).
    + cbn [Z.eqb negb]. rewrite conn_move_to_state_state.
      rewrite bool_decide_eq_false_2 by discriminate. cbn [negb].
      apply IH. rewrite dispatch_rank_none, conn_move_to_state_state. lia.
    + cbn [Z.eqb negb]. rewrite Hst. rewrite bool_decide_eq_true_2 by reflexivity.
      cbn [negb]. apply Hret. congruence.
  - (* WAIT_FOR_WRITABLE *)
    pose proof (wait_for_writable_next_action_outcome c1 ev) as Ho. cbn zeta in Ho.
    destruct (wait_for_writable_next_action c1 ev) as [rc c2]. cbn [fst snd] in Ho.
    destruct Ho as [[Hrc Hs2]|Hs2].
    + subst rc. cbn [Z.eqb negb]. rewrite Hs2.
      rewrite bool_decide_eq_false_2 by discriminate. cbn [negb].
      apply IH. rewrite dispatch_rank_none, Hs2. lia.
    + rewrite Hst in Hs2. destruct (Z.eqb_spec rc 0) as [->|Hrc]; cbn [negb].
      * rewrite Hs2, bool_decide_eq_true_2 by reflexivity. cbn [negb].
        apply Hret. congruence.
      * apply Herr. rewrite Hs2. lia.
  - (* FIRST_MESSAGE *)
    pose proof (first_message_next_action_outcome c1 ev) as Ho. cbn zeta in Ho.
    destruct (first_message_next_action c1 ev) as [rc c2]. cbn [fst snd] in Ho.
    destruct Ho as [[Hrc Hs2]|Hs2].
    + subst rc. cbn [Z.eqb negb]. rewrite Hs2.
      rewrite bool_decide_eq_false_2 by discriminate. cbn [negb].
      apply IH. rewrite dispatch_rank_none, Hs2. lia.
    + rewrite Hst in Hs2. destruct (Z.eqb_spec rc 0) as [->|Hrc]; cbn [negb].
      * rewrite Hs2, bool_decide_eq_true_2 by reflexivity. cbn [negb].
        apply Hret. congruence.
      * apply Herr. rewrite Hs2. lia.
  - (* CONNECTED *)
    destruct (has_event ev POLLIN).
    + destruct (handle_message_from_server_state c1) as [Hs2 _].
      destruct (handle_message_from_server c1) as [rc c2]. cbn [snd] in Hs2.
      rewrite Hst in Hs2. destruct (Z.eqb_spec rc 0) as [->|Hrc]; cbn [negb].
      * rewrite Hs2, bool_decide_eq_true_2 by reflexivity. cbn [negb].
        apply Hret. congruence.
      * apply Herr. rewrite Hs2. lia.
    + cbn [Z.eqb negb]. rewrite Hst, bool_decide_eq_true_2 by reflexivity. cbn [negb].
      apply Hret. congruence.
  - (* ERROR_DELAY *)
    pose proof (error_delay_next_action_outcome c1 ev) as Ho. cbn zeta in Ho.
    destruct (error_delay_next_action c1 ev) as [rc c2]. cbn [fst snd] in Ho.
    destruct Ho as [Ho1 Ho2].
    destruct (Z.eqb_spec (server_fd c1) (-1)) as [Hfd|Hfd].
    + specialize (Ho1 Hfd). rewrite Hst in Ho1.
      destruct (Z.eqb_spec rc 0) as [->|Hrc]; cbn [negb].
      * rewrite Ho1, bool_decide_eq_true_2 by reflexivity. cbn [negb].
        apply Hret. congruence.
      * apply Herr. rewrite Ho1. lia.
    + destruct (Ho2 Hfd) as (-> & Hno & Hin). cbn [Z.eqb negb].
      destruct (has_event ev POLLIN).
      * rewrite (Hin eq_refl). rewrite bool_decide_eq_false_2 by discriminate.
        cbn [negb]. apply IH. rewrite dispatch_rank_none, (Hin eq_refl). lia.
      * rewrite (Hno eq_refl), Hst, bool_decide_eq_true_2 by reflexivity. cbn [negb].
        apply Hret. congruence.
Qed.

Lemma server_fd_dispatch_more_fuel n : forall c ev r,
  server_fd_dispatch n c ev = Some r -> server_fd_dispatch (S n) c ev = Some r.
Proof.
  induction n as [|n IH]; intros c ev r Hr; [ discriminate | ].
  cbn [server_fd_dispatch] in Hr. remember (S n) as m eqn:Hm.
  cbn [server_fd_dispatch].
  set (c1 := if has_event ev POLLHUP then disconnect_transition_action c true else c) in *.
  subst m. revert Hr.
  destruct (server_fd_state (base c1)); [ auto | | | | | ];
    try destruct (has_event ev POLLIN);
    repeat (match goal with
            | |- context [match ?x with (_, _) => _ end] => destruct x
            end);
    repeat (match goal with
            | |- context [if ?b then _ else _] => destruct b
            end);
    intros Hr; first [ exact Hr | now apply IH ].
Qed.

Lemma server_fd_dispatch_fuel n m c ev r :
  (n <= m)%nat -> server_fd_dispatch n c ev = Some r -> server_fd_dispatch m c ev = Some r.
Proof.
  intros Hle Hr. induction Hle as [|m Hle IH]; [ exact Hr | ].
  now apply server_fd_dispatch_more_fuel.
Qed.

(** X22.  [server_fd_dispatch] always returns: it calls itself to a depth
    of six at most, whatever the state of the socket, the events of
    [poll] and the answers of the system calls are.  It returns 0 or
    -ENOTCONN, and -ENOTCONN exactly when it leaves the socket in the
    DISCONNECTED state: the errors of the actions never reach the
    caller. *)
Theorem server_fd_dispatch_returns (c : conn_client) (poll_revents : Z) :
  exists rc c',
    (forall fuel, (6 <= fuel)%nat ->
       server_fd_dispatch fuel c poll_revents = Some (rc, c'))
    /\ (rc = 0 \/ rc = - ENOTCONN)
    /\ (rc = - ENOTCONN <-> server_fd_state (base c') = CRAS_SOCKET_STATE_DISCONNECTED).
Proof.
  destruct (server_fd_dispatch_ranked 6 c poll_revents) as (rc & c' & Hd & Hrc & Hst).
  { pose proof (dispatch_rank_bound c poll_revents). lia. }
  exists rc, c'. split; [ | split; assumption ].
  intros fuel Hfuel. now apply (server_fd_dispatch_fuel 6 fuel).
Qed.

(** *** Losing the server *)

Lemma server_fd_dispatch_waits_for_socket fuel c :
  (1 <= fuel)%nat ->
  server_fd_state (base c) = CRAS_SOCKET_STATE_WAIT_FOR_SOCKET ->
  sock_file_exists c = false ->
  server_fd_dispatch fuel c 0 = Some (0, c).
Proof.
  intros Hfuel Hst Hsock. destruct fuel as [|fuel]; [ lia | ].
  cbn [server_fd_dispatch]. rewrite has_event_none, Hst.
  unfold wait_for_socket_next_action. rewrite Hsock. cbn [Z.eqb negb].
  now rewrite Hst, bool_decide_eq_true_2.
Qed.

(** X23.  The server hangs up on a connected client while the socket
    file is gone.  [server_fd_dispatch] returns 0 after one round, with
    the socket in the WAIT_FOR_SOCKET state and no message read, even if
    [poll] reported input as well.  Every stream got its error callback
    with -ENOTCONN, had a disconnect message written for it to the socket
    that hung up, and was shut down, in the order of the list, which is
    empty afterwards.  The server state is unmapped, the descriptor closed
    without a shutdown, the client id is -1, the event counter is drained,
    and the connection callback, if there is one, is called once, with
    DISCONNECTED. *)
Theorem hangup_while_connected (c : conn_client) (poll_revents : Z) (fuel : nat) :
  server_fd_state (base c) = CRAS_SOCKET_STATE_CONNECTED ->
  has_event poll_revents POLLHUP = true ->
  sock_file_exists c = false ->
  (1 <= fuel)%nat ->
  exists c',
    server_fd_dispatch fuel c poll_revents = Some (0, c')
    /\ server_fd_state (base c') = CRAS_SOCKET_STATE_WAIT_FOR_SOCKET
    /\ streams (base c') = []
    /\ id (base c') = -1
    /\ server_fd c' < 0
    /\ server_state c' = SERVER_STATE_NULL
    /\ server_event_value (base c') = 0
    /\ client_trace (base c')
       = client_trace (base c)
         ++ EvEventfdRead
            :: match server_connection_cb (base c) with
               | Some _ => [EvConnectionCb CRAS_CONN_STATUS_DISCONNECTED]
               | None => []
               end
    /\ conn_events c'
       = conn_events c
         ++ stream_drop_events true (streams (base c))
         ++ match server_state c with
            | SERVER_STATE_NULL => []
            | _ => [EvMunmapServerState]
            end
         ++ (if 0 <=? server_fd c then [EvClose (server_fd c)] else []).
Proof.
  intros Hst Hhup Hsock Hfuel.
  destruct (disconnect_transition_action_state c true) as (Hs1 & Hfd1 & Hsf1).
  destruct (disconnect_transition_action_spec c true) as (H1 & H2 & H3 & H4 & H5 & H6).
  cbn zeta in *. rewrite Hst in *. cbn [state_after_disconnect] in Hs1.
  rewrite bool_decide_eq_true_2 in H6 by reflexivity.
  exists (disconnect_transition_action c true).
  split.
  { destruct fuel as [|fuel]; [ lia | ]. cbn [server_fd_dispatch]. rewrite Hhup, Hs1.
    unfold wait_for_socket_next_action. rewrite Hsf1, Hsock. cbn [Z.eqb negb].
    now rewrite Hs1, bool_decide_eq_true_2. }
  split; [ exact Hs1 | ]. split; [ exact H1 | ]. split; [ exact H2 | ].
  split; [ rewrite Hfd1; destruct (Z.leb_spec 0 (server_fd c)); lia | ].
  split; [ exact H3 | ]. split; [ exact H4 | ].
  split; [ rewrite H5; now destruct (server_connection_cb (base c)) | exact H6 ].
Qed.

(** X24.  The socket file is deleted.  In the DISCONNECTED state
    [sock_file_wait_callback] only notes it.  In every other state the
    client ends in WAIT_FOR_SOCKET with its streams dropped: each got its
    error callback with -ENOTCONN and was shut down, but no disconnect
    message was written for it, the descriptor was shut down before it was
    closed, and the connection callback was not called, not even when the
    client was connected: the event counter was drained and nothing else
    made known to the application. *)
Theorem sock_file_deleted_restarts (c : conn_client) (fuel : nat) :
  (1 <= fuel)%nat ->
  (server_fd_state (base c) = CRAS_SOCKET_STATE_DISCONNECTED ->
     sock_file_wait_callback fuel c CRAS_FILE_WAIT_EVENT_DELETED
     = Some (set_sock_file_exists c false))
  /\ (server_fd_state (base c) <> CRAS_SOCKET_STATE_DISCONNECTED ->
      exists c',
        sock_file_wait_callback fuel c CRAS_FILE_WAIT_EVENT_DELETED = Some c'
        /\ server_fd_state (base c') = CRAS_SOCKET_STATE_WAIT_FOR_SOCKET
        /\ sock_file_exists c' = false
        /\ streams (base c') = []
        /\ id (base c') = -1
        /\ server_fd c' < 0
        /\ client_trace (base c') = client_trace (base c) ++ [EvEventfdRead]
        /\ conn_events c'
           = conn_events c
             ++ stream_drop_events false (streams (base c))
             ++ match server_state c with
                | SERVER_STATE_NULL => []
                | _ => [EvMunmapServerState]
                end
             ++ (if 0 <=? server_fd c
                 then [EvShutdownAndCloseSocket (server_fd c)] else [])).
Proof.
  intros Hfuel. unfold sock_file_wait_callback.
  change (server_fd_state (base (set_sock_file_exists c false)))
    with (server_fd_state (base c)).
  split; [ now intros -> | ].
  intros Hne.
  set (c1 := set_sock_file_exists c false).
  set (c2 := conn_move_to_state c1 CRAS_SOCKET_STATE_DISCONNECTED).
  set (c3 := disconnect_transition_action c2 false).
  set (c4 := conn_move_to_state c3 CRAS_SOCKET_STATE_WAIT_FOR_SOCKET).
  assert (Hs2 : server_fd_state (base c2) = CRAS_SOCKET_STATE_DISCONNECTED)
    by apply conn_move_to_state_state.
  destruct (disconnect_transition_action_state c2 false) as (Hs3 & Hfd3 & Hsf3).
  destruct (disconnect_transition_action_spec c2 false) as (H1 & H2 & H3 & H4 & H5 & H6).
  cbn zeta in *. fold c3 in Hs3, Hfd3, Hsf3, H1, H2, H3, H4, H5, H6.
  rewrite Hs2 in *. cbn [state_after_disconnect] in Hs3.
  rewrite bool_decide_eq_false_2 in H6 by discriminate.
  assert (Hs4 : server_fd_state (base c4) = CRAS_SOCKET_STATE_WAIT_FOR_SOCKET)
    by apply conn_move_to_state_state.
  assert (Hb2 : streams (base c2) = streams (base c)
                /\ client_trace (base c2) = client_trace (base c)
                /\ server_connection_cb (base c2) = server_connection_cb (base c)).
  { unfold c2, conn_move_to_state, server_fd_move_to_state. cbn [base with_base].
    destruct (bool_decide _); auto. }
  destruct Hb2 as (Hst2 & Htr2 & Hcb2).
  assert (Hb4 : streams (base c4) = streams (base c3)
                /\ client_trace (base c4) = client_trace (base c3)
                /\ id (base c4) = id (base c3)).
  { unfold c4, conn_move_to_state, server_fd_move_to_state. cbn [base with_base].
    destruct (bool_decide _); auto. }
  destruct Hb4 as (Hst4 & Htr4 & Hid4).
  exists c4. split.
  { assert (Hmatch : forall (x y : option conn_client),
              match server_fd_state (base c) with
              | CRAS_SOCKET_STATE_DISCONNECTED => x
              | _ => y
              end = y)
      by (intros x y; destruct (server_fd_state (base c)); congruence).
    rewrite Hmatch. unfold server_disconnect.
    change (server_fd_state (base c1)) with (server_fd_state (base c)).
    rewrite bool_decide_eq_false_2 by exact Hne. fold c2. fold c3.
    unfold server_connect. rewrite Hs3, bool_decide_eq_true_2 by reflexivity.
    cbn [negb]. fold c4.
    rewrite (server_fd_dispatch_waits_for_socket fuel c4 Hfuel Hs4); [ reflexivity | ].
    change (sock_file_exists c4) with (sock_file_exists c3). now rewrite Hsf3. }
  split; [ exact Hs4 | ].
  split; [ change (sock_file_exists c4) with (sock_file_exists c3); now rewrite Hsf3 | ].
  split; [ now rewrite Hst4 | ]. split; [ now rewrite Hid4 | ].
  split.
  { change (server_fd c4) with (server_fd c3). rewrite Hfd3.
    change (server_fd c2) with (server_fd c).
    destruct (Z.leb_spec 0 (server_fd c)); lia. }
  split.
  { rewrite Htr4, H5, Htr2. now destruct (server_connection_cb (base c2)). }
  change (conn_events c4) with (conn_events c3). rewrite H6, Hst2. reflexivity.
Qed.

(** *** State-change messages *)

Lemma write_message_to_server_observer_ops b msg :
  observer_ops (snd (write_message_to_server b msg)) = observer_ops b.
Proof.
  unfold write_message_to_server.
  destruct (_ || _); cbn [fst snd];
    repeat (match goal with |- context [if ?x then _ else _] => destruct x end);
    reflexivity.
Qed.

Lemma set_changed_callback_observer_op n b cb m :
  observer_op (observer_ops (snd (cras_client_set_changed_callback n b cb))) m
  = if bool_decide (m = n) then cb else observer_op (observer_ops b) m.
Proof.
  unfold cras_client_set_changed_callback, cras_send_register_notification.
  match goal with |- context [write_message_to_server ?x ?msg] =>
    pose proof (write_message_to_server_observer_ops x msg) as Hw;
    destruct (write_message_to_server x msg) as [rc b'] end.
  cbn [snd] in *. rewrite Hw. cbn [observer_ops set_observer_ops].
  apply observer_op_set_observer_op.
Qed.

(** X25.  The callback a setter has stored is the one a message of the
    server runs.  After a setter of a state-change callback, whatever
    became of its register request, a well-formed message of the same id
    makes [handle_message_from_server] call the callback that was set,
    with the values of the message, or nothing if NULL was set; a message
    of another id calls the callback stored for that id as before.  The
    function returns 0 in each case.  A message whose length field is not
    the number of bytes read, or that is shorter than the length field, is
    answered with -EIO, and no callback is called. *)
Theorem state_change_message_runs_set_callback (c : conn_client)
    (n m : CRAS_CLIENT_MESSAGE_ID) (cb : callback_ptr) (values : list Z) :
  let c' := with_base c (snd (cras_client_set_changed_callback n (base c) cb)) in
  let msg := conn_recv (now c') in
  let read := conn_emit c' (EvRecvWithFds (server_fd c)) in
  recv_msg msg = MSG_CHANGED m values ->
  (sizeof_msg_length <= recv_nread msg -> recv_length msg = recv_nread msg ->
   handle_message_from_server c'
   = (0, match (if bool_decide (m = n) then cb
                else observer_op (observer_ops (base c)) m) with
         | Some f => conn_emit read (EvAppCallback f values)
         | None => read
         end))
  /\ (recv_nread msg < sizeof_msg_length \/ recv_length msg <> recv_nread msg ->
      handle_message_from_server c' = (- EIO, read)).
Proof.
  intros c' msg read Hmsg. unfold handle_message_from_server. fold msg.
  change (conn_emit c' (EvRecvWithFds (server_fd c'))) with read.
  split.
  - intros Hlen Heq.
    destruct (Z.ltb_spec (recv_nread msg) sizeof_msg_length); [ lia | ].
    rewrite Heq, Z.eqb_refl. cbn [orb negb]. rewrite Hmsg.
    change (base read) with (snd (cras_client_set_changed_callback n (base c) cb)).
    rewrite set_changed_callback_observer_op.
    now destruct (if bool_decide (m = n) then cb else observer_op (observer_ops (base c)) m).
  - intros [Hshort|Hne].
    + destruct (Z.ltb_spec (recv_nread msg) sizeof_msg_length); [ reflexivity | lia ].
    + destruct (Z.eqb_spec (recv_length msg) (recv_nread msg)); [ contradiction | ].
      now rewrite orb_true_r.
Qed.

(** *** A connected client has an id *)

Lemma keeps_identity_refl c : keeps_identity c c.
Proof. repeat split. now left. Qed.

Lemma keeps_identity_inv c c' :
  keeps_identity c c' -> connected_with_id c -> connected_with_id c'.
Proof.
  intros (Hid & Hss & Hst) [J1 J2]. split.
  - rewrite Hid, Hss. exact J1.
  - intros Hc. rewrite Hid. destruct Hst as [Hst|Hst]; [ | contradiction ].
    apply J2. congruence.
Qed.

Lemma keeps_identity_move c c' s :
  s <> CRAS_SOCKET_STATE_CONNECTED ->
  id (base c') = id (base c) -> server_state c' = server_state c ->
  keeps_identity c (conn_move_to_state c' s).
Proof.
  intros Hs Hid Hss. unfold keeps_identity. rewrite conn_move_to_state_state.
  unfold conn_move_to_state, server_fd_move_to_state. cbn [base with_base server_state].
  destruct (bool_decide _); repeat split; auto.
Qed.

Ltac keeps_identity_cases :=
  repeat (match goal with
          | |- context [if ?x then _ else _] => destruct x
          end);
  cbn [fst snd];
  first [ apply keeps_identity_refl
        | apply keeps_identity_move; [ discriminate | reflexivity | reflexivity ]
        | repeat split; now left ].

Lemma error_delay_next_action_identity c ev :
  keeps_identity c (snd (error_delay_next_action c ev)).
Proof. unfold error_delay_next_action. keeps_identity_cases. Qed.

Lemma wait_for_socket_next_action_identity c :
  keeps_identity c (wait_for_socket_next_action c).
Proof. unfold wait_for_socket_next_action. keeps_identity_cases. Qed.

Lemma wait_for_writable_next_action_identity c ev :
  keeps_identity c (snd (wait_for_writable_next_action c ev)).
Proof.
  unfold wait_for_writable_next_action, connect_to_socket. keeps_identity_cases.
Qed.

(** [client_attach_shm] leaves a pointer that is not NULL when it returns
    0, also when it is the failed mapping with an errno of 0; with a
    pointer that is not NULL at the call it changes nothing. *)
Lemma client_attach_shm_identity c fd :
  let r := client_attach_shm c fd in
  id (base (snd r)) = id (base c)
  /\ (fst r = 0 -> server_state (snd r) <> SERVER_STATE_NULL)
  /\ (server_state c <> SERVER_STATE_NULL -> snd r = c /\ fst r <> 0).
Proof.
  unfold client_attach_shm. destruct (server_state c) eqn:Hs; cbn [fst snd].
  - destruct (negb (conn_mmap_ok _)); [ | destruct (negb (conn_state_version_ok _)) ];
      cbn [fst snd base set_server_state server_state conn_emit];
      (split; [ reflexivity | split; [ | congruence ] ]);
      first [ discriminate | intros Hrc; exfalso; revert Hrc; unfold EINVAL; lia ].
  - split; [ reflexivity | ]. rewrite Hs. split; [ unfold EBUSY; lia | ].
    intros _. split; [ reflexivity | unfold EBUSY; lia ].
  - split; [ reflexivity | ]. rewrite Hs. split; [ unfold EBUSY; lia | ].
    intros _. split; [ reflexivity | unfold EBUSY; lia ].
Qed.

Lemma connected_with_id_same c c' :
  id (base c') = id (base c) -> server_state c' = server_state c ->
  server_fd_state (base c') = server_fd_state (base c) ->
  connected_with_id c -> connected_with_id c'.
Proof.
  intros Hid Hss Hst. apply keeps_identity_inv. repeat split; auto.
Qed.

Lemma handle_message_from_server_connected c :
  connected_with_id c -> connected_with_id (snd (handle_message_from_server c)).
Proof.
  intros J. pose proof (handle_message_from_server_state c) as [Hst _].
  revert Hst. unfold handle_message_from_server.
  set (c0 := conn_emit c _).
  assert (J0 : connected_with_id c0) by (revert J; now apply connected_with_id_same).
  destruct (_ || _); [ intros _; exact J0 | ].
  destruct (recv_msg _) as [cid|sid| | | |d t|n vs|].
  - destruct (negb (recv_num_fds _ =? 1)); [ intros _; exact J0 | ].
    pose proof (client_attach_shm_identity c0 (recv_fd0 (conn_recv (now c)))) as Ha.
    pose proof (client_attach_shm_state c0 (recv_fd0 (conn_recv (now c)))) as Hb.
    destruct (client_attach_shm c0 _) as [rc c1]. cbn [fst snd] in Ha, Hb.
    destruct Ha as (Hid & Hok & Hbusy). destruct Hb as [Hst1 _].
    destruct (Z.eqb_spec rc 0) as [Hrc|Hrc]; cbn [negb snd]; intros Hst.
    + destruct J0 as [J1 J2]. split; cbn [base with_base server_state].
      * intros _. now apply Hok.
      * cbn [base with_base] in Hst. intros Hc.
        destruct (server_state c0) eqn:Hs0.
        -- (* no pointer before: then no id, and not CONNECTED *)
           exfalso.
           assert (Hnc : ~ 0 <= id (base c0)).
           { intros Hi. apply J1 in Hi. now apply Hi. }
           apply Hnc, J2. unfold c0. cbn [base conn_emit]. congruence.
        -- destruct Hbusy as [_ Hne]; [ discriminate | contradiction ].
        -- destruct Hbusy as [_ Hne]; [ discriminate | contradiction ].
    + destruct (server_state c0) eqn:Hs0.
      * destruct J0 as [J1 J2]. split.
        -- rewrite Hid. intros Hi. apply J1 in Hi. exfalso. now apply Hi.
        -- rewrite Hid, Hst1. exact J2.
      * destruct Hbusy as [He _]; [ discriminate | ]. subst c1. exact J0.
      * destruct Hbusy as [He _]; [ discriminate | ]. subst c1. exact J0.
  - intros _. destruct (negb (stream_id_in_use _ _)); [ destruct (negb _) | ];
      cbn [snd]; try destruct (_ <? 0);
      (revert J0; now apply connected_with_id_same).
  - intros _. cbn [snd]. unfold run_one_shot.
    destruct (debug_info_callback _); (revert J0; now apply connected_with_id_same).
  - intros _. destruct (_ || _); [ exact J0 | ]. cbn [snd]. unfold run_one_shot.
    destruct (atlog_access_callback _); (revert J0; now apply connected_with_id_same).
  - intros _. destruct (get_hotword_models_cb _); cbn [snd];
      (revert J0; now apply connected_with_id_same).
  - intros _. revert J0; now apply connected_with_id_same.
  - intros _. destruct (observer_op _ _); (revert J0; now apply connected_with_id_same).
  - intros _. exact J0.
Qed.

Lemma connect_transition_action_id b :
  id (snd (connect_transition_action b)) = id b.
Proof.
  unfold connect_transition_action, reregister_notifications.
  destruct (reregister_from_state observer_notifications b) as (_ & _ & Hid).
  destruct (reregister_from observer_notifications b) as [rc b1]. cbn [snd] in Hid.
  destruct (rc <? 0); cbn [snd]; [ exact Hid | ].
  unfold server_fd_move_to_state.
  destruct (server_connection_cb _); destruct (bool_decide _); exact Hid.
Qed.

Lemma first_message_next_action_connected c ev :
  connected_with_id c -> connected_with_id (snd (first_message_next_action c ev)).
Proof.
  intros J. unfold first_message_next_action.
  destruct (server_fd c <? 0); [ exact J | ].
  destruct (negb (has_event ev POLLIN)); [ exact J | ].
  pose proof (handle_message_from_server_connected c J) as J1.
  destruct (handle_message_from_server c) as [rc c1]. cbn [snd] in J1.
  destruct (rc <? 0); [ exact J1 | ].
  destruct (Z.leb_spec 0 (id (base c1))) as [Hid|Hid]; [ | exact J1 ].
  unfold conn_connect_transition_action.
  pose proof (connect_transition_action_id (base c1)) as Hi.
  destruct (connect_transition_action (base c1)) as [rc2 b2]. cbn [snd] in Hi |- *.
  destruct J1 as [J1 _]. split; cbn [base with_base server_state].
  - intros _. now apply J1.
  - intros _. now rewrite Hi.
Qed.

Lemma disconnect_transition_action_connected c force :
  connected_with_id (disconnect_transition_action c force).
Proof.
  pose proof (disconnect_transition_action_spec c force) as (_ & Hid & _).
  pose proof (disconnect_transition_action_state c force) as (Hst & _).
  split.
  - rewrite Hid. lia.
  - rewrite Hst. destruct (server_fd_state (base c)); discriminate.
Qed.

Lemma server_fd_dispatch_connected n : forall c ev rc c',
  connected_with_id c ->
  server_fd_dispatch n c ev = Some (rc, c') ->
  connected_with_id c'.
Proof.
  induction n as [|n IH]; intros c ev rc c' J; [ discriminate | ].
  cbn [server_fd_dispatch].
  set (c1 := if has_event ev POLLHUP then _ else c).
  assert (J1 : connected_with_id c1).
  { unfold c1. destruct (has_event ev POLLHUP);
      [ apply disconnect_transition_action_connected | exact J ]. }
  clearbody c1.
  assert (Hnext : forall (r : Z) c2,
    connected_with_id c2 ->
    (if negb (r =? 0) then server_fd_dispatch n c2 POLLHUP
     else if negb (bool_decide (server_fd_state (base c1) = server_fd_state (base c2)))
          then server_fd_dispatch n c2 0
          else Some (r, c2)) = Some (rc, c') ->
    connected_with_id c').
  { intros r c2 J2. destruct (negb (r =? 0)); [ now apply IH | ].
    destruct (negb (bool_decide _)); [ now apply IH | ].
    intros [= _ <-]. exact J2. }
  destruct (server_fd_state (base c1)) eqn:Hst.
  - intros [= _ <-]. exact J1.
  - apply (Hnext 0 (wait_for_socket_next_action c1)).
    apply (keeps_identity_inv c1); [ apply wait_for_socket_next_action_identity | exact J1 ].
  - pose proof (wait_for_writable_next_action_identity c1 ev) as Hk.
    destruct (wait_for_writable_next_action c1 ev) as [r c2]. cbn [snd] in Hk.
    apply (Hnext r c2). now apply (keeps_identity_inv c1).
  - pose proof (first_message_next_action_connected c1 ev J1) as Hk.
    destruct (first_message_next_action c1 ev) as [r c2]. cbn [snd] in Hk.
    apply (Hnext r c2). exact Hk.
  - destruct (has_event ev POLLIN).
    + pose proof (handle_message_from_server_connected c1 J1) as Hk.
      destruct (handle_message_from_server c1) as [r c2]. cbn [snd] in Hk.
      apply (Hnext r c2). exact Hk.
    + apply (Hnext 0 c1). exact J1.
  - pose proof (error_delay_next_action_identity c1 ev) as Hk.
    destruct (error_delay_next_action c1 ev) as [r c2]. cbn [snd] in Hk.
    apply (Hnext r c2). now apply (keeps_identity_inv c1).
Qed.

(** X26.  [server_fd_dispatch] never leaves a client in the CONNECTED
    state without a client id: from a client in which the CONNECTED state
    goes with an id of 0 or more, and an id of 0 or more with a server
    state pointer that is not NULL, every return of the dispatch gives
    such a client again, whatever the server sends and whatever the system
    calls return.  A client that was just disconnected (id -1) is such a
    client. *)
Theorem server_fd_dispatch_connected_has_id (c : conn_client) (poll_revents : Z)
    (fuel : nat) (rc : Z) (c' : conn_client) :
  connected_with_id c ->
  server_fd_dispatch fuel c poll_revents = Some (rc, c') ->
  connected_with_id c'
  /\ (server_fd_state (base c') = CRAS_SOCKET_STATE_CONNECTED ->
      0 <= id (base c') /\ server_state c' <> SERVER_STATE_NULL).
Proof.
  intros J Hd. pose proof (server_fd_dispatch_connected fuel c poll_revents rc c' J Hd) as J'.
  split; [ exact J' | ]. intros Hc. destruct J' as [J1 J2].
  split; [ now apply J2 | apply J1; now apply J2 ].
Qed.

(** *** The first message *)

Lemma connect_transition_action_succeeds b :
  0 <= fst (reregister_notifications b) ->
  fst (connect_transition_action b) = 0
  /\ server_fd_state (snd (connect_transition_action b)) = CRAS_SOCKET_STATE_CONNECTED.
Proof.
  intros Hrc. destruct (connect_transition_action_state b) as [Hc|[Hc Hs]]; [ exact Hc | ].
  exfalso. revert Hc. unfold connect_transition_action.
  destruct (reregister_notifications b) as [rc b1]. cbn [fst] in Hrc.
  destruct (Z.ltb_spec rc 0); cbn [fst]; lia.
Qed.

Lemma now_conn_emit c e : now (conn_emit c e) = S (now c).
Proof. unfold now. cbn [conn_trace conn_emit]. rewrite length_app. cbn [length]. lia. Qed.

Lemma client_attach_shm_ok c fd :
  server_state c = SERVER_STATE_NULL ->
  conn_mmap_ok (now c) = true ->
  conn_state_version_ok (now c) = true ->
  client_attach_shm c fd
  = (0, set_server_state (conn_emit (conn_emit c (EvMmapServerState fd)) (EvClose fd))
                         SERVER_STATE_MAPPED).
Proof.
  intros Hss Hmap Hver. unfold client_attach_shm. now rewrite Hss, Hmap, Hver.
Qed.

(** One round of the dispatch. *)
Lemma server_fd_dispatch_step n c ev :
  server_fd_dispatch (S n) c ev
  = (let c1 := if has_event ev POLLHUP
               then disconnect_transition_action c true else c in
     match server_fd_state (base c1) with
     | CRAS_SOCKET_STATE_DISCONNECTED => Some (- ENOTCONN, c1)
     | _ =>
         let '(rc, c2) :=
           match server_fd_state (base c1) with
           | CRAS_SOCKET_STATE_DISCONNECTED => (0, c1)
           | CRAS_SOCKET_STATE_ERROR_DELAY => error_delay_next_action c1 ev
           | CRAS_SOCKET_STATE_WAIT_FOR_SOCKET => (0, wait_for_socket_next_action c1)
           | CRAS_SOCKET_STATE_WAIT_FOR_WRITABLE => wait_for_writable_next_action c1 ev
           | CRAS_SOCKET_STATE_FIRST_MESSAGE => first_message_next_action c1 ev
           | CRAS_SOCKET_STATE_CONNECTED =>
               if has_event ev POLLIN then handle_message_from_server c1 else (0, c1)
           end in
         if negb (rc =? 0) then server_fd_dispatch n c2 POLLHUP
         else if negb (bool_decide (server_fd_state (base c1) = server_fd_state (base c2)))
         then server_fd_dispatch n c2 0
         else Some (rc, c2)
     end).
Proof. reflexivity. Qed.

Lemma server_fd_dispatch_connected_idle n c :
  server_fd_state (base c) = CRAS_SOCKET_STATE_CONNECTED ->
  server_fd_dispatch (S n) c 0 = Some (0, c).
Proof.
  intros Hst. cbn [server_fd_dispatch]. rewrite !has_event_none, Hst.
  cbn [Z.eqb negb]. now rewrite Hst, bool_decide_eq_true_2.
Qed.

(** X27.  The greeting of the server connects the client.  The socket is
    in the FIRST_MESSAGE state and readable, no server state is mapped,
    and the message read is a well-formed CLIENT_CONNECTED with one
    descriptor and a client id of 0 or more; the mapping succeeds with the
    right version, and registering the notifications again does not fail.
    Then [server_fd_dispatch] returns 0 with the socket CONNECTED, the id
    of the message as the client id, the server state mapped, the
    descriptor of the message closed and the socket kept.  The client
    itself is the one [connect_transition_action] leaves. *)
Theorem first_message_greeting_connects (c : conn_client) (poll_revents : Z)
    (client_id : Z) (fuel : nat) :
  server_fd_state (base c) = CRAS_SOCKET_STATE_FIRST_MESSAGE ->
  has_event poll_revents POLLHUP = false ->
  has_event poll_revents POLLIN = true ->
  0 <= server_fd c ->
  server_state c = SERVER_STATE_NULL ->
  sizeof_msg_length <= recv_nread (conn_recv (now c)) ->
  recv_length (conn_recv (now c)) = recv_nread (conn_recv (now c)) ->
  recv_msg (conn_recv (now c)) = MSG_CLIENT_CONNECTED client_id ->
  recv_num_fds (conn_recv (now c)) = 1 ->
  conn_mmap_ok (S (now c)) = true ->
  conn_state_version_ok (S (now c)) = true ->
  0 <= client_id ->
  0 <= fst (reregister_notifications (set_client_id (base c) client_id)) ->
  (2 <= fuel)%nat ->
  exists c',
    server_fd_dispatch fuel c poll_revents = Some (0, c')
    /\ base c' = snd (connect_transition_action (set_client_id (base c) client_id))
    /\ server_fd_state (base c') = CRAS_SOCKET_STATE_CONNECTED
    /\ id (base c') = client_id
    /\ server_state c' = SERVER_STATE_MAPPED
    /\ server_fd c' = server_fd c
    /\ conn_events c'
       = conn_events c
         ++ [EvRecvWithFds (server_fd c);
             EvMmapServerState (recv_fd0 (conn_recv (now c)));
             EvClose (recv_fd0 (conn_recv (now c)))].
Proof.
  intros Hst Hhup Hin Hfd Hss Hlen Hlen2 Hmsg Hfds Hmap Hver Hid Hreg Hfuel.
  destruct (connect_transition_action_succeeds _ Hreg) as [Hrc Hconn].
  pose proof (connect_transition_action_id (set_client_id (base c) client_id)) as Hcid.
  set (b' := snd (connect_transition_action (set_client_id (base c) client_id))) in *.
  set (fd0 := recv_fd0 (conn_recv (now c))).
  set (c' := with_base
               (set_server_state
                  (conn_emit (conn_emit (conn_emit c (EvRecvWithFds (server_fd c)))
                                        (EvMmapServerState fd0))
                             (EvClose fd0))
                  SERVER_STATE_MAPPED) b').
  assert (Hfm : first_message_next_action c poll_revents = (0, c')).
  { unfold first_message_next_action.
    destruct (Z.ltb_spec (server_fd c) 0); [ lia | ]. rewrite Hin. cbn [negb].
    unfold handle_message_from_server.
    destruct (Z.ltb_spec (recv_nread (conn_recv (now c))) sizeof_msg_length); [ lia | ].
    rewrite Hlen2, Z.eqb_refl. cbn [negb orb]. rewrite Hmsg, Hfds. cbn [Z.eqb Pos.eqb negb].
    rewrite client_attach_shm_ok;
      [ | exact Hss | rewrite now_conn_emit; exact Hmap | rewrite now_conn_emit; exact Hver ].
    cbn [negb Z.eqb Z.ltb Z.compare].
    cbn [base with_base set_server_state conn_emit id set_client_id].
    destruct (Z.leb_spec 0 client_id); [ | lia ].
    unfold conn_connect_transition_action. cbn [base with_base set_server_state conn_emit].
    fold fd0. fold b' in Hrc.
    destruct (connect_transition_action (set_client_id (base c) client_id)) as [rc b2] eqn:Hcta.
    cbn [fst snd] in *. subst rc. reflexivity. }
  exists c'. split.
  { apply (server_fd_dispatch_fuel 2 fuel); [ exact Hfuel | ].
    assert (Hc' : server_fd_state (base c') = CRAS_SOCKET_STATE_CONNECTED) by exact Hconn.
    rewrite server_fd_dispatch_step.
    cbv zeta. rewrite Hhup, Hst, Hfm. cbn [Z.eqb negb]. rewrite Hc'.
    rewrite bool_decide_eq_false_2 by discriminate. cbn [negb].
    now apply server_fd_dispatch_connected_idle. }
  split; [ reflexivity | ]. split; [ exact Hconn | ]. split; [ exact Hcid | ].
  split; [ reflexivity | ]. split; [ reflexivity | ].
  unfold conn_events, c'. cbn [conn_trace with_base set_server_state conn_emit].
  rewrite !map_app. cbn [map snd]. now rewrite <- !app_assoc.
Qed.

(** A message that is not the greeting leaves the client of Part II and
    the server state pointer as they are. *)
Lemma handle_message_from_server_other c :
  (forall client_id, recv_msg (conn_recv (now c)) <> MSG_CLIENT_CONNECTED client_id) ->
  base (snd (handle_message_from_server c)) = base c
  /\ server_state (snd (handle_message_from_server c)) = server_state c.
Proof.
  intros Hmsg. unfold handle_message_from_server.
  destruct (_ || _); [ auto | ].
  destruct (recv_msg _) as [cid|sid| | | |d t|n vs|].
  - now destruct (Hmsg cid).
  - destruct (negb (stream_id_in_use _ _)); [ destruct (negb _); auto | ].
    cbn [snd]. destruct (_ <? 0); auto.
  - cbn [snd]. unfold run_one_shot. destruct (debug_info_callback _); auto.
  - destruct (_ || _); [ auto | ]. cbn [snd]. unfold run_one_shot.
    destruct (atlog_access_callback _); auto.
  - destruct (get_hotword_models_cb _); auto.
  - auto.
  - destruct (observer_op _ _); auto.
  - auto.
Qed.

(** With the descriptor -1, [error_delay_next_action] leaves all but the
    descriptor and the record of calls as they are. *)
Lemma error_delay_next_action_closed c ev :
  server_fd c = -1 ->
  base (snd (error_delay_next_action c ev)) = base c
  /\ server_state (snd (error_delay_next_action c ev)) = server_state c.
Proof.
  intros Hfd. unfold error_delay_next_action. rewrite Hfd. cbn [Z.eqb Pos.eqb].
  destruct (_ =? -1); [ auto | ]. destruct (negb _); auto.
Qed.

(** A hangup before the client is connected: the socket is closed and
    the client waits in ERROR_DELAY, or, when the timer cannot be set up,
    ends DISCONNECTED. *)
Lemma server_fd_dispatch_hangup_first_message n c :
  server_fd_state (base c) = CRAS_SOCKET_STATE_FIRST_MESSAGE ->
  0 <= server_fd c ->
  (2 <= n)%nat ->
  exists rc c',
    server_fd_dispatch n c POLLHUP = Some (rc, c')
    /\ ((rc = 0 /\ server_fd_state (base c') = CRAS_SOCKET_STATE_ERROR_DELAY)
        \/ (rc = - ENOTCONN
            /\ server_fd_state (base c') = CRAS_SOCKET_STATE_DISCONNECTED))
    /\ id (base c') = -1
    /\ server_state c' = SERVER_STATE_NULL
    /\ streams (base c') = [].
Proof.
  intros Hst Hfd Hn.
  destruct (disconnect_transition_action_state c true) as (Hs1 & Hfd1 & _).
  destruct (disconnect_transition_action_spec c true) as (H1 & H2 & H3 & _).
  cbn zeta in *. rewrite Hst in Hs1. cbn [state_after_disconnect] in Hs1.
  destruct (Z.leb_spec 0 (server_fd c)); [ | lia ].
  set (c2 := disconnect_transition_action c true) in *.
  destruct (error_delay_next_action_closed c2 POLLHUP Hfd1) as [Hb Hss].
  destruct (error_delay_next_action c2 POLLHUP) as [rc3 c3] eqn:Hed. cbn [snd] in Hb, Hss.
  assert (Hstep : forall m, server_fd_dispatch (S m) c POLLHUP
            = if negb (rc3 =? 0) then server_fd_dispatch m c3 POLLHUP
              else Some (rc3, c3)).
  { intros m. cbn [server_fd_dispatch].
    change (has_event POLLHUP POLLHUP) with true. cbn iota. fold c2.
    rewrite Hs1, Hed. destruct (negb (rc3 =? 0)); [ reflexivity | ].
    rewrite Hb, Hs1. now rewrite bool_decide_eq_true_2. }
  destruct (Z.eqb_spec rc3 0) as [Hrc|Hrc].
  - exists rc3, c3. split.
    { apply (server_fd_dispatch_fuel 1 n); [ lia | ]. rewrite Hstep.
      destruct (Z.eqb_spec rc3 0); [ reflexivity | contradiction ]. }
    split; [ left; split; [ exact Hrc | now rewrite Hb ] | ].
    rewrite Hb, Hss. auto.
  - destruct (disconnect_transition_action_state c3 true) as (Hs4 & _).
    destruct (disconnect_transition_action_spec c3 true) as (H41 & H42 & H43 & _).
    cbn zeta in *. rewrite Hb, Hs1 in Hs4. cbn [state_after_disconnect] in Hs4.
    exists (- ENOTCONN), (disconnect_transition_action c3 true). split.
    { apply (server_fd_dispatch_fuel 2 n); [ lia | ]. rewrite Hstep.
      destruct (Z.eqb_spec rc3 0); [ contradiction | ]. cbn [negb].
      cbn [server_fd_dispatch].
      change (has_event POLLHUP POLLHUP) with true. cbn iota.
      now rewrite Hs4. }
    split; [ right; auto | auto ].
Qed.

(** X28.  A first message that is not the greeting does not connect the
    client.  The socket is in the FIRST_MESSAGE state and readable, the
    client has no id yet, and the message read is anything but
    CLIENT_CONNECTED, well-formed or not.  Then [server_fd_dispatch]
    treats it as a hangup: it returns 0 with the client in ERROR_DELAY,
    or, when the timer for the delay cannot be set up, -ENOTCONN with the
    client DISCONNECTED.  Either way the client has the id -1, no server
    state and no streams. *)
Theorem first_message_not_greeting_disconnects (c : conn_client) (poll_revents : Z)
    (fuel : nat) :
  server_fd_state (base c) = CRAS_SOCKET_STATE_FIRST_MESSAGE ->
  has_event poll_revents POLLHUP = false ->
  has_event poll_revents POLLIN = true ->
  0 <= server_fd c ->
  id (base c) < 0 ->
  (forall client_id, recv_msg (conn_recv (now c)) <> MSG_CLIENT_CONNECTED client_id) ->
  (3 <= fuel)%nat ->
  exists rc c',
    server_fd_dispatch fuel c poll_revents = Some (rc, c')
    /\ ((rc = 0 /\ server_fd_state (base c') = CRAS_SOCKET_STATE_ERROR_DELAY)
        \/ (rc = - ENOTCONN
            /\ server_fd_state (base c') = CRAS_SOCKET_STATE_DISCONNECTED))
    /\ id (base c') = -1
    /\ server_state c' = SERVER_STATE_NULL
    /\ streams (base c') = [].
Proof.
  intros Hst Hhup Hin Hfd Hid Hmsg Hfuel.
  destruct (handle_message_from_server_other c Hmsg) as [Hb _].
  destruct (handle_message_from_server_state c) as [_ Hfd1].
  assert (Hfm : exists rc1 c1,
            first_message_next_action c poll_revents = (rc1, c1)
            /\ rc1 <> 0 /\ base c1 = base c /\ server_fd c1 = server_fd c).
  { unfold first_message_next_action.
    destruct (Z.ltb_spec (server_fd c) 0); [ lia | ]. rewrite Hin. cbn [negb].
    destruct (handle_message_from_server c) as [rc1 c1]. cbn [snd] in Hb, Hfd1.
    destruct (Z.ltb_spec rc1 0).
    - exists rc1, c1. split; [ reflexivity | ]. split; [ lia | auto ].
    - rewrite Hb. destruct (Z.leb_spec 0 (id (base c))); [ lia | ].
      exists (- EINVAL), c1. split; [ reflexivity | ]. split; [ unfold EINVAL; lia | auto ]. }
  destruct Hfm as (rc1 & c1 & Hfm & Hrc1 & Hb1 & Hfd2).
  destruct fuel as [|fuel]; [ lia | ].
  destruct (server_fd_dispatch_hangup_first_message fuel c1) as (rc & c' & Hd & Hres);
    [ now rewrite Hb1 | lia | lia | ].
  exists rc, c'. split; [ | exact Hres ].
  cbn [server_fd_dispatch]. rewrite Hhup, Hst, Hfm.
  destruct (Z.eqb_spec rc1 0); [ contradiction | ]. exact Hd.
Qed.

End ConnectionFacts.

(** X23 on the connected client with one stream: the stream, of id
    3 << 16, is dropped. *)
Lemma hangup_while_connected_witness :
  exists c',
    @server_fd_dispatch socket_ok conn_sys_volume 1 conn_with_stream (POLLIN + POLLHUP)
    = Some (0, c')
    /\ streams (base c') = []
    /\ conn_events c'
       = [EvStreamErrCb 196608 (- ENOTCONN); EvDisconnectStreamWrite 196608;
          EvStreamShutDown 196608; EvMunmapServerState; EvClose 5].
Proof.
  destruct (@hangup_while_connected socket_ok conn_sys_volume conn_with_stream
              (POLLIN + POLLHUP) 1)
    as (c' & H1 & _ & H3 & _ & _ & _ & _ & _ & H9);
    [ reflexivity | reflexivity | reflexivity | lia | ].
  exists c'. split; [ exact H1 | split; [ exact H3 | exact H9 ] ].
Defined.

(** X24 on the same client: the descriptor is shut down, and no
    disconnect message is written. *)
Lemma sock_file_deleted_restarts_witness :
  exists c',
    @sock_file_wait_callback socket_ok conn_sys_volume 1 conn_with_stream
      CRAS_FILE_WAIT_EVENT_DELETED = Some c'
    /\ server_fd_state (base c') = CRAS_SOCKET_STATE_WAIT_FOR_SOCKET
    /\ client_trace (base c') = [EvEventfdRead]
    /\ conn_events c'
       = [EvStreamErrCb 196608 (- ENOTCONN); EvStreamShutDown 196608;
          EvMunmapServerState; EvShutdownAndCloseSocket 5].
Proof.
  destruct (@sock_file_deleted_restarts socket_ok conn_sys_volume conn_with_stream 1)
    as [_ H]; [ lia | ].
  destruct H as (c' & H1 & H2 & _ & _ & _ & _ & H7 & H8); [ discriminate | ].
  exists c'. split; [ exact H1 | split; [ exact H2 | split; [ exact H7 | exact H8 ] ] ].
Defined.

(** X25 on the connected client: the callback 7 set for output volume is
    called with the value 75 of the message. *)
Lemma state_change_message_runs_set_callback_witness :
  let c' := with_base conn_connected
              (snd (@cras_client_set_changed_callback socket_ok
                      CRAS_CLIENT_OUTPUT_VOLUME_CHANGED (base conn_connected)
                      (Some 7%nat))) in
  fst (@handle_message_from_server conn_sys_volume c') = 0
  /\ conn_events (snd (@handle_message_from_server conn_sys_volume c'))
     = [EvRecvWithFds 5; EvAppCallback 7 [75]].
Proof.
  destruct (@state_change_message_runs_set_callback socket_ok conn_sys_volume
              conn_connected CRAS_CLIENT_OUTPUT_VOLUME_CHANGED
              CRAS_CLIENT_OUTPUT_VOLUME_CHANGED (Some 7%nat) [75] eq_refl) as [H _].
  cbv zeta. rewrite H; [ split; reflexivity | vm_compute; discriminate | reflexivity ].
Defined.

(** X26 on the client that waits for its first message, when the server
    greets it with the id 7: the dispatch leaves it CONNECTED, with an id
    and a server state. *)
Lemma server_fd_dispatch_connected_has_id_witness :
  exists rc c',
    @server_fd_dispatch socket_ok conn_sys_greeting 2 conn_first_message POLLIN
    = Some (rc, c')
    /\ server_fd_state (base c') = CRAS_SOCKET_STATE_CONNECTED
    /\ 0 <= id (base c')
    /\ server_state c' <> SERVER_STATE_NULL.
Proof.
  destruct (@server_fd_dispatch socket_ok conn_sys_greeting 2 conn_first_message POLLIN)
    as [[rc c']|] eqn:Hd; [ | vm_compute in Hd; discriminate ].
  exists rc, c'. split; [ reflexivity | ].
  destruct (@server_fd_dispatch_connected_has_id socket_ok conn_sys_greeting
              conn_first_message POLLIN 2 rc c') as [_ Hc];
    [ split; [ cbn; lia | discriminate ] | exact Hd | ].
  assert (Hs : server_fd_state (base c') = CRAS_SOCKET_STATE_CONNECTED).
  { vm_compute in Hd. injection Hd as _ <-. reflexivity. }
  split; [ exact Hs | apply Hc, Hs ].
Defined.

(** X27 on the same client and greeting: the notification for node
    changes is registered again, the event counter is set and the
    connection callback called. *)
Lemma first_message_greeting_connects_witness :
  exists c',
    @server_fd_dispatch socket_ok conn_sys_greeting 2 conn_first_message POLLIN
    = Some (0, c')
    /\ id (base c') = 7
    /\ server_state c' = SERVER_STATE_MAPPED
    /\ conn_events c' = [EvRecvWithFds 5; EvMmapServerState 11; EvClose 11]
    /\ client_trace (base c')
       = [EvServerWrite (register_message CRAS_CLIENT_NODES_CHANGED) 16;
          EvEventfdRead; EvEventfdWrite 1;
          EvConnectionCb CRAS_CONN_STATUS_CONNECTED].
Proof.
  destruct (@first_message_greeting_connects socket_ok conn_sys_greeting
              conn_first_message POLLIN 7 2)
    as (c' & H1 & H2 & _ & H4 & H5 & _ & H7);
    try first [ reflexivity | vm_compute; discriminate | lia ].
  exists c'. split; [ exact H1 | ]. split; [ exact H4 | ]. split; [ exact H5 | ].
  split; [ exact H7 | ]. rewrite H2. reflexivity.
Defined.

(** X28 on the same client when the first message is a volume change:
    the client ends in ERROR_DELAY or DISCONNECTED, without an id. *)
Lemma first_message_not_greeting_disconnects_witness :
  exists rc c',
    @server_fd_dispatch socket_ok conn_sys_volume 3 conn_first_message POLLIN
    = Some (rc, c')
    /\ ((rc = 0 /\ server_fd_state (base c') = CRAS_SOCKET_STATE_ERROR_DELAY)
        \/ (rc = - ENOTCONN
            /\ server_fd_state (base c') = CRAS_SOCKET_STATE_DISCONNECTED))
    /\ id (base c') = -1
    /\ server_state c' = SERVER_STATE_NULL
    /\ streams (base c') = [].
Proof.
  apply (@first_message_not_greeting_disconnects socket_ok conn_sys_volume
           conn_first_message POLLIN 3);
    try first [ reflexivity | discriminate | cbn; lia | lia ].
Defined.
